(** * Git training exercises: the set-up scripts and their provisioning protocol

    The repository holds twenty independent Python scripts
    ([ex01_init_setup.py] ... [ex20_bisect_setup.py]).  Each one guards and
    resets a working directory, writes constant text files and drives the
    [git] command line through [subprocess.run] to build a small history.

    This development embeds the scripts as monadic programs over an explicit
    world (the directories under [ROOT], the standard streams and an event
    log), together with a reference semantics for the handful of [git]
    commands the scripts issue, and proves properties of the provisioning
    protocol. *)

From Stdlib Require Import String Ascii List ZArith Bool Lia FunctionalExtensionality.
From stdpp Require Import base option list gmap strings.
Import ListNotations.

Local Open Scope string_scope.

(** ** Text *)

Module Text.

Definition nl : string := String (ascii_of_nat 10) EmptyString.
Definition dq : string := String (ascii_of_nat 34) EmptyString.
Definition bs : string := String (ascii_of_nat 92) EmptyString.

Definition cat (parts : list string) : string :=
  fold_right String.append EmptyString parts.

(** The text of a [dedent]-ed triple-quoted literal: every line is
    terminated by a newline. *)
Definition unlines (ls : list string) : string :=
  cat (map (fun l => String.append l nl) ls).

Fixpoint string_rev_onto (s acc : string) : string :=
  match s with
  | EmptyString => acc
  | String c s' => string_rev_onto s' (String c acc)
  end.

(** Lines of a text, each one with its terminator (the last line has none
    when the text does not end in a newline). *)
Fixpoint lines_from (cur : string) (s : string) : list string :=
  match s with
  | EmptyString =>
      match cur with
      | EmptyString => []
      | _ => [string_rev_onto cur EmptyString]
      end
  | String c s' =>
      if Ascii.eqb c (ascii_of_nat 10)
      then string_rev_onto (String c cur) EmptyString :: lines_from EmptyString s'
      else lines_from (String c cur) s'
  end.

Definition split_lines (s : string) : list string := lines_from EmptyString s.

Fixpoint is_substring (needle hay : string) : bool :=
  String.prefix needle hay
  || match hay with
     | EmptyString => false
     | String _ hay' => is_substring needle hay'
     end.

Fixpoint show_nat_aux (fuel n : nat) (acc : string) : string :=
  match fuel with
  | O => acc
  | S fuel' =>
      let d := String (ascii_of_nat (48 + n mod 10)) acc in
      match n / 10 with
      | O => d
      | q => show_nat_aux fuel' q d
      end
  end.

Definition show_nat (n : nat) : string := show_nat_aux (S n) n EmptyString.

Definition show_Z (z : Z) : string :=
  match z with
  | Z0 => "0"
  | Zpos p => show_nat (Pos.to_nat p)
  | Zneg p => String.append "-" (show_nat (Pos.to_nat p))
  end.

End Text.
Import Text.

(** ** Line-based three-way merge

    [git merge] resolves a path changed on both sides by a three-way merge of
    its lines.  The model follows the classical diff3 construction: both
    sides are aligned with the base along a longest common subsequence, the
    base lines kept by both sides are stable, and each maximal run between
    stable lines is taken from the side that changed it, or reported as a
    conflict when both sides changed it differently.  As in git's xdiff, two
    conflicts separated by at most three stable lines are joined. *)

Module Diff3.

Section Lcs.
Context {A : Type} (eqb : A -> A -> bool).

Inductive edit : Type :=
| Keep (a : A)
| Del (a : A)
| Ins (a : A).

Fixpoint zero_row (ys : list A) : list nat :=
  match ys with
  | [] => [0]
  | _ :: ys' => 0 :: zero_row ys'
  end.

(** [next_row x ys below]: the row of LCS lengths of [x :: xs] against
    every suffix of [ys], from the row [below] of [xs]. *)
Fixpoint next_row (x : A) (ys : list A) (below : list nat) : list nat :=
  match ys, below with
  | y :: ys', d :: below' =>
      let rest := next_row x ys' below' in
      (if eqb x y then S (hd 0 below') else Nat.max d (hd 0 rest)) :: rest
  | _, _ => [0]
  end.

Fixpoint lcs_rows (xs ys : list A) : list (list nat) :=
  match xs with
  | [] => [zero_row ys]
  | x :: xs' =>
      let rs := lcs_rows xs' ys in
      next_row x ys (hd [] rs) :: rs
  end.

(** The edit script from [xs] to [ys] read off the table; [rows] holds the
    rows of the suffixes of [xs], each cut down to the current suffix of
    [ys]. *)
Fixpoint walk (xs : list A) : list A -> list (list nat) -> list edit :=
  fix inner (ys : list A) (rows : list (list nat)) : list edit :=
    match xs, ys with
    | [], _ => map Ins ys
    | x :: xs', [] => Del x :: walk xs' [] (tl rows)
    | x :: xs', y :: ys' =>
        if eqb x y then Keep x :: walk xs' ys' (map (@tl nat) (tl rows))
        else
          let down := hd 0 (hd [] (tl rows)) in
          let right := hd 0 (tl (hd [] rows)) in
          if Nat.leb right down
          then Del x :: walk xs' ys (tl rows)
          else Ins y :: inner ys' (map (@tl nat) rows)
    end.

Definition diff (xs ys : list A) : list edit := walk xs ys (lcs_rows xs ys).

(** The script seen from the base: for every base line the lines
    inserted before it and whether it is kept; then the lines inserted
    after the last base line. *)
Fixpoint annotate (es : list edit) (pending : list A)
  : list (list A * bool * A) * list A :=
  match es with
  | [] => ([], pending)
  | Ins a :: es' => annotate es' (pending ++ [a])
  | Keep a :: es' =>
      let '(r, t) := annotate es' [] in ((pending, true, a) :: r, t)
  | Del a :: es' =>
      let '(r, t) := annotate es' [] in ((pending, false, a) :: r, t)
  end.

Inductive chunk : Type :=
| Stable (ls : list A)
| Changed (base ours theirs : list A).

Definition close (b o t : list A) (rest : list chunk) : list chunk :=
  match b, o, t with
  | [], [], [] => rest
  | _, _, _ => Changed b o t :: rest
  end.

Fixpoint chunks (ao at_ : list (list A * bool * A)) (to tt_ : list A)
         (b o t : list A) : list chunk :=
  match ao, at_ with
  | (po, ko, a) :: ao', (pt, kt, _) :: at' =>
      if ko && kt
      then close b (o ++ po) (t ++ pt) (Stable [a] :: chunks ao' at' to tt_ [] [] [])
      else chunks ao' at' to tt_ (b ++ [a])
                  (o ++ po ++ (if ko then [a] else []))
                  (t ++ pt ++ (if kt then [a] else []))
  | _, _ => close b (o ++ to) (t ++ tt_) []
  end.

Fixpoint list_eqb (xs ys : list A) : bool :=
  match xs, ys with
  | [], [] => true
  | x :: xs', y :: ys' => eqb x y && list_eqb xs' ys'
  | _, _ => false
  end.

Inductive hunk : Type :=
| Same (ls : list A)                (* lines of the base kept by both *)
| Take (ls : list A)                (* a change of one side, or of both alike *)
| Conflict (ours theirs : list A).

Definition resolve (c : chunk) : hunk :=
  match c with
  | Stable ls => Same ls
  | Changed b o t =>
      if list_eqb o t then Take o
      else if list_eqb b o then Take t
      else if list_eqb b t then Take o
      else Conflict o t
  end.

Fixpoint coalesce (hs : list hunk) : list hunk :=
  match hs with
  | Same l1 :: rest =>
      match coalesce rest with
      | Same l2 :: rest' => Same (l1 ++ l2) :: rest'
      | rest' => Same l1 :: rest'
      end
  | h :: rest => h :: coalesce rest
  | [] => []
  end.

(** xdiff's [xdl_simplify_merge]: two conflicts with at most three
    stable lines, and no other change, between them become one. *)
Fixpoint simplify (hs : list hunk) : list hunk :=
  match hs with
  | Conflict o1 t1 :: rest =>
      match simplify rest with
      | Same ls :: Conflict o2 t2 :: rest' =>
          if Nat.leb (length ls) 3
          then Conflict (o1 ++ ls ++ o2) (t1 ++ ls ++ t2) :: rest'
          else Conflict o1 t1 :: Same ls :: Conflict o2 t2 :: rest'
      | Conflict o2 t2 :: rest' => Conflict (o1 ++ o2) (t1 ++ t2) :: rest'
      | rest' => Conflict o1 t1 :: rest'
      end
  | h :: rest => h :: simplify rest
  | [] => []
  end.

Definition merge3 (base ours theirs : list A) : list hunk :=
  let '(ao, to) := annotate (diff base ours) [] in
  let '(at_, tt_) := annotate (diff base theirs) [] in
  simplify (coalesce (map resolve (chunks ao at_ to tt_ [] [] []))).

Definition conflicts (hs : list hunk) : nat :=
  length (List.filter (fun h => match h with Conflict _ _ => true | _ => false end) hs).

End Lcs.

Arguments Keep {A} a.
Arguments Del {A} a.
Arguments Ins {A} a.
Arguments Same {A} ls.
Arguments Take {A} ls.
Arguments Conflict {A} ours theirs.

(** The file git leaves in the working tree: conflicts between markers. *)
Definition render (theirs_name : string) (hs : list (hunk (A:=string))) : string :=
  cat (map (fun h =>
              match h with
              | Same ls | Take ls => cat ls
              | Conflict o t =>
                  cat [ cat ["<<<<<<< HEAD"; nl]; cat o;
                        cat ["======="; nl]; cat t;
                        cat [">>>>>>> "; theirs_name; nl] ]
              end) hs).

Definition merge_text (theirs_name base ours theirs : string) : string * nat :=
  let hs := merge3 String.eqb (split_lines base) (split_lines ours) (split_lines theirs) in
  (render theirs_name hs, conflicts hs).

(** Conflict blocks of a file on disk: an opening marker line, later a
    separator line, later a closing marker line. *)
Inductive marker_state : Type := Outside | InOurs | InTheirs.

Fixpoint count_blocks (st : marker_state) (ls : list string) : nat :=
  match ls with
  | [] => 0
  | l :: ls' =>
      match st with
      | Outside =>
          if String.prefix "<<<<<<< " l then count_blocks InOurs ls'
          else count_blocks Outside ls'
      | InOurs =>
          if String.prefix "=======" l then count_blocks InTheirs ls'
          else count_blocks InOurs ls'
      | InTheirs =>
          if String.prefix ">>>>>>> " l then S (count_blocks Outside ls')
          else count_blocks InTheirs ls'
      end
  end.

Definition conflict_blocks (content : string) : nat :=
  count_blocks Outside (split_lines content).

End Diff3.

(** ** A reference semantics of the git commands the scripts issue

    The scripts treat [git] as a black box and depend only on its exit status
    and on the repository it leaves on disk.  The model below covers the
    command forms that occur in the twenty scripts: [init], [add], [commit],
    [checkout], [branch], [tag], [merge], [clone] and [push]. *)

Module Git.

(** A file: its bytes and its executable bit. *)
Record fentry : Type := { data : string; exec : bool }.

#[global] Instance fentry_eq_dec : EqDecision fentry.
Proof. solve_decision. Defined.

Abbreviation tree := (gmap string fentry).

(** A commit determines its whole history, as a hash does in git.  The
    stamp stands for what makes two commits with the same content differ:
    the time of the commit, hence its hash. *)
#[local] Unset Elimination Schemes.
Inductive commit : Type :=
| Commit (stamp : nat) (parents : list commit) (snapshot : tree) (message : string).
#[local] Set Elimination Schemes.

Definition commit_stamp (c : commit) : nat := let 'Commit s _ _ _ := c in s.
Definition commit_parents (c : commit) : list commit := let 'Commit _ ps _ _ := c in ps.
Definition commit_tree (c : commit) : tree := let 'Commit _ _ t _ := c in t.
Definition commit_message (c : commit) : string := let 'Commit _ _ _ m := c in m.

Fixpoint commit_eqb (a b : commit) : bool :=
  match a, b with
  | Commit s1 p1 t1 m1, Commit s2 p2 t2 m2 =>
      String.eqb m1 m2
      && bool_decide (t1 = t2)
      && (fix all2 (xs ys : list commit) : bool :=
            match xs, ys with
            | [], [] => true
            | x :: xs', y :: ys' => commit_eqb x y && all2 xs' ys'
            | _, _ => false
            end) p1 p2
      && Nat.eqb s1 s2
  end.

(** [is_ancestor a c]: [a] is [c] or is reachable from [c]. *)
Fixpoint is_ancestor (a c : commit) : bool :=
  commit_eqb a c
  || match c with
     | Commit _ ps _ _ => existsb (is_ancestor a) ps
     end.

Fixpoint ancestors (c : commit) : list commit :=
  c :: match c with
       | Commit _ ps _ _ => flat_map ancestors ps
       end.

Fixpoint dedup_commits (cs : list commit) : list commit :=
  match cs with
  | [] => []
  | c :: cs' =>
      if existsb (commit_eqb c) cs' then dedup_commits cs' else c :: dedup_commits cs'
  end.

(** The best common ancestor: a common ancestor that is not a proper
    ancestor of another one. *)
Definition merge_base (a b : commit) : option commit :=
  let common := List.filter (fun x => is_ancestor x b) (ancestors a) in
  head (List.filter
          (fun x => forallb (fun y => commit_eqb x y || negb (is_ancestor x y)) common)
          common).

(** [ahead a b]: the commits of [b] that are not in the history of [a]
    (what [git rev-list a..b] counts). *)
Definition ahead (a b : commit) : nat :=
  length (dedup_commits (List.filter (fun x => negb (is_ancestor x a)) (ancestors b))).

(** First-parent log of a commit: the messages, newest first. *)
Fixpoint log (c : commit) : list string :=
  match c with
  | Commit _ ps _ m =>
      m :: match ps with
           | p :: _ => log p
           | [] => []
           end
  end.

Inductive index_entry : Type :=
| Staged (f : fentry)
| Unmerged (base ours theirs : option fentry).

#[global] Instance index_entry_eq_dec : EqDecision index_entry.
Proof. solve_decision. Defined.

Record tag : Type := { tag_target : commit; tag_message : string }.

Record repo : Type := {
  bare : bool;
  HEAD : string;                      (* the branch HEAD points at *)
  heads : gmap string commit;         (* refs/heads *)
  tags : gmap string tag;             (* refs/tags *)
  remote_refs : gmap string commit;   (* refs/remotes/origin *)
  origin : option string;             (* URL of the remote [origin] *)
  tracking : list string;             (* local branches with an upstream *)
  index : gmap string index_entry;
  MERGE_HEAD : option commit
}.

(** A directory under [ROOT]: its files and, when it is a repository, the
    content of its [.git] (for a bare repository the directory itself). *)
Record dir : Type := { files : tree; dotgit : option repo }.

Definition empty_dir : dir := {| files := ∅; dotgit := None |}.

Abbreviation fsys := (string -> option dir).

Definition fs_set (p : string) (d : dir) (fs : fsys) : fsys :=
  fun q => if String.eqb q p then Some d else fs q.

Definition fs_remove (p : string) (fs : fsys) : fsys :=
  fun q => if String.eqb q p then None else fs q.

Record completed : Type := { returncode : Z; stdout : string; stderr : string }.

Definition done_ok : completed :=
  {| returncode := 0; stdout := EmptyString; stderr := EmptyString |}.

Definition failed (code : Z) (msg : string) : completed :=
  {| returncode := code; stdout := EmptyString; stderr := msg |}.

Definition set_repo (d : dir) (r : repo) : dir :=
  {| files := files d; dotgit := Some r |}.

Definition head_commit (r : repo) : option commit := heads r !! HEAD r.

Definition head_tree (r : repo) : tree :=
  match head_commit r with
  | Some c => commit_tree c
  | None => ∅
  end.

Definition staged (ix : gmap string index_entry) : tree :=
  omap (fun e => match e with Staged f => Some f | Unmerged _ _ _ => None end) ix.

Definition unmerged_paths (ix : gmap string index_entry) : list string :=
  omap (fun '(p, e) => match e with Staged _ => None | Unmerged _ _ _ => Some p end)
       (map_to_list ix).

Definition has_unmerged (ix : gmap string index_entry) : bool :=
  match unmerged_paths ix with
  | [] => false
  | _ => true
  end.

Definition stage_tree (t : tree) : gmap string index_entry := Staged <$> t.

Definition empty_repo (is_bare : bool) (branch : string) : repo :=
  {| bare := is_bare; HEAD := branch; heads := ∅; tags := ∅; remote_refs := ∅;
     origin := None; tracking := []; index := ∅; MERGE_HEAD := None |}.

Definition not_a_repository : completed :=
  failed 128 "fatal: not a git repository (or any of the parent directories): .git".

(** Commands that need a work tree. *)
Definition in_work_tree (d : dir) (k : repo -> completed * dir) : completed * dir :=
  match dotgit d with
  | None => (not_a_repository, d)
  | Some r =>
      if bare r
      then (failed 128 "fatal: this operation must be run in a work tree", d)
      else k r
  end.

(** [git init -b <branch>]; on an existing repository nothing changes. *)
Definition init (branch : string) (d : dir) : completed * dir :=
  match dotgit d with
  | Some _ => (done_ok, d)
  | None => (done_ok, set_repo d (empty_repo false branch))
  end.

Definition with_index (r : repo) (ix : gmap string index_entry) : repo :=
  {| bare := bare r; HEAD := HEAD r; heads := heads r; tags := tags r;
     remote_refs := remote_refs r; origin := origin r; tracking := tracking r;
     index := ix; MERGE_HEAD := MERGE_HEAD r |}.

(** [git add .] *)
Definition add_all (d : dir) : completed * dir :=
  in_work_tree d (fun r => (done_ok, set_repo d (with_index r (stage_tree (files d))))).

(** [git add <path>...]: a path that is neither in the work tree nor in
    the index is an error and nothing is staged. *)
Definition add_paths (ps : list string) (d : dir) : completed * dir :=
  in_work_tree d (fun r =>
    if forallb (fun p => bool_decide (is_Some (files d !! p))
                         || bool_decide (is_Some (index r !! p))) ps
    then
      let ix := fold_left (fun ix p =>
                             match files d !! p with
                             | Some f => <[p := Staged f]> ix
                             | None => delete p ix
                             end) ps (index r) in
      (done_ok, set_repo d (with_index r ix))
    else (failed 128 "fatal: pathspec did not match any files", d)).

Definition with_commit (r : repo) (c : commit) : repo :=
  {| bare := bare r; HEAD := HEAD r; heads := <[HEAD r := c]> (heads r); tags := tags r;
     remote_refs := remote_refs r; origin := origin r; tracking := tracking r;
     index := index r; MERGE_HEAD := None |}.

Definition nothing_to_commit : completed :=
  {| returncode := 1; stdout := "nothing to commit, working tree clean";
     stderr := EmptyString |}.

(** [git commit -m <msg>] at time [now]. *)
Definition commit_m (now : nat) (msg : string) (d : dir) : completed * dir :=
  in_work_tree d (fun r =>
    if has_unmerged (index r)
    then (failed 128 "error: Committing is not possible because you have unmerged files.", d)
    else
      let t := staged (index r) in
      match MERGE_HEAD r, head_commit r with
      | Some theirs, Some ours =>
          (done_ok, set_repo d (with_commit r (Commit now [ours; theirs] t msg)))
      | Some theirs, None =>
          (done_ok, set_repo d (with_commit r (Commit now [theirs] t msg)))
      | None, Some ours =>
          if bool_decide (t = commit_tree ours) then (nothing_to_commit, d)
          else (done_ok, set_repo d (with_commit r (Commit now [ours] t msg)))
      | None, None =>
          if bool_decide (t = ∅) then (nothing_to_commit, d)
          else (done_ok, set_repo d (with_commit r (Commit now [] t msg)))
      end).


Definition with_head (r : repo) (branch : string) (hs : gmap string commit)
           (ix : gmap string index_entry) : repo :=
  {| bare := bare r; HEAD := branch; heads := hs; tags := tags r;
     remote_refs := remote_refs r; origin := origin r; tracking := tracking r;
     index := ix; MERGE_HEAD := MERGE_HEAD r |}.

(** Paths on which two trees differ. *)
Definition touched (cur tgt : tree) : list string :=
  List.filter (fun p => negb (bool_decide (cur !! p = tgt !! p)))
              (elements (dom cur ∪ dom tgt)).

(** A path may be rewritten by a switch when index and work tree both
    hold the current version. *)
Definition clean_at (r : repo) (d : dir) (cur : tree) (p : string) : bool :=
  bool_decide (index r !! p = Staged <$> cur !! p)
  && bool_decide (files d !! p = cur !! p).

Definition write_paths {V : Type} (f : fentry -> V) (tgt : tree) (ps : list string)
           (m : gmap string V) : gmap string V :=
  fold_left (fun m p =>
               match tgt !! p with
               | Some e => <[p := f e]> m
               | None => delete p m
               end) ps m.

(** Move the work tree and the index from tree [cur] to tree [tgt]. *)
Definition switch_tree (r : repo) (d : dir) (cur tgt : tree)
  : option (tree * gmap string index_entry) :=
  let ps := touched cur tgt in
  if forallb (clean_at r d cur) ps
  then Some (write_paths id tgt ps (files d), write_paths Staged tgt ps (index r))
  else None.

Definition would_overwrite : completed :=
  failed 1 "error: Your local changes to the following files would be overwritten".

(** [git checkout -b <branch>] *)
Definition checkout_b (branch : string) (d : dir) : completed * dir :=
  in_work_tree d (fun r =>
    match heads r !! branch with
    | Some _ => (failed 128 "fatal: a branch with that name already exists", d)
    | None =>
        let hs := match head_commit r with
                  | Some c => <[branch := c]> (heads r)
                  | None => heads r
                  end in
        (done_ok, set_repo d (with_head r branch hs (index r)))
    end).

(** [git checkout <branch>] *)
Definition checkout (branch : string) (d : dir) : completed * dir :=
  in_work_tree d (fun r =>
    match heads r !! branch with
    | None => (failed 1 "error: pathspec did not match any file(s) known to git", d)
    | Some c =>
        if has_unmerged (index r)
        then (failed 1 "error: you need to resolve your current index first", d)
        else
          match switch_tree r d (head_tree r) (commit_tree c) with
          | None => (would_overwrite, d)
          | Some (fs', ix') =>
              (done_ok, {| files := fs'; dotgit := Some (with_head r branch (heads r) ix') |})
          end
    end).

(** [git branch <name>] *)
Definition branch (name : string) (d : dir) : completed * dir :=
  match dotgit d with
  | None => (not_a_repository, d)
  | Some r =>
      match heads r !! name, head_commit r with
      | Some _, _ => (failed 128 "fatal: a branch with that name already exists", d)
      | None, None => (failed 128 "fatal: not a valid object name", d)
      | None, Some c =>
          (done_ok, set_repo d (with_head r (HEAD r) (<[name := c]> (heads r)) (index r)))
      end
  end.

Definition with_tags (r : repo) (ts : gmap string tag) : repo :=
  {| bare := bare r; HEAD := HEAD r; heads := heads r; tags := ts;
     remote_refs := remote_refs r; origin := origin r; tracking := tracking r;
     index := index r; MERGE_HEAD := MERGE_HEAD r |}.

(** [git tag -a <name> -m <msg>] *)
Definition tag_a (name msg : string) (d : dir) : completed * dir :=
  match dotgit d with
  | None => (not_a_repository, d)
  | Some r =>
      match tags r !! name, head_commit r with
      | Some _, _ => (failed 128 "fatal: tag already exists", d)
      | None, None => (failed 128 "fatal: Failed to resolve 'HEAD' as a valid ref.", d)
      | None, Some c =>
          (done_ok,
           set_repo d (with_tags r (<[name := {| tag_target := c; tag_message := msg |}]> (tags r))))
      end
  end.

(** *** Merge *)

Inductive merged : Type :=
| Clean (f : option fentry)
| Conflicted (work : option fentry) (base ours theirs : option fentry).

(** Three-way merge of one path. *)
Definition merge_path (theirs_name : string) (b o t : option fentry) : merged :=
  if bool_decide (o = t) then Clean o
  else if bool_decide (b = o) then Clean t
  else if bool_decide (b = t) then Clean o
  else
    match o, t with
    | Some fo, Some ft =>
        let '(text, n) :=
          Diff3.merge_text theirs_name
            (match b with Some fb => data fb | None => EmptyString end)
            (data fo) (data ft) in
        let f := {| data := text; exec := exec fo |} in
        match n with
        | O => Clean (Some f)
        | S _ => Conflicted (Some f) b o t
        end
    | Some fo, None => Conflicted (Some fo) b o t
    | None, Some ft => Conflicted (Some ft) b o t
    | None, None => Clean None
    end.

Definition is_conflicted (m : merged) : bool :=
  match m with
  | Clean _ => false
  | Conflicted _ _ _ _ => true
  end.

Definition merge_message (theirs_name cur : string) : string :=
  if String.eqb cur "main" || String.eqb cur "master"
  then cat ["Merge branch '"; theirs_name; "'"]
  else cat ["Merge branch '"; theirs_name; "' into "; cur].

Definition with_merge (r : repo) (ix : gmap string index_entry) (theirs : commit) : repo :=
  {| bare := bare r; HEAD := HEAD r; heads := heads r; tags := tags r;
     remote_refs := remote_refs r; origin := origin r; tracking := tracking r;
     index := ix; MERGE_HEAD := Some theirs |}.

Definition merge_failed : completed :=
  {| returncode := 1;
     stdout := "Automatic merge failed; fix conflicts and then commit the result.";
     stderr := EmptyString |}.

(** A merge of two diverged commits: every path is merged on its own; a
    conflicted path is left with its markers in the work tree and with
    its three stages in the index. *)
Definition true_merge (now : nat) (theirs_name : string) (r : repo) (d : dir)
           (base ours theirs : commit) : completed * dir :=
  let tb := commit_tree base in
  let to := commit_tree ours in
  let tt := commit_tree theirs in
  let results :=
    map (fun p => (p, merge_path theirs_name (tb !! p) (to !! p) (tt !! p)))
        (elements (dom tb ∪ dom to ∪ dom tt)) in
  let changed :=
    List.filter (fun '(p, m) =>
                   match m with
                   | Clean f => negb (bool_decide (f = to !! p))
                   | Conflicted _ _ _ _ => true
                   end) results in
  if negb (bool_decide (index r = stage_tree to))
     || negb (forallb (fun '(p, _) => bool_decide (files d !! p = to !! p)) changed)
  then (would_overwrite, d)
  else
    let fs' :=
      fold_left (fun m '(p, res) =>
                   match res with
                   | Clean (Some f) | Conflicted (Some f) _ _ _ => <[p := f]> m
                   | Clean None | Conflicted None _ _ _ => delete p m
                   end) changed (files d) in
    let ix' :=
      fold_left (fun m '(p, res) =>
                   match res with
                   | Clean (Some f) => <[p := Staged f]> m
                   | Clean None => delete p m
                   | Conflicted _ b o t => <[p := Unmerged b o t]> m
                   end) changed (index r) in
    if existsb (fun '(_, m) => is_conflicted m) results
    then (merge_failed, {| files := fs'; dotgit := Some (with_merge r ix' theirs) |})
    else
      let c := Commit now [ours; theirs] (staged ix') (merge_message theirs_name (HEAD r)) in
      (done_ok, {| files := fs'; dotgit := Some (with_commit (with_index r ix') c) |}).

Definition fast_forward (r : repo) (d : dir) (cur : tree) (theirs : commit)
  : completed * dir :=
  match switch_tree r d cur (commit_tree theirs) with
  | None => (would_overwrite, d)
  | Some (fs', ix') =>
      (done_ok, {| files := fs'; dotgit := Some (with_commit (with_index r ix') theirs) |})
  end.

(** [git merge <branch>] at time [now]. *)
Definition merge (now : nat) (theirs_name : string) (d : dir) : completed * dir :=
  in_work_tree d (fun r =>
    match heads r !! theirs_name with
    | None => (failed 1 "merge: not something we can merge", d)
    | Some theirs =>
        if has_unmerged (index r) || bool_decide (is_Some (MERGE_HEAD r))
        then (failed 128 "fatal: You have not concluded your merge (MERGE_HEAD exists).", d)
        else
          match head_commit r with
          | None => fast_forward r d ∅ theirs
          | Some ours =>
              if is_ancestor theirs ours
              then ({| returncode := 0; stdout := "Already up to date.";
                       stderr := EmptyString |}, d)
              else if is_ancestor ours theirs
              then fast_forward r d (commit_tree ours) theirs
              else
                match merge_base ours theirs with
                | None => (failed 128 "fatal: refusing to merge unrelated histories", d)
                | Some base => true_merge now theirs_name r d base ours theirs
                end
          end
    end).

(** *** Commands across repositories *)

Definition occupied (fs : fsys) (p : string) : bool :=
  match fs p with
  | Some d => negb (bool_decide (files d = ∅)) || bool_decide (is_Some (dotgit d))
  | None => false
  end.

Definition bare_clone_of (src : string) (sr : repo) : dir :=
  {| files := ∅;
     dotgit := Some {| bare := true; HEAD := HEAD sr; heads := heads sr; tags := tags sr;
                       remote_refs := ∅; origin := Some src; tracking := [];
                       index := ∅; MERGE_HEAD := None |} |}.

Definition clone_of (src : string) (sr : repo) : dir :=
  let tip := heads sr !! HEAD sr in
  let t := match tip with Some c => commit_tree c | None => ∅ end in
  {| files := t;
     dotgit := Some {| bare := false; HEAD := HEAD sr;
                       heads := match tip with
                                | Some c => {[ HEAD sr := c ]}
                                | None => ∅
                                end;
                       tags := tags sr; remote_refs := heads sr; origin := Some src;
                       tracking := [HEAD sr]; index := stage_tree t;
                       MERGE_HEAD := None |} |}.

(** [git clone [--bare] <src> <dst>] *)
Definition clone (is_bare : bool) (src dst : string) (fs : fsys) : completed * fsys :=
  match fs src with
  | None => (failed 128 "fatal: repository does not exist", fs)
  | Some sd =>
      match dotgit sd with
      | None => (failed 128 "fatal: repository does not exist", fs)
      | Some sr =>
          if occupied fs dst
          then (failed 128 "fatal: destination path already exists and is not an empty directory.", fs)
          else (done_ok,
                fs_set dst (if is_bare then bare_clone_of src sr else clone_of src sr) fs)
      end
  end.

Definition with_heads (r : repo) (hs : gmap string commit) : repo :=
  {| bare := bare r; HEAD := HEAD r; heads := hs; tags := tags r;
     remote_refs := remote_refs r; origin := origin r; tracking := tracking r;
     index := index r; MERGE_HEAD := MERGE_HEAD r |}.

Definition with_remote_refs (r : repo) (rs : gmap string commit) : repo :=
  {| bare := bare r; HEAD := HEAD r; heads := heads r; tags := tags r;
     remote_refs := rs; origin := origin r; tracking := tracking r;
     index := index r; MERGE_HEAD := MERGE_HEAD r |}.

(** [git push origin <branch>] from the repository in [cwd]: the remote
    branch only ever moves forward. *)
Definition push_branch (cwd b : string) (fs : fsys) : completed * fsys :=
  match fs cwd with
  | None => (not_a_repository, fs)
  | Some d =>
      match dotgit d with
      | None => (not_a_repository, fs)
      | Some r =>
          match origin r with
          | None => (failed 128 "fatal: 'origin' does not appear to be a git repository", fs)
          | Some url =>
              match fs url with
              | None => (failed 128 "fatal: Could not read from remote repository.", fs)
              | Some rd =>
                  match dotgit rd, heads r !! b with
                  | None, _ => (failed 128 "fatal: Could not read from remote repository.", fs)
                  | Some _, None => (failed 1 "error: src refspec does not match any", fs)
                  | Some rr, Some c =>
                      let old := heads rr !! b in
                      if negb (match old with
                               | Some o => is_ancestor o c
                               | None => true
                               end)
                      then (failed 1 "! [rejected] (non-fast-forward)", fs)
                      else if match old with
                              | Some o => commit_eqb o c
                              | None => false
                              end
                      then (done_ok,
                            fs_set cwd (set_repo d (with_remote_refs r (<[b := c]> (remote_refs r)))) fs)
                      else if negb (bare rr) && String.eqb (HEAD rr) b
                      then (failed 1 "! [remote rejected] (branch is currently checked out)", fs)
                      else (done_ok,
                            fs_set cwd (set_repo d (with_remote_refs r (<[b := c]> (remote_refs r))))
                                   (fs_set url (set_repo rd (with_heads rr (<[b := c]> (heads rr)))) fs))
                  end
              end
          end
      end
  end.

(** [git push]: the current branch, which must track its upstream. *)
Definition push_current (cwd : string) (fs : fsys) : completed * fsys :=
  match fs cwd with
  | None => (not_a_repository, fs)
  | Some d =>
      match dotgit d with
      | None => (not_a_repository, fs)
      | Some r =>
          if existsb (String.eqb (HEAD r)) (tracking r)
          then push_branch cwd (HEAD r) fs
          else (failed 128 "fatal: The current branch has no upstream branch.", fs)
      end
  end.

(** *** The command line *)

Definition unsupported : completed := failed 1 "git: command form outside the model".

Definition in_dir (cwd : string) (fs : fsys) (f : dir -> completed * dir) : completed * fsys :=
  match fs cwd with
  | None => (not_a_repository, fs)
  | Some d => let '(c, d') := f d in (c, fs_set cwd d' fs)
  end.

Definition run_in (default_branch : string) (now : nat) (cwd : string)
           (args : list string) (fs : fsys) : completed * fsys :=
  match args with
  | cmd :: rest =>
      if String.eqb cmd "init" then
        match rest with
        | [] => in_dir cwd fs (init default_branch)
        | [flag; b] => if String.eqb flag "-b" then in_dir cwd fs (init b) else (unsupported, fs)
        | _ => (unsupported, fs)
        end
      else if String.eqb cmd "add" then
        match rest with
        | [] => (unsupported, fs)
        | [p] => if String.eqb p "." then in_dir cwd fs add_all else in_dir cwd fs (add_paths [p])
        | ps => in_dir cwd fs (add_paths ps)
        end
      else if String.eqb cmd "commit" then
        match rest with
        | [flag; msg] =>
            if String.eqb flag "-m" then in_dir cwd fs (commit_m now msg) else (unsupported, fs)
        | _ => (unsupported, fs)
        end
      else if String.eqb cmd "checkout" then
        match rest with
        | [b] => in_dir cwd fs (checkout b)
        | [flag; b] =>
            if String.eqb flag "-b" then in_dir cwd fs (checkout_b b) else (unsupported, fs)
        | _ => (unsupported, fs)
        end
      else if String.eqb cmd "branch" then
        match rest with
        | [b] => in_dir cwd fs (branch b)
        | _ => (unsupported, fs)
        end
      else if String.eqb cmd "tag" then
        match rest with
        | [f1; name; f2; msg] =>
            if String.eqb f1 "-a" && String.eqb f2 "-m"
            then in_dir cwd fs (tag_a name msg) else (unsupported, fs)
        | _ => (unsupported, fs)
        end
      else if String.eqb cmd "merge" then
        match rest with
        | [b] => in_dir cwd fs (merge now b)
        | _ => (unsupported, fs)
        end
      else if String.eqb cmd "push" then
        match rest with
        | [] => push_current cwd fs
        | [remote; b] =>
            if String.eqb remote "origin" then push_branch cwd b fs else (unsupported, fs)
        | _ => (unsupported, fs)
        end
      else (unsupported, fs)
  | [] => (unsupported, fs)
  end.

(** [git <args>] started in [cwd] ([None]: the directory of the calling
    process, which is not a repository). *)
Definition run (default_branch : string) (now : nat) (cwd : option string)
           (args : list string) (fs : fsys) : completed * fsys :=
  match args with
  | [cmd; src; dst] =>
      if String.eqb cmd "clone" then clone false src dst fs
      else match cwd with
           | Some p => run_in default_branch now p args fs
           | None => (not_a_repository, fs)
           end
  | [cmd; flag; src; dst] =>
      if String.eqb cmd "clone" && String.eqb flag "--bare" then clone true src dst fs
      else match cwd with
           | Some p => run_in default_branch now p args fs
           | None => (not_a_repository, fs)
           end
  | _ =>
      match cwd with
      | Some p => run_in default_branch now p args fs
      | None => (not_a_repository, fs)
      end
  end.

End Git.

(** ** The Python side: processes, the filesystem and [subprocess]

    A script runs as one process against a world: the directories under
    [ROOT], the clock, the external failures [git] is going to meet
    (a missing identity, a full disk, a hook that refuses), and the
    interpreter, for what it shows of the stack in a traceback (the file
    names, line numbers and quoted source lines depend on where the
    scripts are installed and on the version of Python).  The standard
    streams and the event log belong to the process. *)

Module Py.
Import Git.

Inductive event : Type :=
| EvExists (p : string) (found : bool)
| EvRmtree (p : string)
| EvMkdir (p : string)
| EvWrite (p file : string)
| EvChmod (p file : string)
| EvGit (cwd : option string) (args : list string) (check : bool) (rc : Z).

(** An external failure of one git invocation: a non-zero status and what
    git wrote on its standard error; the repository is left as it was. *)
Record fault : Type := { fault_code : positive; fault_stderr : string }.

(** The file name an [OSError] carries: the [Path] object [ROOT / name]
    the script passed on, or a [str]. *)
Inductive filename : Type :=
| PosixPath (name : string)
| Str (path : string).

(** The exceptions the scripts meet.  The command of a
    [CalledProcessError] names a directory of [ROOT] by its entry, as the
    events do; [argv] below gives the command as the child process got it,
    which is how the interpreter shows it. *)
Inductive exn : Type :=
| SystemExit (code : Z)
| CalledProcessError (returncode : Z) (cmd : list string) (output stderr : string)
| FileNotFoundError (file : filename)
| During (context : exn) (e : exn).   (* [e] raised while [context] was handled *)

Record world : Type := {
  fs : fsys;                          (* the entries of ROOT *)
  root : string;                      (* ROOT itself *)
  clock : nat;
  faults : list (option fault);       (* for the coming git invocations *)
  default_branch : string;            (* init.defaultBranch *)
  frames : exn -> list string;        (* the stack the interpreter shows for an
                                         uncaught exception: the [File ..., line ...]
                                         lines and the source lines they quote *)
  out : list string;                  (* lines printed on stdout, newest first *)
  err : list string;                  (* lines printed on stderr, newest first *)
  trace : list event                  (* newest first *)
}.

Definition set_fs (f : fsys) (w : world) : world :=
  {| fs := f; root := root w; clock := clock w; faults := faults w;
     default_branch := default_branch w;
     frames := frames w; out := out w; err := err w; trace := trace w |}.

Definition record (e : event) (w : world) : world :=
  {| fs := fs w; root := root w; clock := clock w; faults := faults w;
     default_branch := default_branch w;
     frames := frames w; out := out w; err := err w;
     trace := e :: trace w |}.

Definition put_out (s : string) (w : world) : world :=
  {| fs := fs w; root := root w; clock := clock w; faults := faults w;
     default_branch := default_branch w;
     frames := frames w; out := s :: out w; err := err w;
     trace := trace w |}.

Definition put_err (s : string) (w : world) : world :=
  {| fs := fs w; root := root w; clock := clock w; faults := faults w;
     default_branch := default_branch w;
     frames := frames w; out := out w; err := s :: err w;
     trace := trace w |}.

(** Several lines on stderr, the first one first. *)
Definition put_errs (ls : list string) (w : world) : world :=
  {| fs := fs w; root := root w; clock := clock w; faults := faults w;
     default_branch := default_branch w;
     frames := frames w; out := out w; err := (rev ls ++ err w)%list;
     trace := trace w |}.

(** What happened, oldest first. *)
Definition events (w : world) : list event := rev (trace w).
Definition printed (w : world) : list string := rev (out w).
Definition diagnostics (w : world) : list string := rev (err w).

(** The steps run with [check=True] that failed. *)
Definition failed_checks (w : world) : list (list string * Z) :=
  omap (fun e => match e with
                 | EvGit _ args true rc =>
                     if Z.eqb rc 0 then None else Some (args, rc)
                 | _ => None
                 end) (events w).

(** The outcomes of the history steps, in order. *)
Definition git_steps (w : world) : list (list string * Z) :=
  omap (fun e => match e with
                 | EvGit _ args _ rc => Some (args, rc)
                 | _ => None
                 end) (events w).

Inductive result (A : Type) : Type :=
| Ok (a : A)
| Raise (e : exn).
Arguments Ok {A} a.
Arguments Raise {A} e.

Definition M (A : Type) : Type := world -> result A * world.

Definition ret {A : Type} (a : A) : M A := fun w => (Ok a, w).

Definition bind {A B : Type} (m : M A) (k : A -> M B) : M B :=
  fun w =>
    match m w with
    | (Ok a, w') => k a w'
    | (Raise e, w') => (Raise e, w')
    end.

Definition raise {A : Type} (e : exn) : M A := fun w => (Raise e, w).

(** [try: body finally: cleanup]: the clean-up always runs; when it raises,
    its exception is the one that propagates, with the exception of the
    body, if any, as its context. *)
Definition try_finally {A : Type} (body : M A) (cleanup : M unit) : M A :=
  fun w =>
    let '(r, w1) := body w in
    match cleanup w1, r with
    | (Ok _, w2), _ => (r, w2)
    | (Raise e, w2), Ok _ => (Raise e, w2)
    | (Raise e, w2), Raise e0 => (Raise (During e0 e), w2)
    end.

Declare Scope py_scope.
Delimit Scope py_scope with py.
Notation "x <- c1 ;; c2" := (bind c1 (fun x => c2))
  (at level 100, c1 at next level, right associativity) : py_scope.
Notation "c1 ;; c2" := (bind c1 (fun _ => c2))
  (at level 100, right associativity) : py_scope.
Local Open Scope py_scope.

Fixpoint for_each {A : Type} (xs : list A) (body : A -> M unit) : M unit :=
  match xs with
  | [] => ret tt
  | x :: xs' => body x ;; for_each xs' body
  end.

Definition when (b : bool) (m : M unit) : M unit := if b then m else ret tt.

Definition discard {A : Type} (m : M A) : M unit := _ <- m ;; ret tt.

(** [Path.exists()] *)
Definition path_exists (p : string) : M bool :=
  fun w =>
    let found := match fs w p with Some _ => true | None => false end in
    (Ok found, record (EvExists p found) w).

(** [shutil.rmtree(p)] *)
Definition rmtree (p : string) : M unit :=
  fun w =>
    match fs w p with
    | Some _ => (Ok tt, record (EvRmtree p) (set_fs (fs_remove p (fs w)) w))
    | None => (Raise (FileNotFoundError (Str (cat [root w; "/"; p]))), w)
    end.

(** [p.mkdir(parents=True, exist_ok=True)] *)
Definition mkdir (p : string) : M unit :=
  fun w =>
    match fs w p with
    | Some _ => (Ok tt, w)
    | None => (Ok tt, record (EvMkdir p) (set_fs (fs_set p empty_dir (fs w)) w))
    end.

Definition put_file (d : dir) (file : string) (f : fentry) : dir :=
  {| files := <[file := f]> (files d); dotgit := dotgit d |}.

(** [(p / file).write_text(content, encoding="utf-8")]: an existing file
    keeps its mode. *)
Definition write_text (p file content : string) : M unit :=
  fun w =>
    match fs w p with
    | Some d =>
        let x := match files d !! file with Some f => exec f | None => false end in
        (Ok tt,
         record (EvWrite p file)
                (set_fs (fs_set p (put_file d file {| data := content; exec := x |}) (fs w)) w))
    | None => (Raise (FileNotFoundError (Str (cat [root w; "/"; p; "/"; file]))), w)
    end.

(** [(p / file).chmod(0o755)] *)
Definition chmod_755 (p file : string) : M unit :=
  fun w =>
    match fs w p with
    | Some d =>
        match files d !! file with
        | Some f =>
            (Ok tt,
             record (EvChmod p file)
                    (set_fs (fs_set p (put_file d file {| data := data f; exec := true |}) (fs w)) w))
        | None => (Raise (FileNotFoundError (Str (cat [root w; "/"; p; "/"; file]))), w)
        end
    | None => (Raise (FileNotFoundError (Str (cat [root w; "/"; p; "/"; file]))), w)
    end.

Definition print (s : string) : M unit := fun w => (Ok tt, put_out s w).
Definition eprint (s : string) : M unit := fun w => (Ok tt, put_err s w).

(** [str(ROOT / name)] *)
Definition abspath (name : string) : M string :=
  fun w => (Ok (cat [root w; "/"; name]), w).

Definition sys_exit {A : Type} (code : Z) : M A := raise (SystemExit code).

Definition after_git (c : completed) (f : fsys) (cwd : option string) (args : list string)
           (check : bool) (w : world) : world :=
  {| fs := f; root := root w; clock := S (clock w); faults := tl (faults w);
     default_branch := default_branch w;
     frames := frames w; out := out w; err := err w;
     trace := EvGit cwd args check (returncode c) :: trace w |}.

(** One invocation of the git binary, on behalf of a [subprocess.run]
    with the given [check]. *)
Definition git (cwd : option string) (args : list string) (check : bool) (w : world)
  : completed * world :=
  match faults w with
  | Some ft :: _ =>
      let c := failed (Zpos (fault_code ft)) (fault_stderr ft) in
      (c, after_git c (fs w) cwd args check w)
  | _ =>
      let '(c, f) := Git.run (default_branch w) (clock w) cwd args (fs w) in
      (c, after_git c f cwd args check w)
  end.

(** [subprocess.run(cmd, cwd=cwd, check=check, capture_output=True)]:
    both streams of the child are captured, never shown. *)
Definition subprocess_run (cmd : list string) (cwd : option string) (check : bool)
  : M completed :=
  fun w =>
    match cwd, match cwd with Some p => fs w p | None => Some empty_dir end with
    | Some p, None => (Raise (FileNotFoundError (PosixPath p)), w)
    | _, _ =>
        match cmd with
        | prog :: args =>
            if String.eqb prog "git"
            then
              let '(c, w') := git cwd args check w in
              if check && negb (Z.eqb (returncode c) 0)
              then (Raise (CalledProcessError (returncode c) cmd (stdout c) (stderr c)), w')
              else (Ok c, w')
            else (Raise (FileNotFoundError (Str prog)), w)
        | [] => (Raise (FileNotFoundError (Str EmptyString)), w)
        end
    end.

(** *** Leaving the process *)

(** [repr(s)] of a [str]: single quotes, unless the text has one and no
    double quote; the quote, the backslash and the control characters are
    escaped. *)
Definition hex_digit (n : nat) : string :=
  String.substring n 1 "0123456789abcdef".

Definition py_escape (quote : nat) (c : ascii) : string :=
  let n := nat_of_ascii c in
  if Nat.eqb n 92 then cat [bs; bs]
  else if Nat.eqb n quote then cat [bs; String c EmptyString]
  else if Nat.eqb n 9 then cat [bs; "t"]
  else if Nat.eqb n 10 then cat [bs; "n"]
  else if Nat.eqb n 13 then cat [bs; "r"]
  else if Nat.ltb n 32 || Nat.eqb n 127
  then cat [bs; "x"; hex_digit (Nat.div n 16); hex_digit (Nat.modulo n 16)]
  else String c EmptyString.

Definition py_repr (s : string) : string :=
  let quote := if is_substring "'" s && negb (is_substring dq s) then 34 else 39 in
  let q := String (ascii_of_nat quote) EmptyString in
  cat [q; cat (map (py_escape quote) (list_ascii_of_string s)); q].

Fixpoint join (sep : string) (xs : list string) : string :=
  match xs with
  | [] => EmptyString
  | [x] => x
  | x :: xs' => cat [x; sep; join sep xs']
  end.

Definition py_repr_list (xs : list string) : string :=
  cat ["["; join ", " (map py_repr xs); "]"].

(** The command as the child process gets it.  The scripts hand a
    directory to [git clone] as [str(ROOT / name)]; a command of the model
    names it by its entry of [ROOT]. *)
Definition argv (r : string) (cmd : list string) : list string :=
  match cmd with
  | [prog; sub; src; dst] =>
      if String.eqb sub "clone"
      then [prog; sub; cat [r; "/"; src]; cat [r; "/"; dst]]
      else cmd
  | [prog; sub; flag; src; dst] =>
      if String.eqb sub "clone" && String.eqb flag "--bare"
      then [prog; sub; flag; cat [r; "/"; src]; cat [r; "/"; dst]]
      else cmd
  | _ => cmd
  end.

(** [repr] of the file name of an [OSError], under [ROOT = r]. *)
Definition show_filename (r : string) (f : filename) : string :=
  match f with
  | PosixPath name => cat ["PosixPath("; py_repr (cat [r; "/"; name]); ")"]
  | Str path => py_repr path
  end.

(** The last line of the traceback of an uncaught exception, that is
    [type: str(e)].  For [CalledProcessError] the text names the command
    and its status; the captured streams are attributes of the exception
    and are not part of it. *)
Fixpoint exn_line (r : string) (e : exn) : string :=
  match e with
  | SystemExit code => cat ["SystemExit: "; show_Z code]
  | CalledProcessError rc cmd _ _ =>
      cat ["subprocess.CalledProcessError: Command '"; py_repr_list (argv r cmd);
           "' returned non-zero exit status "; show_Z rc; "."]
  | FileNotFoundError f =>
      cat ["FileNotFoundError: [Errno 2] No such file or directory: "; show_filename r f]
  | During _ e' => exn_line r e'
  end.

(** What the interpreter prints for an uncaught exception: the header,
    the frames of the stack, which [stack] gives, and the line of the
    exception; for an exception raised while another one was handled,
    the traceback of that one comes first, set apart by blank lines. *)
Fixpoint traceback (stack : exn -> list string) (r : string) (e : exn) : list string :=
  match e with
  | During context e' =>
      traceback stack r context
      ++ [EmptyString;
          "During handling of the above exception, another exception occurred:";
          EmptyString]
      ++ traceback stack r e'
  | _ => "Traceback (most recent call last):" :: stack e ++ [exn_line r e]
  end.

(** The exit status an exception asks for, when it is a [SystemExit]. *)
Fixpoint exit_request (e : exn) : option Z :=
  match e with
  | SystemExit code => Some code
  | During _ e' => exit_request e'
  | _ => None
  end.

Record exit : Type := { status : Z; after : world }.

(** A process starts with empty streams. *)
Definition boot (w : world) : world :=
  {| fs := fs w; root := root w; clock := clock w; faults := faults w;
     default_branch := default_branch w;
     frames := frames w; out := []; err := []; trace := [] |}.

(** [raise SystemExit(main())] *)
Definition run_script (main : M Z) (w : world) : exit :=
  match main (boot w) with
  | (Ok n, w') => {| status := n; after := w' |}
  | (Raise e, w') =>
      match exit_request e with
      | Some code => {| status := code; after := w' |}
      | None =>
          {| status := 1; after := put_errs (traceback (frames w') (root w') e) w' |}
      end
  end.

(** Parts of an f-string. *)
Inductive fpart : Type :=
| Lit (s : string)
| Path (name : string).

Definition print_f (parts : list fpart) : M unit :=
  fun w =>
    (Ok tt,
     put_out (cat (map (fun p => match p with
                                 | Lit s => s
                                 | Path name => cat [root w; "/"; name]
                                 end) parts)) w).

End Py.

(** ** The scripts

    One module per script.  Every function of a script is translated as it
    is written: the text builders are constants, the other functions are
    programs of [M].  [main] takes the parsed flags. *)

(** [ex01_init_setup.py] *)
Module Ex01.
Import Git Py.
Local Open Scope py_scope.

Definition EXERCISE_DIR : string := "ex01-init".
(* README_PATH is EXERCISE_DIR / 'README.md' *)

Definition build_readme_content : string := unlines [
  "# 🚀 Exercice : Mon premier commit";
  EmptyString;
  "## 🎯 Objectif";
  "Initialiser un dépôt Git, suivre le fichier README.md et créer votre premier commit.";
  EmptyString;
  "## 📋 Étapes à suivre";
  EmptyString;
  "1. **Initialiser le dépôt** : `git init`";
  "2. **Vérifier l'état** : `git status` (README.md doit apparaître en rouge)";
  "3. **Ajouter le fichier** : `git add README.md`";
  cat ["4. **Créer le commit** : `git commit -m "; dq; "Mon premier commit"; dq; "`"];
  "5. **Consulter l'historique** : `git log`";
  EmptyString;
  "💡 **Astuce** : Utilisez `git status` après chaque commande pour observer les changements !"
].

Definition reset_exercise_dir (force : bool) : M unit :=
  found <- path_exists EXERCISE_DIR ;;
  when found (
    when (negb force) (
      eprint (cat ["⚠️  Le dossier ex01-init existe déjà."; nl; "    Utilisez --force pour le recréer (attention : cela supprimera son contenu)."]) ;;
      sys_exit 1%Z
    ) ;;
    rmtree EXERCISE_DIR
  ) ;;
  mkdir EXERCISE_DIR.

Definition write_readme : M unit :=
  write_text EXERCISE_DIR "README.md" build_readme_content.

Definition main (force : bool) : M Z :=
  reset_exercise_dir force ;;
  write_readme ;;
  print (cat [nl; "✅ Exercice prêt !"]) ;;
  print_f [Lit ("📁 Dossier créé : "); Path EXERCISE_DIR] ;;
  print ("📄 README.md généré (non versionné).") ;;
  print (cat [nl; "📚 Consignes :"; nl; "   1. Entrez dans le dossier ex01-init"; nl; "   2. Initialisez un nouveau dépôt Git"; nl; "   3. Vérifiez l'état du dépôt"; nl; "   4. Ajoutez le fichier README.md au suivi"; nl; "   5. Créez votre premier commit avec un message descriptif"; nl; "   6. Consultez l'historique des commits"; nl; nl; "💡 Bon courage !"; nl]) ;;
  ret 0%Z.

End Ex01.

(** [ex02_gitignore_setup.py] *)
Module Ex02.
Import Git Py.
Local Open Scope py_scope.

Definition EXERCISE_DIR : string := "ex02-ignore".

Definition build_index_html : string := unlines [
  "<!DOCTYPE html>";
  cat ["<html lang="; dq; "fr"; dq; ">"];
  "<head>";
  cat ["    <meta charset="; dq; "UTF-8"; dq; ">"];
  cat ["    <meta name="; dq; "viewport"; dq; " content="; dq; "width=device-width, initial-scale=1.0"; dq; ">"];
  "    <title>Mon site</title>";
  cat ["    <link rel="; dq; "stylesheet"; dq; " href="; dq; "style.css"; dq; ">"];
  "</head>";
  "<body>";
  "    <h1>Bienvenue sur mon site</h1>";
  "    <p>Ceci est un exercice Git.</p>";
  "</body>";
  "</html>"
].

Definition build_style_css : string := unlines [
  "/* Styles de base */";
  "body {";
  "    font-family: Arial, sans-serif;";
  "    margin: 2rem;";
  "    background-color: #f5f5f5;";
  "}";
  EmptyString;
  "h1 {";
  "    color: #333;";
  "}";
  EmptyString;
  "p {";
  "    color: #666;";
  "}"
].

Definition build_notes_txt : string := unlines [
  "Notes de développement";
  "======================";
  EmptyString;
  "- Penser à ajouter une navigation";
  cat ["- Créer une page "; dq; "À propos"; dq];
  "- Optimiser les images"
].

Definition build_secret_txt : string := unlines [
  "⚠️ FICHIER CONFIDENTIEL ⚠️";
  EmptyString;
  "Ce fichier contient des informations sensibles.";
  "Il ne doit JAMAIS être versionné dans Git !";
  EmptyString;
  "Mot de passe admin : SuperSecret123";
  "Clé API : sk-1234567890abcdef"
].

Definition build_readme_content : string := unlines [
  "# 🔒 Exercice : Gérer .gitignore";
  EmptyString;
  "## 🎯 Objectif";
  "Apprendre à gérer plusieurs fichiers et à ignorer certains fichiers sensibles avec `.gitignore`.";
  EmptyString;
  "## 📁 Fichiers présents";
  "- `index.html` — Page HTML principale";
  "- `style.css` — Feuille de styles";
  "- `notes.txt` — Notes de développement";
  "- `secret.txt` — ⚠️ Fichier confidentiel à NE PAS versionner !";
  EmptyString;
  "## 📋 Étapes à suivre";
  EmptyString;
  "1. **Initialiser le dépôt** : Créez un nouveau dépôt Git";
  "2. **Vérifier l'état** : Observez quels fichiers sont détectés (4 fichiers non suivis)";
  "3. **Créer .gitignore** : Créez un fichier `.gitignore` pour exclure `secret.txt`";
  "4. **Vérifier à nouveau** : `secret.txt` ne doit plus apparaître dans les fichiers non suivis";
  "5. **Ajouter tous les fichiers** : Ajoutez tous les fichiers en une seule commande";
  "6. **Créer le commit** : Commitez avec un message descriptif";
  "7. **Vérifier le résultat** : Consultez l'historique et assurez-vous que `secret.txt` n'est pas inclus";
  EmptyString;
  "## 💡 Astuces";
  "- Le fichier `.gitignore` doit lui-même être versionné !";
  "- Utilisez `git status` régulièrement pour voir l'effet de vos actions";
  "- Pour ajouter tous les fichiers d'un coup : cherchez la bonne option de `git add`";
  EmptyString;
  "## 🔑 Concepts clés";
  "- `.gitignore` : fichier listant les patterns à ignorer";
  "- Ajout en masse avec `git add`";
  "- Contrôle de ce qui est versionné"
].

Definition reset_exercise_dir (force : bool) : M unit :=
  found <- path_exists EXERCISE_DIR ;;
  when found (
    when (negb force) (
      eprint (cat ["⚠️  Le dossier ex02-ignore existe déjà."; nl; "    Utilisez --force pour le recréer (attention : cela supprimera son contenu)."]) ;;
      sys_exit 1%Z
    ) ;;
    rmtree EXERCISE_DIR
  ) ;;
  mkdir EXERCISE_DIR.

Definition write_files : M unit :=
  let files := [("README.md", build_readme_content); ("index.html", build_index_html); ("style.css", build_style_css); ("notes.txt", build_notes_txt); ("secret.txt", build_secret_txt)] in
  for_each files (fun '(filename, content) =>
    write_text EXERCISE_DIR filename content
  ).

Definition main (force : bool) : M Z :=
  reset_exercise_dir force ;;
  write_files ;;
  print (cat [nl; "✅ Exercice prêt !"]) ;;
  print_f [Lit ("📁 Dossier créé : "); Path EXERCISE_DIR] ;;
  print ("📄 Fichiers générés : README.md, index.html, style.css, notes.txt, secret.txt") ;;
  print (cat [nl; "📚 Consignes :"; nl; "   1. Entrez dans le dossier ex02-ignore"; nl; "   2. Initialisez un nouveau dépôt Git"; nl; "   3. Créez un fichier .gitignore pour ignorer secret.txt"; nl; "   4. Ajoutez tous les fichiers suivis au staging"; nl; "   5. Créez un commit avec un message descriptif"; nl; "   6. Vérifiez que secret.txt n'est pas versionné"; nl; nl; "💡 Bon courage !"; nl]) ;;
  ret 0%Z.

End Ex02.

(** [ex03_diff_setup.py] *)
Module Ex03.
Import Git Py.
Local Open Scope py_scope.

Definition EXERCISE_DIR : string := "ex03-diff".

Definition build_article_content : string := unlines [
  "# Mon article de blog";
  EmptyString;
  "## Introduction";
  EmptyString;
  "Bienvenue dans cet article où nous allons découvrir les bases de Git.";
  "Git est un outil de versionnement distribué créé par Linus Torvalds en 2005.";
  EmptyString;
  "## Pourquoi utiliser Git ?";
  EmptyString;
  "Git permet de :";
  "- Suivre l'historique des modifications";
  "- Collaborer efficacement en équipe";
  "- Revenir en arrière en cas d'erreur";
  EmptyString;
  "## Conclusion";
  EmptyString;
  "Git est un outil indispensable pour tout développeur moderne."
].

Definition build_readme_content : string := unlines [
  "# 📝 Exercice : Modifier et comparer";
  EmptyString;
  "## 🎯 Objectif";
  "Utiliser `git status` et `git diff` pour comprendre les modifications apportées à un fichier.";
  EmptyString;
  "## 📁 État initial";
  "- Un dépôt Git initialisé avec un commit contenant `article.md`";
  EmptyString;
  "## 📋 Étapes à suivre";
  EmptyString;
  "1. **Modifier article.md** :";
  "   - Ajoutez un nouveau paragraphe dans une section existante";
  cat ["   - Changez le titre d'une section (par exemple "; dq; "Pourquoi utiliser Git ?"; dq; " → "; dq; "Les avantages de Git"; dq; ")"];
  EmptyString;
  "2. **Observer les changements** :";
  "   - Vérifiez l'état du dépôt";
  "   - Affichez les différences ligne par ligne";
  EmptyString;
  "3. **Valider les modifications** :";
  "   - Ajoutez le fichier à l'index";
  "   - Créez un commit avec un message descriptif";
  EmptyString;
  "4. **Consulter l'historique** :";
  "   - Affichez le log des commits";
  "   - Affichez le diff du dernier commit";
  EmptyString;
  "## 💡 Astuces";
  "- `git diff` montre les changements non indexés";
  "- `git diff --staged` montre les changements indexés (prêts à être commités)";
  "- Les lignes supprimées apparaissent en rouge, les ajoutées en vert";
  EmptyString;
  "## 🔑 Concepts clés";
  "- `git diff` : voir les modifications";
  "- `git log -p` : historique avec les diffs";
  "- Cycle : modification → index → commit"
].

Definition reset_exercise_dir (force : bool) : M unit :=
  found <- path_exists EXERCISE_DIR ;;
  when found (
    when (negb force) (
      eprint (cat ["⚠️  Le dossier ex03-diff existe déjà."; nl; "    Utilisez --force pour le recréer (attention : cela supprimera son contenu)."]) ;;
      sys_exit 1%Z
    ) ;;
    rmtree EXERCISE_DIR
  ) ;;
  mkdir EXERCISE_DIR.

Definition run_git (args : list string) : M unit :=
  discard (subprocess_run ("git" :: args) (Some EXERCISE_DIR) true).

Definition setup_git_repo : M unit :=
  write_text EXERCISE_DIR "README.md" build_readme_content ;;
  write_text EXERCISE_DIR "article.md" build_article_content ;;
  run_git ["init"] ;;
  run_git ["add"; "README.md"; "article.md"] ;;
  run_git ["commit"; "-m"; "Initial commit : ajout de article.md"].

Definition main (force : bool) : M Z :=
  reset_exercise_dir force ;;
  setup_git_repo ;;
  print (cat [nl; "✅ Exercice prêt !"]) ;;
  print_f [Lit ("📁 Dossier créé : "); Path EXERCISE_DIR] ;;
  print ("📄 Fichiers : README.md, article.md (déjà commités)") ;;
  print ("🔧 Dépôt Git initialisé avec 1 commit") ;;
  print (cat [nl; "📚 Consignes :"; nl; "   1. Modifiez article.md (ajoutez un paragraphe et changez un titre)"; nl; "   2. Observez les changements avec les commandes appropriées"; nl; "   3. Ajoutez le fichier à l'index et créez un commit"; nl; "   4. Affichez l'historique et le diff du dernier commit"; nl; nl; "💡 Bon courage !"; nl]) ;;
  ret 0%Z.

End Ex03.

(** [ex04_restore_setup.py] *)
Module Ex04.
Import Git Py.
Local Open Scope py_scope.

Definition EXERCISE_DIR : string := "ex04-restore".

Definition build_config_original : string := unlines [
  "# Configuration de l'application";
  "app:";
  "  name: MonApp";
  "  version: 1.0.0";
  "  debug: false";
  EmptyString;
  "database:";
  "  host: localhost";
  "  port: 5432";
  "  name: production_db";
  EmptyString;
  "logging:";
  "  level: info";
  "  file: /var/log/app.log"
].

Definition build_config_modified : string := unlines [
  "# Configuration de l'application";
  "app:";
  "  name: MonApp";
  "  version: 1.0.0";
  "  debug: true  # ERREUR : debug activé en prod !";
  EmptyString;
  "database:";
  "  host: localhost";
  "  port: 5432";
  "  name: test_db  # ERREUR : mauvaise base de données !";
  EmptyString;
  "logging:";
  "  level: debug";
  "  file: /var/log/app.log"
].

Definition build_readme_original : string := unlines [
  "# MonApp";
  EmptyString;
  "Application de démonstration pour l'exercice Git.";
  EmptyString;
  "## Installation";
  EmptyString;
  "1. Cloner le dépôt";
  "2. Configurer config.yml";
  "3. Lancer l'application"
].

Definition build_readme_modified : string := unlines [
  "# MonApp";
  EmptyString;
  "Application de démonstration pour l'exercice Git.";
  EmptyString;
  "## Installation";
  EmptyString;
  "1. Cloner le dépôt";
  "2. Configurer config.yml";
  "3. Lancer l'application";
  EmptyString;
  "## Nouveautés v1.1";
  EmptyString;
  "- Ajout de nouvelles fonctionnalités";
  "- Amélioration des performances"
].

Definition build_exercise_readme : string := unlines [
  "# ↩️ Exercice : Annuler des modifications";
  EmptyString;
  "## 🎯 Objectif";
  "Apprendre à annuler des modifications non indexées de manière sélective.";
  EmptyString;
  "## 📁 État initial";
  "- Un dépôt Git avec un commit propre";
  "- Deux fichiers modifiés mais NON ajoutés à l'index :";
  "  - `config.yml` : modifications accidentelles (à annuler ❌)";
  "  - `README.md` : modifications voulues (à conserver ✅)";
  EmptyString;
  "## 📋 Étapes à suivre";
  EmptyString;
  "1. **Vérifier l'état du dépôt** : Observez les fichiers modifiés";
  EmptyString;
  "2. **Analyser les différences** : Regardez ce qui a changé dans chaque fichier";
  EmptyString;
  "3. **Annuler sélectivement** : Restaurez uniquement `config.yml` à sa version commitée";
  EmptyString;
  "4. **Vérifier le résultat** :";
  "   - `config.yml` doit être revenu à l'état original";
  "   - `README.md` doit rester modifié";
  EmptyString;
  "## 💡 Astuces";
  "- Regardez bien les modifications avant de les annuler !";
  "- La restauration d'un fichier est DÉFINITIVE (les modifications sont perdues)";
  "- Vous pouvez restaurer un seul fichier sans affecter les autres";
  EmptyString;
  "## 🔑 Concepts clés";
  "- Restauration partielle de fichiers";
  "- `git restore` (Git moderne) ou `git checkout -- fichier` (ancienne méthode)";
  "- Différence entre modifications indexées et non indexées"
].

Definition reset_exercise_dir (force : bool) : M unit :=
  found <- path_exists EXERCISE_DIR ;;
  when found (
    when (negb force) (
      eprint (cat ["⚠️  Le dossier ex04-restore existe déjà."; nl; "    Utilisez --force pour le recréer (attention : cela supprimera son contenu)."]) ;;
      sys_exit 1%Z
    ) ;;
    rmtree EXERCISE_DIR
  ) ;;
  mkdir EXERCISE_DIR.

Definition run_git (args : list string) : M unit :=
  discard (subprocess_run ("git" :: args) (Some EXERCISE_DIR) true).

Definition setup_git_repo : M unit :=
  write_text EXERCISE_DIR "EXERCICE.md" build_exercise_readme ;;
  write_text EXERCISE_DIR "config.yml" build_config_original ;;
  write_text EXERCISE_DIR "README.md" build_readme_original ;;
  run_git ["init"] ;;
  run_git ["add"; "."] ;;
  run_git ["commit"; "-m"; "Initial commit : configuration de base"] ;;
  write_text EXERCISE_DIR "config.yml" build_config_modified ;;
  write_text EXERCISE_DIR "README.md" build_readme_modified.

Definition main (force : bool) : M Z :=
  reset_exercise_dir force ;;
  setup_git_repo ;;
  print (cat [nl; "✅ Exercice prêt !"]) ;;
  print_f [Lit ("📁 Dossier créé : "); Path EXERCISE_DIR] ;;
  print ("📄 Fichiers : EXERCICE.md, config.yml, README.md") ;;
  print ("🔧 Dépôt Git initialisé avec 1 commit") ;;
  print ("⚡ Modifications appliquées (non indexées) dans config.yml et README.md") ;;
  print (cat [nl; "📚 Consignes :"; nl; "   1. Vérifiez l'état du dépôt"; nl; "   2. Analysez les modifications dans chaque fichier"; nl; "   3. Annulez uniquement les modifications de config.yml"; nl; "   4. Vérifiez que README.md reste modifié"; nl; nl; "💡 Bon courage !"; nl]) ;;
  ret 0%Z.

End Ex04.

(** [ex05_branch_setup.py] *)
Module Ex05.
Import Git Py.
Local Open Scope py_scope.

Definition EXERCISE_DIR : string := "ex05-branch".

Definition build_index_html : string := unlines [
  "<!DOCTYPE html>";
  cat ["<html lang="; dq; "fr"; dq; ">"];
  "<head>";
  cat ["    <meta charset="; dq; "UTF-8"; dq; ">"];
  cat ["    <meta name="; dq; "viewport"; dq; " content="; dq; "width=device-width, initial-scale=1.0"; dq; ">"];
  "    <title>Ma page</title>";
  "    <style>";
  "        body {";
  "            font-family: Arial, sans-serif;";
  "            margin: 2rem;";
  "            background-color: #f0f0f0;";
  "        }";
  "        main {";
  "            max-width: 800px;";
  "            margin: 0 auto;";
  "            padding: 2rem;";
  "            background: white;";
  "            border-radius: 8px;";
  "            box-shadow: 0 2px 4px rgba(0,0,0,0.1);";
  "        }";
  "    </style>";
  "</head>";
  "<body>";
  "    <main>";
  "        <h1>Bienvenue</h1>";
  "        <p>Ceci est le contenu principal de ma page.</p>";
  "        <p>Cette page va évoluer grâce aux branches Git !</p>";
  "    </main>";
  "</body>";
  "</html>"
].

Definition build_readme_content : string := unlines [
  "# 🌿 Exercice : Travailler avec les branches";
  EmptyString;
  "## 🎯 Objectif";
  "Comprendre la notion de branche et le travail isolé sur une fonctionnalité.";
  EmptyString;
  "## 📁 État initial";
  "- Un dépôt Git initialisé sur la branche `main`";
  "- Un commit contenant `index.html`";
  EmptyString;
  "## 📋 Étapes à suivre";
  EmptyString;
  "1. **Créer une branche** : Créez une nouvelle branche nommée `feature-header`";
  EmptyString;
  "2. **Basculer sur la branche** : Passez sur la branche `feature-header`";
  EmptyString;
  "3. **Modifier index.html** : Ajoutez un en-tête (header) à la page, par exemple :";
  "   ```html";
  "   <header>";
  "       <nav>";
  cat ["           <a href="; dq; "#"; dq; ">Accueil</a>"];
  cat ["           <a href="; dq; "#"; dq; ">À propos</a>"];
  cat ["           <a href="; dq; "#"; dq; ">Contact</a>"];
  "       </nav>";
  "   </header>";
  "   ```";
  EmptyString;
  "4. **Commiter la modification** : Créez un commit sur la branche `feature-header`";
  EmptyString;
  "5. **Revenir sur main** : Basculez sur la branche `main`";
  EmptyString;
  "6. **Constater la différence** : Ouvrez `index.html` et observez que le header n'y est pas !";
  EmptyString;
  "## 💡 Astuces";
  "- Utilisez `git branch` pour lister les branches";
  cat ["- L'astérisque ("; "*"; ") indique la branche courante"];
  "- Vous pouvez créer ET basculer en une seule commande !";
  EmptyString;
  "## 🔑 Concepts clés";
  "- `git branch` : créer/lister des branches";
  "- `git switch` (moderne) ou `git checkout` (classique) : basculer";
  "- Travail parallèle : chaque branche a son propre historique";
  "- Les modifications sur une branche n'affectent pas les autres"
].

Definition reset_exercise_dir (force : bool) : M unit :=
  found <- path_exists EXERCISE_DIR ;;
  when found (
    when (negb force) (
      eprint (cat ["⚠️  Le dossier ex05-branch existe déjà."; nl; "    Utilisez --force pour le recréer (attention : cela supprimera son contenu)."]) ;;
      sys_exit 1%Z
    ) ;;
    rmtree EXERCISE_DIR
  ) ;;
  mkdir EXERCISE_DIR.

Definition run_git (args : list string) : M unit :=
  discard (subprocess_run ("git" :: args) (Some EXERCISE_DIR) true).

Definition setup_git_repo : M unit :=
  write_text EXERCISE_DIR "README.md" build_readme_content ;;
  write_text EXERCISE_DIR "index.html" build_index_html ;;
  run_git ["init"; "-b"; "main"] ;;
  run_git ["add"; "."] ;;
  run_git ["commit"; "-m"; "Initial commit : page de base"].

Definition main (force : bool) : M Z :=
  reset_exercise_dir force ;;
  setup_git_repo ;;
  print (cat [nl; "✅ Exercice prêt !"]) ;;
  print_f [Lit ("📁 Dossier créé : "); Path EXERCISE_DIR] ;;
  print ("📄 Fichiers : README.md, index.html (déjà commités)") ;;
  print ("🔧 Dépôt Git initialisé sur la branche main avec 1 commit") ;;
  print (cat [nl; "📚 Consignes :"; nl; "   1. Créez une branche feature-header"; nl; "   2. Basculez sur cette branche"; nl; "   3. Ajoutez un en-tête dans index.html"; nl; "   4. Commitez la modification"; nl; "   5. Revenez sur main et constatez la différence"; nl; nl; "💡 Bon courage !"; nl]) ;;
  ret 0%Z.

End Ex05.

(** [ex06_merge_ff_setup.py] *)
Module Ex06.
Import Git Py.
Local Open Scope py_scope.

Definition EXERCISE_DIR : string := "ex06-merge-ff".

Definition build_index_html_base : string := unlines [
  "<!DOCTYPE html>";
  cat ["<html lang="; dq; "fr"; dq; ">"];
  "<head>";
  cat ["    <meta charset="; dq; "UTF-8"; dq; ">"];
  cat ["    <meta name="; dq; "viewport"; dq; " content="; dq; "width=device-width, initial-scale=1.0"; dq; ">"];
  "    <title>Mon site</title>";
  "    <style>";
  "        body { font-family: Arial, sans-serif; margin: 0; padding: 2rem; }";
  "        main { max-width: 800px; margin: 0 auto; }";
  "    </style>";
  "</head>";
  "<body>";
  "    <main>";
  "        <h1>Bienvenue sur mon site</h1>";
  "        <p>Contenu principal de la page.</p>";
  "    </main>";
  "</body>";
  "</html>"
].

Definition build_index_html_with_footer : string := unlines [
  "<!DOCTYPE html>";
  cat ["<html lang="; dq; "fr"; dq; ">"];
  "<head>";
  cat ["    <meta charset="; dq; "UTF-8"; dq; ">"];
  cat ["    <meta name="; dq; "viewport"; dq; " content="; dq; "width=device-width, initial-scale=1.0"; dq; ">"];
  "    <title>Mon site</title>";
  "    <style>";
  "        body { font-family: Arial, sans-serif; margin: 0; padding: 2rem; }";
  "        main { max-width: 800px; margin: 0 auto; }";
  "        footer { margin-top: 3rem; padding: 1rem; background: #333; color: white; text-align: center; }";
  "    </style>";
  "</head>";
  "<body>";
  "    <main>";
  "        <h1>Bienvenue sur mon site</h1>";
  "        <p>Contenu principal de la page.</p>";
  "    </main>";
  "    <footer>";
  "        <p>&copy; 2025 Mon Site. Tous droits réservés.</p>";
  "    </footer>";
  "</body>";
  "</html>"
].

Definition build_readme_content : string := unlines [
  "# ⚡ Exercice : Merge fast-forward";
  EmptyString;
  "## 🎯 Objectif";
  "Comprendre le merge fast-forward, le cas le plus simple de fusion.";
  EmptyString;
  "## 📁 État initial";
  "- Branche `main` avec un commit initial";
  "- Branche `feature-footer` avec un commit supplémentaire (ajout d'un footer)";
  "- `main` n'a PAS de nouveaux commits depuis la création de `feature-footer`";
  EmptyString;
  "## 📋 Étapes à suivre";
  EmptyString;
  "1. **Observer l'état initial** :";
  "   - Listez les branches";
  "   - Consultez l'historique de chaque branche";
  EmptyString;
  "2. **Se placer sur main** : Assurez-vous d'être sur la branche `main`";
  EmptyString;
  "3. **Fusionner feature-footer** : Intégrez la branche `feature-footer` dans `main`";
  EmptyString;
  "4. **Observer le résultat** :";
  "   - Consultez l'historique après le merge";
  "   - Notez qu'il n'y a PAS de commit de merge supplémentaire";
  EmptyString;
  "## 💡 Astuces";
  "- Un merge fast-forward se produit quand la branche cible n'a pas divergé";
  cat ["- Git "; dq; "avance"; dq; " simplement le pointeur de la branche"];
  "- L'historique reste linéaire";
  EmptyString;
  "## 🔑 Concepts clés";
  "- **Fast-forward** : avance rapide du pointeur de branche";
  "- Pas de commit de merge créé";
  "- Historique linéaire conservé"
].

Definition reset_exercise_dir (force : bool) : M unit :=
  found <- path_exists EXERCISE_DIR ;;
  when found (
    when (negb force) (
      eprint (cat ["⚠️  Le dossier ex06-merge-ff existe déjà."; nl; "    Utilisez --force pour le recréer (attention : cela supprimera son contenu)."]) ;;
      sys_exit 1%Z
    ) ;;
    rmtree EXERCISE_DIR
  ) ;;
  mkdir EXERCISE_DIR.

Definition run_git (args : list string) : M unit :=
  discard (subprocess_run ("git" :: args) (Some EXERCISE_DIR) true).

Definition setup_git_repo : M unit :=
  write_text EXERCISE_DIR "README.md" build_readme_content ;;
  write_text EXERCISE_DIR "index.html" build_index_html_base ;;
  run_git ["init"; "-b"; "main"] ;;
  run_git ["add"; "."] ;;
  run_git ["commit"; "-m"; "Initial commit : page de base"] ;;
  run_git ["checkout"; "-b"; "feature-footer"] ;;
  write_text EXERCISE_DIR "index.html" build_index_html_with_footer ;;
  run_git ["add"; "index.html"] ;;
  run_git ["commit"; "-m"; "Ajout du footer"] ;;
  run_git ["checkout"; "main"].

Definition main (force : bool) : M Z :=
  reset_exercise_dir force ;;
  setup_git_repo ;;
  print (cat [nl; "✅ Exercice prêt !"]) ;;
  print_f [Lit ("📁 Dossier créé : "); Path EXERCISE_DIR] ;;
  print ("🌿 Branches : main (actuelle), feature-footer (1 commit d'avance)") ;;
  print ("🔧 Dépôt prêt pour un merge fast-forward") ;;
  print (cat [nl; "📚 Consignes :"; nl; "   1. Observez l'historique des deux branches"; nl; "   2. Placez-vous sur main"; nl; "   3. Fusionnez feature-footer dans main"; nl; "   4. Observez l'historique après le merge"; nl; nl; "💡 Bon courage !"; nl]) ;;
  ret 0%Z.

End Ex06.

(** [ex07_merge_noff_setup.py] *)
Module Ex07.
Import Git Py.
Local Open Scope py_scope.

Definition EXERCISE_DIR : string := "ex07-merge-noff".

Definition build_index_html_base : string := unlines [
  "<!DOCTYPE html>";
  cat ["<html lang="; dq; "fr"; dq; ">"];
  "<head>";
  cat ["    <meta charset="; dq; "UTF-8"; dq; ">"];
  cat ["    <meta name="; dq; "viewport"; dq; " content="; dq; "width=device-width, initial-scale=1.0"; dq; ">"];
  "    <title>Mon site</title>";
  "    <style>";
  "        body { font-family: Arial, sans-serif; margin: 0; padding: 2rem; }";
  "        main { max-width: 800px; margin: 0 auto; }";
  "        .cta { padding: 1rem 2rem; background: #007bff; color: white; border: none; cursor: pointer; }";
  "    </style>";
  "</head>";
  "<body>";
  "    <header>";
  "        <h1>Mon Site Web</h1>";
  "    </header>";
  "    <main>";
  "        <p>Bienvenue sur notre site.</p>";
  "    </main>";
  "    <footer>";
  "        <p>Contact : email@example.com</p>";
  "    </footer>";
  "</body>";
  "</html>"
].

Definition build_index_html_main_update : string := unlines [
  "<!DOCTYPE html>";
  cat ["<html lang="; dq; "fr"; dq; ">"];
  "<head>";
  cat ["    <meta charset="; dq; "UTF-8"; dq; ">"];
  cat ["    <meta name="; dq; "viewport"; dq; " content="; dq; "width=device-width, initial-scale=1.0"; dq; ">"];
  "    <title>Mon site</title>";
  "    <style>";
  "        body { font-family: Arial, sans-serif; margin: 0; padding: 2rem; }";
  "        main { max-width: 800px; margin: 0 auto; }";
  "        .cta { padding: 1rem 2rem; background: #007bff; color: white; border: none; cursor: pointer; }";
  "    </style>";
  "</head>";
  "<body>";
  "    <header>";
  "        <h1>Mon Site Web</h1>";
  "    </header>";
  "    <main>";
  "        <p>Bienvenue sur notre site.</p>";
  "    </main>";
  "    <footer>";
  "        <p>Contact : email@example.com</p>";
  "        <p>&copy; 2025 Mon Site - Tous droits réservés</p>";
  "    </footer>";
  "</body>";
  "</html>"
].

Definition build_index_html_feature_cta : string := unlines [
  "<!DOCTYPE html>";
  cat ["<html lang="; dq; "fr"; dq; ">"];
  "<head>";
  cat ["    <meta charset="; dq; "UTF-8"; dq; ">"];
  cat ["    <meta name="; dq; "viewport"; dq; " content="; dq; "width=device-width, initial-scale=1.0"; dq; ">"];
  "    <title>Mon site</title>";
  "    <style>";
  "        body { font-family: Arial, sans-serif; margin: 0; padding: 2rem; }";
  "        main { max-width: 800px; margin: 0 auto; }";
  "        .cta { padding: 1rem 2rem; background: #007bff; color: white; border: none; cursor: pointer; }";
  "    </style>";
  "</head>";
  "<body>";
  "    <header>";
  "        <h1>Mon Site Web</h1>";
  "    </header>";
  "    <main>";
  "        <p>Bienvenue sur notre site.</p>";
  cat ["        <button class="; dq; "cta"; dq; ">Découvrir nos services</button>"];
  "    </main>";
  "    <footer>";
  "        <p>Contact : email@example.com</p>";
  "    </footer>";
  "</body>";
  "</html>"
].

Definition build_readme_content : string := unlines [
  "# 🔀 Exercice : Merge avec commit de fusion";
  EmptyString;
  "## 🎯 Objectif";
  "Comprendre le merge non fast-forward avec création d'un commit de merge explicite.";
  EmptyString;
  "## 📁 État initial";
  "- Branche `main` avec un commit ajouté APRÈS la création de `feature-cta`";
  "- Branche `feature-cta` avec un commit ajoutant un bouton CTA";
  "- Les modifications touchent des parties DIFFÉRENTES de `index.html` → pas de conflit";
  EmptyString;
  "## 📊 Visualisation";
  "```";
  "main:        A --- B (footer amélioré)";
  cat ["              "; bs];
  "feature-cta:   C (bouton CTA ajouté)";
  "```";
  EmptyString;
  "## 📋 Étapes à suivre";
  EmptyString;
  "1. **Inspecter l'historique** :";
  "   - Consultez l'historique de `main`";
  "   - Consultez l'historique de `feature-cta`";
  "   - Notez que les deux branches ont divergé";
  EmptyString;
  "2. **Depuis main, fusionner feature-cta** : Effectuez le merge";
  EmptyString;
  "3. **Examiner le commit de merge** :";
  "   - Un nouveau commit de merge a été créé automatiquement";
  "   - Il a DEUX parents (les deux branches fusionnées)";
  EmptyString;
  "4. **Vérifier le contenu final** : `index.html` doit contenir les deux modifications";
  EmptyString;
  "## 💡 Astuces";
  "- Utilisez `git log --oneline --graph` pour visualiser l'historique";
  "- Le commit de merge montre les deux parents avec `git log`";
  "- Vous pouvez personnaliser le message de merge";
  EmptyString;
  "## 🔑 Concepts clés";
  "- **Merge non fast-forward** : création d'un commit de fusion";
  "- Les deux historiques sont préservés";
  "- Git fusionne automatiquement les modifications non conflictuelles"
].

Definition reset_exercise_dir (force : bool) : M unit :=
  found <- path_exists EXERCISE_DIR ;;
  when found (
    when (negb force) (
      eprint (cat ["⚠️  Le dossier ex07-merge-noff existe déjà."; nl; "    Utilisez --force pour le recréer (attention : cela supprimera son contenu)."]) ;;
      sys_exit 1%Z
    ) ;;
    rmtree EXERCISE_DIR
  ) ;;
  mkdir EXERCISE_DIR.

Definition run_git (args : list string) : M unit :=
  discard (subprocess_run ("git" :: args) (Some EXERCISE_DIR) true).

Definition setup_git_repo : M unit :=
  write_text EXERCISE_DIR "README.md" build_readme_content ;;
  write_text EXERCISE_DIR "index.html" build_index_html_base ;;
  run_git ["init"; "-b"; "main"] ;;
  run_git ["add"; "."] ;;
  run_git ["commit"; "-m"; "Initial commit : structure de base"] ;;
  run_git ["checkout"; "-b"; "feature-cta"] ;;
  write_text EXERCISE_DIR "index.html" build_index_html_feature_cta ;;
  run_git ["add"; "index.html"] ;;
  run_git ["commit"; "-m"; "Ajout du bouton Call-to-Action"] ;;
  run_git ["checkout"; "main"] ;;
  write_text EXERCISE_DIR "index.html" build_index_html_main_update ;;
  run_git ["add"; "index.html"] ;;
  run_git ["commit"; "-m"; "Amélioration du footer avec copyright"].

Definition main (force : bool) : M Z :=
  reset_exercise_dir force ;;
  setup_git_repo ;;
  print (cat [nl; "✅ Exercice prêt !"]) ;;
  print_f [Lit ("📁 Dossier créé : "); Path EXERCISE_DIR] ;;
  print ("🌿 Branches : main (actuelle, 2 commits), feature-cta (divergée, 2 commits)") ;;
  print ("🔧 Les branches ont divergé → merge créera un commit de fusion") ;;
  print (cat [nl; "📚 Consignes :"; nl; "   1. Inspectez l'historique des deux branches"; nl; "   2. Depuis main, fusionnez feature-cta"; nl; "   3. Examinez le commit de merge créé"; nl; "   4. Vérifiez le contenu final de index.html"; nl; nl; "💡 Bon courage !"; nl]) ;;
  ret 0%Z.

End Ex07.

(** [ex08_conflict_simple_setup.py] *)
Module Ex08.
Import Git Py.
Local Open Scope py_scope.

Definition EXERCISE_DIR : string := "ex08-conflict-simple".

Definition build_message_base : string := unlines [
  "Bienvenue sur notre application !";
  EmptyString;
  "Notre slogan : Nous rendons votre vie plus simple.";
  EmptyString;
  "Merci de votre confiance."
].

Definition build_message_client : string := unlines [
  "Bienvenue sur notre application !";
  EmptyString;
  "Notre slogan : La simplicité au service de nos clients.";
  EmptyString;
  "Merci de votre confiance."
].

Definition build_message_interne : string := unlines [
  "Bienvenue sur notre application !";
  EmptyString;
  "Notre slogan : L'innovation au cœur de notre mission.";
  EmptyString;
  "Merci de votre confiance."
].

Definition build_readme_content : string := unlines [
  "# ⚔️ Exercice : Résoudre un conflit simple";
  EmptyString;
  "## 🎯 Objectif";
  "Apprendre à résoudre un conflit trivial sur une seule ligne.";
  EmptyString;
  "## 📁 État initial";
  "- Branche `main` avec `message.txt` contenant un slogan original";
  "- Branche `version-client` modifie le slogan d'une façon";
  "- Branche `version-interne` modifie le slogan d'une autre façon";
  "- Vous êtes sur `version-client` et un merge de `version-interne` a été tenté → CONFLIT !";
  EmptyString;
  "## 📋 Étapes à suivre";
  EmptyString;
  "1. **Observer le conflit** : Vérifiez l'état du dépôt";
  EmptyString;
  "2. **Analyser le fichier** : Ouvrez `message.txt` et repérez les marqueurs de conflit :";
  "   ```";
  "   <<<<<<< HEAD";
  "   (votre version actuelle)";
  "   =======";
  "   (la version entrante)";
  "   >>>>>>> version-interne";
  "   ```";
  EmptyString;
  "3. **Résoudre le conflit** :";
  "   - Choisissez UNE des deux versions, OU";
  "   - Combinez les deux pour créer un nouveau slogan";
  EmptyString;
  "4. **Supprimer les marqueurs** : Effacez les lignes `<<<<<<<`, `=======` et `>>>>>>>`";
  EmptyString;
  "5. **Finaliser le merge** :";
  "   - Ajoutez le fichier résolu à l'index";
  "   - Créez le commit de merge";
  EmptyString;
  "## 💡 Astuces";
  "- Les marqueurs de conflit sont du TEXTE ajouté par Git";
  "- Vous devez les supprimer manuellement";
  "- Testez que le fichier final est cohérent avant de commiter";
  EmptyString;
  "## 🔑 Concepts clés";
  "- Marqueurs de conflit : `<<<<<<<`, `=======`, `>>>>>>>`";
  "- Résolution manuelle des conflits";
  "- `git add` pour marquer un conflit comme résolu"
].

Definition reset_exercise_dir (force : bool) : M unit :=
  found <- path_exists EXERCISE_DIR ;;
  when found (
    when (negb force) (
      eprint (cat ["⚠️  Le dossier ex08-conflict-simple existe déjà."; nl; "    Utilisez --force pour le recréer (attention : cela supprimera son contenu)."]) ;;
      sys_exit 1%Z
    ) ;;
    rmtree EXERCISE_DIR
  ) ;;
  mkdir EXERCISE_DIR.

Definition run_git (args : list string) (check : bool) : M completed :=
  subprocess_run ("git" :: args) (Some EXERCISE_DIR) check.

Definition setup_git_repo : M unit :=
  write_text EXERCISE_DIR "README.md" build_readme_content ;;
  write_text EXERCISE_DIR "message.txt" build_message_base ;;
  discard (run_git ["init"; "-b"; "main"] true) ;;
  discard (run_git ["add"; "."] true) ;;
  discard (run_git ["commit"; "-m"; "Initial commit : message de base"] true) ;;
  discard (run_git ["checkout"; "-b"; "version-client"] true) ;;
  write_text EXERCISE_DIR "message.txt" build_message_client ;;
  discard (run_git ["add"; "message.txt"] true) ;;
  discard (run_git ["commit"; "-m"; "Slogan orienté client"] true) ;;
  discard (run_git ["checkout"; "main"] true) ;;
  discard (run_git ["checkout"; "-b"; "version-interne"] true) ;;
  write_text EXERCISE_DIR "message.txt" build_message_interne ;;
  discard (run_git ["add"; "message.txt"] true) ;;
  discard (run_git ["commit"; "-m"; "Slogan orienté innovation"] true) ;;
  discard (run_git ["checkout"; "version-client"] true) ;;
  discard (run_git ["merge"; "version-interne"] false).

Definition main (force : bool) : M Z :=
  reset_exercise_dir force ;;
  setup_git_repo ;;
  print (cat [nl; "✅ Exercice prêt !"]) ;;
  print_f [Lit ("📁 Dossier créé : "); Path EXERCISE_DIR] ;;
  print ("🌿 Branche actuelle : version-client") ;;
  print ("⚔️  CONFLIT créé dans message.txt (merge de version-interne en cours)") ;;
  print (cat [nl; "📚 Consignes :"; nl; "   1. Observez le conflit avec git status"; nl; "   2. Ouvrez message.txt et analysez les marqueurs de conflit"; nl; "   3. Éditez le fichier pour résoudre le conflit"; nl; "   4. Marquez le conflit comme résolu et finalisez le merge"; nl; nl; "💡 Bon courage !"; nl]) ;;
  ret 0%Z.

End Ex08.

(** [ex09_conflict_complex_setup.py] *)
Module Ex09.
Import Git Py.
Local Open Scope py_scope.

Definition EXERCISE_DIR : string := "ex09-conflict-complex".

Definition build_page_html_base : string := unlines [
  "<!DOCTYPE html>";
  cat ["<html lang="; dq; "fr"; dq; ">"];
  "<head>";
  cat ["    <meta charset="; dq; "UTF-8"; dq; ">"];
  "    <title>Ma Page</title>";
  "    <style>";
  "        body { font-family: Arial, sans-serif; margin: 0; }";
  "        header { padding: 1rem; background: #eee; }";
  "        main { padding: 2rem; }";
  "        footer { padding: 1rem; background: #eee; }";
  "    </style>";
  "</head>";
  "<body>";
  "    <header>";
  "        <h1>Titre du site</h1>";
  "    </header>";
  "    <main>";
  "        <p>Contenu principal de la page.</p>";
  "    </main>";
  "    <footer>";
  "        <p>Pied de page</p>";
  "    </footer>";
  "</body>";
  "</html>"
].

Definition build_page_html_design_v1 : string := unlines [
  "<!DOCTYPE html>";
  cat ["<html lang="; dq; "fr"; dq; ">"];
  "<head>";
  cat ["    <meta charset="; dq; "UTF-8"; dq; ">"];
  "    <title>Ma Page</title>";
  "    <style>";
  "        body { font-family: Arial, sans-serif; margin: 0; }";
  "        header { padding: 1rem; background: #eee; }";
  "        main { padding: 2rem; }";
  "        footer { padding: 1rem; background: #eee; }";
  "    </style>";
  "</head>";
  "<body>";
  "    <header>";
  "        <h1>🚀 Site Moderne</h1>";
  "        <nav>";
  cat ["            <a href="; dq; "#accueil"; dq; ">Accueil</a>"];
  cat ["            <a href="; dq; "#services"; dq; ">Services</a>"];
  "        </nav>";
  "    </header>";
  "    <main>";
  "        <p>Contenu principal de la page.</p>";
  "    </main>";
  "    <footer>";
  "        <p>© 2025 Site Moderne - Design V1</p>";
  "        <p>Suivez-nous sur les réseaux sociaux</p>";
  "    </footer>";
  "</body>";
  "</html>"
].

Definition build_page_html_design_v2 : string := unlines [
  "<!DOCTYPE html>";
  cat ["<html lang="; dq; "fr"; dq; ">"];
  "<head>";
  cat ["    <meta charset="; dq; "UTF-8"; dq; ">"];
  "    <title>Ma Page</title>";
  "    <style>";
  "        body { font-family: Arial, sans-serif; margin: 0; }";
  "        header { padding: 1rem; background: #eee; }";
  "        main { padding: 2rem; }";
  "        footer { padding: 1rem; background: #eee; }";
  "    </style>";
  "</head>";
  "<body>";
  "    <header>";
  "        <h1>Entreprise Corporate</h1>";
  cat ["        <p class="; dq; "tagline"; dq; ">Votre partenaire de confiance depuis 1990</p>"];
  "    </header>";
  "    <main>";
  "        <p>Contenu principal de la page.</p>";
  "    </main>";
  "    <footer>";
  "        <p>Entreprise Corporate SARL - Mentions légales</p>";
  "        <p>Contact : contact@corporate.fr</p>";
  "    </footer>";
  "</body>";
  "</html>"
].

Definition build_readme_content : string := unlines [
  "# 🔥 Exercice : Conflits multiples";
  EmptyString;
  "## 🎯 Objectif";
  "Résoudre un conflit impliquant PLUSIEURS sections d'un même fichier.";
  EmptyString;
  "## 📁 État initial";
  "- Branche `design-v1` modifie le header ET le footer (style moderne avec emojis)";
  "- Branche `design-v2` modifie aussi le header ET le footer (style corporate)";
  "- Un merge a été tenté → CONFLITS MULTIPLES dans `page.html`";
  EmptyString;
  "## 📊 Visualisation des conflits";
  "```";
  "page.html contient 2 blocs en conflit :";
  "- CONFLIT 1 : dans le <header>";
  "- CONFLIT 2 : dans le <footer>";
  "```";
  EmptyString;
  "## 📋 Étapes à suivre";
  EmptyString;
  "1. **Identifier les conflits** :";
  "   - Ouvrez `page.html`";
  "   - Comptez le nombre de blocs `<<<<<<<` ... `>>>>>>>`";
  EmptyString;
  "2. **Résoudre chaque bloc** :";
  "   - Pour le header : choisissez un style ou combinez les deux";
  "   - Pour le footer : idem";
  EmptyString;
  "3. **Vérifier la cohérence** :";
  "   - Le HTML doit rester valide";
  "   - Le style doit être cohérent (ne pas mélanger moderne et corporate)";
  EmptyString;
  "4. **Finaliser le merge** :";
  "   - Ajoutez le fichier résolu";
  "   - Créez le commit de merge";
  EmptyString;
  "## 💡 Astuces";
  "- Traitez les conflits UN PAR UN, de haut en bas";
  "- Gardez une vision globale : le résultat doit être cohérent";
  "- Vous pouvez créer une TROISIÈME version qui combine le meilleur des deux";
  EmptyString;
  "## 🔑 Concepts clés";
  "- Conflits multiples dans un même fichier";
  "- Stratégie de résolution cohérente";
  "- Importance de tester le résultat final"
].

Definition reset_exercise_dir (force : bool) : M unit :=
  found <- path_exists EXERCISE_DIR ;;
  when found (
    when (negb force) (
      eprint (cat ["⚠️  Le dossier ex09-conflict-complex existe déjà."; nl; "    Utilisez --force pour le recréer (attention : cela supprimera son contenu)."]) ;;
      sys_exit 1%Z
    ) ;;
    rmtree EXERCISE_DIR
  ) ;;
  mkdir EXERCISE_DIR.

Definition run_git (args : list string) (check : bool) : M completed :=
  subprocess_run ("git" :: args) (Some EXERCISE_DIR) check.

Definition setup_git_repo : M unit :=
  write_text EXERCISE_DIR "README.md" build_readme_content ;;
  write_text EXERCISE_DIR "page.html" build_page_html_base ;;
  discard (run_git ["init"; "-b"; "main"] true) ;;
  discard (run_git ["add"; "."] true) ;;
  discard (run_git ["commit"; "-m"; "Initial commit : page de base"] true) ;;
  discard (run_git ["checkout"; "-b"; "design-v1"] true) ;;
  write_text EXERCISE_DIR "page.html" build_page_html_design_v1 ;;
  discard (run_git ["add"; "page.html"] true) ;;
  discard (run_git ["commit"; "-m"; "Design moderne avec navigation et réseaux sociaux"] true) ;;
  discard (run_git ["checkout"; "main"] true) ;;
  discard (run_git ["checkout"; "-b"; "design-v2"] true) ;;
  write_text EXERCISE_DIR "page.html" build_page_html_design_v2 ;;
  discard (run_git ["add"; "page.html"] true) ;;
  discard (run_git ["commit"; "-m"; "Design corporate avec tagline et contact"] true) ;;
  discard (run_git ["checkout"; "design-v1"] true) ;;
  discard (run_git ["merge"; "design-v2"] false).

Definition main (force : bool) : M Z :=
  reset_exercise_dir force ;;
  setup_git_repo ;;
  print (cat [nl; "✅ Exercice prêt !"]) ;;
  print_f [Lit ("📁 Dossier créé : "); Path EXERCISE_DIR] ;;
  print ("🌿 Branche actuelle : design-v1") ;;
  print ("🔥 CONFLITS MULTIPLES créés dans page.html (merge de design-v2 en cours)") ;;
  print (cat [nl; "📚 Consignes :"; nl; "   1. Identifiez le nombre de blocs en conflit"; nl; "   2. Résolvez chaque conflit de manière cohérente"; nl; "   3. Vérifiez que le HTML final est valide"; nl; "   4. Finalisez le merge avec un commit"; nl; nl; "💡 Bon courage !"; nl]) ;;
  ret 0%Z.

End Ex09.

(** [ex10_stash_setup.py] *)
Module Ex10.
Import Git Py.
Local Open Scope py_scope.

Definition EXERCISE_DIR : string := "ex10-stash".

Definition build_form_html_base : string := unlines [
  "<!DOCTYPE html>";
  cat ["<html lang="; dq; "fr"; dq; ">"];
  "<head>";
  cat ["    <meta charset="; dq; "UTF-8"; dq; ">"];
  "    <title>Formulaire de contact</title>";
  cat ["    <link rel="; dq; "stylesheet"; dq; " href="; dq; "style.css"; dq; ">"];
  "</head>";
  "<body>";
  "    <h1>Contactez-nous</h1>";
  "    <form>";
  cat ["        <label for="; dq; "name"; dq; ">Nom :</label>"];
  cat ["        <input type="; dq; "text"; dq; " id="; dq; "name"; dq; " name="; dq; "name"; dq; ">"];
  EmptyString;
  cat ["        <label for="; dq; "email"; dq; ">Email :</label>"];
  cat ["        <input type="; dq; "email"; dq; " id="; dq; "email"; dq; " name="; dq; "email"; dq; ">"];
  EmptyString;
  cat ["        <button type="; dq; "submit"; dq; ">Envoyer</button>"];
  "    </form>";
  "</body>";
  "</html>"
].

Definition build_form_html_modified : string := unlines [
  "<!DOCTYPE html>";
  cat ["<html lang="; dq; "fr"; dq; ">"];
  "<head>";
  cat ["    <meta charset="; dq; "UTF-8"; dq; ">"];
  "    <title>Formulaire de contact</title>";
  cat ["    <link rel="; dq; "stylesheet"; dq; " href="; dq; "style.css"; dq; ">"];
  "</head>";
  "<body>";
  "    <h1>Contactez-nous</h1>";
  "    <form>";
  cat ["        <label for="; dq; "name"; dq; ">Nom :</label>"];
  cat ["        <input type="; dq; "text"; dq; " id="; dq; "name"; dq; " name="; dq; "name"; dq; " required>"];
  EmptyString;
  cat ["        <label for="; dq; "email"; dq; ">Email :</label>"];
  cat ["        <input type="; dq; "email"; dq; " id="; dq; "email"; dq; " name="; dq; "email"; dq; " required>"];
  EmptyString;
  cat ["        <label for="; dq; "subject"; dq; ">Sujet :</label>"];
  cat ["        <input type="; dq; "text"; dq; " id="; dq; "subject"; dq; " name="; dq; "subject"; dq; ">"];
  EmptyString;
  cat ["        <label for="; dq; "message"; dq; ">Message :</label>"];
  cat ["        <textarea id="; dq; "message"; dq; " name="; dq; "message"; dq; " rows="; dq; "5"; dq; "></textarea>"];
  EmptyString;
  "        <!-- TODO: Ajouter la validation côté client -->";
  EmptyString;
  cat ["        <button type="; dq; "submit"; dq; ">Envoyer</button>"];
  "    </form>";
  "</body>";
  "</html>"
].

Definition build_style_css_base : string := unlines [
  "/* Styles du formulaire */";
  "body {";
  "    font-family: Arial, sans-serif;";
  "    max-width: 600px;";
  "    margin: 2rem auto;";
  "    padding: 0 1rem;";
  "}";
  EmptyString;
  "h1 {";
  "    color: #333;";
  "}";
  EmptyString;
  "form {";
  "    display: flex;";
  "    flex-direction: column;";
  "    gap: 1rem;";
  "}";
  EmptyString;
  "label {";
  "    font-weight: bold;";
  "}";
  EmptyString;
  "input, button {";
  "    padding: 0.5rem;";
  "    font-size: 1rem;";
  "}";
  EmptyString;
  "button {";
  "    background: #007bff;";
  "    color: white;";
  "    border: none;";
  "    cursor: pointer;";
  "}"
].

Definition build_style_css_modified : string := unlines [
  "/* Styles du formulaire - EN COURS DE REFONTE */";
  "body {";
  "    font-family: 'Segoe UI', Arial, sans-serif;";
  "    max-width: 600px;";
  "    margin: 2rem auto;";
  "    padding: 0 1rem;";
  "    background-color: #f5f5f5;";
  "}";
  EmptyString;
  "h1 {";
  "    color: #2c3e50;";
  "    border-bottom: 2px solid #3498db;";
  "    padding-bottom: 0.5rem;";
  "}";
  EmptyString;
  "form {";
  "    display: flex;";
  "    flex-direction: column;";
  "    gap: 1rem;";
  "    background: white;";
  "    padding: 2rem;";
  "    border-radius: 8px;";
  "    box-shadow: 0 2px 10px rgba(0,0,0,0.1);";
  "}";
  EmptyString;
  "label {";
  "    font-weight: bold;";
  "    color: #555;";
  "}";
  EmptyString;
  "input, textarea, button {";
  "    padding: 0.75rem;";
  "    font-size: 1rem;";
  "    border: 1px solid #ddd;";
  "    border-radius: 4px;";
  "}";
  EmptyString;
  "input:focus, textarea:focus {";
  "    outline: none;";
  "    border-color: #3498db;";
  "    /* TODO: Ajouter box-shadow */";
  "}";
  EmptyString;
  "button {";
  "    background: #3498db;";
  "    color: white;";
  "    border: none;";
  "    cursor: pointer;";
  "    transition: background 0.3s;";
  "}";
  EmptyString;
  "button:hover {";
  "    background: #2980b9;";
  "}"
].

Definition build_readme_content : string := unlines [
  "# 📦 Exercice : Utiliser git stash";
  EmptyString;
  "## 🎯 Objectif";
  "Apprendre à mettre de côté des modifications non terminées pour y revenir plus tard.";
  EmptyString;
  "## 📁 État initial";
  "- Branche `feature-form` avec un travail EN COURS (non commité)";
  "- `form.html` : nouveaux champs ajoutés + TODO";
  "- `style.css` : refonte du design en cours + TODO";
  "- Ces modifications ne sont PAS prêtes à être commitées";
  EmptyString;
  "## 🎭 Scénario";
  "Vous êtes en train de développer le formulaire quand on vous demande";
  "de corriger un bug URGENT sur la branche `main`. Vous devez mettre";
  "votre travail de côté temporairement !";
  EmptyString;
  "## 📋 Étapes à suivre";
  EmptyString;
  "1. **Constater le travail en cours** : Vérifiez l'état du dépôt et les modifications";
  EmptyString;
  "2. **Mettre de côté avec stash** : Sauvegardez temporairement votre travail";
  EmptyString;
  "3. **Vérifier le résultat** :";
  "   - Le working directory doit être propre";
  "   - Vos fichiers sont revenus à leur état commité";
  EmptyString;
  "4. **Simuler un travail urgent** : (Optionnel) Basculez sur main, faites un fix";
  EmptyString;
  "5. **Restaurer votre travail** : Récupérez vos modifications mises de côté";
  EmptyString;
  "6. **Finaliser** : Terminez le travail et créez un commit";
  EmptyString;
  "## 💡 Astuces";
  "- `git stash list` pour voir les stashs sauvegardés";
  "- `git stash show` pour voir le contenu d'un stash";
  "- Vous pouvez avoir PLUSIEURS stashs (pile LIFO)";
  EmptyString;
  "## 🔑 Concepts clés";
  "- `git stash` : sauvegarder temporairement";
  "- `git stash pop` : restaurer et supprimer le stash";
  "- `git stash apply` : restaurer sans supprimer le stash";
  "- Pile de stashs pour gérer plusieurs interruptions"
].

Definition reset_exercise_dir (force : bool) : M unit :=
  found <- path_exists EXERCISE_DIR ;;
  when found (
    when (negb force) (
      eprint (cat ["⚠️  Le dossier ex10-stash existe déjà."; nl; "    Utilisez --force pour le recréer (attention : cela supprimera son contenu)."]) ;;
      sys_exit 1%Z
    ) ;;
    rmtree EXERCISE_DIR
  ) ;;
  mkdir EXERCISE_DIR.

Definition run_git (args : list string) : M unit :=
  discard (subprocess_run ("git" :: args) (Some EXERCISE_DIR) true).

Definition setup_git_repo : M unit :=
  write_text EXERCISE_DIR "README.md" build_readme_content ;;
  write_text EXERCISE_DIR "form.html" build_form_html_base ;;
  write_text EXERCISE_DIR "style.css" build_style_css_base ;;
  run_git ["init"; "-b"; "main"] ;;
  run_git ["add"; "."] ;;
  run_git ["commit"; "-m"; "Initial commit : formulaire de base"] ;;
  run_git ["checkout"; "-b"; "feature-form"] ;;
  write_text EXERCISE_DIR "form.html" build_form_html_modified ;;
  write_text EXERCISE_DIR "style.css" build_style_css_modified.

Definition main (force : bool) : M Z :=
  reset_exercise_dir force ;;
  setup_git_repo ;;
  print (cat [nl; "✅ Exercice prêt !"]) ;;
  print_f [Lit ("📁 Dossier créé : "); Path EXERCISE_DIR] ;;
  print ("🌿 Branche actuelle : feature-form") ;;
  print ("⚡ Travail en cours (non commité) dans form.html et style.css") ;;
  print (cat [nl; "📚 Consignes :"; nl; "   1. Constatez les changements avec git status"; nl; "   2. Mettez de côté le travail avec git stash"; nl; "   3. Vérifiez que le working directory est propre"; nl; "   4. Restaurez les changements et finalisez avec un commit"; nl; nl; "💡 Bon courage !"; nl]) ;;
  ret 0%Z.

End Ex10.

(** [ex11_revert_setup.py] *)
Module Ex11.
Import Git Py.
Local Open Scope py_scope.

Definition EXERCISE_DIR : string := "ex11-revert".

Definition build_index_html : string := unlines [
  "<!DOCTYPE html>";
  cat ["<html lang="; dq; "fr"; dq; ">"];
  "<head>";
  cat ["    <meta charset="; dq; "UTF-8"; dq; ">"];
  "    <title>Mon Application</title>";
  cat ["    <link rel="; dq; "stylesheet"; dq; " href="; dq; "style.css"; dq; ">"];
  cat ["    <script src="; dq; "bug.js"; dq; " defer></script>"];
  "</head>";
  "<body>";
  "    <h1>Mon Application</h1>";
  "    <p>Une application simple et fonctionnelle.</p>";
  cat ["    <button id="; dq; "action"; dq; ">Cliquez-moi</button>"];
  "</body>";
  "</html>"
].

Definition build_style_css : string := unlines [
  "body {";
  "    font-family: Arial, sans-serif;";
  "    max-width: 800px;";
  "    margin: 2rem auto;";
  "    padding: 0 1rem;";
  "}";
  EmptyString;
  "h1 {";
  "    color: #2c3e50;";
  "}";
  EmptyString;
  "button {";
  "    padding: 1rem 2rem;";
  "    background: #3498db;";
  "    color: white;";
  "    border: none;";
  "    border-radius: 4px;";
  "    cursor: pointer;";
  "}";
  EmptyString;
  "button:hover {";
  "    background: #2980b9;";
  "}"
].

Definition build_bug_js : string := unlines [
  "// Script de l'application";
  "// ⚠️ ATTENTION : Ce code contient un bug !";
  EmptyString;
  "document.getElementById('action').addEventListener('click', function() {";
  "    // BUG: Cette ligne provoque une erreur !";
  "    undefinedFunction();  // ReferenceError: undefinedFunction is not defined";
  EmptyString;
  "    alert('Action effectuée !');";
  "});";
  EmptyString;
  "// Ce code ne devrait jamais avoir été commité...";
  "console.log('Debug mode activé - NE PAS DEPLOYER EN PRODUCTION');"
].

Definition build_readme_content : string := unlines [
  "# ↩️ Exercice : Revert d'un commit fautif";
  EmptyString;
  "## 🎯 Objectif";
  "Apprendre à annuler un commit sans réécrire l'historique.";
  EmptyString;
  "## 📁 État initial";
  "Le dépôt contient 3 commits :";
  "1. `Ajout de index.html` — Structure de base ✅";
  "2. `Ajout de style.css` — Styles de l'application ✅";
  "3. `Ajout de bug.js` — ⚠️ Introduit du code buggé !";
  EmptyString;
  "## 🐛 Le problème";
  "Le fichier `bug.js` contient :";
  "- Un appel à une fonction inexistante (`undefinedFunction()`)";
  "- Des logs de debug qui ne devraient pas être en production";
  EmptyString;
  "## 📋 Étapes à suivre";
  EmptyString;
  "1. **Identifier le commit fautif** :";
  "   - Consultez l'historique des commits";
  "   - Repérez le commit qui a introduit `bug.js`";
  EmptyString;
  "2. **Annuler le commit avec revert** :";
  "   - Utilisez `git revert` sur le commit identifié";
  "   - Git créera un NOUVEAU commit qui annule les changements";
  EmptyString;
  "3. **Vérifier le résultat** :";
  "   - Le fichier `bug.js` doit avoir été supprimé (ou son contenu annulé)";
  "   - L'historique contient toujours le commit original + le revert";
  EmptyString;
  "## 💡 Astuces";
  "- `git revert` ne supprime PAS le commit original";
  cat ["- Il crée un nouveau commit qui "; dq; "défait"; dq; " les changements"];
  "- C'est la méthode sûre pour corriger un historique partagé";
  EmptyString;
  "## 🔑 Concepts clés";
  "- `git revert <commit>` : annuler un commit proprement";
  "- Historique immuable : on ajoute, on ne supprime pas";
  "- Différence avec `reset` : revert est sûr pour les dépôts partagés"
].

Definition reset_exercise_dir (force : bool) : M unit :=
  found <- path_exists EXERCISE_DIR ;;
  when found (
    when (negb force) (
      eprint (cat ["⚠️  Le dossier ex11-revert existe déjà."; nl; "    Utilisez --force pour le recréer (attention : cela supprimera son contenu)."]) ;;
      sys_exit 1%Z
    ) ;;
    rmtree EXERCISE_DIR
  ) ;;
  mkdir EXERCISE_DIR.

Definition run_git (args : list string) : M unit :=
  discard (subprocess_run ("git" :: args) (Some EXERCISE_DIR) true).

Definition setup_git_repo : M unit :=
  run_git ["init"; "-b"; "main"] ;;
  write_text EXERCISE_DIR "README.md" build_readme_content ;;
  write_text EXERCISE_DIR "index.html" build_index_html ;;
  run_git ["add"; "README.md"; "index.html"] ;;
  run_git ["commit"; "-m"; "Ajout de index.html"] ;;
  write_text EXERCISE_DIR "style.css" build_style_css ;;
  run_git ["add"; "style.css"] ;;
  run_git ["commit"; "-m"; "Ajout de style.css"] ;;
  write_text EXERCISE_DIR "bug.js" build_bug_js ;;
  run_git ["add"; "bug.js"] ;;
  run_git ["commit"; "-m"; "Ajout de bug.js"].

Definition main (force : bool) : M Z :=
  reset_exercise_dir force ;;
  setup_git_repo ;;
  print (cat [nl; "✅ Exercice prêt !"]) ;;
  print_f [Lit ("📁 Dossier créé : "); Path EXERCISE_DIR] ;;
  print ("📄 Fichiers : index.html, style.css, bug.js") ;;
  print ("🔧 3 commits créés (le dernier introduit un bug)") ;;
  print (cat [nl; "📚 Consignes :"; nl; "   1. Identifiez le commit qui introduit le bug"; nl; "   2. Utilisez git revert pour annuler ce commit"; nl; "   3. Vérifiez que le bug est corrigé"; nl; "   4. Observez que l'historique contient le revert"; nl; nl; "💡 Bon courage !"; nl]) ;;
  ret 0%Z.

End Ex11.

(** [ex12_reset_setup.py] *)
Module Ex12.
Import Git Py.
Local Open Scope py_scope.

Definition EXERCISE_DIR : string := "ex12-reset".

Definition build_notes_v1 : string := unlines [
  "# Mes Notes";
  EmptyString;
  "## Introduction";
  "Ceci est mon fichier de notes pour le projet."
].

Definition build_notes_v2 : string := unlines [
  "# Mes Notes";
  EmptyString;
  "## Introduction";
  "Ceci est mon fichier de notes pour le projet.";
  EmptyString;
  "## Idées";
  "- Implémenter la fonctionnalité A";
  "- Refactorer le module B";
  "- Ajouter des tests unitaires"
].

Definition build_notes_v3 : string := unlines [
  "# Mes Notes";
  EmptyString;
  "## Introduction";
  "Ceci est mon fichier de notes pour le projet.";
  EmptyString;
  "## Idées";
  "- Implémenter la fonctionnalité A";
  "- Refactorer le module B";
  "- Ajouter des tests unitaires";
  EmptyString;
  "## TODO";
  "- [ ] Revoir l'architecture";
  "- [ ] Documenter l'API";
  "- [ ] Préparer la démo"
].

Definition build_readme_content : string := unlines [
  "# 🔄 Exercice : Reset soft et hard";
  EmptyString;
  "## 🎯 Objectif";
  "Comprendre les différents types de reset et leurs effets.";
  EmptyString;
  "## 📁 État initial";
  "Le dépôt contient 3 commits sur `notes.md` :";
  "1. `Notes v1` — Introduction";
  "2. `Notes v2` — Ajout des idées";
  "3. `Notes v3` — Ajout des TODO";
  EmptyString;
  "## 📊 Les 3 types de reset";
  EmptyString;
  "| Mode | HEAD | Index (staging) | Working directory |";
  "|------|------|-----------------|-------------------|";
  "| `--soft` | ✅ Déplacé | ❌ Inchangé | ❌ Inchangé |";
  "| `--mixed` (défaut) | ✅ Déplacé | ✅ Réinitialisé | ❌ Inchangé |";
  "| `--hard` | ✅ Déplacé | ✅ Réinitialisé | ✅ Réinitialisé |";
  EmptyString;
  "## 📋 Étapes à suivre";
  EmptyString;
  "### Partie 1 : Reset --soft";
  "1. Notez le hash du commit 1 avec `git log --oneline`";
  "2. Faites `git reset --soft <hash-commit-1>`";
  "3. Observez : `git status` montre les changements des commits 2 et 3 dans l'index";
  "4. Le fichier `notes.md` contient toujours le contenu v3 !";
  EmptyString;
  "### Partie 2 : Recréer l'historique";
  "5. Créez un nouveau commit avec ces changements";
  cat ["6. Vous avez "; dq; "fusionné"; dq; " les commits 2 et 3 en un seul !"];
  EmptyString;
  "### Partie 3 : Reset --hard (⚠️ DANGER)";
  "7. Ajoutez quelques modifications à `notes.md` (sans commiter)";
  "8. Faites `git reset --hard HEAD~1`";
  "9. Observez : les modifications ET le dernier commit sont PERDUS !";
  EmptyString;
  "## ⚠️ Avertissement";
  "`git reset --hard` est DESTRUCTIF ! Les modifications non commitées sont perdues définitivement.";
  EmptyString;
  "## 💡 Astuces";
  "- `HEAD~1` = le commit parent de HEAD";
  "- `HEAD~2` = 2 commits avant HEAD";
  cat ["- Utilisez `git reflog` pour récupérer des commits "; dq; "perdus"; dq];
  EmptyString;
  "## 🔑 Concepts clés";
  "- `git reset --soft` : garde tout sauf le pointeur HEAD";
  "- `git reset --mixed` : vide l'index mais garde les fichiers";
  "- `git reset --hard` : remet tout à l'état du commit cible"
].

Definition reset_exercise_dir (force : bool) : M unit :=
  found <- path_exists EXERCISE_DIR ;;
  when found (
    when (negb force) (
      eprint (cat ["⚠️  Le dossier ex12-reset existe déjà."; nl; "    Utilisez --force pour le recréer (attention : cela supprimera son contenu)."]) ;;
      sys_exit 1%Z
    ) ;;
    rmtree EXERCISE_DIR
  ) ;;
  mkdir EXERCISE_DIR.

Definition run_git (args : list string) : M unit :=
  discard (subprocess_run ("git" :: args) (Some EXERCISE_DIR) true).

Definition setup_git_repo : M unit :=
  run_git ["init"; "-b"; "main"] ;;
  write_text EXERCISE_DIR "README.md" build_readme_content ;;
  run_git ["add"; "README.md"] ;;
  run_git ["commit"; "-m"; "Ajout du README"] ;;
  write_text EXERCISE_DIR "notes.md" build_notes_v1 ;;
  run_git ["add"; "notes.md"] ;;
  run_git ["commit"; "-m"; "Notes v1 : introduction"] ;;
  write_text EXERCISE_DIR "notes.md" build_notes_v2 ;;
  run_git ["add"; "notes.md"] ;;
  run_git ["commit"; "-m"; "Notes v2 : ajout des idées"] ;;
  write_text EXERCISE_DIR "notes.md" build_notes_v3 ;;
  run_git ["add"; "notes.md"] ;;
  run_git ["commit"; "-m"; "Notes v3 : ajout des TODO"].

Definition main (force : bool) : M Z :=
  reset_exercise_dir force ;;
  setup_git_repo ;;
  print (cat [nl; "✅ Exercice prêt !"]) ;;
  print_f [Lit ("📁 Dossier créé : "); Path EXERCISE_DIR] ;;
  print ("📄 Fichiers : README.md, notes.md") ;;
  print ("🔧 4 commits créés (README + 3 versions de notes.md)") ;;
  print (cat [nl; "📚 Consignes :"; nl; "   1. Consultez l'historique avec git log"; nl; "   2. Expérimentez git reset --soft vers un commit antérieur"; nl; "   3. Observez l'état de l'index et du working directory"; nl; "   4. Testez git reset --hard (attention : destructif !)"; nl; nl; "💡 Bon courage !"; nl]) ;;
  ret 0%Z.

End Ex12.

(** [ex13_rebase_setup.py] *)
Module Ex13.
Import Git Py.
Local Open Scope py_scope.

Definition EXERCISE_DIR : string := "ex13-rebase".

Definition build_index_html_base : string := unlines [
  "<!DOCTYPE html>";
  cat ["<html lang="; dq; "fr"; dq; ">"];
  "<head>";
  cat ["    <meta charset="; dq; "UTF-8"; dq; ">"];
  "    <title>Mon Blog</title>";
  "</head>";
  "<body>";
  "    <h1>Mon Blog</h1>";
  "</body>";
  "</html>"
].

Definition build_index_html_with_nav : string := unlines [
  "<!DOCTYPE html>";
  cat ["<html lang="; dq; "fr"; dq; ">"];
  "<head>";
  cat ["    <meta charset="; dq; "UTF-8"; dq; ">"];
  "    <title>Mon Blog</title>";
  "</head>";
  "<body>";
  "    <nav>";
  cat ["        <a href="; dq; "/"; dq; ">Accueil</a>"];
  cat ["        <a href="; dq; "/articles"; dq; ">Articles</a>"];
  "    </nav>";
  "    <h1>Mon Blog</h1>";
  "</body>";
  "</html>"
].

Definition build_index_html_with_footer : string := unlines [
  "<!DOCTYPE html>";
  cat ["<html lang="; dq; "fr"; dq; ">"];
  "<head>";
  cat ["    <meta charset="; dq; "UTF-8"; dq; ">"];
  "    <title>Mon Blog</title>";
  "</head>";
  "<body>";
  "    <nav>";
  cat ["        <a href="; dq; "/"; dq; ">Accueil</a>"];
  cat ["        <a href="; dq; "/articles"; dq; ">Articles</a>"];
  "    </nav>";
  "    <h1>Mon Blog</h1>";
  "    <footer>";
  "        <p>© 2025 Mon Blog</p>";
  "    </footer>";
  "</body>";
  "</html>"
].

Definition build_content_md_v1 : string := unlines [
  "# Contenu du site";
  EmptyString;
  "## Article 1 : Introduction à Git";
  "Git est un système de contrôle de version distribué."
].

Definition build_content_md_v2 : string := unlines [
  "# Contenu du site";
  EmptyString;
  "## Article 1 : Introduction à Git";
  "Git est un système de contrôle de version distribué.";
  EmptyString;
  "## Article 2 : Les branches";
  "Les branches permettent de travailler en parallèle sur différentes fonctionnalités."
].

Definition build_readme_content : string := unlines [
  "# 📐 Exercice : Rebase simple";
  EmptyString;
  "## 🎯 Objectif";
  "Utiliser `git rebase` pour aligner une branche sur `main` et obtenir un historique linéaire.";
  EmptyString;
  "## 📁 État initial";
  "```";
  "main:           A --- B (nav) --- C (footer)";
  cat ["                 "; bs];
  "feature-content:  D (article 1) --- E (article 2)";
  "```";
  EmptyString;
  "- `main` a avancé de 2 commits (navigation + footer)";
  "- `feature-content` a 2 commits (articles)";
  "- Les modifications touchent des fichiers DIFFÉRENTS → pas de conflit";
  EmptyString;
  "## 📋 Étapes à suivre";
  EmptyString;
  "1. **Visualiser l'historique** :";
  "   - `git log --oneline --graph --all`";
  "   - Notez la divergence entre les branches";
  EmptyString;
  "2. **Se placer sur feature-content** : `git checkout feature-content`";
  EmptyString;
  "3. **Rebaser sur main** : `git rebase main`";
  EmptyString;
  "4. **Observer le résultat** :";
  "   - `git log --oneline --graph --all`";
  "   - L'historique est maintenant LINÉAIRE !";
  EmptyString;
  "## 📊 Résultat attendu";
  "```";
  "main:           A --- B --- C";
  cat ["                             "; bs];
  "feature-content:              D' --- E'";
  "```";
  cat ["Les commits D et E ont été "; dq; "rejoués"; dq; " sur C (nouveaux hashs D' et E')."];
  EmptyString;
  "## 💡 Astuces";
  "- Rebase réécrit l'historique (nouveaux hashs de commit)";
  "- Ne JAMAIS rebaser des commits déjà poussés sur un dépôt partagé !";
  "- En cas de conflit, résolvez puis `git rebase --continue`";
  EmptyString;
  "## 🔑 Concepts clés";
  "- `git rebase <branche>` : rejouer les commits sur une nouvelle base";
  "- Historique linéaire vs historique avec merges";
  "- Réécriture d'historique LOCAL uniquement"
].

Definition reset_exercise_dir (force : bool) : M unit :=
  found <- path_exists EXERCISE_DIR ;;
  when found (
    when (negb force) (
      eprint (cat ["⚠️  Le dossier ex13-rebase existe déjà."; nl; "    Utilisez --force pour le recréer (attention : cela supprimera son contenu)."]) ;;
      sys_exit 1%Z
    ) ;;
    rmtree EXERCISE_DIR
  ) ;;
  mkdir EXERCISE_DIR.

Definition run_git (args : list string) : M unit :=
  discard (subprocess_run ("git" :: args) (Some EXERCISE_DIR) true).

Definition setup_git_repo : M unit :=
  run_git ["init"; "-b"; "main"] ;;
  write_text EXERCISE_DIR "README.md" build_readme_content ;;
  write_text EXERCISE_DIR "index.html" build_index_html_base ;;
  run_git ["add"; "."] ;;
  run_git ["commit"; "-m"; "Initial commit"] ;;
  run_git ["checkout"; "-b"; "feature-content"] ;;
  write_text EXERCISE_DIR "content.md" build_content_md_v1 ;;
  run_git ["add"; "content.md"] ;;
  run_git ["commit"; "-m"; "Ajout article 1 : Introduction à Git"] ;;
  write_text EXERCISE_DIR "content.md" build_content_md_v2 ;;
  run_git ["add"; "content.md"] ;;
  run_git ["commit"; "-m"; "Ajout article 2 : Les branches"] ;;
  run_git ["checkout"; "main"] ;;
  write_text EXERCISE_DIR "index.html" build_index_html_with_nav ;;
  run_git ["add"; "index.html"] ;;
  run_git ["commit"; "-m"; "Ajout de la navigation"] ;;
  write_text EXERCISE_DIR "index.html" build_index_html_with_footer ;;
  run_git ["add"; "index.html"] ;;
  run_git ["commit"; "-m"; "Ajout du footer"] ;;
  run_git ["checkout"; "feature-content"].

Definition main (force : bool) : M Z :=
  reset_exercise_dir force ;;
  setup_git_repo ;;
  print (cat [nl; "✅ Exercice prêt !"]) ;;
  print_f [Lit ("📁 Dossier créé : "); Path EXERCISE_DIR] ;;
  print ("🌿 Branche actuelle : feature-content (2 commits)") ;;
  print ("🌿 Branche main : 2 commits d'avance") ;;
  print ("🔧 Les branches ont divergé → prêt pour un rebase") ;;
  print (cat [nl; "📚 Consignes :"; nl; "   1. Visualisez l'historique des deux branches"; nl; "   2. Depuis feature-content, rebasez sur main"; nl; "   3. Comparez l'historique avant et après"; nl; "   4. Observez l'historique linéaire obtenu"; nl; nl; "💡 Bon courage !"; nl]) ;;
  ret 0%Z.

End Ex13.

(** [ex14_rebase_i_setup.py] *)
Module Ex14.
Import Git Py.
Local Open Scope py_scope.

Definition EXERCISE_DIR : string := "ex14-rebase-i".

Definition build_navbar_v1 : string := unlines [
  "<nav>";
  "</nav>"
].

Definition build_navbar_v2 : string := unlines [
  "<nav>";
  cat ["    <a href="; dq; "/"; dq; ">Home</a>"];
  "</nav>"
].

Definition build_navbar_v3 : string := unlines [
  "<nav>";
  cat ["    <a href="; dq; "/"; dq; ">Accueil</a>"];
  "</nav>"
].

Definition build_navbar_v4 : string := unlines [
  "<nav>";
  cat ["    <a href="; dq; "/"; dq; ">Accueil</a>"];
  cat ["    <a href="; dq; "/about"; dq; ">About</a>"];
  "</nav>"
].

Definition build_navbar_v5 : string := unlines [
  cat ["<nav class="; dq; "main-nav"; dq; ">"];
  cat ["    <a href="; dq; "/"; dq; ">Accueil</a>"];
  cat ["    <a href="; dq; "/about"; dq; ">À propos</a>"];
  cat ["    <a href="; dq; "/contact"; dq; ">Contact</a>"];
  "</nav>"
].

Definition build_readme_content : string := unlines [
  "# ✨ Exercice : Rebase interactif";
  EmptyString;
  "## 🎯 Objectif";
  "Utiliser `git rebase -i` pour nettoyer l'historique : fusionner des commits, renommer des messages.";
  EmptyString;
  "## 📁 État initial";
  "La branche `feature-navbar` contient 5 commits peu parlants :";
  "1. `wip` — Navbar vide";
  "2. `wip2` — Ajout d'un lien";
  "3. `fix typo` — Correction Home → Accueil";
  "4. `wip` — Ajout d'un autre lien";
  "5. `done` — Version finale avec classe CSS";
  EmptyString;
  "Ces messages ne sont pas professionnels et l'historique est pollué !";
  EmptyString;
  "## 📋 Étapes à suivre";
  EmptyString;
  "1. **Examiner l'historique** : `git log --oneline`";
  EmptyString;
  "2. **Lancer le rebase interactif** : `git rebase -i HEAD~5`";
  EmptyString;
  "3. **Dans l'éditeur, vous pouvez** :";
  "   - `pick` : garder le commit tel quel";
  "   - `reword` (ou `r`) : modifier le message du commit";
  "   - `squash` (ou `s`) : fusionner avec le commit précédent";
  "   - `fixup` (ou `f`) : fusionner sans garder le message";
  "   - `drop` (ou `d`) : supprimer le commit";
  EmptyString;
  "4. **Suggestion de nettoyage** :";
  "   - Fusionner les commits 1-4 en un seul";
  "   - Garder le commit 5 avec un bon message";
  "   - Résultat : 1 ou 2 commits propres";
  EmptyString;
  "5. **Vérifier le résultat** : `git log --oneline`";
  EmptyString;
  "## 💡 Astuces";
  "- Sauvegardez et fermez l'éditeur pour appliquer les changements";
  "- En cas d'erreur : `git rebase --abort` pour annuler";
  "- Les commits sont listés du plus ancien au plus récent (ordre inverse du log)";
  EmptyString;
  "## 🔑 Concepts clés";
  "- `git rebase -i` : réécriture interactive de l'historique";
  "- `squash` : fusionner des commits";
  "- `reword` : renommer un message";
  "- Qualité de l'historique pour la collaboration"
].

Definition reset_exercise_dir (force : bool) : M unit :=
  found <- path_exists EXERCISE_DIR ;;
  when found (
    when (negb force) (
      eprint (cat ["⚠️  Le dossier ex14-rebase-i existe déjà."; nl; "    Utilisez --force pour le recréer (attention : cela supprimera son contenu)."]) ;;
      sys_exit 1%Z
    ) ;;
    rmtree EXERCISE_DIR
  ) ;;
  mkdir EXERCISE_DIR.

Definition run_git (args : list string) : M unit :=
  discard (subprocess_run ("git" :: args) (Some EXERCISE_DIR) true).

Definition setup_git_repo : M unit :=
  run_git ["init"; "-b"; "main"] ;;
  write_text EXERCISE_DIR "README.md" build_readme_content ;;
  write_text EXERCISE_DIR "index.html" "<html><body></body></html>" ;;
  run_git ["add"; "."] ;;
  run_git ["commit"; "-m"; "Initial commit"] ;;
  run_git ["checkout"; "-b"; "feature-navbar"] ;;
  write_text EXERCISE_DIR "navbar.html" build_navbar_v1 ;;
  run_git ["add"; "navbar.html"] ;;
  run_git ["commit"; "-m"; "wip"] ;;
  write_text EXERCISE_DIR "navbar.html" build_navbar_v2 ;;
  run_git ["add"; "navbar.html"] ;;
  run_git ["commit"; "-m"; "wip2"] ;;
  write_text EXERCISE_DIR "navbar.html" build_navbar_v3 ;;
  run_git ["add"; "navbar.html"] ;;
  run_git ["commit"; "-m"; "fix typo"] ;;
  write_text EXERCISE_DIR "navbar.html" build_navbar_v4 ;;
  run_git ["add"; "navbar.html"] ;;
  run_git ["commit"; "-m"; "wip"] ;;
  write_text EXERCISE_DIR "navbar.html" build_navbar_v5 ;;
  run_git ["add"; "navbar.html"] ;;
  run_git ["commit"; "-m"; "done"].

Definition main (force : bool) : M Z :=
  reset_exercise_dir force ;;
  setup_git_repo ;;
  print (cat [nl; "✅ Exercice prêt !"]) ;;
  print_f [Lit ("📁 Dossier créé : "); Path EXERCISE_DIR] ;;
  print ("🌿 Branche actuelle : feature-navbar") ;;
  print ("📝 5 commits avec des messages peu parlants (wip, wip2, fix typo...)") ;;
  print (cat [nl; "📚 Consignes :"; nl; "   1. Examinez l'historique de feature-navbar"; nl; "   2. Lancez un rebase interactif pour nettoyer"; nl; "   3. Fusionnez et renommez les commits"; nl; "   4. Vérifiez le nouvel historique propre"; nl; nl; "💡 Bon courage !"; nl]) ;;
  ret 0%Z.

End Ex14.

(** [ex15_remote_setup.py] *)
Module Ex15.
Import Git Py.
Local Open Scope py_scope.

Definition REMOTE_REPO : string := "remote-repo.git".
Definition EXERCISE_DIR : string := "ex15-remote".

Definition build_readme_content : string := unlines [
  "# Projet Partagé";
  EmptyString;
  "Ce projet est partagé via un dépôt distant.";
  EmptyString;
  "## Installation";
  "1. Cloner le dépôt";
  "2. Installer les dépendances";
  "3. Lancer l'application"
].

Definition build_readme_updated : string := unlines [
  "# Projet Partagé";
  EmptyString;
  "Ce projet est partagé via un dépôt distant.";
  EmptyString;
  "## Installation";
  "1. Cloner le dépôt";
  "2. Installer les dépendances";
  "3. Lancer l'application";
  EmptyString;
  "## Nouveautés v1.1";
  "- Correction de bugs importants";
  "- Amélioration des performances";
  "- Nouvelle documentation"
].

Definition build_exercise_readme : string := unlines [
  "# 🌐 Exercice : Travailler avec un dépôt distant";
  EmptyString;
  "## 🎯 Objectif";
  "Comprendre les notions de remote, fetch et pull.";
  EmptyString;
  "## 📁 État initial";
  cat ["- Un dépôt "; dq; "distant"; dq; " simulé : `remote-repo.git` (dépôt bare)"];
  "- Votre copie locale : `ex15-remote` (clone du dépôt distant)";
  "- Le remote est configuré sous le nom `origin`";
  EmptyString;
  "## 📋 Étapes à suivre";
  EmptyString;
  "### Partie 1 : Explorer la configuration";
  "1. **Vérifier les remotes** : `git remote -v`";
  "2. **Voir les branches distantes** : `git branch -a`";
  EmptyString;
  "### Partie 2 : Simuler une mise à jour distante";
  "3. Relancez le script avec `--update` pour simuler un push d'un collègue";
  cat ["4. Votre dépôt local ne "; dq; "sait"; dq; " pas encore qu'il y a du nouveau !"];
  EmptyString;
  "### Partie 3 : Récupérer les changements";
  "5. **Fetch** : Téléchargez les infos du distant sans modifier vos fichiers";
  "6. **Observer** : Comparez votre branche locale avec `origin/main`";
  "7. **Pull** : Intégrez les changements dans votre branche";
  EmptyString;
  "### Partie 4 : Vérifier";
  "8. Consultez l'historique pour voir le nouveau commit";
  "9. Vérifiez le contenu du README mis à jour";
  EmptyString;
  "## 💡 Astuces";
  "- `git fetch` télécharge sans modifier votre code";
  "- `git pull` = `git fetch` + `git merge`";
  "- `git log origin/main` pour voir l'état du distant";
  EmptyString;
  "## 🔑 Concepts clés";
  "- `git remote -v` : lister les dépôts distants";
  "- `git fetch` : télécharger sans fusionner";
  "- `git pull` : télécharger ET fusionner";
  "- Branches de suivi (tracking branches) : `origin/main`"
].

Definition reset_dirs (force : bool) : M unit :=
  for_each [REMOTE_REPO; EXERCISE_DIR] (fun dir_path =>
    found <- path_exists dir_path ;;
    when found (
      when (negb force) (
        eprint (cat ["⚠️  Le dossier "; dir_path; " existe déjà."; nl; "    Utilisez --force pour le recréer (attention : cela supprimera son contenu)."]) ;;
        sys_exit 1%Z
      ) ;;
      rmtree dir_path
    )
  ).

Definition run_git (args : list string) (cwd : string) : M unit :=
  discard (subprocess_run ("git" :: args) (Some cwd) true).

Definition setup_remote_repo : M unit :=
  let temp_dir := "_temp_init" in
  mkdir temp_dir ;;
  try_finally (
    run_git ["init"; "-b"; "main"] temp_dir ;;
    write_text temp_dir "README.md" build_readme_content ;;
    run_git ["add"; "."] temp_dir ;;
    run_git ["commit"; "-m"; "Initial commit : projet partagé"] temp_dir ;;
    discard (subprocess_run ["git"; "clone"; "--bare"; temp_dir; REMOTE_REPO] None true)
  ) (
    rmtree temp_dir
  ).

Definition setup_local_clone : M unit :=
  discard (subprocess_run ["git"; "clone"; REMOTE_REPO; EXERCISE_DIR] None true) ;;
  write_text EXERCISE_DIR "EXERCICE.md" build_exercise_readme ;;
  run_git ["add"; "EXERCICE.md"] EXERCISE_DIR ;;
  run_git ["commit"; "-m"; "Ajout des consignes de l'exercice"] EXERCISE_DIR.

Definition simulate_remote_update : M unit :=
  found <- path_exists REMOTE_REPO ;;
  when (negb found) (
    eprint (cat ["⚠️  Le dépôt distant n'existe pas."; nl; "    Lancez d'abord le script sans --update pour créer l'exercice."]) ;;
    sys_exit 1%Z
  ) ;;
  let temp_dir := "_temp_push" in
  found <- path_exists temp_dir ;;
  when found (
    rmtree temp_dir
  ) ;;
  try_finally (
    discard (subprocess_run ["git"; "clone"; REMOTE_REPO; temp_dir] None true) ;;
    write_text temp_dir "README.md" build_readme_updated ;;
    run_git ["add"; "README.md"] temp_dir ;;
    run_git ["commit"; "-m"; "Mise à jour v1.1 : nouveautés et corrections"] temp_dir ;;
    run_git ["push"; "origin"; "main"] temp_dir
  ) (
    rmtree temp_dir
  ) ;;
  print (cat [nl; "✅ Mise à jour distante simulée !"]) ;;
  print ("📡 Un nouveau commit a été ajouté au dépôt distant.") ;;
  print ("   Votre copie locale ne le sait pas encore...") ;;
  print (cat [nl; "📚 Prochaines étapes :"; nl; "   1. Utilisez git fetch pour télécharger les nouveautés"; nl; "   2. Comparez avec git log origin/main"; nl; "   3. Intégrez avec git pull"; nl]).

Definition main (force : bool) (update : bool) : M Z :=
  if update then (
    simulate_remote_update ;;
    ret 0%Z
  ) else (
    reset_dirs force ;;
    setup_remote_repo ;;
    setup_local_clone ;;
    print (cat [nl; "✅ Exercice prêt !"]) ;;
    print_f [Lit ("📡 Dépôt distant (bare) : "); Path REMOTE_REPO] ;;
    print_f [Lit ("📁 Votre copie locale : "); Path EXERCISE_DIR] ;;
    print ("🔗 Remote configuré : origin → remote-repo.git") ;;
    print (cat [nl; "📚 Consignes :"; nl; "   1. Vérifiez la configuration du remote avec git remote -v"; nl; "   2. Relancez avec --update pour simuler un push distant"; nl; "   3. Récupérez les changements avec fetch puis pull"; nl; "   4. Vérifiez l'historique intégré"; nl; nl; "💡 Bon courage !"; nl]) ;;
    ret 0%Z
  ).

End Ex15.

(** [ex16_push_setup.py] *)
Module Ex16.
Import Git Py.
Local Open Scope py_scope.

Definition REMOTE_REPO : string := "remote-ex16.git".
Definition EXERCISE_DIR : string := "ex16-push".

Definition build_index_html : string := unlines [
  "<!DOCTYPE html>";
  cat ["<html lang="; dq; "fr"; dq; ">"];
  "<head>";
  cat ["    <meta charset="; dq; "UTF-8"; dq; ">"];
  "    <title>Mon Site</title>";
  "</head>";
  "<body>";
  "    <h1>Bienvenue</h1>";
  "    <nav>";
  cat ["        <a href="; dq; "index.html"; dq; ">Accueil</a>"];
  cat ["        <a href="; dq; "about.html"; dq; ">À propos</a>"];
  "        <!-- TODO: Ajouter un lien vers la page contact -->";
  "    </nav>";
  "    <p>Ceci est la page d'accueil.</p>";
  "</body>";
  "</html>"
].

Definition build_about_html : string := unlines [
  "<!DOCTYPE html>";
  cat ["<html lang="; dq; "fr"; dq; ">"];
  "<head>";
  cat ["    <meta charset="; dq; "UTF-8"; dq; ">"];
  "    <title>À propos</title>";
  "</head>";
  "<body>";
  "    <h1>À propos</h1>";
  "    <p>Nous sommes une équipe passionnée.</p>";
  "</body>";
  "</html>"
].

Definition build_readme_content : string := unlines [
  "# 📤 Exercice : Pousser une branche vers un dépôt distant";
  EmptyString;
  "## 🎯 Objectif";
  "Créer une branche locale et la publier sur le dépôt distant.";
  EmptyString;
  "## 📁 État initial";
  "- Clone d'un dépôt distant (`origin` → `remote-ex16.git`)";
  "- Seule la branche `main` existe pour l'instant";
  EmptyString;
  "## 📋 Étapes à suivre";
  EmptyString;
  "1. **Vérifier l'état initial** :";
  "   - `git branch` : voir les branches locales";
  "   - `git branch -r` : voir les branches distantes";
  EmptyString;
  "2. **Créer une branche feature-contact** :";
  "   - Créez et basculez sur la nouvelle branche";
  EmptyString;
  "3. **Ajouter du contenu** :";
  "   - Créez un fichier `contact.html` avec un formulaire de contact";
  "   - Commitez ce nouveau fichier";
  EmptyString;
  "4. **Publier la branche sur origin** :";
  "   - Poussez la branche vers le dépôt distant";
  "   - Configurez le suivi (upstream) pour les futurs push/pull";
  EmptyString;
  "5. **Vérifier le résultat** :";
  "   - `git branch -r` : la branche doit apparaître sur origin";
  "   - `git branch -vv` : vérifier le suivi (tracking)";
  EmptyString;
  "## 💡 Astuces";
  "- Premier push d'une branche : `git push -u origin <branche>`";
  "- `-u` (ou `--set-upstream`) configure le suivi automatique";
  "- Après ça, un simple `git push` suffit";
  EmptyString;
  "## 🔑 Concepts clés";
  "- `git push` : envoyer des commits vers le distant";
  "- `git push -u origin <branche>` : publier une nouvelle branche";
  "- Branches de suivi (upstream tracking)"
].

Definition reset_dirs (force : bool) : M unit :=
  for_each [REMOTE_REPO; EXERCISE_DIR] (fun dir_path =>
    found <- path_exists dir_path ;;
    when found (
      when (negb force) (
        eprint (cat ["⚠️  Le dossier "; dir_path; " existe déjà."; nl; "    Utilisez --force pour le recréer."]) ;;
        sys_exit 1%Z
      ) ;;
      rmtree dir_path
    )
  ).

Definition run_git (args : list string) (cwd : string) : M unit :=
  discard (subprocess_run ("git" :: args) (Some cwd) true).

Definition setup_remote_repo : M unit :=
  let temp_dir := "_temp_ex16" in
  mkdir temp_dir ;;
  try_finally (
    run_git ["init"; "-b"; "main"] temp_dir ;;
    write_text temp_dir "index.html" build_index_html ;;
    write_text temp_dir "about.html" build_about_html ;;
    run_git ["add"; "."] temp_dir ;;
    run_git ["commit"; "-m"; "Initial commit : pages accueil et about"] temp_dir ;;
    discard (subprocess_run ["git"; "clone"; "--bare"; temp_dir; REMOTE_REPO] None true)
  ) (
    rmtree temp_dir
  ).

Definition setup_local_clone : M unit :=
  discard (subprocess_run ["git"; "clone"; REMOTE_REPO; EXERCISE_DIR] None true) ;;
  write_text EXERCISE_DIR "README.md" build_readme_content ;;
  run_git ["add"; "README.md"] EXERCISE_DIR ;;
  run_git ["commit"; "-m"; "Ajout du README"] EXERCISE_DIR ;;
  run_git ["push"] EXERCISE_DIR.

Definition main (force : bool) : M Z :=
  reset_dirs force ;;
  setup_remote_repo ;;
  setup_local_clone ;;
  print (cat [nl; "✅ Exercice prêt !"]) ;;
  print_f [Lit ("📡 Dépôt distant : "); Path REMOTE_REPO] ;;
  print_f [Lit ("📁 Votre copie locale : "); Path EXERCISE_DIR] ;;
  print ("🌿 Seule la branche main existe sur origin") ;;
  print (cat [nl; "📚 Consignes :"; nl; "   1. Créez une branche feature-contact"; nl; "   2. Ajoutez contact.html et commitez"; nl; "   3. Publiez la branche sur origin"; nl; "   4. Vérifiez avec git branch -r"; nl; nl; "💡 Bon courage !"; nl]) ;;
  ret 0%Z.

End Ex16.

(** [ex17_pull_conflict_setup.py] *)
Module Ex17.
Import Git Py.
Local Open Scope py_scope.

Definition REMOTE_REPO : string := "remote-ex17.git".
Definition EXERCISE_DIR : string := "ex17-pull-conflict".

Definition build_config_base : string := unlines [
  "{";
  cat ["    "; dq; "app"; dq; ": {"];
  cat ["        "; dq; "name"; dq; ": "; dq; "MonApplication"; dq; ","];
  cat ["        "; dq; "version"; dq; ": "; dq; "1.0.0"; dq; ","];
  cat ["        "; dq; "environment"; dq; ": "; dq; "development"; dq];
  "    },";
  cat ["    "; dq; "database"; dq; ": {"];
  cat ["        "; dq; "host"; dq; ": "; dq; "localhost"; dq; ","];
  cat ["        "; dq; "port"; dq; ": 5432"];
  "    }";
  "}"
].

Definition build_config_remote : string := unlines [
  "{";
  cat ["    "; dq; "app"; dq; ": {"];
  cat ["        "; dq; "name"; dq; ": "; dq; "MonApplication"; dq; ","];
  cat ["        "; dq; "version"; dq; ": "; dq; "1.1.0"; dq; ","];
  cat ["        "; dq; "environment"; dq; ": "; dq; "production"; dq];
  "    },";
  cat ["    "; dq; "database"; dq; ": {"];
  cat ["        "; dq; "host"; dq; ": "; dq; "db.production.com"; dq; ","];
  cat ["        "; dq; "port"; dq; ": 5432"];
  "    }";
  "}"
].

Definition build_config_local : string := unlines [
  "{";
  cat ["    "; dq; "app"; dq; ": {"];
  cat ["        "; dq; "name"; dq; ": "; dq; "MonApplication"; dq; ","];
  cat ["        "; dq; "version"; dq; ": "; dq; "1.0.1"; dq; ","];
  cat ["        "; dq; "environment"; dq; ": "; dq; "staging"; dq];
  "    },";
  cat ["    "; dq; "database"; dq; ": {"];
  cat ["        "; dq; "host"; dq; ": "; dq; "localhost"; dq; ","];
  cat ["        "; dq; "port"; dq; ": 5432"];
  "    }";
  "}"
].

Definition build_readme_content : string := unlines [
  "# ⚔️ Exercice : Conflit lors d'un pull";
  EmptyString;
  "## 🎯 Objectif";
  "Comprendre et résoudre un conflit entre modifications locales et distantes.";
  EmptyString;
  "## 📁 État initial";
  "- Un commit a été poussé sur `origin/main` (par un collègue)";
  "- Vous avez aussi modifié `config.json` localement et commité";
  "- Les deux modifications touchent les MÊMES lignes → CONFLIT !";
  EmptyString;
  "## 📊 Situation";
  "```";
  "origin/main:  A --- B (version 1.1.0, production)";
  cat ["               "; bs];
  "local main:    A --- C (version 1.0.1, staging)";
  "```";
  EmptyString;
  "## 📋 Étapes à suivre";
  EmptyString;
  "1. **Observer l'état** :";
  cat ["   - `git status` : votre branche est "; dq; "ahead"; dq; " de origin"];
  "   - `git log --oneline origin/main` vs `git log --oneline`";
  EmptyString;
  "2. **Tenter un pull** :";
  "   - `git pull` va échouer avec un conflit";
  EmptyString;
  "3. **Analyser le conflit** :";
  "   - Ouvrez `config.json`";
  "   - Repérez les marqueurs de conflit";
  EmptyString;
  "4. **Résoudre le conflit** :";
  "   - Choisissez les bonnes valeurs (ou combinez)";
  "   - Supprimez les marqueurs";
  EmptyString;
  "5. **Finaliser le merge** :";
  "   - `git add config.json`";
  "   - `git commit` (message de merge auto-généré)";
  EmptyString;
  "6. **Vérifier** :";
  "   - `git log --oneline --graph` : voir les deux parents du merge";
  EmptyString;
  "## 💡 Astuces";
  "- `git pull` = `git fetch` + `git merge`";
  "- Vous pouvez utiliser `git pull --rebase` pour rebaser au lieu de merger";
  "- En cas d'abandon : `git merge --abort`";
  EmptyString;
  "## 🔑 Concepts clés";
  "- Conflit de pull : quand local et distant ont divergé";
  "- Résolution identique à un conflit de merge classique";
  "- Importance de `git fetch` pour voir l'état avant d'agir"
].

Definition reset_dirs (force : bool) : M unit :=
  for_each [REMOTE_REPO; EXERCISE_DIR] (fun dir_path =>
    found <- path_exists dir_path ;;
    when found (
      when (negb force) (
        eprint (cat ["⚠️  Le dossier "; dir_path; " existe déjà."; nl; "    Utilisez --force pour le recréer."]) ;;
        sys_exit 1%Z
      ) ;;
      rmtree dir_path
    )
  ).

Definition run_git (args : list string) (cwd : string) (check : bool) : M completed :=
  subprocess_run ("git" :: args) (Some cwd) check.

Definition setup_exercise : M unit :=
  let temp_dir := "_temp_ex17" in
  mkdir temp_dir ;;
  try_finally (
    discard (run_git ["init"; "-b"; "main"] temp_dir true) ;;
    write_text temp_dir "config.json" build_config_base ;;
    write_text temp_dir "README.md" build_readme_content ;;
    discard (run_git ["add"; "."] temp_dir true) ;;
    discard (run_git ["commit"; "-m"; "Initial commit : configuration de base"] temp_dir true) ;;
    discard (subprocess_run ["git"; "clone"; "--bare"; temp_dir; REMOTE_REPO] None true)
  ) (
    rmtree temp_dir
  ) ;;
  discard (subprocess_run ["git"; "clone"; REMOTE_REPO; EXERCISE_DIR] None true) ;;
  let temp_remote := "_temp_remote_ex17" in
  try_finally (
    discard (subprocess_run ["git"; "clone"; REMOTE_REPO; temp_remote] None true) ;;
    write_text temp_remote "config.json" build_config_remote ;;
    discard (run_git ["add"; "config.json"] temp_remote true) ;;
    discard (run_git ["commit"; "-m"; "Mise en production v1.1.0"] temp_remote true) ;;
    discard (run_git ["push"] temp_remote true)
  ) (
    rmtree temp_remote
  ) ;;
  write_text EXERCISE_DIR "config.json" build_config_local ;;
  discard (run_git ["add"; "config.json"] EXERCISE_DIR true) ;;
  discard (run_git ["commit"; "-m"; "Configuration staging v1.0.1"] EXERCISE_DIR true).

Definition main (force : bool) : M Z :=
  reset_dirs force ;;
  setup_exercise ;;
  print (cat [nl; "✅ Exercice prêt !"]) ;;
  print_f [Lit ("📡 Dépôt distant : "); Path REMOTE_REPO] ;;
  print_f [Lit ("📁 Votre copie locale : "); Path EXERCISE_DIR] ;;
  print ("⚔️  Conflit préparé : distant et local ont modifié config.json différemment") ;;
  print (cat [nl; "📚 Consignes :"; nl; "   1. Tentez un git pull"; nl; "   2. Observez le conflit dans config.json"; nl; "   3. Résolvez le conflit"; nl; "   4. Finalisez le merge et vérifiez l'historique"; nl; nl; "💡 Bon courage !"; nl]) ;;
  ret 0%Z.

End Ex17.

(** [ex18_tags_setup.py] *)
Module Ex18.
Import Git Py.
Local Open Scope py_scope.

Definition EXERCISE_DIR : string := "ex18-tags".

Definition build_app_v1 : string := unlines [
  "// Application v0.1 - Version initiale";
  "console.log('App démarrée');";
  EmptyString;
  "function init() {";
  "    console.log('Initialisation...');";
  "}";
  EmptyString;
  "init();"
].

Definition build_app_v2 : string := unlines [
  "// Application v0.5 - Ajout des fonctionnalités de base";
  "console.log('App démarrée');";
  EmptyString;
  "function init() {";
  "    console.log('Initialisation...');";
  "    loadConfig();";
  "}";
  EmptyString;
  "function loadConfig() {";
  "    console.log('Configuration chargée');";
  "}";
  EmptyString;
  "init();"
].

Definition build_app_v3 : string := unlines [
  "// Application v0.9 - Beta";
  "console.log('App v0.9 démarrée');";
  EmptyString;
  "function init() {";
  "    console.log('Initialisation...');";
  "    loadConfig();";
  "    setupUI();";
  "}";
  EmptyString;
  "function loadConfig() {";
  "    console.log('Configuration chargée');";
  "}";
  EmptyString;
  "function setupUI() {";
  "    console.log('Interface utilisateur prête');";
  "}";
  EmptyString;
  "init();"
].

Definition build_app_v4 : string := unlines [
  "// Application v1.0 - Release stable";
  "console.log('App v1.0 démarrée');";
  EmptyString;
  "function init() {";
  "    console.log('Initialisation...');";
  "    loadConfig();";
  "    setupUI();";
  "    console.log('Application prête !');";
  "}";
  EmptyString;
  "function loadConfig() {";
  "    console.log('Configuration chargée');";
  "    return { env: 'production' };";
  "}";
  EmptyString;
  "function setupUI() {";
  "    console.log('Interface utilisateur prête');";
  "}";
  EmptyString;
  "init();"
].

Definition build_readme_content : string := unlines [
  "# 🏷️ Exercice : Tags pour versionner une release";
  EmptyString;
  "## 🎯 Objectif";
  "Utiliser les tags Git pour identifier des versions stables.";
  EmptyString;
  "## 📁 État initial";
  "- Plusieurs commits représentant l'évolution de l'application";
  "- Un tag `v0.9.0` existe déjà (version beta)";
  "- Le dernier commit est prêt pour une release `v1.0.0`";
  EmptyString;
  "## 📋 Étapes à suivre";
  EmptyString;
  "1. **Lister les tags existants** :";
  "   - `git tag` ou `git tag -l`";
  EmptyString;
  "2. **Voir les détails d'un tag** :";
  "   - `git show v0.9.0`";
  EmptyString;
  "3. **Créer un tag annoté v1.0.0** :";
  "   - Créez un tag annoté sur le commit actuel (HEAD)";
  "   - Incluez un message descriptif";
  EmptyString;
  "4. **Vérifier la création** :";
  "   - Listez à nouveau les tags";
  "   - Affichez les détails de v1.0.0";
  EmptyString;
  "5. **Revenir temporairement à v0.9.0** :";
  "   - Faites un checkout sur le tag v0.9.0";
  cat ["   - Observez l'état "; dq; "detached HEAD"; dq];
  "   - Vérifiez le contenu de app.js";
  EmptyString;
  "6. **Revenir sur main** :";
  "   - Retournez sur la branche principale";
  EmptyString;
  "## 💡 Astuces";
  "- Tag léger : `git tag v1.0.0` (juste un pointeur)";
  cat ["- Tag annoté : `git tag -a v1.0.0 -m "; dq; "Message"; dq; "` (recommandé)"];
  "- Les tags annotés contiennent : auteur, date, message";
  EmptyString;
  "## 🔑 Concepts clés";
  "- `git tag` : lister les tags";
  cat ["- `git tag -a <nom> -m "; dq; "message"; dq; "` : créer un tag annoté"];
  "- `git checkout <tag>` : revenir à un état passé";
  "- Tags vs branches : les tags sont des points fixes"
].

Definition reset_exercise_dir (force : bool) : M unit :=
  found <- path_exists EXERCISE_DIR ;;
  when found (
    when (negb force) (
      eprint (cat ["⚠️  Le dossier ex18-tags existe déjà."; nl; "    Utilisez --force pour le recréer."]) ;;
      sys_exit 1%Z
    ) ;;
    rmtree EXERCISE_DIR
  ) ;;
  mkdir EXERCISE_DIR.

Definition run_git (args : list string) : M unit :=
  discard (subprocess_run ("git" :: args) (Some EXERCISE_DIR) true).

Definition setup_git_repo : M unit :=
  run_git ["init"; "-b"; "main"] ;;
  write_text EXERCISE_DIR "README.md" build_readme_content ;;
  write_text EXERCISE_DIR "app.js" build_app_v1 ;;
  run_git ["add"; "."] ;;
  run_git ["commit"; "-m"; "Initial commit : version 0.1"] ;;
  write_text EXERCISE_DIR "app.js" build_app_v2 ;;
  run_git ["add"; "app.js"] ;;
  run_git ["commit"; "-m"; "Ajout du chargement de configuration (v0.5)"] ;;
  write_text EXERCISE_DIR "app.js" build_app_v3 ;;
  run_git ["add"; "app.js"] ;;
  run_git ["commit"; "-m"; "Version beta avec interface UI (v0.9)"] ;;
  run_git ["tag"; "-a"; "v0.9.0"; "-m"; "Version 0.9.0 - Beta"] ;;
  write_text EXERCISE_DIR "app.js" build_app_v4 ;;
  run_git ["add"; "app.js"] ;;
  run_git ["commit"; "-m"; "Release stable v1.0"].

Definition main (force : bool) : M Z :=
  reset_exercise_dir force ;;
  setup_git_repo ;;
  print (cat [nl; "✅ Exercice prêt !"]) ;;
  print_f [Lit ("📁 Dossier créé : "); Path EXERCISE_DIR] ;;
  print ("🏷️  Tag existant : v0.9.0") ;;
  print ("📝 Dernier commit prêt pour le tag v1.0.0") ;;
  print (cat [nl; "📚 Consignes :"; nl; "   1. Listez les tags existants"; nl; "   2. Créez un tag annoté v1.0.0 sur HEAD"; nl; "   3. Revenez temporairement à v0.9.0"; nl; "   4. Revenez sur la branche main"; nl; nl; "💡 Bon courage !"; nl]) ;;
  ret 0%Z.

End Ex18.

(** [ex19_cherry_pick_setup.py] *)
Module Ex19.
Import Git Py.
Local Open Scope py_scope.

Definition EXERCISE_DIR : string := "ex19-cherry-pick".

Definition build_utils_base : string := unlines [
  "// Utilitaires de l'application";
  EmptyString;
  "function formatDate(date) {";
  "    return date.toLocaleDateString();";
  "}";
  EmptyString;
  "function calculateTotal(items) {";
  "    let total = 0;";
  "    for (let item of items) {";
  "        total += item.price;  // BUG: ne gère pas les quantités !";
  "    }";
  "    return total;";
  "}";
  EmptyString;
  "function validateEmail(email) {";
  "    return email.includes('@');";
  "}";
  EmptyString;
  "module.exports = { formatDate, calculateTotal, validateEmail };"
].

Definition build_utils_feature_a_wip : string := unlines [
  "// Utilitaires de l'application - Feature A en cours";
  EmptyString;
  "function formatDate(date) {";
  "    return date.toLocaleDateString();";
  "}";
  EmptyString;
  "function formatDateTime(date) {";
  "    // Nouvelle fonctionnalité en cours de développement";
  "    return date.toLocaleString();";
  "}";
  EmptyString;
  "function calculateTotal(items) {";
  "    let total = 0;";
  "    for (let item of items) {";
  "        total += item.price;  // BUG: ne gère pas les quantités !";
  "    }";
  "    return total;";
  "}";
  EmptyString;
  "function validateEmail(email) {";
  "    return email.includes('@');";
  "}";
  EmptyString;
  "module.exports = { formatDate, formatDateTime, calculateTotal, validateEmail };"
].

Definition build_utils_feature_a_bugfix : string := unlines [
  "// Utilitaires de l'application - Feature A en cours";
  EmptyString;
  "function formatDate(date) {";
  "    return date.toLocaleDateString();";
  "}";
  EmptyString;
  "function formatDateTime(date) {";
  "    // Nouvelle fonctionnalité en cours de développement";
  "    return date.toLocaleString();";
  "}";
  EmptyString;
  "function calculateTotal(items) {";
  "    let total = 0;";
  "    for (let item of items) {";
  "        // BUGFIX: prise en compte des quantités";
  "        const quantity = item.quantity || 1;";
  "        total += item.price * quantity;";
  "    }";
  "    return total;";
  "}";
  EmptyString;
  "function validateEmail(email) {";
  "    return email.includes('@');";
  "}";
  EmptyString;
  "module.exports = { formatDate, formatDateTime, calculateTotal, validateEmail };"
].

Definition build_utils_feature_a_more : string := unlines [
  "// Utilitaires de l'application - Feature A";
  EmptyString;
  "function formatDate(date) {";
  "    return date.toLocaleDateString();";
  "}";
  EmptyString;
  "function formatDateTime(date) {";
  "    return date.toLocaleString();";
  "}";
  EmptyString;
  "function formatCurrency(amount) {";
  "    // Encore une nouvelle fonctionnalité";
  "    return new Intl.NumberFormat('fr-FR', { style: 'currency', currency: 'EUR' }).format(amount);";
  "}";
  EmptyString;
  "function calculateTotal(items) {";
  "    let total = 0;";
  "    for (let item of items) {";
  "        // BUGFIX: prise en compte des quantités";
  "        const quantity = item.quantity || 1;";
  "        total += item.price * quantity;";
  "    }";
  "    return total;";
  "}";
  EmptyString;
  "function validateEmail(email) {";
  "    return email.includes('@');";
  "}";
  EmptyString;
  "module.exports = { formatDate, formatDateTime, formatCurrency, calculateTotal, validateEmail };"
].

Definition build_readme_content : string := unlines [
  "# 🍒 Exercice : Cherry-pick d'un commit utile";
  EmptyString;
  "## 🎯 Objectif";
  "Récupérer un commit spécifique d'une branche sans importer tout son historique.";
  EmptyString;
  "## 📁 État initial";
  "- Branche `release` : version stable, mais contient un bug dans `calculateTotal`";
  "- Branche `feature-a` : développement en cours avec :";
  "  - Nouvelles fonctionnalités (pas encore prêtes pour la release)";
  "  - Un bugfix pour `calculateTotal` (celui-ci est nécessaire !)";
  EmptyString;
  "## 🐛 Le problème";
  "Le bug : `calculateTotal` ne prend pas en compte les quantités.";
  "Le fix existe sur `feature-a`, mais cette branche n'est pas prête à être mergée.";
  EmptyString;
  "## 📋 Étapes à suivre";
  EmptyString;
  "1. **Explorer les branches** :";
  "   - `git log --oneline feature-a`";
  cat ["   - Identifiez le commit qui corrige le bug (message : "; dq; "Bugfix: calculateTotal..."; dq; ")"];
  EmptyString;
  "2. **Basculer sur release** :";
  "   - `git checkout release`";
  EmptyString;
  "3. **Cherry-pick le commit** :";
  "   - Récupérez UNIQUEMENT le commit du bugfix";
  "   - `git cherry-pick <hash-du-commit>`";
  EmptyString;
  "4. **Vérifier le résultat** :";
  "   - `git log --oneline` : le commit apparaît sur release";
  "   - Vérifiez que `utils.js` contient le fix";
  "   - Vérifiez que les AUTRES fonctionnalités de feature-a ne sont PAS là";
  EmptyString;
  "## 💡 Astuces";
  "- Le cherry-pick copie un commit (nouveau hash)";
  "- En cas de conflit, résolvez puis `git cherry-pick --continue`";
  "- Pour annuler : `git cherry-pick --abort`";
  EmptyString;
  "## 🔑 Concepts clés";
  "- `git cherry-pick <commit>` : appliquer un commit spécifique";
  "- Différence avec merge : sélection chirurgicale";
  "- Utile pour les hotfixes sur des branches de release"
].

Definition reset_exercise_dir (force : bool) : M unit :=
  found <- path_exists EXERCISE_DIR ;;
  when found (
    when (negb force) (
      eprint (cat ["⚠️  Le dossier ex19-cherry-pick existe déjà."; nl; "    Utilisez --force pour le recréer."]) ;;
      sys_exit 1%Z
    ) ;;
    rmtree EXERCISE_DIR
  ) ;;
  mkdir EXERCISE_DIR.

Definition run_git (args : list string) : M unit :=
  discard (subprocess_run ("git" :: args) (Some EXERCISE_DIR) true).

Definition setup_git_repo : M unit :=
  run_git ["init"; "-b"; "main"] ;;
  write_text EXERCISE_DIR "README.md" build_readme_content ;;
  write_text EXERCISE_DIR "utils.js" build_utils_base ;;
  run_git ["add"; "."] ;;
  run_git ["commit"; "-m"; "Initial commit : utilitaires de base"] ;;
  run_git ["branch"; "release"] ;;
  run_git ["checkout"; "-b"; "feature-a"] ;;
  write_text EXERCISE_DIR "utils.js" build_utils_feature_a_wip ;;
  run_git ["add"; "utils.js"] ;;
  run_git ["commit"; "-m"; "WIP: ajout de formatDateTime"] ;;
  write_text EXERCISE_DIR "utils.js" build_utils_feature_a_bugfix ;;
  run_git ["add"; "utils.js"] ;;
  run_git ["commit"; "-m"; "Bugfix: calculateTotal prend en compte les quantités"] ;;
  write_text EXERCISE_DIR "utils.js" build_utils_feature_a_more ;;
  run_git ["add"; "utils.js"] ;;
  run_git ["commit"; "-m"; "Ajout de formatCurrency"] ;;
  run_git ["checkout"; "release"].

Definition main (force : bool) : M Z :=
  reset_exercise_dir force ;;
  setup_git_repo ;;
  print (cat [nl; "✅ Exercice prêt !"]) ;;
  print_f [Lit ("📁 Dossier créé : "); Path EXERCISE_DIR] ;;
  print ("🌿 Branche actuelle : release (contient le bug)") ;;
  print ("🌿 Branche feature-a : contient le bugfix + d'autres commits") ;;
  print (cat [nl; "📚 Consignes :"; nl; "   1. Identifiez le commit du bugfix sur feature-a"; nl; "   2. Sur release, faites un cherry-pick de ce commit"; nl; "   3. Vérifiez que seul le fix est appliqué"; nl; nl; "💡 Bon courage !"; nl]) ;;
  ret 0%Z.

End Ex19.

(** [ex20_bisect_setup.py] *)
Module Ex20.
Import Git Py.
Local Open Scope py_scope.

Definition EXERCISE_DIR : string := "ex20-bisect".

Definition build_calc_v1 : string := unlines [
  "// Calculatrice - v1";
  EmptyString;
  "function add(a, b) {";
  "    return a + b;";
  "}";
  EmptyString;
  "function multiply(a, b) {";
  "    return a * b;";
  "}";
  EmptyString;
  "// Test";
  "console.log('2 + 3 =', add(2, 3));        // Attendu: 5";
  "console.log('4 * 5 =', multiply(4, 5));  // Attendu: 20"
].

Definition build_calc_v2 : string := unlines [
  "// Calculatrice - v2";
  EmptyString;
  "function add(a, b) {";
  "    return a + b;";
  "}";
  EmptyString;
  "function subtract(a, b) {";
  "    return a - b;";
  "}";
  EmptyString;
  "function multiply(a, b) {";
  "    return a * b;";
  "}";
  EmptyString;
  "// Test";
  "console.log('2 + 3 =', add(2, 3));        // Attendu: 5";
  "console.log('10 - 4 =', subtract(10, 4)); // Attendu: 6";
  "console.log('4 * 5 =', multiply(4, 5));  // Attendu: 20"
].

Definition build_calc_v3 : string := unlines [
  "// Calculatrice - v3";
  EmptyString;
  "function add(a, b) {";
  "    return a + b;";
  "}";
  EmptyString;
  "function subtract(a, b) {";
  "    return a - b;";
  "}";
  EmptyString;
  "function multiply(a, b) {";
  "    return a * b;";
  "}";
  EmptyString;
  "function divide(a, b) {";
  "    if (b === 0) return 'Error';";
  "    return a / b;";
  "}";
  EmptyString;
  "// Test";
  "console.log('2 + 3 =', add(2, 3));        // Attendu: 5";
  "console.log('10 - 4 =', subtract(10, 4)); // Attendu: 6";
  "console.log('4 * 5 =', multiply(4, 5));  // Attendu: 20";
  "console.log('20 / 4 =', divide(20, 4));  // Attendu: 5"
].

Definition build_calc_v4_buggy : string := unlines [
  "// Calculatrice - v4";
  EmptyString;
  "function add(a, b) {";
  "    return a + b;";
  "}";
  EmptyString;
  "function subtract(a, b) {";
  "    return a - b;";
  "}";
  EmptyString;
  "function multiply(a, b) {";
  "    return a + b;  // BUG ! Devrait être a * b";
  "}";
  EmptyString;
  "function divide(a, b) {";
  "    if (b === 0) return 'Error';";
  "    return a / b;";
  "}";
  EmptyString;
  "// Test";
  "console.log('2 + 3 =', add(2, 3));        // Attendu: 5";
  "console.log('10 - 4 =', subtract(10, 4)); // Attendu: 6";
  "console.log('4 * 5 =', multiply(4, 5));  // BUGGY: retourne 9 au lieu de 20 !";
  "console.log('20 / 4 =', divide(20, 4));  // Attendu: 5"
].

Definition build_calc_v5 : string := unlines [
  "// Calculatrice - v5";
  EmptyString;
  "function add(a, b) {";
  "    return a + b;";
  "}";
  EmptyString;
  "function subtract(a, b) {";
  "    return a - b;";
  "}";
  EmptyString;
  "function multiply(a, b) {";
  "    return a + b;  // BUG toujours là !";
  "}";
  EmptyString;
  "function divide(a, b) {";
  "    if (b === 0) return 'Error';";
  "    return a / b;";
  "}";
  EmptyString;
  "function power(a, b) {";
  "    return Math.pow(a, b);";
  "}";
  EmptyString;
  "// Test";
  "console.log('2 + 3 =', add(2, 3));";
  "console.log('10 - 4 =', subtract(10, 4));";
  "console.log('4 * 5 =', multiply(4, 5));  // BUGGY";
  "console.log('20 / 4 =', divide(20, 4));";
  "console.log('2 ^ 8 =', power(2, 8));"
].

Definition build_calc_v6 : string := unlines [
  "// Calculatrice - v6";
  EmptyString;
  "function add(a, b) {";
  "    return a + b;";
  "}";
  EmptyString;
  "function subtract(a, b) {";
  "    return a - b;";
  "}";
  EmptyString;
  "function multiply(a, b) {";
  "    return a + b;  // BUG toujours là !";
  "}";
  EmptyString;
  "function divide(a, b) {";
  "    if (b === 0) return 'Error';";
  "    return a / b;";
  "}";
  EmptyString;
  "function power(a, b) {";
  "    return Math.pow(a, b);";
  "}";
  EmptyString;
  "function modulo(a, b) {";
  "    return a % b;";
  "}";
  EmptyString;
  "// Test";
  "console.log('2 + 3 =', add(2, 3));";
  "console.log('10 - 4 =', subtract(10, 4));";
  "console.log('4 * 5 =', multiply(4, 5));  // BUGGY";
  "console.log('20 / 4 =', divide(20, 4));";
  "console.log('2 ^ 8 =', power(2, 8));";
  "console.log('17 % 5 =', modulo(17, 5));"
].

Definition build_test_script : string := unlines [
  "#!/bin/bash";
  "# Script de test pour git bisect";
  "# Usage: ./test.sh";
  "# Retourne 0 si OK, 1 si bug détecté";
  EmptyString;
  "# Exécuter le test de multiply";
  cat ["result=$(node -e "; dq];
  "    const code = require('fs').readFileSync('calc.js', 'utf8');";
  cat ["    eval(code.replace(/console"; bs; ".log.*$/gm, ''));"];
  "    const result = multiply(4, 5);";
  "    process.exit(result === 20 ? 0 : 1);";
  cat [dq; " 2>/dev/null)"];
  EmptyString;
  "exit $?"
].

Definition build_readme_content : string := unlines [
  "# 🔍 Exercice : Déboguer avec git bisect";
  EmptyString;
  "## 🎯 Objectif";
  "Utiliser `git bisect` pour retrouver le commit qui a introduit un bug.";
  EmptyString;
  "## 📁 État initial";
  "- 6 commits dans l'historique";
  "- La fonction `multiply` est bugguée : elle fait une addition au lieu d'une multiplication !";
  "- Le bug a été introduit à un moment donné dans l'historique";
  EmptyString;
  "## 🐛 Le bug";
  "```javascript";
  "multiply(4, 5)  // Retourne 9 au lieu de 20 !";
  "```";
  EmptyString;
  "## 📋 Étapes à suivre";
  EmptyString;
  "1. **Constater le bug** :";
  "   - `node calc.js`";
  "   - Observez que `4 * 5` donne un mauvais résultat";
  EmptyString;
  cat ["2. **Trouver un commit "; dq; "bon"; dq; "** :"];
  "   - `git log --oneline` pour voir l'historique";
  "   - Le premier commit devrait être correct";
  EmptyString;
  "3. **Lancer bisect** :";
  "   - `git bisect start`";
  "   - `git bisect bad` (HEAD est mauvais)";
  "   - `git bisect good <hash-premier-commit>`";
  EmptyString;
  "4. **Tester chaque étape** :";
  "   - Git vous place sur un commit au milieu";
  "   - Testez : `node calc.js`";
  "   - Si OK : `git bisect good`";
  "   - Si bug : `git bisect bad`";
  EmptyString;
  "5. **Trouver le coupable** :";
  "   - Git annonce le commit fautif";
  "   - Notez son hash et son message";
  EmptyString;
  "6. **Terminer** :";
  "   - `git bisect reset` pour revenir à HEAD";
  EmptyString;
  "## 💡 Astuces";
  "- Bisect utilise une recherche binaire (très rapide !)";
  "- Vous pouvez automatiser avec : `git bisect run ./test.sh`";
  "- Le script `test.sh` est fourni pour l'automatisation";
  EmptyString;
  "## 🔑 Concepts clés";
  "- `git bisect start` : démarrer la recherche";
  "- `git bisect good/bad` : marquer les commits";
  "- `git bisect reset` : terminer et revenir à HEAD";
  "- Recherche binaire : O(log n) au lieu de O(n)"
].

Definition reset_exercise_dir (force : bool) : M unit :=
  found <- path_exists EXERCISE_DIR ;;
  when found (
    when (negb force) (
      eprint (cat ["⚠️  Le dossier ex20-bisect existe déjà."; nl; "    Utilisez --force pour le recréer."]) ;;
      sys_exit 1%Z
    ) ;;
    rmtree EXERCISE_DIR
  ) ;;
  mkdir EXERCISE_DIR.

Definition run_git (args : list string) : M unit :=
  discard (subprocess_run ("git" :: args) (Some EXERCISE_DIR) true).

Definition setup_git_repo : M unit :=
  run_git ["init"; "-b"; "main"] ;;
  write_text EXERCISE_DIR "README.md" build_readme_content ;;
  write_text EXERCISE_DIR "calc.js" build_calc_v1 ;;
  write_text EXERCISE_DIR "test.sh" build_test_script ;;
  chmod_755 EXERCISE_DIR "test.sh" ;;
  run_git ["add"; "."] ;;
  run_git ["commit"; "-m"; "v1: add et multiply de base"] ;;
  write_text EXERCISE_DIR "calc.js" build_calc_v2 ;;
  run_git ["add"; "calc.js"] ;;
  run_git ["commit"; "-m"; "v2: ajout de subtract"] ;;
  write_text EXERCISE_DIR "calc.js" build_calc_v3 ;;
  run_git ["add"; "calc.js"] ;;
  run_git ["commit"; "-m"; "v3: ajout de divide"] ;;
  write_text EXERCISE_DIR "calc.js" build_calc_v4_buggy ;;
  run_git ["add"; "calc.js"] ;;
  run_git ["commit"; "-m"; "v4: refactoring du code"] ;;
  write_text EXERCISE_DIR "calc.js" build_calc_v5 ;;
  run_git ["add"; "calc.js"] ;;
  run_git ["commit"; "-m"; "v5: ajout de power"] ;;
  write_text EXERCISE_DIR "calc.js" build_calc_v6 ;;
  run_git ["add"; "calc.js"] ;;
  run_git ["commit"; "-m"; "v6: ajout de modulo"].

Definition main (force : bool) : M Z :=
  reset_exercise_dir force ;;
  setup_git_repo ;;
  print (cat [nl; "✅ Exercice prêt !"]) ;;
  print_f [Lit ("📁 Dossier créé : "); Path EXERCISE_DIR] ;;
  print ("📝 6 commits créés, un bug a été introduit...") ;;
  print ("🔧 Script test.sh fourni pour automatiser les tests") ;;
  print (cat [nl; "📚 Consignes :"; nl; "   1. Constatez le bug avec node calc.js"; nl; "   2. Utilisez git bisect pour trouver le commit fautif"; nl; "   3. Testez manuellement ou avec ./test.sh"; nl; "   4. Identifiez le commit responsable"; nl; nl; "💡 Bon courage !"; nl]) ;;
  ret 0%Z.

End Ex20.

(** ** Sessions, scenarios and observations *)

Module Session.
Import Git Py.

(** A session starts at time [0], with a git that meets no external
    failure; the directories under [ROOT], [ROOT] itself and the default
    branch name are arbitrary.  No stack is given for the tracebacks:
    [with_frames] sets one. *)
Definition session (f : fsys) (r b : string) : world :=
  {| fs := f; root := r; clock := 0; faults := []; default_branch := b;
     frames := fun _ => []; out := []; err := []; trace := [] |}.

Definition with_faults (fl : list (option fault)) (w : world) : world :=
  {| fs := fs w; root := root w; clock := clock w; faults := fl;
     default_branch := default_branch w;
     frames := frames w; out := out w; err := err w; trace := trace w |}.

(** The same world under an interpreter that shows the stack [fr]. *)
Definition with_frames (fr : exn -> list string) (w : world) : world :=
  {| fs := fs w; root := root w; clock := clock w; faults := faults w;
     default_branch := default_branch w;
     frames := fr; out := out w; err := err w; trace := trace w |}.

Definition nothing : fsys := fun _ => None.

(** The session has just started and git works. *)
Definition quiet (w : world) : Prop := clock w = 0 /\ faults w = [].

(** The session has just started; git may fail as [faults w] says. *)
Definition started (w : world) : Prop := clock w = 0.

Definition repo_at (w : world) (p : string) : option repo :=
  match fs w p with
  | Some d => dotgit d
  | None => None
  end.

Definition file_at (w : world) (p file : string) : option string :=
  match fs w p with
  | Some d => data <$> files d !! file
  | None => None
  end.

Definition branch_at (w : world) (p b : string) : option commit :=
  match repo_at w p with
  | Some r => heads r !! b
  | None => None
  end.

Definition branches_at (w : world) (p : string) : list string :=
  match repo_at w p with
  | Some r => elements (dom (heads r))
  | None => []
  end.

(** A commit without what depends on the time it was made. *)
Fixpoint anonymize (c : commit) : commit :=
  match c with
  | Commit _ ps t m => Commit 0 (map anonymize ps) t m
  end.

Definition anonymize_repo (r : repo) : repo :=
  {| bare := bare r; HEAD := HEAD r; heads := anonymize <$> heads r;
     tags := (fun t => {| tag_target := anonymize (tag_target t);
                          tag_message := tag_message t |}) <$> tags r;
     remote_refs := anonymize <$> remote_refs r; origin := origin r;
     tracking := tracking r; index := index r;
     MERGE_HEAD := anonymize <$> MERGE_HEAD r |}.

(** What a directory holds, up to commit hashes and timestamps: the file
    tree byte for byte, and the history with its branches, tags,
    messages and trees. *)
Definition snapshot (w : world) (p : string) : option dir :=
  match fs w p with
  | Some d => Some {| files := files d; dotgit := anonymize_repo <$> dotgit d |}
  | None => None
  end.

Definition unmerged_at (w : world) (p : string) : list string :=
  match repo_at w p with
  | Some r => unmerged_paths (index r)
  | None => []
  end.

(** Conflict blocks of a file on disk. *)
Definition blocks_at (w : world) (p file : string) : option nat :=
  Diff3.conflict_blocks <$> file_at w p file.

(** The documented conflict is in place: [file] is unmerged in the index
    of the repository in [p] and holds [n] conflict blocks on disk. *)
Definition conflict_ready (w : world) (p file : string) (n : nat) : Prop :=
  In file (unmerged_at w p) /\ blocks_at w p file = Some n.

(** Two commits have diverged: neither is in the history of the other. *)
Definition diverged (x y : commit) : bool :=
  negb (is_ancestor x y) && negb (is_ancestor y x).

(** The conflict blocks a merge of [theirs] into [ours] would leave in
    [file]. *)
Definition merge_preview (ours theirs : commit) (file : string) : option nat :=
  match merge_base ours theirs with
  | Some base =>
      match merge_path "theirs" (commit_tree base !! file) (commit_tree ours !! file)
                       (commit_tree theirs !! file) with
      | Clean _ => Some 0
      | Conflicted (Some f) _ _ _ => Some (Diff3.conflict_blocks (data f))
      | Conflicted None _ _ _ => None
      end
  | None => None
  end.

End Session.

Module Catalog.
Import Git Py.

Inductive scenario : Type :=
| S01 | S02 | S03 | S04 | S05 | S06 | S07 | S08 | S09 | S10
| S11 | S12 | S13 | S14 | S15 | S16 | S17 | S18 | S19 | S20.

Definition all : list scenario :=
  [S01; S02; S03; S04; S05; S06; S07; S08; S09; S10;
   S11; S12; S13; S14; S15; S16; S17; S18; S19; S20].

(** The directories a scenario guards with the exists/force rule. *)
Definition guarded (s : scenario) : list string :=
  match s with
  | S01 => [Ex01.EXERCISE_DIR] | S02 => [Ex02.EXERCISE_DIR]
  | S03 => [Ex03.EXERCISE_DIR] | S04 => [Ex04.EXERCISE_DIR]
  | S05 => [Ex05.EXERCISE_DIR] | S06 => [Ex06.EXERCISE_DIR]
  | S07 => [Ex07.EXERCISE_DIR] | S08 => [Ex08.EXERCISE_DIR]
  | S09 => [Ex09.EXERCISE_DIR] | S10 => [Ex10.EXERCISE_DIR]
  | S11 => [Ex11.EXERCISE_DIR] | S12 => [Ex12.EXERCISE_DIR]
  | S13 => [Ex13.EXERCISE_DIR] | S14 => [Ex14.EXERCISE_DIR]
  | S15 => [Ex15.REMOTE_REPO; Ex15.EXERCISE_DIR]
  | S16 => [Ex16.REMOTE_REPO; Ex16.EXERCISE_DIR]
  | S17 => [Ex17.REMOTE_REPO; Ex17.EXERCISE_DIR]
  | S18 => [Ex18.EXERCISE_DIR] | S19 => [Ex19.EXERCISE_DIR]
  | S20 => [Ex20.EXERCISE_DIR]
  end.

(** The scratch directories of a scenario (the [--update] mode of ex15
    included). *)
Definition scratch (s : scenario) : list string :=
  match s with
  | S15 => ["_temp_init"; "_temp_push"]
  | S16 => ["_temp_ex16"]
  | S17 => ["_temp_ex17"; "_temp_remote_ex17"]
  | _ => []
  end.

(** A provisioning run: [main] without [--update]. *)
Definition provision (s : scenario) (force : bool) : M Z :=
  match s with
  | S01 => Ex01.main force | S02 => Ex02.main force | S03 => Ex03.main force
  | S04 => Ex04.main force | S05 => Ex05.main force | S06 => Ex06.main force
  | S07 => Ex07.main force | S08 => Ex08.main force | S09 => Ex09.main force
  | S10 => Ex10.main force | S11 => Ex11.main force | S12 => Ex12.main force
  | S13 => Ex13.main force | S14 => Ex14.main force
  | S15 => Ex15.main force false
  | S16 => Ex16.main force | S17 => Ex17.main force | S18 => Ex18.main force
  | S19 => Ex19.main force | S20 => Ex20.main force
  end.

Definition present (f : fsys) (p : string) : bool :=
  match f p with
  | Some _ => true
  | None => false
  end.

(** Some guarded directory of the scenario exists. *)
Definition target_exists (s : scenario) (f : fsys) : bool :=
  existsb (present f) (guarded s).

(** The guard lets the run through. *)
Definition guard_passes (s : scenario) (w : world) (force : bool) : Prop :=
  force = true \/ target_exists s (fs w) = false.

(** No scratch directory of the scenario is lying around. *)
Definition no_scratch (s : scenario) (w : world) : Prop :=
  Forall (fun p => fs w p = None) (scratch s).

End Catalog.

(** ** Facts about the model *)

Module Facts.
Import Git Py Session Catalog.

(** *** Commits *)

Lemma commit_ind (P : commit -> Prop) :
  (forall s ps t m, Forall P ps -> P (Commit s ps t m)) ->
  forall c, P c.
Proof.
  intros step. fix IH 1. intros [s ps t m]. apply step.
  revert ps. fix IHps 1. intros [|p ps].
  - constructor.
  - constructor; [apply IH | apply IHps].
Qed.

Lemma commit_eqb_eq (a b : commit) : commit_eqb a b = true <-> a = b.
Proof.
  revert b. induction a as [s ps t m IH] using commit_ind. intros [s' ps' t' m'].
  simpl. rewrite !andb_true_iff, String.eqb_eq, bool_decide_eq_true, Nat.eqb_eq.
  assert (Hps : forall qs,
             (fix all2 (xs ys : list commit) : bool :=
                match xs, ys with
                | [], [] => true
                | x :: xs', y :: ys' => commit_eqb x y && all2 xs' ys'
                | _, _ => false
                end) ps qs = true <-> ps = qs).
  { induction IH as [|p ps Hp _ IHps]; intros [|q qs]; try (split; [discriminate|congruence]).
    - tauto.
    - rewrite andb_true_iff, Hp, IHps. split; [intros [-> ->]; reflexivity | intros [= -> ->]; tauto]. }
  rewrite Hps. split.
  - intros [[[-> ->] ->] ->]. reflexivity.
  - intros [= -> -> -> ->]. tauto.
Qed.

Lemma commit_eqb_refl (c : commit) : commit_eqb c c = true.
Proof. apply commit_eqb_eq. reflexivity. Qed.

Lemma is_ancestor_refl (c : commit) : is_ancestor c c = true.
Proof.
  destruct c as [s ps t m].
  change (commit_eqb (Commit s ps t m) (Commit s ps t m)
          || existsb (is_ancestor (Commit s ps t m)) ps = true).
  rewrite commit_eqb_refl. reflexivity.
Qed.

(** *** The filesystem seen from one entry *)

Definition fs_put (p : string) (o : option dir) (f : fsys) : fsys :=
  fun q => if String.eqb q p then o else f q.

Lemma expand (f : fsys) (p : string) : f = fs_put p (f p) f.
Proof.
  apply functional_extensionality. intros q. unfold fs_put.
  destruct (String.eqb_spec q p); congruence.
Qed.

(** [focus_on p]: make the entry [p] of an abstract filesystem explicit,
    so that the scripts can be run on it. *)
Ltac focus_on p :=
  match goal with
  | f : string -> option dir |- _ =>
      let o := fresh "entry" in
      remember (f p) as o eqn:E in *;
      rewrite (expand f p), <- E;
      clear E
  end.

Ltac open_world w :=
  destruct w as [w_fs w_root w_clock w_faults w_branch w_frames w_out w_err w_trace];
  cbn [fs root clock faults default_branch frames out err trace] in *.

(** Decidable equality, to settle closed statements by evaluation. *)
#[global] Instance commit_eq_dec : EqDecision commit.
Proof.
  intros a b. destruct (commit_eqb a b) eqn:E.
  - left. apply commit_eqb_eq, E.
  - right. intros ->. rewrite commit_eqb_refl in E. discriminate.
Defined.
#[global] Instance tag_eq_dec : EqDecision tag.
Proof. solve_decision. Defined.
#[global] Instance repo_eq_dec : EqDecision repo.
Proof. solve_decision. Defined.
#[global] Instance dir_eq_dec : EqDecision dir.
Proof. solve_decision. Defined.


(** Enter a quiet session: the clock and the faults become concrete. *)
Ltac enter w :=
  match goal with
  | Hq : quiet w |- _ => destruct Hq as [? ?]
  end;
  open_world w; subst.

(** Use the hypotheses that say which entries are absent. *)
Ltac drop_absent :=
  repeat match goal with
    | H : no_scratch _ _ |- _ => cbv [no_scratch scratch fs] in H
    | H : Forall _ (_ :: _) |- _ =>
        let Hx := fresh "Habs" in
        pose proof (Forall_inv H) as Hx; cbv beta in Hx; apply Forall_inv_tail in H
    | H : Forall _ [] |- _ => clear H
    | H : ?g ?p = None |- _ => rewrite (expand g p), H; clear H
    end.

(** Case analysis on the guarded entries and on [--force], under the
    hypothesis [H] that the guard passes. *)
Ltac through_guard H :=
  cbv [guard_passes target_exists guarded existsb present fs] in H;
  repeat match type of H with
    | context [?g ?p] =>
        match type of g with
        | string -> option dir => focus_on p
        end
    end;
  repeat match goal with
    | x : option dir |- _ => destruct x
    end;
  match type of H with
  | ?b = true \/ _ => destruct b
  end;
  simpl in H; try (destruct H; discriminate); clear H.



End Facts.

(** ** What a git invocation can do to the filesystem *)

Module GitFacts.
Import Git Py Session Catalog Facts.

Definition origin_of (d : dir) : option string :=
  match dotgit d with
  | Some r => origin r
  | None => None
  end.

(** An in-place command leaves the remote of the repository alone. *)
Definition in_place (f : dir -> completed * dir) : Prop :=
  forall d, origin_of (f d).2 = origin_of d.

Ltac crush_in_place :=
  intros d; unfold origin_of;
  repeat (case_match; simpl in *; simplify_eq);
  simpl in *; try reflexivity; try congruence.

Lemma init_in_place b : in_place (init b).
Proof. unfold init. crush_in_place. Qed.

Lemma add_all_in_place : in_place add_all.
Proof. unfold add_all, in_work_tree. crush_in_place. Qed.

Lemma add_paths_in_place ps : in_place (add_paths ps).
Proof. unfold add_paths, in_work_tree. crush_in_place. Qed.

Lemma commit_m_in_place now msg : in_place (commit_m now msg).
Proof. unfold commit_m, in_work_tree. crush_in_place. Qed.

Lemma checkout_b_in_place b : in_place (checkout_b b).
Proof. unfold checkout_b, in_work_tree. crush_in_place. Qed.

Lemma checkout_in_place b : in_place (checkout b).
Proof. unfold checkout, in_work_tree. crush_in_place. Qed.

Lemma branch_in_place b : in_place (branch b).
Proof. unfold branch. crush_in_place. Qed.

Lemma tag_a_in_place n m : in_place (tag_a n m).
Proof. unfold tag_a. crush_in_place. Qed.

Lemma merge_in_place now b : in_place (merge now b).
Proof. unfold merge, in_work_tree, fast_forward, true_merge. crush_in_place. Qed.

(** The four things an invocation can do: nothing; rewrite the directory
    it runs in, keeping its remote; create a clone, when it is a
    [git clone]; push, when it is a [git push], which rewrites the
    directory it runs in and moves one branch of its remote forward. *)
Inductive effect (cwd : option string) (args : list string) (fs fs' : fsys) : Prop :=
| eff_same :
    fs' = fs -> effect cwd args fs fs'
| eff_local p d d' :
    cwd = Some p -> fs p = Some d -> origin_of d' = origin_of d ->
    fs' = fs_set p d' fs -> effect cwd args fs fs'
| eff_cloned src dst d' :
    args = ["clone"; src; dst] \/ args = ["clone"; "--bare"; src; dst] ->
    fs src <> None -> origin_of d' = Some src ->
    fs' = fs_set dst d' fs -> effect cwd args fs fs'
| eff_pushed p d d' url rd rr b c :
    hd_error args = Some "push" ->
    cwd = Some p -> fs p = Some d -> origin_of d = Some url ->
    origin_of d' = origin_of d ->
    fs url = Some rd -> dotgit rd = Some rr ->
    match heads rr !! b with
    | Some old => is_ancestor old c = true
    | None => True
    end ->
    fs' = fs_set p d' (fs_set url (set_repo rd (with_heads rr (<[b := c]> (heads rr)))) fs) ->
    effect cwd args fs fs'.

Lemma in_dir_effect cwd args fs f :
  in_place f -> effect (Some cwd) args fs (in_dir cwd fs f).2.
Proof.
  intros Hf. unfold in_dir. destruct (fs cwd) as [d|] eqn:Hd.
  - specialize (Hf d). destruct (f d) as [c d']. simpl in *.
    eapply eff_local; eauto.
  - apply eff_same. reflexivity.
Qed.

Lemma clone_effect cwd args (b : bool) src dst fs :
  args = (if b then ["clone"; "--bare"; src; dst] else ["clone"; src; dst]) ->
  effect cwd args fs (clone b src dst fs).2.
Proof.
  intros Hargs. unfold clone. destruct (fs src) as [sd|] eqn:Hs; [|apply eff_same; reflexivity].
  destruct (dotgit sd) as [sr|]; [|apply eff_same; reflexivity].
  destruct (occupied fs dst); [apply eff_same; reflexivity|].
  simpl. eapply (eff_cloned _ _ _ _ src dst);
    [destruct b; auto | rewrite Hs; discriminate | | reflexivity].
  destruct b; reflexivity.
Qed.

Lemma push_branch_effect cwd args b fs :
  hd_error args = Some "push" ->
  effect (Some cwd) args fs (push_branch cwd b fs).2.
Proof.
  intros Hpush. unfold push_branch.
  destruct (fs cwd) as [d|] eqn:Hd; [|apply eff_same; reflexivity].
  destruct (dotgit d) as [r|] eqn:Hr; [|apply eff_same; reflexivity].
  destruct (origin r) as [url|] eqn:Ho; [|apply eff_same; reflexivity].
  destruct (fs url) as [rd|] eqn:Hu; [|apply eff_same; reflexivity].
  destruct (dotgit rd) as [rr|] eqn:Hrr; [|apply eff_same; reflexivity].
  destruct (heads r !! b) as [c|] eqn:Hc; [|apply eff_same; reflexivity].
  assert (Hod : origin_of d = Some url) by (unfold origin_of; rewrite Hr; exact Ho).
  destruct (heads rr !! b) as [old|] eqn:Hold; simpl.
  - destruct (is_ancestor old c) eqn:Hanc; simpl; [|apply eff_same; reflexivity].
    destruct (commit_eqb old c).
    + eapply (eff_local _ _ _ _ cwd d); [reflexivity | exact Hd | | reflexivity].
      unfold origin_of. simpl. rewrite Hr. reflexivity.
    + destruct (negb (bare rr) && String.eqb (HEAD rr) b); [apply eff_same; reflexivity|].
      eapply (eff_pushed _ _ _ _ cwd d _ url rd rr b c);
        [exact Hpush | reflexivity | exact Hd | exact Hod | | exact Hu | exact Hrr | | reflexivity].
      * unfold origin_of. simpl. rewrite Hr. reflexivity.
      * rewrite Hold. exact Hanc.
  - destruct (negb (bare rr) && String.eqb (HEAD rr) b); [apply eff_same; reflexivity|].
    eapply (eff_pushed _ _ _ _ cwd d _ url rd rr b c);
      [exact Hpush | reflexivity | exact Hd | exact Hod | | exact Hu | exact Hrr | | reflexivity].
    + unfold origin_of. simpl. rewrite Hr. reflexivity.
    + rewrite Hold. exact I.
Qed.

Lemma push_current_effect cwd args fs :
  hd_error args = Some "push" ->
  effect (Some cwd) args fs (push_current cwd fs).2.
Proof.
  intros Hpush. unfold push_current.
  destruct (fs cwd) as [d|]; [|apply eff_same; reflexivity].
  destruct (dotgit d) as [r|]; [|apply eff_same; reflexivity].
  destruct (existsb _ _); [apply push_branch_effect; exact Hpush|apply eff_same; reflexivity].
Qed.

Lemma run_in_effect db now cwd args fs :
  effect (Some cwd) args fs (run_in db now cwd args fs).2.
Proof.
  unfold run_in.
  repeat first
    [ apply in_dir_effect;
      first [ apply init_in_place | apply add_all_in_place | apply add_paths_in_place
            | apply commit_m_in_place | apply checkout_b_in_place | apply checkout_in_place
            | apply branch_in_place | apply tag_a_in_place | apply merge_in_place ]
    | apply push_current_effect; simpl; f_equal; apply String.eqb_eq; assumption
    | apply push_branch_effect; simpl; f_equal; apply String.eqb_eq; assumption
    | apply eff_same; reflexivity
    | case_match ].
Qed.

Lemma run_effect db now cwd args fs : effect cwd args fs (run db now cwd args fs).2.
Proof.
  unfold run.
  repeat first
    [ apply run_in_effect
    | apply eff_same; reflexivity
    | case_match ];
    subst; apply clone_effect;
    repeat match goal with
           | H : (_ && _) = true |- _ => apply andb_true_iff in H; destruct H
           | H : String.eqb _ _ = true |- _ => apply String.eqb_eq in H; subst
           end; reflexivity.
Qed.

(** A clone that reports success has created its destination. *)
Lemma clone_creates b src dst fs :
  returncode (clone b src dst fs).1 = 0%Z -> (clone b src dst fs).2 dst <> None.
Proof.
  unfold clone. repeat case_match; simpl; intros Hrc; try discriminate Hrc.
  all: unfold fs_set; rewrite String.eqb_refl; discriminate.
Qed.
End GitFacts.

(** ** The claims *)

Module Claim_C7.
Import Git Py Session Catalog Facts.

Definition text (s : string) : fentry := {| data := s; exec := false |}.

(** The two commits the script makes. *)
Definition initial_commit : commit :=
  Commit 2 []
         {[ "README.md" := text Ex06.build_readme_content;
            "index.html" := text Ex06.build_index_html_base ]}
         "Initial commit : page de base".

Definition footer_commit : commit :=
  Commit 5 [initial_commit]
         {[ "README.md" := text Ex06.build_readme_content;
            "index.html" := text Ex06.build_index_html_with_footer ]}
         "Ajout du footer".

(** C7.  Provisioning ex06 leaves exactly the branches [main] and
    [feature-footer]; the merge base of the two is the tip of [main],
    which has no commit of its own since the branches parted, and
    [feature-footer] is one commit ahead: a strict descendant. *)
Theorem C7_ex06_fast_forward_ready (w : world) (force : bool) :
  quiet w ->
  force = true \/ fs w Ex06.EXERCISE_DIR = None ->
  let e := run_script (Ex06.main force) w in
  status e = 0%Z
  /\ exists m ft,
       branches_at (after e) Ex06.EXERCISE_DIR = ["main"; "feature-footer"]
       /\ branch_at (after e) Ex06.EXERCISE_DIR "main" = Some m
       /\ branch_at (after e) Ex06.EXERCISE_DIR "feature-footer" = Some ft
       /\ merge_base m ft = Some m
       /\ is_ancestor m ft = true
       /\ m <> ft
       /\ ahead m ft = 1
       /\ ahead ft m = 0.
Proof.
  intros [Hc Hf] Hguard. open_world w. subst.
  focus_on Ex06.EXERCISE_DIR.
  assert (Hrun : force = true \/ entry = None) by exact Hguard. clear Hguard.
  destruct entry as [d|], force; try (destruct Hrun; discriminate).
  all: cbv zeta.
  all: split; [vm_compute; reflexivity|].
  all: exists initial_commit, footer_commit.
  all: do 5 (split; [vm_compute; reflexivity|]).
  all: split; [|split; vm_compute; reflexivity].
  all: intros Heq; apply commit_eqb_eq in Heq; vm_compute in Heq; discriminate.
Qed.

Lemma C7_ex06_fast_forward_ready_witness :
  let w := session nothing "/srv/cours" "master" in
  quiet w
  /\ (false = true \/ fs w Ex06.EXERCISE_DIR = None)
  /\ status (run_script (Ex06.main false) w) = 0%Z.
Proof.
  assert (Hq : quiet (session nothing "/srv/cours" "master")) by (split; reflexivity).
  assert (Hg : false = true
               \/ fs (session nothing "/srv/cours" "master") Ex06.EXERCISE_DIR = None)
    by (right; reflexivity).
  split; [exact Hq|]. split; [exact Hg|].
  exact (proj1 (C7_ex06_fast_forward_ready _ false Hq Hg)).
Defined.
End Claim_C7.
Module Claim_C3.
Import Git Py Session Catalog Facts.

Definition fresh_session : world := session nothing "/srv/cours" "master".

(** C3, refuted for ex17: provisioning succeeds and ends with the two
    commits on [main] (local and remote) in place, but no pull or merge is
    run: the index has no unmerged entry for [config.json], whatever the
    number of blocks. *)
Lemma C3_ex17_no_conflict_in_place :
  status (run_script (Ex17.main false) fresh_session) = 0%Z
  /\ ~ exists n,
        conflict_ready (after (run_script (Ex17.main false) fresh_session))
                       Ex17.EXERCISE_DIR "config.json" n.
Proof.
  split; [vm_compute; reflexivity|].
  intros [n [Hin _]]. vm_compute in Hin. exact Hin.
Qed.

Lemma ex08_conflict (w : world) (force : bool) :
  quiet w -> guard_passes S08 w force ->
  let e := run_script (Ex08.main force) w in
  status e = 0%Z
  /\ conflict_ready (after e) Ex08.EXERCISE_DIR "message.txt" 1
  /\ last (git_steps (after e)) = Some (["merge"; "version-interne"], 1%Z).
Proof.
  intros Hq Hg. enter w. through_guard Hg.
  all: cbv zeta; unfold conflict_ready.
  all: split; [vm_compute; reflexivity|].
  all: split; [split; [vm_compute; auto | vm_compute; reflexivity]|].
  all: vm_compute; reflexivity.
Qed.

Lemma ex09_conflict (w : world) (force : bool) :
  quiet w -> guard_passes S09 w force ->
  let e := run_script (Ex09.main force) w in
  status e = 0%Z
  /\ conflict_ready (after e) Ex09.EXERCISE_DIR "page.html" 2
  /\ last (git_steps (after e)) = Some (["merge"; "design-v2"], 1%Z).
Proof.
  intros Hq Hg. enter w. through_guard Hg.
  all: cbv zeta; unfold conflict_ready.
  all: split; [vm_compute; reflexivity|].
  all: split; [split; [vm_compute; auto | vm_compute; reflexivity]|].
  all: vm_compute; reflexivity.
Qed.

(** What ex17 leaves instead: a clean index and work tree, no merge and
    no pull among its steps, and two tips that have diverged, with edits
    of [config.json] that conflict in one block when the two are merged. *)
Definition pull_conflict_pending (w : world) : Prop :=
  unmerged_at w Ex17.EXERCISE_DIR = []
  /\ blocks_at w Ex17.EXERCISE_DIR "config.json" = Some 0
  /\ Forall (fun '(args, _) => hd EmptyString args <> "merge" /\ hd EmptyString args <> "pull")
            (git_steps w)
  /\ match branch_at w Ex17.EXERCISE_DIR "main", branch_at w Ex17.REMOTE_REPO "main" with
     | Some ours, Some theirs =>
         diverged ours theirs = true /\ merge_preview ours theirs "config.json" = Some 1
     | _, _ => False
     end.

Lemma ex17_pending (w : world) (force : bool) :
  quiet w -> no_scratch S17 w -> guard_passes S17 w force ->
  let e := run_script (Ex17.main force) w in
  status e = 0%Z /\ pull_conflict_pending (after e).
Proof.
  intros Hq Hs Hg. enter w. drop_absent. through_guard Hg.
  all: cbv zeta; unfold pull_conflict_pending.
  all: split; [vm_compute; reflexivity|].
  all: split; [vm_compute; reflexivity|].
  all: split; [vm_compute; reflexivity|].
  all: split; [vm_compute; repeat (constructor; [split; discriminate|]); constructor|].
  all: vm_compute; split; reflexivity.
Qed.

(** C3, amended.  In a session where git meets no external failure and
    the guard lets the run start: after provisioning, ex08 and ex09 hold
    the documented conflict: the file is unmerged in the index and the
    work tree copy has exactly 1 (ex08, [message.txt]) and 2 (ex09,
    [page.html]) conflict blocks, left there by the final, tolerated
    [git merge], which exits with 1.  ex17, when in addition none of its
    scratch directories is left over, runs no pull and no merge: its index
    is clean and [config.json] has no conflict block; the tips of local
    [main] and of [main] in the remote have diverged, and a three-way
    merge of the two conflicts in one block of [config.json]. *)
Theorem C3_conflict_scenarios (w : world) (force : bool) :
  quiet w ->
  (guard_passes S08 w force ->
   let e := run_script (Ex08.main force) w in
   status e = 0%Z
   /\ conflict_ready (after e) Ex08.EXERCISE_DIR "message.txt" 1
   /\ last (git_steps (after e)) = Some (["merge"; "version-interne"], 1%Z))
  /\ (guard_passes S09 w force ->
      let e := run_script (Ex09.main force) w in
      status e = 0%Z
      /\ conflict_ready (after e) Ex09.EXERCISE_DIR "page.html" 2
      /\ last (git_steps (after e)) = Some (["merge"; "design-v2"], 1%Z))
  /\ (no_scratch S17 w -> guard_passes S17 w force ->
      let e := run_script (Ex17.main force) w in
      status e = 0%Z /\ pull_conflict_pending (after e)).
Proof.
  intros Hq. split; [|split].
  - apply ex08_conflict; assumption.
  - apply ex09_conflict; assumption.
  - apply ex17_pending; assumption.
Qed.

Lemma C3_conflict_scenarios_witness :
  quiet fresh_session
  /\ guard_passes S08 fresh_session false
  /\ guard_passes S09 fresh_session false
  /\ no_scratch S17 fresh_session
  /\ guard_passes S17 fresh_session false
  /\ conflict_ready (after (run_script (Ex09.main false) fresh_session))
                    Ex09.EXERCISE_DIR "page.html" 2.
Proof.
  assert (Hq : quiet fresh_session) by (split; reflexivity).
  assert (H8 : guard_passes S08 fresh_session false) by (right; reflexivity).
  assert (H9 : guard_passes S09 fresh_session false) by (right; reflexivity).
  assert (Hs : no_scratch S17 fresh_session) by (repeat constructor).
  assert (H17 : guard_passes S17 fresh_session false) by (right; reflexivity).
  repeat (split; [assumption|]).
  exact (proj1 (proj2 (proj1 (proj2 (C3_conflict_scenarios fresh_session false Hq)) H9))).
Defined.
End Claim_C3.
Module Claim_C1.
Import Git Py Session Catalog Facts.

Definition update_commit_step : list string * Z :=
  (["commit"; "-m"; "Mise à jour v1.1 : nouveautés et corrections"], 1%Z).

(** Number of commits on the first-parent history of a branch. *)
Definition history_length (w : world) (p b : string) : option nat :=
  (fun c => length (log c)) <$> branch_at w p b.

(** C1, evaluated on the code.  After a successful provisioning of ex15,
    a first [--update] appends one commit to [main] of the bare remote
    and exits with 0.  A second [--update] in a row clones the remote,
    writes the same constant README, and [git commit] finds nothing to
    commit: it exits with 1, the script dies on the uncaught
    [CalledProcessError] with status 1, and the remote is left as the
    first update left it, with one additional commit, not two. *)
Theorem C1_second_update_fails (w : world) (force : bool) :
  quiet w -> no_scratch S15 w -> guard_passes S15 w force ->
  let e0 := run_script (Ex15.main force false) w in
  let e1 := run_script (Ex15.main false true) (after e0) in
  let e2 := run_script (Ex15.main false true) (after e1) in
  status e0 = 0%Z
  /\ history_length (after e0) Ex15.REMOTE_REPO "main" = Some 1
  /\ status e1 = 0%Z
  /\ history_length (after e1) Ex15.REMOTE_REPO "main" = Some 2
  /\ status e2 = 1%Z
  /\ last (git_steps (after e2)) = Some update_commit_step
  /\ history_length (after e2) Ex15.REMOTE_REPO "main" = Some 2
  /\ snapshot (after e2) Ex15.REMOTE_REPO = snapshot (after e1) Ex15.REMOTE_REPO
  /\ snapshot (after e2) Ex15.EXERCISE_DIR = snapshot (after e0) Ex15.EXERCISE_DIR.
Proof.
  intros Hq Hs Hg. enter w. drop_absent. through_guard Hg.
  all: cbv zeta.
  all: do 8 (split; [vm_compute; reflexivity|]).
  all: vm_compute; reflexivity.
Qed.

Lemma C1_second_update_fails_witness :
  let w := session nothing "/srv/cours" "master" in
  quiet w /\ no_scratch S15 w /\ guard_passes S15 w false
  /\ status (run_script (Ex15.main false true)
               (after (run_script (Ex15.main false true)
                         (after (run_script (Ex15.main false false) w))))) = 1%Z.
Proof.
  assert (Hq : quiet (session nothing "/srv/cours" "master")) by (split; reflexivity).
  assert (Hs : no_scratch S15 (session nothing "/srv/cours" "master"))
    by (repeat constructor).
  assert (Hg : guard_passes S15 (session nothing "/srv/cours" "master") false)
    by (right; reflexivity).
  repeat (split; [assumption|]).
  exact (proj1 (proj2 (proj2 (proj2 (proj2 (C1_second_update_fails _ false Hq Hs Hg)))))).
Defined.
End Claim_C1.
Module Claim_C6.
Import Git Py Session Catalog Facts.

(** ex03 and ex04 run a plain [git init]: their only branch bears the
    default name, whatever it is. *)
Definition text (s : string) : fentry := {| data := s; exec := false |}.


















End Claim_C6.
Module Claim_C5.
Import Git Py Session Catalog Facts.














End Claim_C5.

(** ** More of the code *)

(** ** A program logic for the scripts

    [triple P m Q E]: started in a world that satisfies [P], the program
    [m] returns [a] in a world that satisfies [Q a], or raises [e] in a
    world that satisfies [E e].  A script always terminates, so this is
    total correctness. *)

Module Logic.
Import Git Py Session Catalog Facts GitFacts.
Local Open Scope py_scope.

Definition triple {A : Type} (P : world -> Prop) (m : M A)
           (Q : A -> world -> Prop) (E : exn -> world -> Prop) : Prop :=
  forall w, P w ->
    match m w with
    | (Ok a, w') => Q a w'
    | (Raise e, w') => E e w'
    end.

Section Rules.
Context {A B : Type}.

Lemma triple_ret (a : A) (Q : A -> world -> Prop) E : triple (Q a) (ret a) Q E.
Proof. intros w H. exact H. Qed.

Lemma triple_raise (e : exn) (Q : A -> world -> Prop) (E : exn -> world -> Prop) :
  triple (E e) (raise e) Q E.
Proof. intros w H. exact H. Qed.

Lemma triple_bind (P : world -> Prop) (m : M A) (R : A -> world -> Prop)
      (k : A -> M B) (Q : B -> world -> Prop) E :
  triple P m R E -> (forall a, triple (R a) (k a) Q E) -> triple P (bind m k) Q E.
Proof.
  intros Hm Hk w HP. unfold bind. specialize (Hm w HP).
  destruct (m w) as [[a|e] w']; [apply Hk; exact Hm | exact Hm].
Qed.

Lemma triple_weaken (P P' : world -> Prop) (m : M A) (Q Q' : A -> world -> Prop)
      (E E' : exn -> world -> Prop) :
  triple P m Q E ->
  (forall w, P' w -> P w) ->
  (forall a w, Q a w -> Q' a w) ->
  (forall e w, E e w -> E' e w) ->
  triple P' m Q' E'.
Proof.
  intros Hm HP HQ HE w Hw. specialize (Hm w (HP w Hw)).
  destruct (m w) as [[a|e] w']; auto.
Qed.

Lemma triple_try_finally (P : world -> Prop) (body : M A) (cleanup : M unit)
      (Q1 Q : A -> world -> Prop) (E1 E : exn -> world -> Prop) :
  triple P body Q1 E1 ->
  (forall a, triple (Q1 a) cleanup (fun _ => Q a) E) ->
  (forall e, triple (E1 e) cleanup (fun _ => E e) (fun e' => E (During e e'))) ->
  triple P (try_finally body cleanup) Q E.
Proof.
  intros Hb Hok Hex w HP. unfold try_finally. specialize (Hb w HP).
  destruct (body w) as [[a|e] w1].
  - specialize (Hok a w1 Hb). destruct (cleanup w1) as [[[]|e'] w2]; exact Hok.
  - specialize (Hex e w1 Hb). destruct (cleanup w1) as [[[]|e'] w2]; exact Hex.
Qed.
End Rules.

Lemma triple_discard {A : Type} (P : world -> Prop) (m : M A) (Q : unit -> world -> Prop) E :
  triple P m (fun _ => Q tt) E -> triple P (discard m) Q E.
Proof.
  intros Hm. unfold discard. eapply triple_bind; [exact Hm|].
  intros a. exact (@triple_ret unit tt Q E).
Qed.

Lemma triple_when (b : bool) (P : world -> Prop) (m : M unit) (Q : unit -> world -> Prop) E :
  (b = true -> triple P m Q E) ->
  (b = false -> forall w, P w -> Q tt w) ->
  triple P (when b m) Q E.
Proof.
  intros Ht Hf. destruct b; simpl.
  - apply Ht. reflexivity.
  - intros w HP. apply Hf; [reflexivity | exact HP].
Qed.

Lemma triple_for_each {A : Type} (xs : list A) (body : A -> M unit)
      (I : world -> Prop) E :
  (forall x, In x xs -> triple I (body x) (fun _ => I) E) ->
  triple I (for_each xs body) (fun _ => I) E.
Proof.
  induction xs as [|x xs IH]; intros Hb; simpl.
  - intros w H. exact H.
  - eapply triple_bind; [apply Hb; left; reflexivity|].
    intros u. apply IH. intros y Hy. apply Hb. right. exact Hy.
Qed.

(** *** What a primitive does to the world *)

Lemma effect_alive cwd args f f' p :
  effect cwd args f f' -> f p <> None -> f' p <> None.
Proof.
  intros [-> | q d d' _ _ _ -> | src dst d' _ _ _ -> | q d d' url rd rr b c _ _ _ _ _ _ _ _ ->] Hp;
    unfold fs_set; repeat case_match; try discriminate; exact Hp.
Qed.

Lemma git_spec cwd args check w :
  let '(c, w') := git cwd args check w in
  err w' = err w
  /\ out w' = out w
  /\ trace w' = EvGit cwd args check (returncode c) :: trace w
  /\ effect cwd args (fs w) (fs w').
Proof.
  unfold git. destruct (faults w) as [|[ft|] fl].
  - pose proof (run_effect (default_branch w) (clock w) cwd args (fs w)) as He.
    destruct (run _ _ _ _ _) as [c f]. simpl in *. auto.
  - simpl. repeat split. apply eff_same. reflexivity.
  - pose proof (run_effect (default_branch w) (clock w) cwd args (fs w)) as He.
    destruct (run _ _ _ _ _) as [c f]. simpl in *. auto.
Qed.

Lemma git_clone_creates (bare_flag : list string) src dst check w :
  bare_flag = [] \/ bare_flag = ["--bare"] ->
  let '(c, w') := git None ("clone" :: (bare_flag ++ [src; dst])%list) check w in
  returncode c = 0%Z -> fs w' dst <> None.
Proof.
  intros Hb. unfold git. destruct (faults w) as [|[ft|] fl].
  2: simpl; discriminate.
  all: destruct Hb as [-> | ->]; cbn [app run String.eqb Ascii.eqb Bool.eqb andb];
    match goal with
    | |- context [clone ?b ?s ?d ?f0] =>
        pose proof (clone_creates b s d f0) as Hc;
        destruct (clone b s d f0) as [c f]
    end; simpl in *; exact Hc.
Qed.

Lemma fs_set_same p d (f : fsys) : fs_set p d f p = Some d.
Proof. unfold fs_set. rewrite String.eqb_refl. reflexivity. Qed.

Lemma fs_remove_same p (f : fsys) : fs_remove p f p = None.
Proof. unfold fs_remove. rewrite String.eqb_refl. reflexivity. Qed.

(** *** Provisioning, while it goes well and once it has failed *)

Section Provisioning.
Variable G : list string.     (* the guarded directories *)
Variable B : list string.     (* the directories that exist once the guard has passed *)
Variable S : list string.     (* the scratch directories *)
Variable force : bool.

(** The directories of the scenario. *)
Definition mine (p : string) : Prop := In p (G ++ S)%list.

(** Where a git invocation works: in its [cwd], or, for a clone run
    without [cwd], from its source to its destination. *)
Definition within (cwd : option string) (args : list string) : Prop :=
  match cwd with
  | Some p => mine p
  | None =>
      exists flags src dst,
        args = ("clone" :: flags ++ [src; dst])%list /\ mine src /\ mine dst
  end.

(** The guard looks at guarded directories and, under [--force] only,
    removes them. *)
Definition guard_event (ev : event) : Prop :=
  match ev with
  | EvExists p _ => In p G
  | EvRmtree p => In p G /\ force = true
  | _ => False
  end.

(** An event of a provisioning that goes well: it concerns a directory
    of the scenario, no guarded directory is removed, no checked step
    fails. *)
Definition good (ev : event) : Prop :=
  match ev with
  | EvExists p _ | EvMkdir p | EvWrite p _ | EvChmod p _ => mine p
  | EvRmtree p => In p S /\ ~ In p G
  | EvGit cwd args check rc => (check = false \/ rc = 0%Z) /\ within cwd args
  end.

(** After a failure only scratch directories are cleaned up. *)
Definition cleanup_event (ev : event) : Prop :=
  match ev with
  | EvRmtree p => In p S /\ ~ In p G
  | _ => False
  end.

Definition alive (ps : list string) (w : world) : Prop :=
  Forall (fun p => fs w p <> None) ps.

(** What has happened so far, when all went well. *)
Definition steps_done (w : world) : Prop :=
  exists new old,
    trace w = (new ++ old)%list /\ Forall good new /\ Forall guard_event old.

(** The guard has passed and all steps so far went well; the
    directories [ps] exist; nothing has been printed yet. *)
Definition going (ps : list string) (w : world) : Prop :=
  alive ps w /\ err w = [] /\ out w = [] /\ steps_done w.

(** All is built, and the report on stdout has begun. *)
Definition reporting (ps : list string) (w : world) : Prop :=
  alive ps w /\ err w = [] /\ out w <> [] /\ steps_done w.

Fixpoint first_cause (e : exn) : exn :=
  match e with
  | During c _ => first_cause c
  | _ => e
  end.

(** A checked step has failed with [CalledProcessError]; nothing but
    clean-up of scratch directories has happened since. *)
Definition aborted (e : exn) (w : world) : Prop :=
  alive B w
  /\ err w = []
  /\ out w = []
  /\ exit_request e = None
  /\ exists post cwd args rc o er new old,
       trace w = (post ++ EvGit cwd args true rc :: new ++ old)%list
       /\ Forall cleanup_event post
       /\ Forall good new
       /\ Forall guard_event old
       /\ rc <> 0%Z
       /\ within cwd args
       /\ first_cause e = CalledProcessError rc ("git" :: args) o er.

Lemma going_step ps ps' w w' ev :
  going ps w -> alive ps' w' -> err w' = err w -> out w' = out w ->
  trace w' = ev :: trace w -> good ev -> going ps' w'.
Proof.
  intros (_ & He & Hout & new & old & Ht & Hn & Ho) Ha He' Hout' Ht' Hev.
  split; [exact Ha|]. split; [congruence|]. split; [congruence|].
  exists (ev :: new), old. rewrite Ht', Ht. repeat split; auto.
Qed.

(** The first [print] opens the report, the next ones go on with it. *)
Lemma triple_print ps s : triple (going ps) (print s) (fun _ => reporting ps) aborted.
Proof.
  intros w (Ha & He & _ & Hs). simpl. split; [exact Ha|]. split; [exact He|].
  split; [discriminate | exact Hs].
Qed.

Lemma triple_print_f ps parts :
  triple (going ps) (print_f parts) (fun _ => reporting ps) aborted.
Proof.
  intros w (Ha & He & _ & Hs). simpl. split; [exact Ha|]. split; [exact He|].
  split; [discriminate | exact Hs].
Qed.

Lemma triple_print_more ps s :
  triple (reporting ps) (print s) (fun _ => reporting ps) aborted.
Proof.
  intros w (Ha & He & _ & Hs). simpl. split; [exact Ha|]. split; [exact He|].
  split; [discriminate | exact Hs].
Qed.

Lemma triple_print_f_more ps parts :
  triple (reporting ps) (print_f parts) (fun _ => reporting ps) aborted.
Proof.
  intros w (Ha & He & _ & Hs). simpl. split; [exact Ha|]. split; [exact He|].
  split; [discriminate | exact Hs].
Qed.

Lemma alive_set ps p d w f :
  alive ps w -> f = fs_set p d (fs w) -> Forall (fun q => f q <> None) ps.
Proof.
  intros Ha ->. unfold alive in Ha. rewrite List.Forall_forall in *. intros q Hq.
  unfold fs_set. destruct (String.eqb q p); [discriminate | auto].
Qed.

Lemma alive_in ps p w : alive ps w -> In p ps -> fs w p <> None.
Proof. unfold alive. rewrite List.Forall_forall. auto. Qed.

Lemma alive_effect ps cwd args w f :
  alive ps w -> effect cwd args (fs w) f -> Forall (fun q => f q <> None) ps.
Proof.
  unfold alive. rewrite !List.Forall_forall. intros Ha He q Hq.
  eapply effect_alive; eauto.
Qed.

Lemma alive_incl ps ps' w : alive ps w -> incl ps' ps -> alive ps' w.
Proof. unfold alive. rewrite !List.Forall_forall. auto. Qed.

Lemma triple_write_text ps p file content :
  In p ps -> mine p ->
  triple (going ps) (write_text p file content) (fun _ => going ps) aborted.
Proof.
  intros Hin Hm w H. unfold write_text.
  pose proof (alive_in ps p w (proj1 H) Hin) as Hp.
  destruct (fs w p) as [d|]; [|congruence].
  eapply going_step; [exact H | | reflexivity | reflexivity | reflexivity | exact Hm].
  eapply alive_set; [exact (proj1 H) | reflexivity].
Qed.

Lemma triple_mkdir ps p :
  mine p ->
  triple (going ps) (mkdir p) (fun _ => going (p :: ps)) aborted.
Proof.
  intros Hm w H. unfold mkdir. destruct (fs w p) as [d|] eqn:Hp.
  - destruct H as (Ha & He). split; [|exact He].
    constructor; [congruence | exact Ha].
  - eapply going_step; [exact H | | reflexivity | reflexivity | reflexivity | exact Hm].
    constructor.
    + cbn [fs record set_fs]. rewrite fs_set_same. discriminate.
    + eapply alive_set; [exact (proj1 H) | reflexivity].
Qed.

(** [subprocess.run(["git", ...], cwd=..., check=...)] *)
Lemma triple_git ps cwd args check :
  In cwd ps -> incl B ps -> mine cwd ->
  triple (going ps) (discard (subprocess_run ("git" :: args) (Some cwd) check))
         (fun _ => going ps) aborted.
Proof.
  intros Hin HB Hm. apply triple_discard. intros w H. unfold subprocess_run.
  pose proof (alive_in ps cwd w (proj1 H) Hin) as Hp.
  destruct (fs w cwd) as [d|] eqn:Hd; [|congruence].
  cbn [String.eqb Ascii.eqb Bool.eqb].
  pose proof (git_spec (Some cwd) args check w) as Hg.
  destruct (git (Some cwd) args check w) as [c w']. destruct Hg as (He & Hout & Ht & Hf).
  pose proof (alive_effect ps _ _ _ _ (proj1 H) Hf) as Ha'.
  destruct check; cbn [andb].
  - destruct (Z.eqb_spec (returncode c) 0) as [Hz|Hz]; cbn [negb].
    + eapply going_step; [exact H | exact Ha' | exact He | exact Hout | exact Ht |].
      split; [right; exact Hz | exact Hm].
    + destruct H as (Ha & He0 & Hout0 & new & old & Ht0 & Hn & Ho).
      split; [|split; [congruence|split; [congruence|split; [reflexivity|]]]].
      * eapply alive_incl; [exact Ha' | exact HB].
      * exists [], (Some cwd), args, (returncode c), (stdout c), (stderr c), new, old.
        rewrite Ht, Ht0. repeat split; auto.
  - eapply going_step; [exact H | exact Ha' | exact He | exact Hout | exact Ht |].
    split; [left; reflexivity | exact Hm].
Qed.

(** [subprocess.run(["git", "clone", [--bare,] src, dst], check=True)] *)
Lemma triple_git_clone ps (bare_flag : list string) src dst :
  bare_flag = [] \/ bare_flag = ["--bare"] -> incl B ps -> mine src -> mine dst ->
  triple (going ps)
         (discard (subprocess_run ("git" :: "clone" :: (bare_flag ++ [src; dst])%list) None true))
         (fun _ => going (dst :: ps)) aborted.
Proof.
  intros Hb HB Hs Hd. apply triple_discard. intros w H. unfold subprocess_run.
  cbn [String.eqb Ascii.eqb Bool.eqb].
  pose proof (git_spec None ("clone" :: (bare_flag ++ [src; dst])%list) true w) as Hg.
  pose proof (git_clone_creates bare_flag src dst true w Hb) as Hc.
  destruct (git None _ true w) as [c w']. destruct Hg as (He & Hout & Ht & Hf).
  pose proof (alive_effect ps _ _ _ _ (proj1 H) Hf) as Ha'.
  assert (Hw : within None ("clone" :: (bare_flag ++ [src; dst])%list))
    by (exists bare_flag, src, dst; auto).
  cbn [andb]. destruct (Z.eqb_spec (returncode c) 0) as [Hz|Hz]; cbn [negb].
  - eapply going_step;
      [exact H | | exact He | exact Hout | exact Ht | split; [right; exact Hz | exact Hw]].
    constructor; [exact (Hc Hz) | exact Ha'].
  - destruct H as (Ha & He0 & Hout0 & new & old & Ht0 & Hn & Ho).
    split; [|split; [congruence|split; [congruence|split; [reflexivity|]]]].
    + eapply alive_incl; [exact Ha' | exact HB].
    + exists [], None, ("clone" :: (bare_flag ++ [src; dst])%list), (returncode c),
        (stdout c), (stderr c), new, old.
      rewrite Ht, Ht0. repeat split; auto.
Qed.

Lemma triple_git_clone_plain ps src dst :
  incl B ps -> mine src -> mine dst ->
  triple (going ps) (discard (subprocess_run ["git"; "clone"; src; dst] None true))
         (fun _ => going (dst :: ps)) aborted.
Proof. intros. apply (triple_git_clone ps []); auto. Qed.

Lemma triple_git_clone_bare ps src dst :
  incl B ps -> mine src -> mine dst ->
  triple (going ps) (discard (subprocess_run ["git"; "clone"; "--bare"; src; dst] None true))
         (fun _ => going (dst :: ps)) aborted.
Proof. intros. apply (triple_git_clone ps ["--bare"]); auto. Qed.

Definition others (p : string) (ps : list string) : list string :=
  List.filter (fun q => negb (String.eqb q p)) ps.

Lemma alive_others ps p w f :
  alive ps w -> f = fs_remove p (fs w) -> Forall (fun q => f q <> None) (others p ps).
Proof.
  intros Ha ->. unfold alive, others in *. rewrite List.Forall_forall in *.
  intros q Hq. apply filter_In in Hq. destruct Hq as [Hq Hne].
  unfold fs_remove. destruct (String.eqb q p); [discriminate | auto].
Qed.

(** [shutil.rmtree] of a scratch directory that exists. *)
Lemma triple_rmtree ps p :
  ~ In p G -> In p S -> In p ps ->
  triple (going ps) (rmtree p) (fun _ => going (others p ps)) aborted.
Proof.
  intros HG HS Hin w H. unfold rmtree.
  pose proof (alive_in ps p w (proj1 H) Hin) as Hp.
  destruct (fs w p) as [d|]; [|congruence].
  eapply going_step; [exact H | | reflexivity | reflexivity | reflexivity | split; assumption].
  eapply alive_others; [exact (proj1 H) | reflexivity].
Qed.

(** The clean-up of a [finally], reached after a failure. *)
Lemma triple_rmtree_aborted p e :
  ~ In p G -> In p S -> ~ In p B ->
  triple (aborted e) (rmtree p) (fun _ => aborted e) (fun e' => aborted (During e e')).
Proof.
  intros HG HS HB w
    (Ha & He & Hout & Hx & post & cwd & args & rc & o & er & new & old
     & Ht & Hp & Hn & Ho & Hrc & Hw & Hc).
  unfold rmtree. destruct (fs w p) as [d|].
  - split; [|split; [exact He|split; [exact Hout|split; [exact Hx|]]]].
    + unfold alive in *. rewrite List.Forall_forall in *. intros q Hq.
      cbn [fs record set_fs]. unfold fs_remove.
      destruct (String.eqb_spec q p) as [->|Hne]; [contradiction | auto].
    + exists (EvRmtree p :: post), cwd, args, rc, o, er, new, old.
      cbn [trace record set_fs]. rewrite Ht.
      split; [reflexivity|]. split; [constructor; [split; assumption | exact Hp]|].
      auto.
  - split; [exact Ha|]. split; [exact He|]. split; [exact Hout|]. split; [reflexivity|].
    exists post, cwd, args, rc, o, er, new, old. repeat split; auto.
Qed.

Lemma triple_finally_rmtree ps ps' p (body : M unit) :
  triple (going ps) body (fun _ => going ps') aborted ->
  ~ In p G -> In p S -> ~ In p B -> In p ps' ->
  triple (going ps) (try_finally body (rmtree p)) (fun _ => going (others p ps')) aborted.
Proof.
  intros Hb HG HS HB Hin.
  eapply triple_try_finally; [exact Hb | |].
  - intros u. apply triple_rmtree; assumption.
  - intros e. apply triple_rmtree_aborted; assumption.
Qed.

(** [write_text] followed by [chmod] of the same file. *)
Lemma triple_write_chmod {A} ps p file content (k : M A) Q :
  triple (going ps) k Q aborted ->
  In p ps -> mine p ->
  triple (going ps)
         (bind (write_text p file content) (fun _ => bind (chmod_755 p file) (fun _ => k)))
         Q aborted.
Proof.
  intros Hk Hin Hm w H. unfold bind, write_text, chmod_755.
  pose proof (alive_in ps p w (proj1 H) Hin) as Hp.
  destruct (fs w p) as [d|]; [|congruence].
  cbn [fs record set_fs]. rewrite fs_set_same.
  cbn [files put_file]. rewrite lookup_insert_eq.
  apply Hk.
  match goal with |- going _ (record _ (set_fs _ ?w1)) =>
    assert (H1 : going ps w1) end.
  { eapply going_step; [exact H | | reflexivity | reflexivity | reflexivity | exact Hm].
    eapply alive_set; [exact (proj1 H) | reflexivity]. }
  eapply going_step; [exact H1 | | reflexivity | reflexivity | reflexivity | exact Hm].
  eapply alive_set; [exact (proj1 H1) | reflexivity].
Qed.

Lemma triple_ret_code ps ps' (n : Z) :
  incl ps' ps ->
  triple (reporting ps) (ret n) (fun r w => r = n /\ reporting ps' w) aborted.
Proof.
  intros Hi w (Ha & H). simpl. split; [reflexivity|]. split; [|exact H].
  eapply alive_incl; eauto.
Qed.

(** The process has just started. *)
Definition fresh_start (w : world) : Prop := err w = [] /\ out w = [] /\ trace w = [].

Ltac reduce := cbn [negb fs record set_fs trace err out].

(** [reset_exercise_dir], when the guard passes. *)
Lemma triple_reset_exercise_dir dir msg :
  In dir G ->
  triple (fun w => fresh_start w /\ (force = true \/ fs w dir = None))
         (found <- path_exists dir ;;
          when found (when (negb force) (eprint msg ;; sys_exit 1%Z) ;; rmtree dir) ;;
          mkdir dir)
         (fun _ => going [dir]) aborted.
Proof.
  intros HG w ((He & Hout & Ht) & Hg).
  assert (Hm : mine dir) by (apply in_or_app; left; exact HG).
  unfold bind, path_exists, when, rmtree, mkdir, ret.
  destruct (fs w dir) as [d|] eqn:Hd.
  - destruct Hg as [Hf | Hg]; [|discriminate]. rewrite Hf.
    reduce. rewrite Hd. reduce. rewrite fs_remove_same.
    split; [|split; [|split]].
    + constructor; [|constructor]. reduce. rewrite fs_set_same. discriminate.
    + exact He.
    + exact Hout.
    + exists [EvMkdir dir], [EvRmtree dir; EvExists dir true].
      reduce. rewrite Ht.
      split; [reflexivity|]. split; [repeat constructor; exact Hm|].
      repeat constructor; assumption.
  - reduce. rewrite Hd.
    split; [|split; [|split]].
    + constructor; [|constructor]. reduce. rewrite fs_set_same. discriminate.
    + exact He.
    + exact Hout.
    + exists [EvMkdir dir], [EvExists dir false].
      reduce. rewrite Ht.
      split; [reflexivity|]. split; [repeat constructor; exact Hm|].
      repeat constructor; assumption.
Qed.

(** [reset_dirs] of a scenario with a remote, when the guard passes. *)
Lemma triple_reset_dirs (r d : string) (msg : string -> string) :
  In r G -> In d G ->
  triple (fun w => fresh_start w /\ (force = true \/ (fs w r = None /\ fs w d = None)))
         (for_each [r; d]
            (fun dir_path =>
               found <- path_exists dir_path ;;
               when found
                 (when (negb force) (eprint (msg dir_path) ;; sys_exit 1%Z) ;;
                  rmtree dir_path)))
         (fun _ => going []) aborted.
Proof.
  intros Gr Gd w ((He & Hout & Ht) & Hg).
  unfold for_each, bind, path_exists, when, rmtree, ret.
  destruct Hg as [Hf | [Hr Hd]].
  - rewrite Hf. destruct (fs w r) as [dr|] eqn:Hr; reduce; [rewrite Hr; reduce|].
    + destruct (fs_remove r (fs w) d) as [dd|] eqn:Hd; reduce.
      * rewrite Hd. reduce.
        split; [constructor|]. split; [exact He|]. split; [exact Hout|].
        exists [], [EvRmtree d; EvExists d true; EvRmtree r; EvExists r true].
        reduce. rewrite Ht. repeat split; repeat constructor; assumption.
      * split; [constructor|]. split; [exact He|]. split; [exact Hout|].
        exists [], [EvExists d false; EvRmtree r; EvExists r true].
        reduce. rewrite Ht. repeat split; repeat constructor; assumption.
    + destruct (fs w d) as [dd|] eqn:Hd; reduce.
      * rewrite Hd. reduce.
        split; [constructor|]. split; [exact He|]. split; [exact Hout|].
        exists [], [EvRmtree d; EvExists d true; EvExists r false].
        reduce. rewrite Ht. repeat split; repeat constructor; assumption.
      * split; [constructor|]. split; [exact He|]. split; [exact Hout|].
        exists [], [EvExists d false; EvExists r false].
        reduce. rewrite Ht. repeat split; repeat constructor; assumption.
  - rewrite Hr. reduce. rewrite Hd. reduce.
    split; [constructor|]. split; [exact He|]. split; [exact Hout|].
    exists [], [EvExists d false; EvExists r false].
    reduce. rewrite Ht. repeat split; repeat constructor; assumption.
Qed.
End Provisioning.

(** *** Walking through a script *)

Ltac solve_in := compute; repeat first [left; reflexivity | right].
Ltac solve_notin := compute; intuition discriminate.
Ltac solve_incl := repeat (apply incl_cons; [solve_in|]); apply incl_nil_l.

Ltac side :=
  lazymatch goal with
  | |- ~ _ => solve_notin
  | |- incl _ _ => solve_incl
  | |- _ => solve_in
  end.

Ltac prim :=
  first
    [ apply triple_print
    | apply triple_print_f
    | apply triple_print_more
    | apply triple_print_f_more
    | apply triple_write_text; side
    | apply triple_git; side
    | apply triple_git_clone_plain; side
    | apply triple_git_clone_bare; side
    | apply triple_mkdir; side
    | apply triple_ret_code; side
    | apply triple_for_each; intros [? ?] _; apply triple_write_text; side ].

Ltac walk :=
  cbv beta zeta;
  lazymatch goal with
  | |- triple _ (bind (write_text ?p ?f _) (fun _ => bind (chmod_755 ?p ?f) _)) _ _ =>
      apply triple_write_chmod; [walk | side | side]
  | |- triple _ (bind _ _) _ _ =>
      eapply triple_bind; [walk | intros ?; walk]
  | |- triple _ (try_finally _ (rmtree _)) _ _ =>
      eapply triple_finally_rmtree; [walk | side | side | side | side]
  | |- _ => prim
  end.

End Logic.

(** ** Every scenario, step by step *)

Module Outcome.
Import Git Py Session Catalog Facts GitFacts Logic.
Local Open Scope py_scope.

(** The directories that exist as soon as the guard has passed: the
    exercise directory, created by [reset_exercise_dir]; [reset_dirs]
    creates nothing. *)
Definition base (s : scenario) : list string :=
  match s with
  | S15 | S16 | S17 => []
  | _ => guarded s
  end.

Definition provisioned (s : scenario) (force : bool) (n : Z) (w : world) : Prop :=
  n = 0%Z /\ reporting (guarded s) (scratch s) force (guarded s) w.

Definition guard_passed (s : scenario) (force : bool) (w : world) : Prop :=
  fresh_start w /\ guard_passes s w force.

Lemma guard_passed_one s dir force w :
  guarded s = [dir] -> guard_passed s force w ->
  fresh_start w /\ (force = true \/ fs w dir = None).
Proof.
  intros Hg [Hf Hp]. split; [exact Hf|]. destruct Hp as [Hp|Hp]; [left; exact Hp|right].
  unfold target_exists, present in Hp. rewrite Hg in Hp. simpl in Hp.
  destruct (fs w dir); [discriminate | reflexivity].
Qed.

Lemma guard_passed_two s r d force w :
  guarded s = [r; d] -> guard_passed s force w ->
  fresh_start w /\ (force = true \/ (fs w r = None /\ fs w d = None)).
Proof.
  intros Hg [Hf Hp]. split; [exact Hf|]. destruct Hp as [Hp|Hp]; [left; exact Hp|right].
  unfold target_exists, present in Hp. rewrite Hg in Hp. simpl in Hp.
  destruct (fs w r); [discriminate|]. destruct (fs w d); [discriminate|]. auto.
Qed.

Lemma ex01_runs force :
  triple (guard_passed S01 force) (provision S01 force) (provisioned S01 force)
         (aborted (guarded S01) (base S01) (scratch S01) force).
Proof.
  eapply triple_weaken with (Q := provisioned S01 force) (E := aborted (guarded S01) (base S01) (scratch S01) force);
    [ | intros w Hw; exact (guard_passed_one S01 _ force w eq_refl Hw) | auto | auto ].
  unfold provisioned.
  cbv delta [provision Ex01.main Ex01.write_readme Ex01.reset_exercise_dir] beta iota.
  eapply triple_bind; [apply triple_reset_exercise_dir; side|]. intros u.
  walk.
Qed.

Lemma ex02_runs force :
  triple (guard_passed S02 force) (provision S02 force) (provisioned S02 force)
         (aborted (guarded S02) (base S02) (scratch S02) force).
Proof.
  eapply triple_weaken with (Q := provisioned S02 force) (E := aborted (guarded S02) (base S02) (scratch S02) force);
    [ | intros w Hw; exact (guard_passed_one S02 _ force w eq_refl Hw) | auto | auto ].
  unfold provisioned.
  cbv delta [provision Ex02.main Ex02.write_files Ex02.reset_exercise_dir] beta iota.
  eapply triple_bind; [apply triple_reset_exercise_dir; side|]. intros u.
  walk.
Qed.

Lemma ex03_runs force :
  triple (guard_passed S03 force) (provision S03 force) (provisioned S03 force)
         (aborted (guarded S03) (base S03) (scratch S03) force).
Proof.
  eapply triple_weaken with (Q := provisioned S03 force) (E := aborted (guarded S03) (base S03) (scratch S03) force);
    [ | intros w Hw; exact (guard_passed_one S03 _ force w eq_refl Hw) | auto | auto ].
  unfold provisioned.
  cbv delta [provision Ex03.main Ex03.setup_git_repo Ex03.run_git Ex03.reset_exercise_dir] beta iota.
  eapply triple_bind; [apply triple_reset_exercise_dir; side|]. intros u.
  walk.
Qed.

Lemma ex04_runs force :
  triple (guard_passed S04 force) (provision S04 force) (provisioned S04 force)
         (aborted (guarded S04) (base S04) (scratch S04) force).
Proof.
  eapply triple_weaken with (Q := provisioned S04 force) (E := aborted (guarded S04) (base S04) (scratch S04) force);
    [ | intros w Hw; exact (guard_passed_one S04 _ force w eq_refl Hw) | auto | auto ].
  unfold provisioned.
  cbv delta [provision Ex04.main Ex04.setup_git_repo Ex04.run_git Ex04.reset_exercise_dir] beta iota.
  eapply triple_bind; [apply triple_reset_exercise_dir; side|]. intros u.
  walk.
Qed.

Lemma ex05_runs force :
  triple (guard_passed S05 force) (provision S05 force) (provisioned S05 force)
         (aborted (guarded S05) (base S05) (scratch S05) force).
Proof.
  eapply triple_weaken with (Q := provisioned S05 force) (E := aborted (guarded S05) (base S05) (scratch S05) force);
    [ | intros w Hw; exact (guard_passed_one S05 _ force w eq_refl Hw) | auto | auto ].
  unfold provisioned.
  cbv delta [provision Ex05.main Ex05.setup_git_repo Ex05.run_git Ex05.reset_exercise_dir] beta iota.
  eapply triple_bind; [apply triple_reset_exercise_dir; side|]. intros u.
  walk.
Qed.

Lemma ex06_runs force :
  triple (guard_passed S06 force) (provision S06 force) (provisioned S06 force)
         (aborted (guarded S06) (base S06) (scratch S06) force).
Proof.
  eapply triple_weaken with (Q := provisioned S06 force) (E := aborted (guarded S06) (base S06) (scratch S06) force);
    [ | intros w Hw; exact (guard_passed_one S06 _ force w eq_refl Hw) | auto | auto ].
  unfold provisioned.
  cbv delta [provision Ex06.main Ex06.setup_git_repo Ex06.run_git Ex06.reset_exercise_dir] beta iota.
  eapply triple_bind; [apply triple_reset_exercise_dir; side|]. intros u.
  walk.
Qed.

Lemma ex07_runs force :
  triple (guard_passed S07 force) (provision S07 force) (provisioned S07 force)
         (aborted (guarded S07) (base S07) (scratch S07) force).
Proof.
  eapply triple_weaken with (Q := provisioned S07 force) (E := aborted (guarded S07) (base S07) (scratch S07) force);
    [ | intros w Hw; exact (guard_passed_one S07 _ force w eq_refl Hw) | auto | auto ].
  unfold provisioned.
  cbv delta [provision Ex07.main Ex07.setup_git_repo Ex07.run_git Ex07.reset_exercise_dir] beta iota.
  eapply triple_bind; [apply triple_reset_exercise_dir; side|]. intros u.
  walk.
Qed.

Lemma ex08_runs force :
  triple (guard_passed S08 force) (provision S08 force) (provisioned S08 force)
         (aborted (guarded S08) (base S08) (scratch S08) force).
Proof.
  eapply triple_weaken with (Q := provisioned S08 force) (E := aborted (guarded S08) (base S08) (scratch S08) force);
    [ | intros w Hw; exact (guard_passed_one S08 _ force w eq_refl Hw) | auto | auto ].
  unfold provisioned.
  cbv delta [provision Ex08.main Ex08.setup_git_repo Ex08.run_git Ex08.reset_exercise_dir] beta iota.
  eapply triple_bind; [apply triple_reset_exercise_dir; side|]. intros u.
  walk.
Qed.

Lemma ex09_runs force :
  triple (guard_passed S09 force) (provision S09 force) (provisioned S09 force)
         (aborted (guarded S09) (base S09) (scratch S09) force).
Proof.
  eapply triple_weaken with (Q := provisioned S09 force) (E := aborted (guarded S09) (base S09) (scratch S09) force);
    [ | intros w Hw; exact (guard_passed_one S09 _ force w eq_refl Hw) | auto | auto ].
  unfold provisioned.
  cbv delta [provision Ex09.main Ex09.setup_git_repo Ex09.run_git Ex09.reset_exercise_dir] beta iota.
  eapply triple_bind; [apply triple_reset_exercise_dir; side|]. intros u.
  walk.
Qed.

Lemma ex10_runs force :
  triple (guard_passed S10 force) (provision S10 force) (provisioned S10 force)
         (aborted (guarded S10) (base S10) (scratch S10) force).
Proof.
  eapply triple_weaken with (Q := provisioned S10 force) (E := aborted (guarded S10) (base S10) (scratch S10) force);
    [ | intros w Hw; exact (guard_passed_one S10 _ force w eq_refl Hw) | auto | auto ].
  unfold provisioned.
  cbv delta [provision Ex10.main Ex10.setup_git_repo Ex10.run_git Ex10.reset_exercise_dir] beta iota.
  eapply triple_bind; [apply triple_reset_exercise_dir; side|]. intros u.
  walk.
Qed.

Lemma ex11_runs force :
  triple (guard_passed S11 force) (provision S11 force) (provisioned S11 force)
         (aborted (guarded S11) (base S11) (scratch S11) force).
Proof.
  eapply triple_weaken with (Q := provisioned S11 force) (E := aborted (guarded S11) (base S11) (scratch S11) force);
    [ | intros w Hw; exact (guard_passed_one S11 _ force w eq_refl Hw) | auto | auto ].
  unfold provisioned.
  cbv delta [provision Ex11.main Ex11.setup_git_repo Ex11.run_git Ex11.reset_exercise_dir] beta iota.
  eapply triple_bind; [apply triple_reset_exercise_dir; side|]. intros u.
  walk.
Qed.

Lemma ex12_runs force :
  triple (guard_passed S12 force) (provision S12 force) (provisioned S12 force)
         (aborted (guarded S12) (base S12) (scratch S12) force).
Proof.
  eapply triple_weaken with (Q := provisioned S12 force) (E := aborted (guarded S12) (base S12) (scratch S12) force);
    [ | intros w Hw; exact (guard_passed_one S12 _ force w eq_refl Hw) | auto | auto ].
  unfold provisioned.
  cbv delta [provision Ex12.main Ex12.setup_git_repo Ex12.run_git Ex12.reset_exercise_dir] beta iota.
  eapply triple_bind; [apply triple_reset_exercise_dir; side|]. intros u.
  walk.
Qed.

Lemma ex13_runs force :
  triple (guard_passed S13 force) (provision S13 force) (provisioned S13 force)
         (aborted (guarded S13) (base S13) (scratch S13) force).
Proof.
  eapply triple_weaken with (Q := provisioned S13 force) (E := aborted (guarded S13) (base S13) (scratch S13) force);
    [ | intros w Hw; exact (guard_passed_one S13 _ force w eq_refl Hw) | auto | auto ].
  unfold provisioned.
  cbv delta [provision Ex13.main Ex13.setup_git_repo Ex13.run_git Ex13.reset_exercise_dir] beta iota.
  eapply triple_bind; [apply triple_reset_exercise_dir; side|]. intros u.
  walk.
Qed.

Lemma ex14_runs force :
  triple (guard_passed S14 force) (provision S14 force) (provisioned S14 force)
         (aborted (guarded S14) (base S14) (scratch S14) force).
Proof.
  eapply triple_weaken with (Q := provisioned S14 force) (E := aborted (guarded S14) (base S14) (scratch S14) force);
    [ | intros w Hw; exact (guard_passed_one S14 _ force w eq_refl Hw) | auto | auto ].
  unfold provisioned.
  cbv delta [provision Ex14.main Ex14.setup_git_repo Ex14.run_git Ex14.reset_exercise_dir] beta iota.
  eapply triple_bind; [apply triple_reset_exercise_dir; side|]. intros u.
  walk.
Qed.

Lemma ex15_runs force :
  triple (guard_passed S15 force) (provision S15 force) (provisioned S15 force)
         (aborted (guarded S15) (base S15) (scratch S15) force).
Proof.
  eapply triple_weaken with (Q := provisioned S15 force) (E := aborted (guarded S15) (base S15) (scratch S15) force);
    [ | intros w Hw; exact (guard_passed_two S15 _ _ force w eq_refl Hw) | auto | auto ].
  unfold provisioned.
  cbv delta [provision Ex15.main Ex15.setup_remote_repo Ex15.setup_local_clone Ex15.run_git Ex15.reset_dirs] beta iota.
  eapply triple_bind; [apply triple_reset_dirs; side|]. intros u.
  walk.
Qed.

Lemma ex16_runs force :
  triple (guard_passed S16 force) (provision S16 force) (provisioned S16 force)
         (aborted (guarded S16) (base S16) (scratch S16) force).
Proof.
  eapply triple_weaken with (Q := provisioned S16 force) (E := aborted (guarded S16) (base S16) (scratch S16) force);
    [ | intros w Hw; exact (guard_passed_two S16 _ _ force w eq_refl Hw) | auto | auto ].
  unfold provisioned.
  cbv delta [provision Ex16.main Ex16.setup_remote_repo Ex16.setup_local_clone Ex16.run_git Ex16.reset_dirs] beta iota.
  eapply triple_bind; [apply triple_reset_dirs; side|]. intros u.
  walk.
Qed.

Lemma ex17_runs force :
  triple (guard_passed S17 force) (provision S17 force) (provisioned S17 force)
         (aborted (guarded S17) (base S17) (scratch S17) force).
Proof.
  eapply triple_weaken with (Q := provisioned S17 force) (E := aborted (guarded S17) (base S17) (scratch S17) force);
    [ | intros w Hw; exact (guard_passed_two S17 _ _ force w eq_refl Hw) | auto | auto ].
  unfold provisioned.
  cbv delta [provision Ex17.main Ex17.setup_exercise Ex17.run_git Ex17.reset_dirs] beta iota.
  eapply triple_bind; [apply triple_reset_dirs; side|]. intros u.
  walk.
Qed.

Lemma ex18_runs force :
  triple (guard_passed S18 force) (provision S18 force) (provisioned S18 force)
         (aborted (guarded S18) (base S18) (scratch S18) force).
Proof.
  eapply triple_weaken with (Q := provisioned S18 force) (E := aborted (guarded S18) (base S18) (scratch S18) force);
    [ | intros w Hw; exact (guard_passed_one S18 _ force w eq_refl Hw) | auto | auto ].
  unfold provisioned.
  cbv delta [provision Ex18.main Ex18.setup_git_repo Ex18.run_git Ex18.reset_exercise_dir] beta iota.
  eapply triple_bind; [apply triple_reset_exercise_dir; side|]. intros u.
  walk.
Qed.

Lemma ex19_runs force :
  triple (guard_passed S19 force) (provision S19 force) (provisioned S19 force)
         (aborted (guarded S19) (base S19) (scratch S19) force).
Proof.
  eapply triple_weaken with (Q := provisioned S19 force) (E := aborted (guarded S19) (base S19) (scratch S19) force);
    [ | intros w Hw; exact (guard_passed_one S19 _ force w eq_refl Hw) | auto | auto ].
  unfold provisioned.
  cbv delta [provision Ex19.main Ex19.setup_git_repo Ex19.run_git Ex19.reset_exercise_dir] beta iota.
  eapply triple_bind; [apply triple_reset_exercise_dir; side|]. intros u.
  walk.
Qed.

Lemma ex20_runs force :
  triple (guard_passed S20 force) (provision S20 force) (provisioned S20 force)
         (aborted (guarded S20) (base S20) (scratch S20) force).
Proof.
  eapply triple_weaken with (Q := provisioned S20 force) (E := aborted (guarded S20) (base S20) (scratch S20) force);
    [ | intros w Hw; exact (guard_passed_one S20 _ force w eq_refl Hw) | auto | auto ].
  unfold provisioned.
  cbv delta [provision Ex20.main Ex20.setup_git_repo Ex20.run_git Ex20.reset_exercise_dir] beta iota.
  eapply triple_bind; [apply triple_reset_exercise_dir; side|]. intros u.
  walk.
Qed.

(** Once the guard has passed, a provisioning either completes or is
    stopped by a checked step that failed. *)
Lemma provision_runs s force :
  triple (guard_passed s force) (provision s force) (provisioned s force)
         (aborted (guarded s) (base s) (scratch s) force).
Proof.
  destruct s;
    [ apply ex01_runs | apply ex02_runs | apply ex03_runs | apply ex04_runs
    | apply ex05_runs | apply ex06_runs | apply ex07_runs | apply ex08_runs
    | apply ex09_runs | apply ex10_runs | apply ex11_runs | apply ex12_runs
    | apply ex13_runs | apply ex14_runs | apply ex15_runs | apply ex16_runs
    | apply ex17_runs | apply ex18_runs | apply ex19_runs | apply ex20_runs ].
Qed.


Definition probe (G : list string) (ev : event) : Prop :=
  match ev with
  | EvExists p _ => In p G
  | _ => False
  end.

(** The guard has stopped the run: one message on stderr, nothing else. *)
Definition rejected (G : list string) (w0 : world) (e : exn) (w : world) : Prop :=
  e = SystemExit 1
  /\ fs w = fs w0
  /\ out w = out w0
  /\ (exists msg, err w = msg :: err w0)
  /\ exists probes, trace w = (probes ++ trace w0)%list /\ Forall (probe G) probes.

Lemma triple_stop {A B : Type} (P : world -> Prop) (m : M A) (k : A -> M B)
      (Q : B -> world -> Prop) E :
  triple P m (fun _ _ => False) E -> triple P (bind m k) Q E.
Proof.
  intros Hm. eapply triple_bind; [exact Hm|]. intros a w [].
Qed.

Lemma reset_exercise_dir_rejects G dir msg w0 :
  In dir G -> fs w0 dir <> None ->
  triple (fun w => w = w0)
         (found <- path_exists dir ;;
          when found (when (negb false) (eprint msg ;; sys_exit 1%Z) ;; rmtree dir) ;;
          mkdir dir)
         (fun _ _ => False) (rejected G w0).
Proof.
  intros HG Hd w ->. unfold bind, path_exists, when, eprint, sys_exit, raise.
  destruct (fs w0 dir) as [d|]; [|congruence]. cbn [negb].
  split; [reflexivity|]. split; [reflexivity|]. split; [reflexivity|].
  split; [eexists; reflexivity|].
  exists [EvExists dir true]. split; [reflexivity | repeat constructor; assumption].
Qed.

Lemma reset_dirs_rejects G (r d : string) (msg : string -> string) w0 :
  In r G -> In d G -> fs w0 r <> None \/ fs w0 d <> None ->
  triple (fun w => w = w0)
         (for_each [r; d]
            (fun dir_path =>
               found <- path_exists dir_path ;;
               when found
                 (when (negb false) (eprint (msg dir_path) ;; sys_exit 1%Z) ;;
                  rmtree dir_path)))
         (fun _ _ => False) (rejected G w0).
Proof.
  intros Gr Gd Hd w ->.
  unfold for_each, bind, path_exists, when, eprint, sys_exit, raise, ret.
  destruct (fs w0 r) as [dr|] eqn:Hr; cbn [negb fs record].
  - split; [reflexivity|]. split; [reflexivity|]. split; [reflexivity|].
    split; [eexists; reflexivity|].
    exists [EvExists r true]. split; [reflexivity | repeat constructor; assumption].
  - destruct (fs w0 d) as [dd|] eqn:Hdd; [|destruct Hd; congruence]. cbn [negb fs record].
    split; [reflexivity|]. split; [reflexivity|]. split; [reflexivity|].
    split; [eexists; reflexivity|].
    exists [EvExists d true; EvExists r false]. split; [reflexivity | repeat constructor; assumption].
Qed.

Lemma exists_one (f : fsys) dir :
  existsb (present f) [dir] = true -> f dir <> None.
Proof. unfold present. simpl. destruct (f dir); [discriminate | intros H; discriminate H]. Qed.

Lemma exists_two (f : fsys) r d :
  existsb (present f) [r; d] = true -> f r <> None \/ f d <> None.
Proof.
  unfold present. simpl. destruct (f r); [left; discriminate|].
  destruct (f d); [right; discriminate | intros H; discriminate H].
Qed.

(** Without [--force], an existing target stops the run in the guard. *)
Lemma provision_rejects s w0 :
  target_exists s (fs w0) = true ->
  triple (fun w => w = w0) (provision s false) (fun _ _ => False)
         (rejected (guarded s) w0).
Proof.
  unfold target_exists. intros Ht.
  destruct s; cbv delta [provision guarded] beta iota in Ht |- *;
    first [ apply exists_one in Ht | apply exists_two in Ht ].

  - cbv delta [Ex01.main Ex01.reset_exercise_dir] beta iota.
    apply triple_stop. apply reset_exercise_dir_rejects; [side | exact Ht].
  - cbv delta [Ex02.main Ex02.reset_exercise_dir] beta iota.
    apply triple_stop. apply reset_exercise_dir_rejects; [side | exact Ht].
  - cbv delta [Ex03.main Ex03.reset_exercise_dir] beta iota.
    apply triple_stop. apply reset_exercise_dir_rejects; [side | exact Ht].
  - cbv delta [Ex04.main Ex04.reset_exercise_dir] beta iota.
    apply triple_stop. apply reset_exercise_dir_rejects; [side | exact Ht].
  - cbv delta [Ex05.main Ex05.reset_exercise_dir] beta iota.
    apply triple_stop. apply reset_exercise_dir_rejects; [side | exact Ht].
  - cbv delta [Ex06.main Ex06.reset_exercise_dir] beta iota.
    apply triple_stop. apply reset_exercise_dir_rejects; [side | exact Ht].
  - cbv delta [Ex07.main Ex07.reset_exercise_dir] beta iota.
    apply triple_stop. apply reset_exercise_dir_rejects; [side | exact Ht].
  - cbv delta [Ex08.main Ex08.reset_exercise_dir] beta iota.
    apply triple_stop. apply reset_exercise_dir_rejects; [side | exact Ht].
  - cbv delta [Ex09.main Ex09.reset_exercise_dir] beta iota.
    apply triple_stop. apply reset_exercise_dir_rejects; [side | exact Ht].
  - cbv delta [Ex10.main Ex10.reset_exercise_dir] beta iota.
    apply triple_stop. apply reset_exercise_dir_rejects; [side | exact Ht].
  - cbv delta [Ex11.main Ex11.reset_exercise_dir] beta iota.
    apply triple_stop. apply reset_exercise_dir_rejects; [side | exact Ht].
  - cbv delta [Ex12.main Ex12.reset_exercise_dir] beta iota.
    apply triple_stop. apply reset_exercise_dir_rejects; [side | exact Ht].
  - cbv delta [Ex13.main Ex13.reset_exercise_dir] beta iota.
    apply triple_stop. apply reset_exercise_dir_rejects; [side | exact Ht].
  - cbv delta [Ex14.main Ex14.reset_exercise_dir] beta iota.
    apply triple_stop. apply reset_exercise_dir_rejects; [side | exact Ht].
  - cbv delta [Ex15.main Ex15.reset_dirs] beta iota.
    apply triple_stop. apply reset_dirs_rejects; [side | side | exact Ht].
  - cbv delta [Ex16.main Ex16.reset_dirs] beta iota.
    apply triple_stop. apply reset_dirs_rejects; [side | side | exact Ht].
  - cbv delta [Ex17.main Ex17.reset_dirs] beta iota.
    apply triple_stop. apply reset_dirs_rejects; [side | side | exact Ht].
  - cbv delta [Ex18.main Ex18.reset_exercise_dir] beta iota.
    apply triple_stop. apply reset_exercise_dir_rejects; [side | exact Ht].
  - cbv delta [Ex19.main Ex19.reset_exercise_dir] beta iota.
    apply triple_stop. apply reset_exercise_dir_rejects; [side | exact Ht].
  - cbv delta [Ex20.main Ex20.reset_exercise_dir] beta iota.
    apply triple_stop. apply reset_exercise_dir_rejects; [side | exact Ht].
Qed.

(** *** The three ways a run ends *)

Definition guard_blocks (s : scenario) (force : bool) (w : world) : Prop :=
  force = false /\ target_exists s (fs w) = true.

Lemma guard_cases s force w : guard_passes s w force \/ guard_blocks s force w.
Proof.
  unfold guard_passes, guard_blocks. destruct force; [left; left; reflexivity|].
  destruct (target_exists s (fs w)); [right; auto | left; right; reflexivity].
Qed.

Lemma guard_exclusive s force w : guard_passes s w force -> guard_blocks s force w -> False.
Proof. intros [Hf|Ht] [Hf' Ht']; congruence. Qed.

Definition report (e : exn) (w : world) : world :=
  put_errs (traceback (frames w) (root w) e) w.

Inductive run_result (s : scenario) (force : bool) (w : world) (x : exit) : Prop :=
| run_rejected :
    guard_blocks s force w -> status x = 1%Z ->
    rejected (guarded s) (boot w) (SystemExit 1) (after x) ->
    run_result s force w x
| run_completed :
    guard_passes s w force -> status x = 0%Z ->
    reporting (guarded s) (scratch s) force (guarded s) (after x) ->
    run_result s force w x
| run_aborted e w' :
    guard_passes s w force -> status x = 1%Z ->
    aborted (guarded s) (base s) (scratch s) force e w' -> after x = report e w' ->
    run_result s force w x.

Lemma run_outcome s force w : run_result s force w (run_script (provision s force) w).
Proof.
  destruct (guard_cases s force w) as [Hp|Hb].
  - assert (Hpre : guard_passed s force (boot w))
      by (split; [repeat split; reflexivity | exact Hp]).
    pose proof (provision_runs s force (boot w) Hpre) as H. unfold run_script.
    destruct (provision s force (boot w)) as [[n|e] w'].
    + destruct H as [-> H]. apply run_completed; [exact Hp | reflexivity | exact H].
    + pose proof H as (_ & _ & _ & Hx & _). rewrite Hx.
      eapply run_aborted; [exact Hp | reflexivity | exact H | reflexivity].
  - pose proof Hb as [-> Ht].
    pose proof (provision_rejects s (boot w) Ht (boot w) eq_refl) as H. unfold run_script.
    destruct (provision s false (boot w)) as [[n|e] w']; [destruct H|].
    pose proof H as [-> _]. cbn [exit_request].
    apply run_rejected; [exact Hb | reflexivity | exact H].
Qed.

(** *** Reading the trace *)

Definition failed_check (ev : event) : option (list string * Z) :=
  match ev with
  | EvGit _ args true rc => if Z.eqb rc 0 then None else Some (args, rc)
  | _ => None
  end.

Definition git_step (ev : event) : option (list string * Z) :=
  match ev with
  | EvGit _ args _ rc => Some (args, rc)
  | _ => None
  end.

Lemma omap_none {A B : Type} (f : A -> option B) (l : list A) :
  Forall (fun a => f a = None) l -> omap f l = [].
Proof. induction 1 as [|a l Ha _ IH]; simpl; [reflexivity | rewrite Ha; exact IH]. Qed.

Lemma Forall_rev' {A : Type} (P : A -> Prop) (l : list A) : Forall P l -> Forall P (rev l).
Proof.
  rewrite !List.Forall_forall. intros H a Ha. apply H. apply in_rev. exact Ha.
Qed.

Section Reading.
Variables G B S : list string.
Variable force : bool.

Lemma good_no_failed_check ev : good G S ev -> failed_check ev = None.
Proof.
  destruct ev as [| | | | |cwd args [|] rc]; simpl; try reflexivity.
  intros [[Hc | ->] _]; [discriminate | reflexivity].
Qed.

Lemma guard_event_no_git ev :
  guard_event G force ev -> git_step ev = None /\ failed_check ev = None.
Proof. destruct ev; simpl; intros H; try (exfalso; exact H); auto. Qed.

Lemma cleanup_event_no_git ev :
  cleanup_event G S ev -> git_step ev = None /\ failed_check ev = None.
Proof. destruct ev; simpl; intros H; try (exfalso; exact H); auto. Qed.

Lemma steps_done_no_failed_check w : steps_done G S force w -> failed_checks w = [].
Proof.
  intros (new & old & Ht & Hn & Ho). unfold failed_checks, events.
  change (omap failed_check (rev (trace w)) = []). apply omap_none. apply Forall_rev'.
  rewrite Ht. apply Forall_app. split.
  - eapply List.Forall_impl; [|exact Hn]. apply good_no_failed_check.
  - eapply List.Forall_impl; [|exact Ho]. intros ev Hev. apply guard_event_no_git. exact Hev.
Qed.

(** After a failure: the step that failed is the only failed one and the
    last git step of the run. *)
Lemma aborted_failed_check e w :
  aborted G B S force e w ->
  exists args rc o er,
    rc <> 0%Z
    /\ first_cause e = CalledProcessError rc ("git" :: args) o er
    /\ failed_checks w = [(args, rc)]
    /\ last (git_steps w) = Some (args, rc).
Proof.
  intros (_ & _ & _ & _ & post & cwd & args & rc & o & er & new & old
          & Ht & Hp & Hn & Ho & Hrc & _ & Hc).
  exists args, rc, o, er. split; [exact Hrc|]. split; [exact Hc|].
  assert (Hpost : omap git_step (rev post) = [] /\ omap failed_check (rev post) = []).
  { split; apply omap_none; apply Forall_rev'; (eapply List.Forall_impl; [|exact Hp]);
      intros ev Hev; apply cleanup_event_no_git; exact Hev. }
  assert (Hold : omap git_step (rev old) = [] /\ omap failed_check (rev old) = []).
  { split; apply omap_none; apply Forall_rev'; (eapply List.Forall_impl; [|exact Ho]);
      intros ev Hev; apply guard_event_no_git; exact Hev. }
  assert (Hnew : omap failed_check (rev new) = []).
  { apply omap_none. apply Forall_rev'. eapply List.Forall_impl; [|exact Hn].
    apply good_no_failed_check. }
  destruct Hpost as [Hp1 Hp2]. destruct Hold as [Ho1 Ho2].
  assert (Hrev : rev (trace w)
                 = (((rev old ++ rev new) ++ [EvGit cwd args true rc]) ++ rev post)%list).
  { rewrite Ht. rewrite rev_app_distr. simpl. rewrite rev_app_distr. reflexivity. }
  split.
  - unfold failed_checks, events. change (omap failed_check (rev (trace w)) = [(args, rc)]).
    rewrite Hrev, !omap_app, Hp2, Ho2, Hnew. simpl.
    destruct (Z.eqb_spec rc 0) as [Hz|_]; [contradiction | reflexivity].
  - unfold git_steps, events. change (last (omap git_step (rev (trace w))) = Some (args, rc)).
    rewrite Hrev, !omap_app, Hp1, Ho1. simpl. rewrite app_nil_r. apply last_snoc.
Qed.
End Reading.

Lemma report_diagnostics e w :
  err w = [] -> diagnostics (report e w) = traceback (frames w) (root w) e.
Proof.
  intros He. unfold report, diagnostics, put_errs. cbn [err].
  rewrite He, app_nil_r. apply rev_involutive.
Qed.

Lemma report_keeps e w :
  fs (report e w) = fs w /\ trace (report e w) = trace w /\ out (report e w) = out w.
Proof. repeat split. Qed.

Lemma traceback_first_cause stack r e :
  exists rest, traceback stack r e = (traceback stack r (first_cause e) ++ rest)%list.
Proof.
  induction e as [code|rc cmd o er|f|c IHc e' _]; cbn [traceback first_cause];
    try (exists []; rewrite app_nil_r; reflexivity).
  destruct IHc as [rest ->]. eexists. rewrite <- app_assoc. reflexivity.
Qed.

End Outcome.

(** ** What a run leaves alone

    A second invariant, on the filesystem only: entries outside the
    directories [X] of the scenario keep their value, the repositories [R]
    among them only see branches move forward, and the directories [A]
    are absent. *)

Module Frame.
Import Git Py Session Catalog Facts GitFacts Logic.
Local Open Scope py_scope.

(** The only change: branches that moved forward, one push at a time. *)
Inductive appended : option dir -> option dir -> Prop :=
| appended_refl o : appended o o
| appended_push o rd rr b c :
    appended o (Some rd) -> dotgit rd = Some rr ->
    match heads rr !! b with
    | Some old => is_ancestor old c = true
    | None => True
    end ->
    appended o (Some (set_repo rd (with_heads rr (<[b := c]> (heads rr))))).

Section Invariant.
Variables X R : list string.
Variable f0 : fsys.

(** A directory of the scenario in which it works. *)
Definition working (p : string) : Prop := In p X /\ ~ In p R.

Definition kept (f : fsys) : Prop :=
  (forall p, ~ In p X -> f p = f0 p) /\ (forall p, In p R -> appended (f0 p) (f p)).

(** The remote of a working directory is a directory of the scenario. *)
Definition origins (f : fsys) : Prop :=
  forall p d u, working p -> f p = Some d -> origin_of d = Some u -> In u X.

Definition absent (A : list string) (f : fsys) : Prop := Forall (fun p => f p = None) A.

Definition tidy (A : list string) (f : fsys) : Prop := kept f /\ origins f /\ absent A f.

Definition J (A : list string) (w : world) : Prop := tidy A (fs w).

Lemma absent_incl A A' f : incl A' A -> absent A f -> absent A' f.
Proof. unfold absent. rewrite !List.Forall_forall. auto. Qed.

Lemma tidy_incl A A' f : incl A' A -> tidy A f -> tidy A' f.
Proof. intros Hi (Hk & Ho & Ha). repeat split; try apply Hk; auto. eapply absent_incl; eauto. Qed.

Lemma incl_others p A : incl (others p A) A.
Proof. unfold others. intros q Hq. apply filter_In in Hq. exact (proj1 Hq). Qed.

Lemma in_others p q A : In q (others p A) -> In q A /\ q <> p.
Proof.
  unfold others. intros Hq. apply filter_In in Hq. destruct Hq as [Hq Hne].
  split; [exact Hq|]. intros ->. rewrite String.eqb_refl in Hne. discriminate Hne.
Qed.

Lemma incl_cons_others p A : incl A (p :: others p A).
Proof.
  intros q Hq. destruct (String.eqb_spec q p) as [->|Hne]; [left; reflexivity|].
  right. unfold others. apply filter_In. split; [exact Hq|].
  destruct (String.eqb_spec q p); [contradiction | reflexivity].
Qed.

(** Writing the entry of a working directory. *)
Lemma tidy_set p d' A f :
  working p -> (forall u, origin_of d' = Some u -> In u X) ->
  tidy A f -> tidy (others p A) (fs_set p d' f).
Proof.
  intros [HX HR] Hd' ((Hk1 & Hk2) & Ho & Ha). unfold fs_set. repeat split.
  - intros q Hq. destruct (String.eqb_spec q p) as [->|_]; [contradiction | auto].
  - intros q Hq. destruct (String.eqb_spec q p) as [->|_]; [contradiction | auto].
  - intros q d u Hq Hf Hu. destruct (String.eqb_spec q p) as [->|_].
    + injection Hf as <-. auto.
    + eapply Ho; eauto.
  - unfold absent in *. rewrite List.Forall_forall in *. intros q Hq.
    apply in_others in Hq. destruct Hq as [Hq Hne].
    destruct (String.eqb_spec q p); [contradiction | auto].
Qed.

Lemma tidy_set_alive p d' A f :
  working p -> (forall u, origin_of d' = Some u -> In u X) -> f p <> None ->
  tidy A f -> tidy A (fs_set p d' f).
Proof.
  intros Hw Hd' Hp H. pose proof (tidy_set p d' A f Hw Hd' H) as (Hk & Ho & _).
  split; [exact Hk|]. split; [exact Ho|].
  destruct H as (_ & _ & Ha). unfold absent in *. rewrite List.Forall_forall in *.
  intros q Hq. unfold fs_set. destruct (String.eqb_spec q p) as [->|_]; [|auto].
  destruct (Hp (Ha p Hq)).
Qed.

Lemma tidy_remove p A f : working p -> tidy A f -> tidy (p :: A) (fs_remove p f).
Proof.
  intros [HX HR] ((Hk1 & Hk2) & Ho & Ha). unfold fs_remove. repeat split.
  - intros q Hq. destruct (String.eqb_spec q p) as [->|_]; [contradiction | auto].
  - intros q Hq. destruct (String.eqb_spec q p) as [->|_]; [contradiction | auto].
  - intros q d u Hq Hf Hu. destruct (String.eqb_spec q p) as [->|_]; [discriminate|].
    eapply Ho; eauto.
  - constructor; [rewrite String.eqb_refl; reflexivity|].
    unfold absent in *. rewrite List.Forall_forall in *. intros q Hq.
    destruct (String.eqb_spec q p); [reflexivity | auto].
Qed.

Lemma tidy_absent p A f : f p = None -> tidy A f -> tidy (p :: A) f.
Proof. intros Hp (Hk & Ho & Ha). repeat split; try apply Hk; auto. constructor; assumption. Qed.

Definition not_clone (args : list string) : Prop := hd_error args <> Some "clone".

(** A git invocation in a working directory. *)
Lemma tidy_effect_in cwd args A f f' :
  working cwd -> not_clone args -> effect (Some cwd) args f f' -> tidy A f -> tidy A f'.
Proof.
  intros Hw Hnc He H.
  destruct He as [-> | p d d' Hc Hp Hor -> | src dst d' Ha _ _ _
                 | p d d' url rd rr b c _ Hc Hp Hou Hor Hu Hrr Hanc ->].
  - exact H.
  - injection Hc as <-. apply tidy_set_alive; [exact Hw | | congruence | exact H].
    intros u Hu. rewrite Hor in Hu. destruct H as (_ & Ho & _). eapply Ho; eauto.
  - exfalso. apply Hnc. destruct Ha as [-> | ->]; reflexivity.
  - injection Hc as <-.
    assert (HuX : In url X) by (destruct H as (_ & Ho & _); eapply Ho; eauto).
    assert (Horr : origin_of (set_repo rd (with_heads rr (<[b := c]> (heads rr))))
                   = origin_of rd).
    { unfold origin_of. simpl. rewrite Hrr. reflexivity. }
    destruct (String.eqb_spec cwd url) as [Heq|Hne].
    + (* the repository is its own remote *)
      assert (Hsame : fs_set cwd d'
                        (fs_set url (set_repo rd (with_heads rr (<[b := c]> (heads rr)))) f)
                      = fs_set cwd d' f).
      { apply functional_extensionality. intros q. unfold fs_set. subst url.
        destruct (String.eqb q cwd); reflexivity. }
      rewrite Hsame. apply tidy_set_alive; [exact Hw | | congruence | exact H].
      intros u Hu'. rewrite Hor in Hu'. destruct H as (_ & Ho & _). eapply Ho; eauto.
    + assert (H1 : tidy A (fs_set url (set_repo rd (with_heads rr (<[b := c]> (heads rr)))) f)).
      { destruct H as ((Hk1 & Hk2) & Ho & Ha). unfold fs_set. repeat split.
        - intros q Hq. destruct (String.eqb_spec q url) as [->|_]; [contradiction | auto].
        - intros q Hq. destruct (String.eqb_spec q url) as [->|_]; [|auto].
          eapply appended_push; [|exact Hrr | exact Hanc]. rewrite <- Hu. auto.
        - intros q dq u Hq Hf Hu'. destruct (String.eqb_spec q url) as [->|_].
          + injection Hf as <-. rewrite Horr in Hu'. eapply Ho; eauto.
          + eapply Ho; eauto.
        - unfold absent in *. rewrite List.Forall_forall in *. intros q Hq.
          destruct (String.eqb_spec q url) as [->|_]; [|auto].
          rewrite (Ha url Hq) in Hu. discriminate Hu. }
      apply tidy_set_alive; [exact Hw | | | exact H1].
      * intros u Hu'. rewrite Hor in Hu'. destruct H as (_ & Ho & _). eapply Ho; eauto.
      * unfold fs_set. destruct (String.eqb_spec cwd url); [contradiction | congruence].
Qed.

(** A clone into a working directory. *)
Lemma tidy_effect_clone (bare_flag : list string) src dst A f f' :
  bare_flag = [] \/ bare_flag = ["--bare"] ->
  In src X -> working dst ->
  effect None ("clone" :: (bare_flag ++ [src; dst])%list) f f' ->
  tidy A f -> tidy (others dst A) f'.
Proof.
  intros Hb Hs Hw He H.
  destruct He as [-> | p d d' Hc _ _ _ | src' dst' d' Ha _ Hor ->
                 | p d d' url rd rr b c _ Hc _ _ _ _ _ _ _].
  - eapply tidy_incl; [apply incl_others | exact H].
  - discriminate Hc.
  - assert (Heq : src' = src /\ dst' = dst).
    { destruct Hb as [-> | ->]; destruct Ha as [Ha | Ha]; simpl in Ha;
        injection Ha; intros; subst; try discriminate; auto. }
    destruct Heq as [-> ->]. apply tidy_set; [exact Hw | | exact H].
    intros u Hu. rewrite Hor in Hu. injection Hu as <-. exact Hs.
  - discriminate Hc.
Qed.

(** *** The primitives *)

Lemma J_quiet A w w' : fs w' = fs w -> J A w -> J A w'.
Proof. unfold J. intros ->. auto. Qed.

Lemma f_print A s E : triple (J A) (print s) (fun _ => J A) E.
Proof. intros w H. exact H. Qed.

Lemma f_print_f A parts E : triple (J A) (print_f parts) (fun _ => J A) E.
Proof. intros w H. exact H. Qed.

Lemma f_ret {T : Type} A A' (n : T) E :
  incl A' A -> triple (J A) (ret n) (fun _ => J A') E.
Proof. intros Hi w H. simpl. eapply tidy_incl; eauto. Qed.

Lemma f_mkdir A p E :
  working p -> triple (J A) (mkdir p) (fun _ => J (others p A)) E.
Proof.
  intros Hw w H. unfold mkdir. destruct (fs w p) as [d|].
  - eapply tidy_incl; [apply incl_others | exact H].
  - apply tidy_set; [exact Hw | discriminate | exact H].
Qed.

Lemma f_write_text A AE p file content :
  working p -> incl AE A ->
  triple (J A) (write_text p file content) (fun _ => J A) (fun _ => J AE).
Proof.
  intros Hw Hi w H. unfold write_text. destruct (fs w p) as [d|] eqn:Hp.
  - unfold J. cbn [fs record set_fs].
    apply tidy_set_alive; [exact Hw | | congruence | exact H].
    intros u Hu. destruct H as (_ & Ho & _). eapply Ho; eauto.
  - eapply tidy_incl; eauto.
Qed.

Lemma f_chmod A AE p file :
  working p -> incl AE A ->
  triple (J A) (chmod_755 p file) (fun _ => J A) (fun _ => J AE).
Proof.
  intros Hw Hi w H. unfold chmod_755. destruct (fs w p) as [d|] eqn:Hp.
  - destruct (files d !! file) as [f|].
    + unfold J. cbn [fs record set_fs].
      apply tidy_set_alive; [exact Hw | | congruence | exact H].
      intros u Hu. destruct H as (_ & Ho & _). eapply Ho; eauto.
    + eapply tidy_incl; eauto.
  - eapply tidy_incl; eauto.
Qed.

Lemma f_rmtree A AE p :
  working p -> incl AE (p :: A) ->
  triple (J A) (rmtree p) (fun _ => J (p :: A)) (fun _ => J AE).
Proof.
  intros Hw Hi w H. unfold rmtree. destruct (fs w p) as [d|] eqn:Hp.
  - unfold J. cbn [fs record set_fs]. apply tidy_remove; assumption.
  - eapply tidy_incl; [exact Hi|]. apply tidy_absent; assumption.
Qed.

Lemma f_git A AE cwd args check :
  working cwd -> not_clone args -> incl AE A ->
  triple (J A) (discard (subprocess_run ("git" :: args) (Some cwd) check))
         (fun _ => J A) (fun _ => J AE).
Proof.
  intros Hw Hnc Hi. apply triple_discard. intros w H. unfold subprocess_run.
  destruct (fs w cwd) as [d|] eqn:Hd; [|eapply tidy_incl; eauto].
  cbn [String.eqb Ascii.eqb Bool.eqb].
  pose proof (git_spec (Some cwd) args check w) as Hg.
  destruct (git (Some cwd) args check w) as [c w']. destruct Hg as (_ & _ & _ & Hf).
  assert (H' : J A w') by (eapply tidy_effect_in; eauto).
  destruct (check && negb (returncode c =? 0)%Z); [eapply tidy_incl; eauto | exact H'].
Qed.

Lemma f_git_clone A AE (bare_flag : list string) src dst :
  bare_flag = [] \/ bare_flag = ["--bare"] ->
  In src X -> working dst -> incl AE (others dst A) ->
  triple (J A)
         (discard (subprocess_run ("git" :: "clone" :: (bare_flag ++ [src; dst])%list) None true))
         (fun _ => J (others dst A)) (fun _ => J AE).
Proof.
  intros Hb Hs Hw Hi. apply triple_discard. intros w H. unfold subprocess_run.
  cbn [String.eqb Ascii.eqb Bool.eqb].
  pose proof (git_spec None ("clone" :: (bare_flag ++ [src; dst])%list) true w) as Hg.
  destruct (git None _ true w) as [c w']. destruct Hg as (_ & _ & _ & Hf).
  assert (H' : J (others dst A) w') by (eapply tidy_effect_clone; eauto).
  destruct (true && negb (returncode c =? 0)%Z); [eapply tidy_incl; eauto | exact H'].
Qed.

Lemma f_git_clone_plain A AE src dst :
  In src X -> working dst -> incl AE (others dst A) ->
  triple (J A) (discard (subprocess_run ["git"; "clone"; src; dst] None true))
         (fun _ => J (others dst A)) (fun _ => J AE).
Proof. intros. apply (f_git_clone A AE []); auto. Qed.

Lemma f_git_clone_bare A AE src dst :
  In src X -> working dst -> incl AE (others dst A) ->
  triple (J A) (discard (subprocess_run ["git"; "clone"; "--bare"; src; dst] None true))
         (fun _ => J (others dst A)) (fun _ => J AE).
Proof. intros. apply (f_git_clone A AE ["--bare"]); auto. Qed.

(** [try: body finally: shutil.rmtree(p)]: whatever happens in the
    body, [p] is gone afterwards. *)
Lemma f_finally_rmtree A A1 AE p (body : M unit) :
  triple (J A) body (fun _ => J A1) (fun _ => J (others p AE)) ->
  working p -> incl AE (p :: A1) ->
  triple (J A) (try_finally body (rmtree p)) (fun _ => J (p :: A1)) (fun _ => J AE).
Proof.
  intros Hb Hw Hi. eapply triple_try_finally; [exact Hb | |].
  - intros u. apply f_rmtree; assumption.
  - intros e. eapply triple_weaken; [apply (f_rmtree (others p AE) AE p) | | |]; auto.
    + apply incl_cons_others.
    + intros u w H. eapply tidy_incl; [apply incl_cons_others | exact H].
Qed.

(** A state from which the run may start: outside the working
    directories nothing has changed and no working directory holds a
    repository with a remote. *)
Lemma tidy_start A f :
  (forall q, ~ In q X -> f q = f0 q) ->
  (forall q, In q R -> f q = f0 q) ->
  (forall q d, working q -> f q = Some d -> origin_of d = None) ->
  absent A f -> tidy A f.
Proof.
  intros H1 H2 H3 H4. repeat split; auto.
  - intros p Hp. rewrite H2; [apply appended_refl | exact Hp].
  - intros p d u Hp Hd Hu. rewrite (H3 p d Hp Hd) in Hu. discriminate Hu.
Qed.

Ltac reduce := cbn [negb fs record set_fs trace err].

(** The guard, when it lets the run through. *)
Lemma f_reset_exercise_dir A dir msg force E :
  working dir -> ~ In dir A -> (forall p, working p -> p = dir \/ In p A) ->
  triple (fun w => fs w = f0 /\ absent A (fs w) /\ (force = true \/ fs w dir = None))
         (found <- path_exists dir ;;
          when found (when (negb force) (eprint msg ;; sys_exit 1%Z) ;; rmtree dir) ;;
          mkdir dir)
         (fun _ => J A) E.
Proof.
  intros Hw HnA HX w (Hf & Ha & Hg).
  assert (Hfin : forall f,
             f dir = Some empty_dir -> (forall q, q <> dir -> f q = f0 q) -> tidy A f).
  { intros f Hd Hq. apply tidy_start.
    - intros q Hn. apply Hq. intros ->. apply Hn. exact (proj1 Hw).
    - intros q Hr. apply Hq. intros ->. exact (proj2 Hw Hr).
    - intros q d Hwq Hfq. destruct (HX q Hwq) as [-> | HA].
      + rewrite Hd in Hfq. injection Hfq as <-. reflexivity.
      + assert (Hne : q <> dir) by (intros ->; contradiction).
        rewrite (Hq q Hne) in Hfq. rewrite <- Hf in Hfq.
        unfold absent in Ha. rewrite List.Forall_forall in Ha.
        rewrite (Ha q HA) in Hfq. discriminate Hfq.
    - unfold absent in *. rewrite List.Forall_forall in *. intros q HA.
      assert (Hne : q <> dir) by (intros ->; contradiction).
      rewrite (Hq q Hne), <- Hf. auto. }
  unfold bind, path_exists, when, rmtree, mkdir, ret.
  destruct (fs w dir) as [d|] eqn:Hd.
  - destruct Hg as [Hfo | Hg]; [|discriminate]. rewrite Hfo.
    reduce. rewrite Hd. reduce. rewrite fs_remove_same. unfold J. reduce.
    apply Hfin; [apply fs_set_same|].
    intros q Hne. unfold fs_set, fs_remove.
    destruct (String.eqb_spec q dir); [contradiction | congruence].
  - reduce. rewrite Hd. unfold J. reduce.
    apply Hfin; [apply fs_set_same|].
    intros q Hne. unfold fs_set.
    destruct (String.eqb_spec q dir); [contradiction | congruence].
Qed.

Lemma f_reset_dirs A (r d : string) (msg : string -> string) force E :
  working r -> working d -> (forall p, working p -> p = r \/ p = d \/ In p A) ->
  triple (fun w => fs w = f0 /\ absent A (fs w)
                   /\ (force = true \/ (fs w r = None /\ fs w d = None)))
         (for_each [r; d]
            (fun dir_path =>
               found <- path_exists dir_path ;;
               when found
                 (when (negb force) (eprint (msg dir_path) ;; sys_exit 1%Z) ;;
                  rmtree dir_path)))
         (fun _ => J A) E.
Proof.
  intros Hr Hd HX w (Hf & Ha & Hg).
  assert (Hfin : forall f,
             f r = None -> f d = None -> (forall q, q <> r -> q <> d -> f q = f0 q) ->
             tidy A f).
  { intros f Fr Fd Hq. apply tidy_start.
    - intros q Hn. apply Hq; intros ->; apply Hn; [exact (proj1 Hr) | exact (proj1 Hd)].
    - intros q HR. apply Hq; intros ->; [exact (proj2 Hr HR) | exact (proj2 Hd HR)].
    - intros q dq Hwq Hfq. destruct (HX q Hwq) as [-> | [-> | HA]]; [congruence | congruence |].
      unfold absent in Ha. rewrite List.Forall_forall in Ha. specialize (Ha q HA).
      destruct (String.eqb_spec q r) as [->|N1]; [congruence|].
      destruct (String.eqb_spec q d) as [->|N2]; [congruence|].
      rewrite (Hq q N1 N2), <- Hf, Ha in Hfq. discriminate Hfq.
    - unfold absent in *. rewrite List.Forall_forall in *. intros q HA.
      destruct (String.eqb_spec q r) as [->|N1]; [exact Fr|].
      destruct (String.eqb_spec q d) as [->|N2]; [exact Fd|].
      rewrite (Hq q N1 N2), <- Hf. auto. }
  unfold for_each, bind, path_exists, when, rmtree, ret.
  destruct Hg as [Hfo | [Fr Fd]].
  - rewrite Hfo. destruct (fs w r) as [dr|] eqn:Er; reduce; [rewrite Er; reduce|].
    + destruct (fs_remove r (fs w) d) as [dd|] eqn:Ed; reduce.
      * rewrite Ed. unfold J. reduce. apply Hfin.
        -- unfold fs_remove. rewrite String.eqb_refl.
           destruct (String.eqb r d); reflexivity.
        -- apply fs_remove_same.
        -- intros q N1 N2. unfold fs_remove.
           destruct (String.eqb_spec q d); [contradiction|].
           destruct (String.eqb_spec q r); [contradiction | congruence].
      * unfold J. reduce. apply Hfin.
        -- apply fs_remove_same.
        -- exact Ed.
        -- intros q N1 N2. unfold fs_remove.
           destruct (String.eqb_spec q r); [contradiction | congruence].
    + destruct (fs w d) as [dd|] eqn:Ed; reduce.
      * rewrite Ed. unfold J. reduce. apply Hfin.
        -- unfold fs_remove. destruct (String.eqb r d); [reflexivity | exact Er].
        -- apply fs_remove_same.
        -- intros q N1 N2. unfold fs_remove.
           destruct (String.eqb_spec q d); [contradiction | congruence].
      * unfold J. reduce. apply Hfin; [exact Er | exact Ed | intros; congruence].
  - rewrite Fr. reduce. rewrite Fd. unfold J. reduce.
    apply Hfin; [exact Fr | exact Fd | intros; congruence].
Qed.
End Invariant.

(** *** Walking through a script *)

Ltac fside :=
  lazymatch goal with
  | |- working _ _ _ => split; [solve_in | solve_notin]
  | |- not_clone _ => let H := fresh in intros H; discriminate H
  | |- incl _ _ => let a := fresh in let H := fresh in compute; intros a H; tauto
  | |- ~ _ => solve_notin
  | |- _ => solve_in
  end.

Ltac fcover :=
  let p := fresh in let H := fresh in
  intros p [H _]; compute in H; compute; intuition (subst; auto 10).

Ltac fprim :=
  first
    [ apply f_print
    | apply f_print_f
    | apply f_write_text; fside
    | apply f_chmod; fside
    | apply f_git; fside
    | apply f_git_clone_plain; fside
    | apply f_git_clone_bare; fside
    | apply f_mkdir; fside
    | apply f_ret; fside
    | apply triple_for_each; intros [? ?] _; apply f_write_text; fside ].

Ltac fwalk :=
  cbv beta zeta;
  lazymatch goal with
  | |- triple _ (bind _ _) _ _ =>
      eapply triple_bind; [fwalk | intros ?; fwalk]
  | |- triple _ (try_finally _ (rmtree _)) _ _ =>
      eapply f_finally_rmtree; [fwalk | fside | fside]
  | |- _ => fprim
  end.

End Frame.

(** ** Every scenario leaves the rest of the disk alone *)

Module Kept.
Import Git Py Session Catalog Facts GitFacts Logic Frame.
Local Open Scope py_scope.

(** The directories of a scenario. *)
Definition own (s : scenario) : list string := (guarded s ++ scratch s)%list.

Definition clean_start (s : scenario) (force : bool) (f0 : fsys) (w : world) : Prop :=
  fs w = f0 /\ absent (scratch s) (fs w) /\ guard_passes s w force.

Definition in_order (s : scenario) (f0 : fsys) (w : world) : Prop :=
  J (own s) [] f0 (scratch s) w.

Lemma guard_one s dir force w :
  guarded s = [dir] -> guard_passes s w force -> force = true \/ fs w dir = None.
Proof.
  intros Hg [Hp|Hp]; [left; exact Hp|right].
  unfold target_exists, present in Hp. rewrite Hg in Hp. simpl in Hp.
  destruct (fs w dir); [discriminate | reflexivity].
Qed.

Lemma guard_two s r d force w :
  guarded s = [r; d] -> guard_passes s w force ->
  force = true \/ (fs w r = None /\ fs w d = None).
Proof.
  intros Hg [Hp|Hp]; [left; exact Hp|right].
  unfold target_exists, present in Hp. rewrite Hg in Hp. simpl in Hp.
  destruct (fs w r); [discriminate|]. destruct (fs w d); [discriminate|]. auto.
Qed.

Lemma ex01_tidy force f0 :
  triple (clean_start S01 force f0) (provision S01 force) (fun _ => in_order S01 f0)
         (fun _ => in_order S01 f0).
Proof.
  eapply triple_weaken with (Q := fun _ => in_order S01 f0) (E := fun _ => in_order S01 f0);
    [ | intros w (Hf & Ha & Hg);
        exact (conj Hf (conj Ha (guard_one S01 _ force w eq_refl Hg))) | auto | auto ].
  unfold in_order, own.
  cbv delta [provision Ex01.main Ex01.write_readme Ex01.reset_exercise_dir] beta iota.
  eapply triple_bind;
    [apply f_reset_exercise_dir with (X := (guarded S01 ++ scratch S01)%list) (R := []) (A := scratch S01);
     [fside | fside | fcover]|].
  intros u. fwalk.
Qed.

Lemma ex02_tidy force f0 :
  triple (clean_start S02 force f0) (provision S02 force) (fun _ => in_order S02 f0)
         (fun _ => in_order S02 f0).
Proof.
  eapply triple_weaken with (Q := fun _ => in_order S02 f0) (E := fun _ => in_order S02 f0);
    [ | intros w (Hf & Ha & Hg);
        exact (conj Hf (conj Ha (guard_one S02 _ force w eq_refl Hg))) | auto | auto ].
  unfold in_order, own.
  cbv delta [provision Ex02.main Ex02.write_files Ex02.reset_exercise_dir] beta iota.
  eapply triple_bind;
    [apply f_reset_exercise_dir with (X := (guarded S02 ++ scratch S02)%list) (R := []) (A := scratch S02);
     [fside | fside | fcover]|].
  intros u. fwalk.
Qed.

Lemma ex03_tidy force f0 :
  triple (clean_start S03 force f0) (provision S03 force) (fun _ => in_order S03 f0)
         (fun _ => in_order S03 f0).
Proof.
  eapply triple_weaken with (Q := fun _ => in_order S03 f0) (E := fun _ => in_order S03 f0);
    [ | intros w (Hf & Ha & Hg);
        exact (conj Hf (conj Ha (guard_one S03 _ force w eq_refl Hg))) | auto | auto ].
  unfold in_order, own.
  cbv delta [provision Ex03.main Ex03.setup_git_repo Ex03.run_git Ex03.reset_exercise_dir] beta iota.
  eapply triple_bind;
    [apply f_reset_exercise_dir with (X := (guarded S03 ++ scratch S03)%list) (R := []) (A := scratch S03);
     [fside | fside | fcover]|].
  intros u. fwalk.
Qed.

Lemma ex04_tidy force f0 :
  triple (clean_start S04 force f0) (provision S04 force) (fun _ => in_order S04 f0)
         (fun _ => in_order S04 f0).
Proof.
  eapply triple_weaken with (Q := fun _ => in_order S04 f0) (E := fun _ => in_order S04 f0);
    [ | intros w (Hf & Ha & Hg);
        exact (conj Hf (conj Ha (guard_one S04 _ force w eq_refl Hg))) | auto | auto ].
  unfold in_order, own.
  cbv delta [provision Ex04.main Ex04.setup_git_repo Ex04.run_git Ex04.reset_exercise_dir] beta iota.
  eapply triple_bind;
    [apply f_reset_exercise_dir with (X := (guarded S04 ++ scratch S04)%list) (R := []) (A := scratch S04);
     [fside | fside | fcover]|].
  intros u. fwalk.
Qed.

Lemma ex05_tidy force f0 :
  triple (clean_start S05 force f0) (provision S05 force) (fun _ => in_order S05 f0)
         (fun _ => in_order S05 f0).
Proof.
  eapply triple_weaken with (Q := fun _ => in_order S05 f0) (E := fun _ => in_order S05 f0);
    [ | intros w (Hf & Ha & Hg);
        exact (conj Hf (conj Ha (guard_one S05 _ force w eq_refl Hg))) | auto | auto ].
  unfold in_order, own.
  cbv delta [provision Ex05.main Ex05.setup_git_repo Ex05.run_git Ex05.reset_exercise_dir] beta iota.
  eapply triple_bind;
    [apply f_reset_exercise_dir with (X := (guarded S05 ++ scratch S05)%list) (R := []) (A := scratch S05);
     [fside | fside | fcover]|].
  intros u. fwalk.
Qed.

Lemma ex06_tidy force f0 :
  triple (clean_start S06 force f0) (provision S06 force) (fun _ => in_order S06 f0)
         (fun _ => in_order S06 f0).
Proof.
  eapply triple_weaken with (Q := fun _ => in_order S06 f0) (E := fun _ => in_order S06 f0);
    [ | intros w (Hf & Ha & Hg);
        exact (conj Hf (conj Ha (guard_one S06 _ force w eq_refl Hg))) | auto | auto ].
  unfold in_order, own.
  cbv delta [provision Ex06.main Ex06.setup_git_repo Ex06.run_git Ex06.reset_exercise_dir] beta iota.
  eapply triple_bind;
    [apply f_reset_exercise_dir with (X := (guarded S06 ++ scratch S06)%list) (R := []) (A := scratch S06);
     [fside | fside | fcover]|].
  intros u. fwalk.
Qed.

Lemma ex07_tidy force f0 :
  triple (clean_start S07 force f0) (provision S07 force) (fun _ => in_order S07 f0)
         (fun _ => in_order S07 f0).
Proof.
  eapply triple_weaken with (Q := fun _ => in_order S07 f0) (E := fun _ => in_order S07 f0);
    [ | intros w (Hf & Ha & Hg);
        exact (conj Hf (conj Ha (guard_one S07 _ force w eq_refl Hg))) | auto | auto ].
  unfold in_order, own.
  cbv delta [provision Ex07.main Ex07.setup_git_repo Ex07.run_git Ex07.reset_exercise_dir] beta iota.
  eapply triple_bind;
    [apply f_reset_exercise_dir with (X := (guarded S07 ++ scratch S07)%list) (R := []) (A := scratch S07);
     [fside | fside | fcover]|].
  intros u. fwalk.
Qed.

Lemma ex08_tidy force f0 :
  triple (clean_start S08 force f0) (provision S08 force) (fun _ => in_order S08 f0)
         (fun _ => in_order S08 f0).
Proof.
  eapply triple_weaken with (Q := fun _ => in_order S08 f0) (E := fun _ => in_order S08 f0);
    [ | intros w (Hf & Ha & Hg);
        exact (conj Hf (conj Ha (guard_one S08 _ force w eq_refl Hg))) | auto | auto ].
  unfold in_order, own.
  cbv delta [provision Ex08.main Ex08.setup_git_repo Ex08.run_git Ex08.reset_exercise_dir] beta iota.
  eapply triple_bind;
    [apply f_reset_exercise_dir with (X := (guarded S08 ++ scratch S08)%list) (R := []) (A := scratch S08);
     [fside | fside | fcover]|].
  intros u. fwalk.
Qed.

Lemma ex09_tidy force f0 :
  triple (clean_start S09 force f0) (provision S09 force) (fun _ => in_order S09 f0)
         (fun _ => in_order S09 f0).
Proof.
  eapply triple_weaken with (Q := fun _ => in_order S09 f0) (E := fun _ => in_order S09 f0);
    [ | intros w (Hf & Ha & Hg);
        exact (conj Hf (conj Ha (guard_one S09 _ force w eq_refl Hg))) | auto | auto ].
  unfold in_order, own.
  cbv delta [provision Ex09.main Ex09.setup_git_repo Ex09.run_git Ex09.reset_exercise_dir] beta iota.
  eapply triple_bind;
    [apply f_reset_exercise_dir with (X := (guarded S09 ++ scratch S09)%list) (R := []) (A := scratch S09);
     [fside | fside | fcover]|].
  intros u. fwalk.
Qed.

Lemma ex10_tidy force f0 :
  triple (clean_start S10 force f0) (provision S10 force) (fun _ => in_order S10 f0)
         (fun _ => in_order S10 f0).
Proof.
  eapply triple_weaken with (Q := fun _ => in_order S10 f0) (E := fun _ => in_order S10 f0);
    [ | intros w (Hf & Ha & Hg);
        exact (conj Hf (conj Ha (guard_one S10 _ force w eq_refl Hg))) | auto | auto ].
  unfold in_order, own.
  cbv delta [provision Ex10.main Ex10.setup_git_repo Ex10.run_git Ex10.reset_exercise_dir] beta iota.
  eapply triple_bind;
    [apply f_reset_exercise_dir with (X := (guarded S10 ++ scratch S10)%list) (R := []) (A := scratch S10);
     [fside | fside | fcover]|].
  intros u. fwalk.
Qed.

Lemma ex11_tidy force f0 :
  triple (clean_start S11 force f0) (provision S11 force) (fun _ => in_order S11 f0)
         (fun _ => in_order S11 f0).
Proof.
  eapply triple_weaken with (Q := fun _ => in_order S11 f0) (E := fun _ => in_order S11 f0);
    [ | intros w (Hf & Ha & Hg);
        exact (conj Hf (conj Ha (guard_one S11 _ force w eq_refl Hg))) | auto | auto ].
  unfold in_order, own.
  cbv delta [provision Ex11.main Ex11.setup_git_repo Ex11.run_git Ex11.reset_exercise_dir] beta iota.
  eapply triple_bind;
    [apply f_reset_exercise_dir with (X := (guarded S11 ++ scratch S11)%list) (R := []) (A := scratch S11);
     [fside | fside | fcover]|].
  intros u. fwalk.
Qed.

Lemma ex12_tidy force f0 :
  triple (clean_start S12 force f0) (provision S12 force) (fun _ => in_order S12 f0)
         (fun _ => in_order S12 f0).
Proof.
  eapply triple_weaken with (Q := fun _ => in_order S12 f0) (E := fun _ => in_order S12 f0);
    [ | intros w (Hf & Ha & Hg);
        exact (conj Hf (conj Ha (guard_one S12 _ force w eq_refl Hg))) | auto | auto ].
  unfold in_order, own.
  cbv delta [provision Ex12.main Ex12.setup_git_repo Ex12.run_git Ex12.reset_exercise_dir] beta iota.
  eapply triple_bind;
    [apply f_reset_exercise_dir with (X := (guarded S12 ++ scratch S12)%list) (R := []) (A := scratch S12);
     [fside | fside | fcover]|].
  intros u. fwalk.
Qed.

Lemma ex13_tidy force f0 :
  triple (clean_start S13 force f0) (provision S13 force) (fun _ => in_order S13 f0)
         (fun _ => in_order S13 f0).
Proof.
  eapply triple_weaken with (Q := fun _ => in_order S13 f0) (E := fun _ => in_order S13 f0);
    [ | intros w (Hf & Ha & Hg);
        exact (conj Hf (conj Ha (guard_one S13 _ force w eq_refl Hg))) | auto | auto ].
  unfold in_order, own.
  cbv delta [provision Ex13.main Ex13.setup_git_repo Ex13.run_git Ex13.reset_exercise_dir] beta iota.
  eapply triple_bind;
    [apply f_reset_exercise_dir with (X := (guarded S13 ++ scratch S13)%list) (R := []) (A := scratch S13);
     [fside | fside | fcover]|].
  intros u. fwalk.
Qed.

Lemma ex14_tidy force f0 :
  triple (clean_start S14 force f0) (provision S14 force) (fun _ => in_order S14 f0)
         (fun _ => in_order S14 f0).
Proof.
  eapply triple_weaken with (Q := fun _ => in_order S14 f0) (E := fun _ => in_order S14 f0);
    [ | intros w (Hf & Ha & Hg);
        exact (conj Hf (conj Ha (guard_one S14 _ force w eq_refl Hg))) | auto | auto ].
  unfold in_order, own.
  cbv delta [provision Ex14.main Ex14.setup_git_repo Ex14.run_git Ex14.reset_exercise_dir] beta iota.
  eapply triple_bind;
    [apply f_reset_exercise_dir with (X := (guarded S14 ++ scratch S14)%list) (R := []) (A := scratch S14);
     [fside | fside | fcover]|].
  intros u. fwalk.
Qed.

Lemma ex15_tidy force f0 :
  triple (clean_start S15 force f0) (provision S15 force) (fun _ => in_order S15 f0)
         (fun _ => in_order S15 f0).
Proof.
  eapply triple_weaken with (Q := fun _ => in_order S15 f0) (E := fun _ => in_order S15 f0);
    [ | intros w (Hf & Ha & Hg);
        exact (conj Hf (conj Ha (guard_two S15 _ _ force w eq_refl Hg))) | auto | auto ].
  unfold in_order, own.
  cbv delta [provision Ex15.main Ex15.setup_remote_repo Ex15.setup_local_clone Ex15.run_git Ex15.reset_dirs] beta iota.
  eapply triple_bind;
    [apply f_reset_dirs with (X := (guarded S15 ++ scratch S15)%list) (R := []) (A := scratch S15);
     [fside | fside | fcover]|].
  intros u. fwalk.
Qed.

Lemma ex16_tidy force f0 :
  triple (clean_start S16 force f0) (provision S16 force) (fun _ => in_order S16 f0)
         (fun _ => in_order S16 f0).
Proof.
  eapply triple_weaken with (Q := fun _ => in_order S16 f0) (E := fun _ => in_order S16 f0);
    [ | intros w (Hf & Ha & Hg);
        exact (conj Hf (conj Ha (guard_two S16 _ _ force w eq_refl Hg))) | auto | auto ].
  unfold in_order, own.
  cbv delta [provision Ex16.main Ex16.setup_remote_repo Ex16.setup_local_clone Ex16.run_git Ex16.reset_dirs] beta iota.
  eapply triple_bind;
    [apply f_reset_dirs with (X := (guarded S16 ++ scratch S16)%list) (R := []) (A := scratch S16);
     [fside | fside | fcover]|].
  intros u. fwalk.
Qed.

Lemma ex17_tidy force f0 :
  triple (clean_start S17 force f0) (provision S17 force) (fun _ => in_order S17 f0)
         (fun _ => in_order S17 f0).
Proof.
  eapply triple_weaken with (Q := fun _ => in_order S17 f0) (E := fun _ => in_order S17 f0);
    [ | intros w (Hf & Ha & Hg);
        exact (conj Hf (conj Ha (guard_two S17 _ _ force w eq_refl Hg))) | auto | auto ].
  unfold in_order, own.
  cbv delta [provision Ex17.main Ex17.setup_exercise Ex17.run_git Ex17.reset_dirs] beta iota.
  eapply triple_bind;
    [apply f_reset_dirs with (X := (guarded S17 ++ scratch S17)%list) (R := []) (A := scratch S17);
     [fside | fside | fcover]|].
  intros u. fwalk.
Qed.

Lemma ex18_tidy force f0 :
  triple (clean_start S18 force f0) (provision S18 force) (fun _ => in_order S18 f0)
         (fun _ => in_order S18 f0).
Proof.
  eapply triple_weaken with (Q := fun _ => in_order S18 f0) (E := fun _ => in_order S18 f0);
    [ | intros w (Hf & Ha & Hg);
        exact (conj Hf (conj Ha (guard_one S18 _ force w eq_refl Hg))) | auto | auto ].
  unfold in_order, own.
  cbv delta [provision Ex18.main Ex18.setup_git_repo Ex18.run_git Ex18.reset_exercise_dir] beta iota.
  eapply triple_bind;
    [apply f_reset_exercise_dir with (X := (guarded S18 ++ scratch S18)%list) (R := []) (A := scratch S18);
     [fside | fside | fcover]|].
  intros u. fwalk.
Qed.

Lemma ex19_tidy force f0 :
  triple (clean_start S19 force f0) (provision S19 force) (fun _ => in_order S19 f0)
         (fun _ => in_order S19 f0).
Proof.
  eapply triple_weaken with (Q := fun _ => in_order S19 f0) (E := fun _ => in_order S19 f0);
    [ | intros w (Hf & Ha & Hg);
        exact (conj Hf (conj Ha (guard_one S19 _ force w eq_refl Hg))) | auto | auto ].
  unfold in_order, own.
  cbv delta [provision Ex19.main Ex19.setup_git_repo Ex19.run_git Ex19.reset_exercise_dir] beta iota.
  eapply triple_bind;
    [apply f_reset_exercise_dir with (X := (guarded S19 ++ scratch S19)%list) (R := []) (A := scratch S19);
     [fside | fside | fcover]|].
  intros u. fwalk.
Qed.

Lemma ex20_tidy force f0 :
  triple (clean_start S20 force f0) (provision S20 force) (fun _ => in_order S20 f0)
         (fun _ => in_order S20 f0).
Proof.
  eapply triple_weaken with (Q := fun _ => in_order S20 f0) (E := fun _ => in_order S20 f0);
    [ | intros w (Hf & Ha & Hg);
        exact (conj Hf (conj Ha (guard_one S20 _ force w eq_refl Hg))) | auto | auto ].
  unfold in_order, own.
  cbv delta [provision Ex20.main Ex20.setup_git_repo Ex20.run_git Ex20.reset_exercise_dir] beta iota.
  eapply triple_bind;
    [apply f_reset_exercise_dir with (X := (guarded S20 ++ scratch S20)%list) (R := []) (A := scratch S20);
     [fside | fside | fcover]|].
  intros u. fwalk.
Qed.

Lemma provision_tidy s force f0 :
  triple (clean_start s force f0) (provision s force) (fun _ => in_order s f0)
         (fun _ => in_order s f0).
Proof.
  destruct s;
    [ apply ex01_tidy | apply ex02_tidy | apply ex03_tidy | apply ex04_tidy
    | apply ex05_tidy | apply ex06_tidy | apply ex07_tidy | apply ex08_tidy
    | apply ex09_tidy | apply ex10_tidy | apply ex11_tidy | apply ex12_tidy
    | apply ex13_tidy | apply ex14_tidy | apply ex15_tidy | apply ex16_tidy
    | apply ex17_tidy | apply ex18_tidy | apply ex19_tidy | apply ex20_tidy ].
Qed.

End Kept.

(** ** The installation stays what it is

    No step of a script changes [ROOT] or the interpreter: the world a run
    ends in shows an uncaught exception as the world it started in does. *)

Module Steady.
Import Git Py Session Catalog.
Local Open Scope py_scope.

Definition same_setting (w w' : world) : Prop :=
  root w' = root w /\ frames w' = frames w.

Definition steady {A : Type} (m : M A) : Prop :=
  forall w, same_setting w (m w).2.

Lemma steady_ret {A : Type} (a : A) : steady (ret a).
Proof. intros w. split; reflexivity. Qed.

Lemma steady_raise {A : Type} (e : exn) : steady (@raise A e).
Proof. intros w. split; reflexivity. Qed.

Lemma steady_bind {A B : Type} (m : M A) (k : A -> M B) :
  steady m -> (forall a, steady (k a)) -> steady (bind m k).
Proof.
  intros Hm Hk w. unfold bind. specialize (Hm w).
  destruct (m w) as [[a|e] w1]; [|exact Hm].
  specialize (Hk a w1). unfold same_setting in *. cbn [snd] in *.
  destruct Hm as [H1 H2], Hk as [H3 H4]. split; congruence.
Qed.

Lemma steady_try_finally {A : Type} (body : M A) (cleanup : M unit) :
  steady body -> steady cleanup -> steady (try_finally body cleanup).
Proof.
  intros Hb Hc w. unfold try_finally. specialize (Hb w).
  destruct (body w) as [r w1]. specialize (Hc w1).
  unfold same_setting in *. cbn [snd] in *.
  destruct (cleanup w1) as [[[]|e] w2], r; cbn [snd] in *;
    destruct Hb as [H1 H2], Hc as [H3 H4]; split; congruence.
Qed.

Lemma steady_for_each {A : Type} (xs : list A) (body : A -> M unit) :
  (forall x, steady (body x)) -> steady (for_each xs body).
Proof.
  intros Hb. induction xs as [|x xs IH]; simpl.
  - apply steady_ret.
  - apply steady_bind; [apply Hb | intros _; exact IH].
Qed.

Lemma steady_when (b : bool) (m : M unit) : steady m -> steady (when b m).
Proof. intros Hm. destruct b; [exact Hm | apply steady_ret]. Qed.

Lemma steady_discard {A : Type} (m : M A) : steady m -> steady (discard m).
Proof. intros Hm. apply steady_bind; [exact Hm | intros a; apply steady_ret]. Qed.

Lemma steady_sys_exit {A : Type} (code : Z) : steady (@sys_exit A code).
Proof. apply steady_raise. Qed.

Lemma steady_path_exists p : steady (path_exists p).
Proof. intros w. split; reflexivity. Qed.

Lemma steady_rmtree p : steady (rmtree p).
Proof. intros w. unfold rmtree. destruct (fs w p); split; reflexivity. Qed.

Lemma steady_mkdir p : steady (mkdir p).
Proof. intros w. unfold mkdir. destruct (fs w p); split; reflexivity. Qed.

Lemma steady_write_text p file content : steady (write_text p file content).
Proof. intros w. unfold write_text. destruct (fs w p); split; reflexivity. Qed.

Lemma steady_chmod_755 p file : steady (chmod_755 p file).
Proof.
  intros w. unfold chmod_755. destruct (fs w p) as [d|]; [|split; reflexivity].
  destruct (files d !! file); split; reflexivity.
Qed.

Lemma steady_print s : steady (print s).
Proof. intros w. split; reflexivity. Qed.

Lemma steady_eprint s : steady (eprint s).
Proof. intros w. split; reflexivity. Qed.

Lemma steady_print_f parts : steady (print_f parts).
Proof. intros w. split; reflexivity. Qed.

Lemma steady_git cwd args check w : same_setting w (git cwd args check w).2.
Proof.
  unfold git. destruct (faults w) as [|[ft|] fl]; try (split; reflexivity).
  all: destruct (Git.run (default_branch w) (clock w) cwd args (fs w)); split; reflexivity.
Qed.

Lemma steady_subprocess_run cmd cwd check : steady (subprocess_run cmd cwd check).
Proof.
  intros w. unfold subprocess_run.
  assert (Hrun : same_setting w
            (match cmd with
             | prog :: args =>
                 if String.eqb prog "git"
                 then
                   let '(c, w') := git cwd args check w in
                   if check && negb (Z.eqb (returncode c) 0)
                   then (Raise (CalledProcessError (returncode c) cmd (stdout c) (stderr c)), w')
                   else (Ok c, w')
                 else (Raise (FileNotFoundError (Str prog)), w)
             | [] => (Raise (FileNotFoundError (Str EmptyString)), w)
             end).2).
  { destruct cmd as [|prog args]; [split; reflexivity|].
    destruct (String.eqb prog "git"); [|split; reflexivity].
    pose proof (steady_git cwd args check w) as Hg.
    destruct (git cwd args check w) as [c w'].
    destruct (check && negb (Z.eqb (returncode c) 0)); exact Hg. }
  destruct cwd as [p|]; [destruct (fs w p)|]; try exact Hrun.
  split; reflexivity.
Qed.

Ltac steady_walk :=
  repeat first
    [ apply steady_bind; [|intros ?]
    | apply steady_try_finally
    | apply steady_for_each; intros ?
    | apply steady_when
    | apply steady_discard
    | apply steady_ret
    | apply steady_sys_exit
    | apply steady_path_exists
    | apply steady_rmtree
    | apply steady_mkdir
    | apply steady_write_text
    | apply steady_chmod_755
    | apply steady_print
    | apply steady_eprint
    | apply steady_print_f
    | apply steady_subprocess_run
    | match goal with |- steady (let '(_, _) := ?x in _) => destruct x end ].

Lemma provision_steady s force : steady (provision s force).
Proof.
  destruct s.
  - cbv delta [provision Ex01.main Ex01.write_readme Ex01.reset_exercise_dir] beta iota zeta. steady_walk.
  - cbv delta [provision Ex02.main Ex02.write_files Ex02.reset_exercise_dir] beta iota zeta. steady_walk.
  - cbv delta [provision Ex03.main Ex03.setup_git_repo Ex03.run_git Ex03.reset_exercise_dir] beta iota zeta. steady_walk.
  - cbv delta [provision Ex04.main Ex04.setup_git_repo Ex04.run_git Ex04.reset_exercise_dir] beta iota zeta. steady_walk.
  - cbv delta [provision Ex05.main Ex05.setup_git_repo Ex05.run_git Ex05.reset_exercise_dir] beta iota zeta. steady_walk.
  - cbv delta [provision Ex06.main Ex06.setup_git_repo Ex06.run_git Ex06.reset_exercise_dir] beta iota zeta. steady_walk.
  - cbv delta [provision Ex07.main Ex07.setup_git_repo Ex07.run_git Ex07.reset_exercise_dir] beta iota zeta. steady_walk.
  - cbv delta [provision Ex08.main Ex08.setup_git_repo Ex08.run_git Ex08.reset_exercise_dir] beta iota zeta. steady_walk.
  - cbv delta [provision Ex09.main Ex09.setup_git_repo Ex09.run_git Ex09.reset_exercise_dir] beta iota zeta. steady_walk.
  - cbv delta [provision Ex10.main Ex10.setup_git_repo Ex10.run_git Ex10.reset_exercise_dir] beta iota zeta. steady_walk.
  - cbv delta [provision Ex11.main Ex11.setup_git_repo Ex11.run_git Ex11.reset_exercise_dir] beta iota zeta. steady_walk.
  - cbv delta [provision Ex12.main Ex12.setup_git_repo Ex12.run_git Ex12.reset_exercise_dir] beta iota zeta. steady_walk.
  - cbv delta [provision Ex13.main Ex13.setup_git_repo Ex13.run_git Ex13.reset_exercise_dir] beta iota zeta. steady_walk.
  - cbv delta [provision Ex14.main Ex14.setup_git_repo Ex14.run_git Ex14.reset_exercise_dir] beta iota zeta. steady_walk.
  - cbv delta [provision Ex15.main Ex15.setup_remote_repo Ex15.setup_local_clone Ex15.run_git Ex15.reset_dirs] beta iota zeta. steady_walk.
  - cbv delta [provision Ex16.main Ex16.setup_remote_repo Ex16.setup_local_clone Ex16.run_git Ex16.reset_dirs] beta iota zeta. steady_walk.
  - cbv delta [provision Ex17.main Ex17.setup_exercise Ex17.run_git Ex17.reset_dirs] beta iota zeta. steady_walk.
  - cbv delta [provision Ex18.main Ex18.setup_git_repo Ex18.run_git Ex18.reset_exercise_dir] beta iota zeta. steady_walk.
  - cbv delta [provision Ex19.main Ex19.setup_git_repo Ex19.run_git Ex19.reset_exercise_dir] beta iota zeta. steady_walk.
  - cbv delta [provision Ex20.main Ex20.setup_git_repo Ex20.run_git Ex20.reset_exercise_dir] beta iota zeta. steady_walk.
Qed.

(** A run ends under the [ROOT] and the interpreter it started with. *)
Lemma run_same_setting s force w :
  same_setting w (after (run_script (provision s force) w)).
Proof.
  unfold run_script. pose proof (provision_steady s force (boot w)) as H.
  destruct (provision s force (boot w)) as [[n|e] w']; cbn [snd] in H.
  - exact H.
  - destruct (exit_request e); exact H.
Qed.

End Steady.

(** ** How a run ends, whatever git does *)

Module Runs.
Import Git Py Session Catalog Facts GitFacts Logic Outcome Steady.

(** A session where git refuses to commit (no identity configured): the
    third git step of a run fails. *)
Definition no_identity : fault :=
  {| fault_code := 128; fault_stderr := "fatal: unable to auto-detect email address" |}.

Definition commit_fails : world :=
  with_faults [None; None; Some no_identity] (session nothing "/srv/cours" "master").

Definition clean : world := session nothing "/srv/cours" "master".

(** X1.  The exit status of a provisioning run, for every scenario, every
    state of the disk and every behaviour of git: it is 0 or 1, and it is 0
    exactly when the guard let the run through and no step run with
    [check=True] failed. *)
Theorem exit_status_tells s force w :
  let x := run_script (provision s force) w in
  (status x = 0%Z \/ status x = 1%Z)
  /\ (status x = 0%Z <-> guard_passes s w force /\ failed_checks (after x) = []).
Proof.
  intros x. subst x.
  destruct (run_outcome s force w) as [Hb Hs Hr | Hp Hs Hg | e w' Hp Hs Ha Hx].
  - split; [right; exact Hs|]. split.
    + intros H0. rewrite Hs in H0. discriminate H0.
    + intros [Hp _]. destruct (guard_exclusive _ _ _ Hp Hb).
  - split; [left; exact Hs|]. split; [|intros _; exact Hs].
    intros _. split; [exact Hp|]. eapply steps_done_no_failed_check.
    exact (proj2 (proj2 (proj2 Hg))).
  - split; [right; exact Hs|]. split.
    + intros H0. rewrite Hs in H0. discriminate H0.
    + intros [_ Hf]. destruct (aborted_failed_check _ _ _ _ _ _ Ha) as (args & rc & o & er & _ & _ & Hfc & _).
      rewrite Hx in Hf. unfold failed_checks, events in Hf, Hfc.
      destruct (report_keeps e w') as (_ & Ht & _). rewrite Ht in Hf. congruence.
Qed.

Definition header : string := "Traceback (most recent call last):".

Definition chained : list string :=
  [EmptyString;
   "During handling of the above exception, another exception occurred:";
   EmptyString].

Lemma traceback_header stack r e : exists tl, traceback stack r e = header :: tl.
Proof.
  induction e as [code|rc cmd o er|f|c IHc e' _]; cbn [traceback];
    try (eexists; reflexivity).
  destruct IHc as [tl ->]. eexists. reflexivity.
Qed.

(** The traceback of a chain opens with the traceback of its first
    cause; what follows, if anything, is set apart and is a traceback
    again. *)
Lemma traceback_opens stack r e :
  exists rest,
    traceback stack r e = (traceback stack r (first_cause e) ++ rest)%list
    /\ (rest = [] \/ exists more, rest = (chained ++ header :: more)%list).
Proof.
  induction e as [code|rc cmd o er|f|c IHc e' _]; cbn [traceback first_cause];
    try (exists []; rewrite app_nil_r; split; [reflexivity | left; reflexivity]).
  destruct IHc as (rest & -> & Hrest).
  destruct (traceback_header stack r e') as [tl ->].
  exists (rest ++ chained ++ header :: tl)%list. split.
  - rewrite <- app_assoc. reflexivity.
  - right. destruct Hrest as [->|[more ->]].
    + exists tl. reflexivity.
    + eexists. rewrite <- !app_assoc. cbn [app chained]. reflexivity.
Qed.

(** X2.  A step run with [check=True] that fails stops the run there: it is
    the last git step of the run and the only one that failed, and the
    exit status is 1.  What the user gets on stderr is the traceback of
    the [CalledProcessError]: the header, the frames of the stack as the
    interpreter shows them, then the line that names the command, as the
    child process got it, and its exit status.  Nothing follows, unless a
    [finally] clean-up raised in its turn: then its own traceback follows,
    set apart by the lines that say so. *)
Theorem failed_step_stops_run s force w :
  let x := run_script (provision s force) w in
  failed_checks (after x) <> [] ->
  exists args rc o er rest,
    rc <> 0%Z
    /\ failed_checks (after x) = [(args, rc)]
    /\ last (git_steps (after x)) = Some (args, rc)
    /\ status x = 1%Z
    /\ diagnostics (after x)
       = (header
          :: frames w (CalledProcessError rc ("git" :: args) o er)
          ++ cat ["subprocess.CalledProcessError: Command '";
                  py_repr_list (argv (root w) ("git" :: args));
                  "' returned non-zero exit status "; show_Z rc; "."]
          :: rest)%list
    /\ (rest = [] \/ exists more, rest = (chained ++ header :: more)%list).
Proof.
  intros x Hf. subst x.
  pose proof (run_same_setting s force w) as [Hroot Hframes].
  destruct (run_outcome s force w) as [Hb Hs Hr | Hp Hs Hg | e w' Hp Hs Ha Hx].
  - exfalso. apply Hf. destruct Hr as (_ & _ & _ & _ & probes & Ht & Hpr).
    unfold failed_checks, events. rewrite Ht. cbn [boot trace]. rewrite app_nil_r.
    change (omap failed_check (rev probes) = []). apply omap_none. apply Forall_rev'.
    eapply List.Forall_impl; [|exact Hpr].
    intros [] H; simpl in *; try (exfalso; exact H); reflexivity.
  - exfalso. apply Hf. eapply steps_done_no_failed_check.
    exact (proj2 (proj2 (proj2 Hg))).
  - destruct (aborted_failed_check _ _ _ _ _ _ Ha) as (args & rc & o & er & Hrc & Hc & Hfc & Hl).
    destruct (traceback_opens (frames w') (root w') e) as (rest & Hr & Hrest).
    rewrite Hc in Hr. cbn [traceback exn_line] in Hr.
    destruct (report_keeps e w') as (_ & Ht & _).
    rewrite Hx in Hroot, Hframes.
    change (root (report e w')) with (root w') in Hroot.
    change (frames (report e w')) with (frames w') in Hframes.
    exists args, rc, o, er, rest. rewrite Hx.
    split; [exact Hrc|]. split; [|split; [|split; [exact Hs|split; [|exact Hrest]]]].
    + unfold failed_checks, events in *. rewrite Ht. exact Hfc.
    + unfold git_steps, events in *. rewrite Ht. exact Hl.
    + rewrite report_diagnostics; [|exact (proj1 (proj2 Ha))].
      rewrite Hr, Hroot, Hframes. unfold header.
      cbn [app]. rewrite <- app_assoc. reflexivity.
Qed.

(** What Python 3.11 shows of the stack when [run_git] raises in
    [setup_git_repo] of ex08, for the script installed in [/srv/cours]. *)
Definition ex08_commit_stack (e : exn) : list string :=
  [cat ["  File "; dq; "/srv/cours/ex08_conflict_simple_setup.py"; dq; ", line 198, in <module>"];
   "    raise SystemExit(main())";
   "                     ^^^^^^";
   cat ["  File "; dq; "/srv/cours/ex08_conflict_simple_setup.py"; dq; ", line 180, in main"];
   "    setup_git_repo()";
   cat ["  File "; dq; "/srv/cours/ex08_conflict_simple_setup.py"; dq; ", line 148, in setup_git_repo"];
   cat ["    run_git("; dq; "commit"; dq; ", "; dq; "-m"; dq; ", "; dq;
        "Initial commit : message de base"; dq; ")"];
   cat ["  File "; dq; "/srv/cours/ex08_conflict_simple_setup.py"; dq; ", line 131, in run_git"];
   "    return subprocess.run(";
   "           ^^^^^^^^^^^^^^^";
   cat ["  File "; dq; "/usr/lib/python3.11/subprocess.py"; dq; ", line 571, in run"];
   "    raise CalledProcessError(retcode, process.args,"].

Definition commit_fails_shown : world := with_frames ex08_commit_stack commit_fails.

Lemma failed_step_stops_run_witness :
  failed_checks (after (run_script (provision S08 false) commit_fails_shown)) <> []
  /\ exists args rc o er rest,
       rc <> 0%Z
       /\ failed_checks (after (run_script (provision S08 false) commit_fails_shown))
          = [(args, rc)]
       /\ last (git_steps (after (run_script (provision S08 false) commit_fails_shown)))
          = Some (args, rc)
       /\ status (run_script (provision S08 false) commit_fails_shown) = 1%Z
       /\ diagnostics (after (run_script (provision S08 false) commit_fails_shown))
          = (header
             :: frames commit_fails_shown (CalledProcessError rc ("git" :: args) o er)
             ++ cat ["subprocess.CalledProcessError: Command '";
                     py_repr_list (argv (root commit_fails_shown) ("git" :: args));
                     "' returned non-zero exit status "; show_Z rc; "."]
             :: rest)%list
       /\ (rest = [] \/ exists more, rest = (chained ++ header :: more)%list).
Proof.
  assert (H : failed_checks (after (run_script (provision S08 false) commit_fails_shown)) <> [])
    by (vm_compute; discriminate).
  split; [exact H|]. exact (failed_step_stops_run S08 false commit_fails_shown H).
Defined.


(** X3.  The directories the guard creates are on disk when the process exits,
    once the guard has let the run through: also when a step failed and
    stopped the run, since nothing cleans up a half-built exercise.  When
    the exit status is 0 every guarded directory exists. *)
Theorem directories_left s force w :
  let x := run_script (provision s force) w in
  guard_passes s w force ->
  Forall (fun p => fs (after x) p <> None) (base s)
  /\ (status x = 0%Z -> Forall (fun p => fs (after x) p <> None) (guarded s)).
Proof.
  intros x Hp. subst x.
  destruct (run_outcome s force w) as [Hb Hs Hr | _ Hs Hg | e w' _ Hs Ha Hx].
  - destruct (guard_exclusive _ _ _ Hp Hb).
  - destruct Hg as (Ha & _). split; [|intros _; exact Ha].
    unfold alive in Ha. rewrite List.Forall_forall in *. intros p Hin. apply Ha.
    destruct s; exact Hin || destruct Hin.
  - split; [|intros H0; rewrite Hs in H0; discriminate H0].
    rewrite Hx. destruct (report_keeps e w') as (-> & _). exact (proj1 Ha).
Qed.

Lemma directories_left_witness :
  guard_passes S08 commit_fails false
  /\ Forall (fun p => fs (after (run_script (provision S08 false) commit_fails)) p <> None)
            (base S08)
  /\ (status (run_script (provision S08 false) commit_fails) = 0%Z ->
      Forall (fun p => fs (after (run_script (provision S08 false) commit_fails)) p <> None)
             (guarded S08)).
Proof.
  assert (H : guard_passes S08 commit_fails false) by (right; reflexivity).
  split; [exact H|]. exact (directories_left S08 false commit_fails H).
Defined.

(** What an event of a run of scenario [s] may concern. *)
Definition concerns (s : scenario) (force : bool) (ev : event) : Prop :=
  match ev with
  | EvRmtree p => (In p (guarded s) /\ force = true) \/ In p (scratch s)
  | EvExists p _ | EvMkdir p | EvWrite p _ | EvChmod p _ =>
      In p (guarded s ++ scratch s)%list
  | EvGit cwd args _ _ => within (guarded s) (scratch s) cwd args
  end.

Lemma guard_event_concerns s force ev : guard_event (guarded s) force ev -> concerns s force ev.
Proof.
  destruct ev; simpl; intros H; try (exfalso; exact H).
  - apply in_or_app. left. exact H.
  - left. exact H.
Qed.

Lemma good_concerns s force ev : good (guarded s) (scratch s) ev -> concerns s force ev.
Proof.
  destruct ev; simpl; intros H; try exact H.
  - right. exact (proj1 H).
  - exact (proj2 H).
Qed.

Lemma cleanup_event_concerns s force ev :
  cleanup_event (guarded s) (scratch s) ev -> concerns s force ev.
Proof.
  destruct ev; simpl; intros H; try (exfalso; exact H). right. exact (proj1 H).
Qed.

(** X4.  A run keeps to the directories of its scenario, whatever the state
    of the disk and whatever git does: every existence check, mkdir,
    write, chmod and git step concerns a guarded or a scratch directory of
    the scenario (a clone goes from one of them to another), and the only
    directories ever removed are the guarded ones, under [--force] only,
    and the scratch ones. *)
Theorem run_is_confined s force w :
  Forall (concerns s force) (events (after (run_script (provision s force) w))).
Proof.
  unfold events. apply Forall_rev'.
  destruct (run_outcome s force w) as [Hb Hs Hr | _ Hs Hg | e w' _ Hs Ha Hx].
  - destruct Hr as (_ & _ & _ & _ & probes & Ht & Hpr). rewrite Ht. cbn [boot trace].
    rewrite app_nil_r. eapply List.Forall_impl; [|exact Hpr].
    intros [] H; simpl in *; try (exfalso; exact H). apply in_or_app. left. exact H.
  - destruct Hg as (_ & _ & _ & new & old & Ht & Hn & Ho). rewrite Ht. apply Forall_app. split.
    + eapply List.Forall_impl; [|exact Hn]. apply good_concerns.
    + eapply List.Forall_impl; [|exact Ho]. apply guard_event_concerns.
  - rewrite Hx. destruct (report_keeps e w') as (_ & -> & _).
    destruct Ha as (_ & _ & _ & _ & post & cwd & args & rc & o & er & new & old
                    & Ht & Hp & Hn & Ho & _ & Hw & _).
    rewrite Ht. apply Forall_app. split.
    + eapply List.Forall_impl; [|exact Hp]. apply cleanup_event_concerns.
    + constructor; [exact Hw|]. apply Forall_app. split.
      * eapply List.Forall_impl; [|exact Hn]. apply good_concerns.
      * eapply List.Forall_impl; [|exact Ho]. apply guard_event_concerns.
Qed.

(** X5.  Guarded directories are removed before anything is built, never
    after: the events of a run split into a guard phase, made of existence
    checks and removals of guarded directories only, and the rest, in which
    no guarded directory is removed. *)
Theorem guarded_removed_first s force w :
  exists guard_phase rest,
    events (after (run_script (provision s force) w)) = (guard_phase ++ rest)%list
    /\ Forall (guard_event (guarded s) force) guard_phase
    /\ Forall (fun ev => forall p, ev = EvRmtree p -> ~ In p (guarded s)) rest.
Proof.
  unfold events.
  destruct (run_outcome s force w) as [Hb Hs Hr | _ Hs Hg | e w' _ Hs Ha Hx].
  - destruct Hr as (_ & _ & _ & _ & probes & Ht & Hpr). rewrite Ht. cbn [boot trace].
    rewrite app_nil_r. exists (rev probes), []. rewrite app_nil_r.
    split; [reflexivity|]. split; [|constructor]. apply Forall_rev'.
    eapply List.Forall_impl; [|exact Hpr].
    intros [] H; simpl in *; first [exact H | exfalso; exact H].
  - destruct Hg as (_ & _ & _ & new & old & Ht & Hn & Ho). rewrite Ht.
    exists (rev old), (rev new). split; [apply rev_app_distr|].
    split; [apply Forall_rev'; exact Ho|]. apply Forall_rev'.
    eapply List.Forall_impl; [|exact Hn].
    intros ev Hev p ->. exact (proj2 Hev).
  - rewrite Hx. destruct (report_keeps e w') as (_ & -> & _).
    destruct Ha as (_ & _ & _ & _ & post & cwd & args & rc & o & er & new & old
                    & Ht & Hp & Hn & Ho & _ & Hw & _).
    rewrite Ht. exists (rev old), (rev new ++ [EvGit cwd args true rc] ++ rev post)%list.
    split.
    + rewrite rev_app_distr. simpl. rewrite rev_app_distr.
      rewrite <- !app_assoc. reflexivity.
    + split; [apply Forall_rev'; exact Ho|].
      apply Forall_app. split; [|apply Forall_app; split].
      * apply Forall_rev'. eapply List.Forall_impl; [|exact Hn].
        intros ev Hev p ->. exact (proj2 Hev).
      * constructor; [|constructor]. intros p Hp'. discriminate Hp'.
      * apply Forall_rev'. eapply List.Forall_impl; [|exact Hp].
        intros ev Hev p ->. exact (proj2 Hev).
Qed.


Lemma traceback_not_nil stack r e : traceback stack r e <> [].
Proof. destruct (traceback_header stack r e) as [tl ->]. discriminate. Qed.

(** X6.  The two streams tell how the run ended.  Exit status 0: the report
    is on stdout and stderr is empty.  Exit status 1: stdout is empty and
    the reason is on stderr (the message of the guard, or the traceback of
    the step that failed). *)
Theorem streams_tell_outcome s force w :
  let x := run_script (provision s force) w in
  (status x = 0%Z -> printed (after x) <> [] /\ diagnostics (after x) = [])
  /\ (status x = 1%Z -> printed (after x) = [] /\ diagnostics (after x) <> []).
Proof.
  intros x. subst x. unfold printed, diagnostics.
  destruct (run_outcome s force w) as [Hb Hs Hr | _ Hs Hg | e w' _ Hs Ha Hx].
  - split; [intros H0; rewrite Hs in H0; discriminate H0|]. intros _.
    destruct Hr as (_ & _ & Hout & [msg Herr] & _). rewrite Hout, Herr. cbn [boot out err].
    split; [reflexivity|]. simpl. discriminate.
  - split; [|intros H1; rewrite Hs in H1; discriminate H1]. intros _.
    destruct Hg as (_ & He & Hout & _). rewrite He. split; [|reflexivity].
    intros H. apply Hout. rewrite <- (rev_involutive (out _)), H. reflexivity.
  - split; [intros H0; rewrite Hs in H0; discriminate H0|]. intros _.
    rewrite Hx. destruct (report_keeps e w') as (_ & _ & ->).
    destruct Ha as (_ & He & Hout & _). rewrite Hout. split; [reflexivity|].
    change (diagnostics (report e w') <> []). rewrite (report_diagnostics e w' He).
    apply traceback_not_nil.
Qed.

End Runs.

(** ** The order of the git steps *)

Module Order.
Import Git Py Session Catalog Facts GitFacts Logic.
Local Open Scope py_scope.

(** A git invocation as the script asks for it: where, with which
    arguments, checked or not. *)
Definition command : Type := (option string * list string * bool)%type.

Definition command_of (ev : event) : option command :=
  match ev with
  | EvGit cwd args check _ => Some (cwd, args, check)
  | _ => None
  end.

(** The git invocations of a run, in order. *)
Definition commands (w : world) : list command := omap command_of (events w).

(** An exception that cannot end the process with status 0. *)
Definition failing (e : exn) : Prop := exit_request e <> Some 0%Z.

Lemma commands_step w w' ev :
  trace w' = ev :: trace w ->
  commands w' = (commands w ++ match command_of ev with Some c => [c] | None => [] end)%list.
Proof.
  intros Ht. unfold commands, events. rewrite Ht. simpl. rewrite omap_app. simpl.
  destruct (command_of ev); reflexivity.
Qed.

Lemma commands_same w w' : trace w' = trace w -> commands w' = commands w.
Proof. unfold commands, events. intros ->. reflexivity. Qed.

Section Plan.
Variable plan : list command.

(** The first [k] invocations of the plan have been made. *)
Definition at_step (k : nat) (w : world) : Prop := commands w = take k plan.

(** The run has stopped somewhere along the plan. *)
Definition stopped (e : exn) (w : world) : Prop :=
  failing e /\ exists k, commands w = take k plan.

Lemma o_print k s : triple (at_step k) (print s) (fun _ => at_step k) stopped.
Proof. intros w H. exact H. Qed.

Lemma o_print_f k parts : triple (at_step k) (print_f parts) (fun _ => at_step k) stopped.
Proof. intros w H. exact H. Qed.

Lemma o_mkdir k p : triple (at_step k) (mkdir p) (fun _ => at_step k) stopped.
Proof.
  intros w H. unfold mkdir. destruct (fs w p); [exact H|].
  unfold at_step. erewrite commands_step; [|reflexivity]. simpl. rewrite app_nil_r. exact H.
Qed.

Lemma o_write_text k p file content :
  triple (at_step k) (write_text p file content) (fun _ => at_step k) stopped.
Proof.
  intros w H. unfold write_text. destruct (fs w p).
  - unfold at_step. erewrite commands_step; [|reflexivity]. simpl. rewrite app_nil_r. exact H.
  - split; [discriminate | exists k; exact H].
Qed.

Lemma o_chmod k p file :
  triple (at_step k) (chmod_755 p file) (fun _ => at_step k) stopped.
Proof.
  intros w H. unfold chmod_755. destruct (fs w p) as [d|].
  - destruct (files d !! file).
    + unfold at_step. erewrite commands_step; [|reflexivity]. simpl. rewrite app_nil_r.
      exact H.
    + split; [discriminate | exists k; exact H].
  - split; [discriminate | exists k; exact H].
Qed.

Lemma o_rmtree k p : triple (at_step k) (rmtree p) (fun _ => at_step k) stopped.
Proof.
  intros w H. unfold rmtree. destruct (fs w p).
  - unfold at_step. erewrite commands_step; [|reflexivity]. simpl. rewrite app_nil_r. exact H.
  - split; [discriminate | exists k; exact H].
Qed.

Lemma o_ret {A : Type} k (n : A) :
  take k plan = plan ->
  triple (at_step k) (ret n) (fun _ w => commands w = plan) stopped.
Proof. intros Hk w H. simpl. unfold at_step in H. congruence. Qed.

(** One more invocation: the next one of the plan. *)
Lemma o_git k cwd args check :
  plan !! k = Some (cwd, args, check) ->
  triple (at_step k) (discard (subprocess_run ("git" :: args) cwd check))
         (fun _ => at_step (S k)) stopped.
Proof.
  intros Hk. apply triple_discard. intros w H. unfold subprocess_run.
  assert (Hrun : match (let '(c, w') := git cwd args check w in
                        if check && negb (returncode c =? 0)%Z
                        then (Raise (CalledProcessError (returncode c) ("git" :: args)
                                                        (stdout c) (stderr c)), w')
                        else (Ok c, w')) with
                 | (Ok _, w') => at_step (S k) w'
                 | (Raise e, w') => stopped e w'
                 end).
  { pose proof (git_spec cwd args check w) as Hg.
    destruct (git cwd args check w) as [c w']. destruct Hg as (_ & _ & Ht & _).
    assert (H' : at_step (S k) w').
    { unfold at_step in *. rewrite (commands_step w w' _ Ht). simpl. rewrite H.
      symmetry. apply take_S_r. exact Hk. }
    destruct (check && negb (returncode c =? 0)%Z); [|exact H'].
    split; [discriminate | exists (S k); exact H']. }
  cbn [String.eqb Ascii.eqb Bool.eqb].
  destruct cwd as [c|]; [destruct (fs w c); [exact Hrun|] | exact Hrun].
  split; [discriminate | exists k; exact H].
Qed.

Lemma o_finally_rmtree k k' (body : M unit) p :
  triple (at_step k) body (fun _ => at_step k') stopped ->
  triple (at_step k) (try_finally body (rmtree p)) (fun _ => at_step k') stopped.
Proof.
  intros Hb. eapply triple_try_finally; [exact Hb | |].
  - intros u. apply o_rmtree.
  - intros e w [He [j Hj]]. unfold rmtree. destruct (fs w p).
    + split; [exact He|]. exists j.
      erewrite commands_step; [|reflexivity]. simpl. rewrite app_nil_r. exact Hj.
    + split; [discriminate | exists j; exact Hj].
Qed.

(** The guard makes no invocation, whether it lets the run through or
    not. *)
Lemma o_reset_exercise_dir dir msg force :
  triple (fun w => trace w = [])
         (found <- path_exists dir ;;
          when found (when (negb force) (eprint msg ;; sys_exit 1%Z) ;; rmtree dir) ;;
          mkdir dir)
         (fun _ => at_step 0) stopped.
Proof.
  intros w Ht. unfold bind, path_exists, when, rmtree, mkdir, ret, eprint, sys_exit, raise.
  assert (H0 : take 0 plan = []) by reflexivity.
  destruct (fs w dir) as [d|] eqn:Hd; destruct force;
    cbn [negb fs record set_fs trace err out put_err]; try rewrite Hd;
    cbn [negb fs record set_fs trace err out put_err];
    try rewrite fs_remove_same; try rewrite Hd;
    cbn [negb fs record set_fs trace err out put_err].
  - unfold at_step, commands, events. cbn [trace record set_fs]. rewrite Ht. reflexivity.
  - split; [discriminate|]. exists 0. unfold commands, events. cbn [trace record put_err].
    rewrite Ht. reflexivity.
  - unfold at_step, commands, events. cbn [trace record set_fs]. rewrite Ht. reflexivity.
  - unfold at_step, commands, events. cbn [trace record set_fs]. rewrite Ht. reflexivity.
Qed.

Lemma o_reset_dirs (r d : string) (msg : string -> string) force :
  triple (fun w => trace w = [])
         (for_each [r; d]
            (fun dir_path =>
               found <- path_exists dir_path ;;
               when found
                 (when (negb force) (eprint (msg dir_path) ;; sys_exit 1%Z) ;;
                  rmtree dir_path)))
         (fun _ => at_step 0) stopped.
Proof.
  assert (Hone : forall p,
             triple (fun w => commands w = [])
                    (found <- path_exists p ;;
                     when found
                       (when (negb force) (eprint (msg p) ;; sys_exit 1%Z) ;; rmtree p))
                    (fun _ w => commands w = []) stopped).
  { intros p w H. unfold bind, path_exists, when, rmtree, ret, eprint, sys_exit, raise.
    destruct (fs w p) as [x|] eqn:Hp; destruct force;
      cbn [negb fs record set_fs trace err out put_err]; try rewrite Hp.
    - erewrite commands_step; [|reflexivity]. simpl. rewrite app_nil_r.
      erewrite commands_step; [|reflexivity]. simpl. rewrite app_nil_r. exact H.
    - split; [discriminate|]. exists 0. simpl.
      erewrite commands_same; [|reflexivity].
      erewrite commands_step; [|reflexivity]. simpl. rewrite app_nil_r. exact H.
    - erewrite commands_step; [|reflexivity]. simpl. rewrite app_nil_r. exact H.
    - erewrite commands_step; [|reflexivity]. simpl. rewrite app_nil_r. exact H. }
  eapply triple_weaken with (P := fun w => commands w = [])
                            (Q := fun _ w => commands w = []) (E := stopped).
  - apply triple_for_each. intros p _. apply Hone.
  - intros w Ht. unfold commands, events. rewrite Ht. reflexivity.
  - intros u w H. exact H.
  - auto.
Qed.
End Plan.

Ltac owalk :=
  cbv beta zeta;
  lazymatch goal with
  | |- triple _ (bind _ _) _ _ =>
      eapply triple_bind; [owalk | intros ?; owalk]
  | |- triple _ (try_finally _ (rmtree _)) _ _ =>
      eapply o_finally_rmtree; owalk
  | |- _ =>
      first
        [ apply o_print | apply o_print_f | apply o_mkdir | apply o_write_text
        | apply o_chmod | apply o_git; reflexivity
        | apply o_ret; reflexivity
        | apply triple_for_each; intros [? ?] _; apply o_write_text ]
  end.

(** A run on an empty [ROOT], where git meets no failure. *)
Definition undisturbed : world := session nothing "/srv/cours" "main".

(** The invocations of the undisturbed run of each scenario. *)
Definition plan (s : scenario) : list command :=
  Eval vm_compute in
    match s with
    | S01 => commands (after (run_script (provision S01 false) undisturbed))
    | S02 => commands (after (run_script (provision S02 false) undisturbed))
    | S03 => commands (after (run_script (provision S03 false) undisturbed))
    | S04 => commands (after (run_script (provision S04 false) undisturbed))
    | S05 => commands (after (run_script (provision S05 false) undisturbed))
    | S06 => commands (after (run_script (provision S06 false) undisturbed))
    | S07 => commands (after (run_script (provision S07 false) undisturbed))
    | S08 => commands (after (run_script (provision S08 false) undisturbed))
    | S09 => commands (after (run_script (provision S09 false) undisturbed))
    | S10 => commands (after (run_script (provision S10 false) undisturbed))
    | S11 => commands (after (run_script (provision S11 false) undisturbed))
    | S12 => commands (after (run_script (provision S12 false) undisturbed))
    | S13 => commands (after (run_script (provision S13 false) undisturbed))
    | S14 => commands (after (run_script (provision S14 false) undisturbed))
    | S15 => commands (after (run_script (provision S15 false) undisturbed))
    | S16 => commands (after (run_script (provision S16 false) undisturbed))
    | S17 => commands (after (run_script (provision S17 false) undisturbed))
    | S18 => commands (after (run_script (provision S18 false) undisturbed))
    | S19 => commands (after (run_script (provision S19 false) undisturbed))
    | S20 => commands (after (run_script (provision S20 false) undisturbed))
    end.

Lemma plan_is_undisturbed s :
  plan s = commands (after (run_script (provision s false) undisturbed)).
Proof. destruct s; vm_compute; reflexivity. Qed.

Lemma ex01_in_order force :
  triple (fun w => trace w = []) (provision S01 force)
         (fun _ w => commands w = plan S01) (stopped (plan S01)).
Proof.
  cbv delta [provision Ex01.main Ex01.write_readme Ex01.reset_exercise_dir] beta iota.
  let p := eval cbv delta [plan] beta iota in (plan S01) in change (plan S01) with p.
  eapply triple_bind; [apply o_reset_exercise_dir|]. intros u.
  owalk.
Qed.

Lemma ex02_in_order force :
  triple (fun w => trace w = []) (provision S02 force)
         (fun _ w => commands w = plan S02) (stopped (plan S02)).
Proof.
  cbv delta [provision Ex02.main Ex02.write_files Ex02.reset_exercise_dir] beta iota.
  let p := eval cbv delta [plan] beta iota in (plan S02) in change (plan S02) with p.
  eapply triple_bind; [apply o_reset_exercise_dir|]. intros u.
  owalk.
Qed.

Lemma ex03_in_order force :
  triple (fun w => trace w = []) (provision S03 force)
         (fun _ w => commands w = plan S03) (stopped (plan S03)).
Proof.
  cbv delta [provision Ex03.main Ex03.setup_git_repo Ex03.run_git Ex03.reset_exercise_dir] beta iota.
  let p := eval cbv delta [plan] beta iota in (plan S03) in change (plan S03) with p.
  eapply triple_bind; [apply o_reset_exercise_dir|]. intros u.
  owalk.
Qed.

Lemma ex04_in_order force :
  triple (fun w => trace w = []) (provision S04 force)
         (fun _ w => commands w = plan S04) (stopped (plan S04)).
Proof.
  cbv delta [provision Ex04.main Ex04.setup_git_repo Ex04.run_git Ex04.reset_exercise_dir] beta iota.
  let p := eval cbv delta [plan] beta iota in (plan S04) in change (plan S04) with p.
  eapply triple_bind; [apply o_reset_exercise_dir|]. intros u.
  owalk.
Qed.

Lemma ex05_in_order force :
  triple (fun w => trace w = []) (provision S05 force)
         (fun _ w => commands w = plan S05) (stopped (plan S05)).
Proof.
  cbv delta [provision Ex05.main Ex05.setup_git_repo Ex05.run_git Ex05.reset_exercise_dir] beta iota.
  let p := eval cbv delta [plan] beta iota in (plan S05) in change (plan S05) with p.
  eapply triple_bind; [apply o_reset_exercise_dir|]. intros u.
  owalk.
Qed.

Lemma ex06_in_order force :
  triple (fun w => trace w = []) (provision S06 force)
         (fun _ w => commands w = plan S06) (stopped (plan S06)).
Proof.
  cbv delta [provision Ex06.main Ex06.setup_git_repo Ex06.run_git Ex06.reset_exercise_dir] beta iota.
  let p := eval cbv delta [plan] beta iota in (plan S06) in change (plan S06) with p.
  eapply triple_bind; [apply o_reset_exercise_dir|]. intros u.
  owalk.
Qed.

Lemma ex07_in_order force :
  triple (fun w => trace w = []) (provision S07 force)
         (fun _ w => commands w = plan S07) (stopped (plan S07)).
Proof.
  cbv delta [provision Ex07.main Ex07.setup_git_repo Ex07.run_git Ex07.reset_exercise_dir] beta iota.
  let p := eval cbv delta [plan] beta iota in (plan S07) in change (plan S07) with p.
  eapply triple_bind; [apply o_reset_exercise_dir|]. intros u.
  owalk.
Qed.

Lemma ex08_in_order force :
  triple (fun w => trace w = []) (provision S08 force)
         (fun _ w => commands w = plan S08) (stopped (plan S08)).
Proof.
  cbv delta [provision Ex08.main Ex08.setup_git_repo Ex08.run_git Ex08.reset_exercise_dir] beta iota.
  let p := eval cbv delta [plan] beta iota in (plan S08) in change (plan S08) with p.
  eapply triple_bind; [apply o_reset_exercise_dir|]. intros u.
  owalk.
Qed.

Lemma ex09_in_order force :
  triple (fun w => trace w = []) (provision S09 force)
         (fun _ w => commands w = plan S09) (stopped (plan S09)).
Proof.
  cbv delta [provision Ex09.main Ex09.setup_git_repo Ex09.run_git Ex09.reset_exercise_dir] beta iota.
  let p := eval cbv delta [plan] beta iota in (plan S09) in change (plan S09) with p.
  eapply triple_bind; [apply o_reset_exercise_dir|]. intros u.
  owalk.
Qed.

Lemma ex10_in_order force :
  triple (fun w => trace w = []) (provision S10 force)
         (fun _ w => commands w = plan S10) (stopped (plan S10)).
Proof.
  cbv delta [provision Ex10.main Ex10.setup_git_repo Ex10.run_git Ex10.reset_exercise_dir] beta iota.
  let p := eval cbv delta [plan] beta iota in (plan S10) in change (plan S10) with p.
  eapply triple_bind; [apply o_reset_exercise_dir|]. intros u.
  owalk.
Qed.

Lemma ex11_in_order force :
  triple (fun w => trace w = []) (provision S11 force)
         (fun _ w => commands w = plan S11) (stopped (plan S11)).
Proof.
  cbv delta [provision Ex11.main Ex11.setup_git_repo Ex11.run_git Ex11.reset_exercise_dir] beta iota.
  let p := eval cbv delta [plan] beta iota in (plan S11) in change (plan S11) with p.
  eapply triple_bind; [apply o_reset_exercise_dir|]. intros u.
  owalk.
Qed.

Lemma ex12_in_order force :
  triple (fun w => trace w = []) (provision S12 force)
         (fun _ w => commands w = plan S12) (stopped (plan S12)).
Proof.
  cbv delta [provision Ex12.main Ex12.setup_git_repo Ex12.run_git Ex12.reset_exercise_dir] beta iota.
  let p := eval cbv delta [plan] beta iota in (plan S12) in change (plan S12) with p.
  eapply triple_bind; [apply o_reset_exercise_dir|]. intros u.
  owalk.
Qed.

Lemma ex13_in_order force :
  triple (fun w => trace w = []) (provision S13 force)
         (fun _ w => commands w = plan S13) (stopped (plan S13)).
Proof.
  cbv delta [provision Ex13.main Ex13.setup_git_repo Ex13.run_git Ex13.reset_exercise_dir] beta iota.
  let p := eval cbv delta [plan] beta iota in (plan S13) in change (plan S13) with p.
  eapply triple_bind; [apply o_reset_exercise_dir|]. intros u.
  owalk.
Qed.

Lemma ex14_in_order force :
  triple (fun w => trace w = []) (provision S14 force)
         (fun _ w => commands w = plan S14) (stopped (plan S14)).
Proof.
  cbv delta [provision Ex14.main Ex14.setup_git_repo Ex14.run_git Ex14.reset_exercise_dir] beta iota.
  let p := eval cbv delta [plan] beta iota in (plan S14) in change (plan S14) with p.
  eapply triple_bind; [apply o_reset_exercise_dir|]. intros u.
  owalk.
Qed.

Lemma ex15_in_order force :
  triple (fun w => trace w = []) (provision S15 force)
         (fun _ w => commands w = plan S15) (stopped (plan S15)).
Proof.
  cbv delta [provision Ex15.main Ex15.setup_remote_repo Ex15.setup_local_clone Ex15.run_git Ex15.reset_dirs] beta iota.
  let p := eval cbv delta [plan] beta iota in (plan S15) in change (plan S15) with p.
  eapply triple_bind; [apply o_reset_dirs|]. intros u.
  owalk.
Qed.

Lemma ex16_in_order force :
  triple (fun w => trace w = []) (provision S16 force)
         (fun _ w => commands w = plan S16) (stopped (plan S16)).
Proof.
  cbv delta [provision Ex16.main Ex16.setup_remote_repo Ex16.setup_local_clone Ex16.run_git Ex16.reset_dirs] beta iota.
  let p := eval cbv delta [plan] beta iota in (plan S16) in change (plan S16) with p.
  eapply triple_bind; [apply o_reset_dirs|]. intros u.
  owalk.
Qed.

Lemma ex17_in_order force :
  triple (fun w => trace w = []) (provision S17 force)
         (fun _ w => commands w = plan S17) (stopped (plan S17)).
Proof.
  cbv delta [provision Ex17.main Ex17.setup_exercise Ex17.run_git Ex17.reset_dirs] beta iota.
  let p := eval cbv delta [plan] beta iota in (plan S17) in change (plan S17) with p.
  eapply triple_bind; [apply o_reset_dirs|]. intros u.
  owalk.
Qed.

Lemma ex18_in_order force :
  triple (fun w => trace w = []) (provision S18 force)
         (fun _ w => commands w = plan S18) (stopped (plan S18)).
Proof.
  cbv delta [provision Ex18.main Ex18.setup_git_repo Ex18.run_git Ex18.reset_exercise_dir] beta iota.
  let p := eval cbv delta [plan] beta iota in (plan S18) in change (plan S18) with p.
  eapply triple_bind; [apply o_reset_exercise_dir|]. intros u.
  owalk.
Qed.

Lemma ex19_in_order force :
  triple (fun w => trace w = []) (provision S19 force)
         (fun _ w => commands w = plan S19) (stopped (plan S19)).
Proof.
  cbv delta [provision Ex19.main Ex19.setup_git_repo Ex19.run_git Ex19.reset_exercise_dir] beta iota.
  let p := eval cbv delta [plan] beta iota in (plan S19) in change (plan S19) with p.
  eapply triple_bind; [apply o_reset_exercise_dir|]. intros u.
  owalk.
Qed.

Lemma ex20_in_order force :
  triple (fun w => trace w = []) (provision S20 force)
         (fun _ w => commands w = plan S20) (stopped (plan S20)).
Proof.
  cbv delta [provision Ex20.main Ex20.setup_git_repo Ex20.run_git Ex20.reset_exercise_dir] beta iota.
  let p := eval cbv delta [plan] beta iota in (plan S20) in change (plan S20) with p.
  eapply triple_bind; [apply o_reset_exercise_dir|]. intros u.
  owalk.
Qed.

Lemma provision_in_order s force :
  triple (fun w => trace w = []) (provision s force)
         (fun _ w => commands w = plan s) (stopped (plan s)).
Proof.
  destruct s;
    [ apply ex01_in_order | apply ex02_in_order | apply ex03_in_order | apply ex04_in_order
    | apply ex05_in_order | apply ex06_in_order | apply ex07_in_order | apply ex08_in_order
    | apply ex09_in_order | apply ex10_in_order | apply ex11_in_order | apply ex12_in_order
    | apply ex13_in_order | apply ex14_in_order | apply ex15_in_order | apply ex16_in_order
    | apply ex17_in_order | apply ex18_in_order | apply ex19_in_order | apply ex20_in_order ].
Qed.

(** X20.  The git invocations of a provisioning run (directory, arguments,
    checked or not) are always the first ones of one and the same list,
    in the same order: those of the undisturbed run of the scenario, on an
    empty [ROOT] with a git that works.  Neither what the disk holds, nor
    [--force], nor the outcome of an earlier step changes which command
    comes next: no step is skipped, repeated or replaced.  All of the
    list has been run when the exit status is 0. *)
Theorem steps_follow_the_script s force w :
  let x := run_script (provision s force) w in
  let script := commands (after (run_script (provision s false) undisturbed)) in
  (exists k, commands (after x) = take k script)
  /\ (status x = 0%Z -> commands (after x) = script).
Proof.
  intros x script. subst x script. rewrite <- plan_is_undisturbed.
  pose proof (provision_in_order s force (boot w) eq_refl) as H. unfold run_script.
  destruct (provision s force (boot w)) as [[n|e] w'].
  - simpl. split; [|intros _; exact H]. exists (length (plan s)).
    rewrite firstn_all. exact H.
  - destruct H as [He [k Hk]]. unfold failing in He.
    destruct (exit_request e) as [code|] eqn:Hx; simpl.
    + split; [exists k; exact Hk|]. intros ->. congruence.
    + change (put_errs (traceback (frames w') (root w') e) w')
        with (Outcome.report e w').
      rewrite (commands_same w' (Outcome.report e w')
                 (proj1 (proj2 (Outcome.report_keeps e w')))).
      split; [exists k; exact Hk|]. intros H1. discriminate H1.
Qed.

End Order.

(** ** What a run leaves alone, whatever git does *)

Module Untouched.
Import Git Py Session Catalog Facts GitFacts Logic Outcome Frame Kept.
Local Open Scope py_scope.

Lemma run_script_fs (m : M Z) (w : world) :
  fs (after (run_script m w)) = fs (m (boot w)).2.
Proof.
  unfold run_script. destruct (m (boot w)) as [[n|e] w']; [reflexivity|].
  destruct (exit_request e); [reflexivity|]. simpl.
  exact (proj1 (report_keeps e w')).
Qed.

Definition elsewhere : world :=
  session (fs_put "thesis" (Some empty_dir) nothing) "/srv/cours" "master".

(** X7.  A provisioning run that finds no stale scratch directory changes
    nothing outside the guarded and scratch directories of its scenario,
    and leaves no scratch directory behind: this holds for every scenario,
    with or without [--force], whatever the rest of the disk holds and
    whichever git steps fail. *)
Theorem nothing_else_touched s force w :
  let x := run_script (provision s force) w in
  no_scratch s w ->
  (forall p, ~ In p (guarded s ++ scratch s)%list -> fs (after x) p = fs w p)
  /\ no_scratch s (after x).
Proof.
  intros x Hns. subst x. unfold no_scratch in *. rewrite !run_script_fs.
  destruct (guard_cases s force w) as [Hp|[-> Ht]].
  - assert (Hpre : clean_start s force (fs w) (boot w)) by (repeat split; assumption).
    pose proof (provision_tidy s force (fs w) (boot w) Hpre) as H.
    destruct (provision s force (boot w)) as [[n|e] w']; simpl;
      destruct H as ((Hk & _) & _ & Ha); (split; [exact Hk | exact Ha]).
  - pose proof (provision_rejects s (boot w) Ht (boot w) eq_refl) as H.
    destruct (provision s false (boot w)) as [[n|e] w']; [destruct H|]. simpl.
    destruct H as (_ & -> & _). split; [reflexivity | exact Hns].
Qed.

Lemma nothing_else_touched_witness :
  no_scratch S17 elsewhere
  /\ (forall p, ~ In p (guarded S17 ++ scratch S17)%list ->
        fs (after (run_script (provision S17 false) elsewhere)) p = fs elsewhere p)
  /\ no_scratch S17 (after (run_script (provision S17 false) elsewhere)).
Proof.
  assert (H : no_scratch S17 elsewhere) by (repeat constructor).
  split; [exact H|]. exact (nothing_else_touched S17 false elsewhere H).
Defined.


(** *** [--update] of ex15 *)

Definition update_dirs : list string := [Ex15.REMOTE_REPO; "_temp_push"].

Definition updated (f0 : fsys) (w : world) : Prop :=
  J update_dirs [Ex15.REMOTE_REPO] f0 ["_temp_push"] w.

(** Left at the first check: there is no remote. *)
Definition no_remote (f0 : fsys) (w : world) : Prop :=
  f0 Ex15.REMOTE_REPO = None /\ fs w = f0.

Lemma triple_pure {A : Type} (fact : Prop) (P : world -> Prop) (m : M A) Q E :
  (fact -> triple P m Q E) -> triple (fun w => fact /\ P w) m Q E.
Proof. intros H w [Hf HP]. exact (H Hf w HP). Qed.

Lemma simulate_remote_update_tidy f0 :
  triple (fun w => fs w = f0) Ex15.simulate_remote_update
         (fun _ w => f0 Ex15.REMOTE_REPO <> None /\ updated f0 w)
         (fun e w => (f0 Ex15.REMOTE_REPO <> None /\ updated f0 w)
                     \/ (e = SystemExit 1 /\ no_remote f0 w)).
Proof.
  cbv delta [Ex15.simulate_remote_update Ex15.run_git] beta zeta.
  eapply triple_bind with
    (R := fun (found : bool) (w : world) => fs w = f0 /\ (if found then f0 Ex15.REMOTE_REPO <> None
                                       else f0 Ex15.REMOTE_REPO = None)).
  { intros w <-. unfold path_exists. simpl. split; [reflexivity|].
    destruct (fs w Ex15.REMOTE_REPO); [discriminate | reflexivity]. }
  intros found.
  eapply triple_bind with (R := fun _ w => f0 Ex15.REMOTE_REPO <> None /\ fs w = f0).
  { intros w [Hf Hr]. destruct found; simpl.
    - auto.
    - right. split; [reflexivity|]. split; [exact Hr | exact Hf]. }
  intros u. apply triple_pure. intros Hr.
  eapply triple_weaken with
    (P := fun w => fs w = f0) (Q := fun _ => updated f0) (E := fun _ => updated f0); auto.
  eapply triple_bind with
    (R := fun (found : bool) (w : world) => fs w = f0 /\ (if found then True else fs w "_temp_push" = None)).
  { intros w Hf. unfold path_exists. simpl. split; [exact Hf|].
    destruct (fs w "_temp_push"); [exact I | reflexivity]. }
  intros stale.
  eapply triple_bind with (R := fun _ => updated f0).
  { intros w [Hf Hs].
    assert (Hfin : forall f, f "_temp_push" = None ->
                             (forall q, q <> "_temp_push" -> f q = f0 q) ->
                             tidy update_dirs [Ex15.REMOTE_REPO] f0 ["_temp_push"] f).
    { intros f Ht Hq. apply tidy_start.
      - intros q Hn. apply Hq. intros ->. apply Hn. right. left. reflexivity.
      - intros q [<-|[]]. apply Hq. discriminate.
      - intros q d [[<-|[<-|[]]] Hn] Hd.
        + exfalso. apply Hn. left. reflexivity.
        + rewrite Ht in Hd. discriminate Hd.
      - constructor; [exact Ht | constructor]. }
    unfold when, rmtree, ret. destruct stale.
    - destruct (fs w "_temp_push") as [d|] eqn:Hd.
      + unfold updated, J. cbn [fs record set_fs].
        apply Hfin; [apply fs_remove_same|].
        intros q Hne. unfold fs_remove.
        destruct (String.eqb_spec q "_temp_push"); [contradiction | congruence].
      + apply Hfin; [exact Hd | intros; congruence].
    - apply Hfin; [exact Hs | intros; congruence]. }
  intros u'. unfold updated, update_dirs. fwalk.
Qed.

Lemma update_tidy force f0 :
  triple (fun w => fs w = f0) (Ex15.main force true)
         (fun _ w => f0 Ex15.REMOTE_REPO <> None /\ updated f0 w)
         (fun e w => (f0 Ex15.REMOTE_REPO <> None /\ updated f0 w)
                     \/ (e = SystemExit 1 /\ no_remote f0 w)).
Proof.
  cbv delta [Ex15.main] beta iota.
  eapply triple_bind; [apply simulate_remote_update_tidy|].
  intros u w H. exact H.
Qed.

Lemma updated_frame f0 w :
  updated f0 w ->
  (forall p, p <> Ex15.REMOTE_REPO -> p <> "_temp_push" -> fs w p = f0 p)
  /\ appended (f0 Ex15.REMOTE_REPO) (fs w Ex15.REMOTE_REPO)
  /\ fs w "_temp_push" = None.
Proof.
  intros ((Hk1 & Hk2) & _ & Ha). split; [|split].
  - intros p N1 N2. apply Hk1. intros [<-|[<-|[]]]; congruence.
  - apply Hk2. left. reflexivity.
  - inversion Ha. assumption.
Qed.

(** X8.  [--update] of ex15 skips the guard, and [--force] changes nothing
    to it.  Whatever the state of the disk and whatever git does, the run
    changes no entry other than the bare remote and the scratch directory
    [_temp_push]: the learner's clone, in particular, keeps its files and
    its refs.  The remote is never removed or rebuilt: the only change it
    can see is a branch moved forward by a push.  When the remote exists,
    [_temp_push] is gone when the process exits, also after a failure. *)
Theorem update_leaves_the_rest force w :
  let x := run_script (Ex15.main force true) w in
  x = run_script (Ex15.main (negb force) true) w
  /\ (forall p, p <> Ex15.REMOTE_REPO -> p <> "_temp_push" -> fs (after x) p = fs w p)
  /\ appended (fs w Ex15.REMOTE_REPO) (fs (after x) Ex15.REMOTE_REPO)
  /\ (fs w Ex15.REMOTE_REPO <> None -> fs (after x) "_temp_push" = None).
Proof.
  intros x. subst x. split; [destruct force; reflexivity|].
  rewrite !run_script_fs.
  pose proof (update_tidy force (fs w) (boot w) eq_refl) as H.
  destruct (Ex15.main force true (boot w)) as [[n|e] w']; simpl.
  - destruct H as [_ H]. apply updated_frame in H. destruct H as (H1 & H2 & H3). auto.
  - destruct H as [[_ H] | [_ [Hr Hf]]].
    + apply updated_frame in H. destruct H as (H1 & H2 & H3). auto.
    + rewrite Hf. split; [reflexivity|]. split; [apply appended_refl|].
      intros Hn. destruct (Hn Hr).
Qed.

Definition lone_learner : world :=
  session (fs_put Ex15.EXERCISE_DIR (Some empty_dir) nothing) "/srv/cours" "master".

(** X9.  [--update] before the exercise was provisioned: there is no remote,
    and the run stops at once with exit status 1 and one message on
    stderr; it runs no git step, prints nothing on stdout and leaves the
    disk as it was, a stale [_temp_push] included. *)
Theorem update_without_remote force w :
  let x := run_script (Ex15.main force true) w in
  fs w Ex15.REMOTE_REPO = None ->
  status x = 1%Z
  /\ fs (after x) = fs w
  /\ events (after x) = [EvExists Ex15.REMOTE_REPO false]
  /\ printed (after x) = []
  /\ diagnostics (after x)
     = [cat ["⚠️  Le dépôt distant n'existe pas."; nl;
             "    Lancez d'abord le script sans --update pour créer l'exercice."]].
Proof.
  intros x Hr. subst x.
  unfold run_script, Ex15.main, Ex15.simulate_remote_update, bind, path_exists.
  cbn [boot fs]. rewrite Hr. cbn -[cat nl]. repeat split.
Qed.

Lemma update_without_remote_witness :
  fs lone_learner Ex15.REMOTE_REPO = None
  /\ status (run_script (Ex15.main true true) lone_learner) = 1%Z
  /\ fs (after (run_script (Ex15.main true true) lone_learner)) = fs lone_learner
  /\ events (after (run_script (Ex15.main true true) lone_learner))
     = [EvExists Ex15.REMOTE_REPO false]
  /\ printed (after (run_script (Ex15.main true true) lone_learner)) = []
  /\ diagnostics (after (run_script (Ex15.main true true) lone_learner))
     = [cat ["⚠️  Le dépôt distant n'existe pas."; nl;
             "    Lancez d'abord le script sans --update pour créer l'exercice."]].
Proof.
  assert (H : fs lone_learner Ex15.REMOTE_REPO = None) by reflexivity.
  split; [exact H|]. exact (update_without_remote true lone_learner H).
Defined.

End Untouched.

(** ** The guard on its own *)

Module Guard.
Import Git Py Session Catalog Facts GitFacts Logic Outcome.
Local Open Scope py_scope.

(** The reset procedure of a scenario: [reset_exercise_dir], or
    [reset_dirs] where there is a remote. *)
Definition reset (s : scenario) (force : bool) : M unit :=
  match s with
  | S01 => Ex01.reset_exercise_dir force | S02 => Ex02.reset_exercise_dir force
  | S03 => Ex03.reset_exercise_dir force | S04 => Ex04.reset_exercise_dir force
  | S05 => Ex05.reset_exercise_dir force | S06 => Ex06.reset_exercise_dir force
  | S07 => Ex07.reset_exercise_dir force | S08 => Ex08.reset_exercise_dir force
  | S09 => Ex09.reset_exercise_dir force | S10 => Ex10.reset_exercise_dir force
  | S11 => Ex11.reset_exercise_dir force | S12 => Ex12.reset_exercise_dir force
  | S13 => Ex13.reset_exercise_dir force | S14 => Ex14.reset_exercise_dir force
  | S15 => Ex15.reset_dirs force | S16 => Ex16.reset_dirs force
  | S17 => Ex17.reset_dirs force
  | S18 => Ex18.reset_exercise_dir force | S19 => Ex19.reset_exercise_dir force
  | S20 => Ex20.reset_exercise_dir force
  end.

(** What a guarded directory is once the reset has returned: an empty
    directory after [reset_exercise_dir]; nothing after [reset_dirs], which
    leaves the creation to [git clone]. *)
Definition reset_state (s : scenario) : option dir :=
  match s with
  | S15 | S16 | S17 => None
  | _ => Some empty_dir
  end.

Definition reset_done (s : scenario) (force : bool) (w w' : world) : Prop :=
  guard_passes s w force
  /\ (forall p, In p (guarded s) -> fs w' p = reset_state s)
  /\ (forall p, ~ In p (guarded s) -> fs w' p = fs w p)
  /\ out w' = out w
  /\ err w' = err w.

Definition reset_refused (s : scenario) (force : bool) (w : world) (e : exn) (w' : world)
  : Prop :=
  e = SystemExit 1
  /\ guard_blocks s force w
  /\ fs w' = fs w
  /\ out w' = out w
  /\ exists msg, err w' = msg :: err w /\ is_substring "--force" msg = true.

Ltac reduce := cbn [negb fs record set_fs trace err out put_err].

Lemma reset_exercise_dir_spec dir msg force w :
  match (found <- path_exists dir ;;
         when found (when (negb force) (eprint msg ;; sys_exit 1%Z) ;; rmtree dir) ;;
         mkdir dir) w with
  | (Ok _, w') =>
      (force = true \/ fs w dir = None)
      /\ fs w' dir = Some empty_dir
      /\ (forall q, q <> dir -> fs w' q = fs w q)
      /\ out w' = out w /\ err w' = err w
  | (Raise e, w') =>
      e = SystemExit 1 /\ force = false /\ fs w dir <> None
      /\ fs w' = fs w /\ out w' = out w /\ err w' = msg :: err w
  end.
Proof.
  unfold bind, path_exists, when, rmtree, mkdir, ret, eprint, sys_exit, raise.
  destruct (fs w dir) as [d|] eqn:Hd; destruct force; reduce.
  - try rewrite Hd. reduce. rewrite fs_remove_same. reduce.
    split; [left; reflexivity|]. split; [apply fs_set_same|]. split; [|auto].
    intros q Hq. unfold fs_set, fs_remove.
    destruct (String.eqb_spec q dir); [contradiction | reflexivity].
  - try rewrite Hd. repeat split; congruence.
  - try rewrite Hd. reduce.
    split; [left; reflexivity|]. split; [apply fs_set_same|]. split; [|auto].
    intros q Hq. unfold fs_set. destruct (String.eqb_spec q dir); [contradiction | reflexivity].
  - try rewrite Hd. reduce.
    split; [right; reflexivity|]. split; [apply fs_set_same|]. split; [|auto].
    intros q Hq. unfold fs_set. destruct (String.eqb_spec q dir); [contradiction | reflexivity].
Qed.

Lemma reset_dirs_spec (r d : string) (msg : string -> string) force w :
  match (for_each [r; d]
           (fun dir_path =>
              found <- path_exists dir_path ;;
              when found
                (when (negb force) (eprint (msg dir_path) ;; sys_exit 1%Z) ;;
                 rmtree dir_path))) w with
  | (Ok _, w') =>
      (force = true \/ (fs w r = None /\ fs w d = None))
      /\ fs w' r = None /\ fs w' d = None
      /\ (forall q, q <> r -> q <> d -> fs w' q = fs w q)
      /\ out w' = out w /\ err w' = err w
  | (Raise e, w') =>
      e = SystemExit 1 /\ force = false /\ (fs w r <> None \/ fs w d <> None)
      /\ fs w' = fs w /\ out w' = out w
      /\ (err w' = msg r :: err w \/ err w' = msg d :: err w)
  end.
Proof.
  unfold for_each, bind, path_exists, when, rmtree, ret, eprint, sys_exit, raise.
  destruct force; reduce.
  - destruct (fs w r) as [dr|] eqn:Er; reduce; [rewrite Er; reduce|].
    + destruct (fs_remove r (fs w) d) as [dd|] eqn:Ed; reduce.
      * rewrite Ed. reduce. split; [left; reflexivity|]. split; [|split; [|split; [|auto]]].
        -- unfold fs_remove. rewrite String.eqb_refl. destruct (String.eqb r d); reflexivity.
        -- apply fs_remove_same.
        -- intros q N1 N2. unfold fs_remove.
           destruct (String.eqb_spec q d); [contradiction|].
           destruct (String.eqb_spec q r); [contradiction | reflexivity].
      * split; [left; reflexivity|]. split; [|split; [|split; [|auto]]].
        -- apply fs_remove_same.
        -- exact Ed.
        -- intros q N1 N2. unfold fs_remove.
           destruct (String.eqb_spec q r); [contradiction | reflexivity].
    + destruct (fs w d) as [dd|] eqn:Ed; reduce.
      * rewrite Ed. reduce. split; [left; reflexivity|]. split; [|split; [|split; [|auto]]].
        -- unfold fs_remove. destruct (String.eqb r d); [reflexivity | exact Er].
        -- apply fs_remove_same.
        -- intros q N1 N2. unfold fs_remove.
           destruct (String.eqb_spec q d); [contradiction | reflexivity].
      * split; [left; reflexivity|]. auto.
  - destruct (fs w r) as [dr|] eqn:Er; reduce.
    + split; [reflexivity|]. split; [reflexivity|]. split; [left; discriminate|]. auto.
    + destruct (fs w d) as [dd|] eqn:Ed; reduce.
      * split; [reflexivity|]. split; [reflexivity|]. split; [right; discriminate|]. auto.
      * split; [right; auto|]. auto.
Qed.

Lemma blocks_one s dir force w :
  guarded s = [dir] -> force = false -> fs w dir <> None -> guard_blocks s force w.
Proof.
  intros Hg Hf Hd. split; [exact Hf|]. unfold target_exists, present. rewrite Hg. simpl.
  destruct (fs w dir); [reflexivity | congruence].
Qed.

Lemma passes_one s dir force w :
  guarded s = [dir] -> force = true \/ fs w dir = None -> guard_passes s w force.
Proof.
  intros Hg [Hf|Hd]; [left; exact Hf|right].
  unfold target_exists, present. rewrite Hg. simpl. rewrite Hd. reflexivity.
Qed.

Lemma blocks_two s r d force w :
  guarded s = [r; d] -> force = false -> fs w r <> None \/ fs w d <> None ->
  guard_blocks s force w.
Proof.
  intros Hg Hf Hd. split; [exact Hf|]. unfold target_exists, present. rewrite Hg. simpl.
  destruct (fs w r); [reflexivity|]. destruct (fs w d); [reflexivity|].
  destruct Hd; congruence.
Qed.

Lemma passes_two s r d force w :
  guarded s = [r; d] -> force = true \/ (fs w r = None /\ fs w d = None) ->
  guard_passes s w force.
Proof.
  intros Hg [Hf|[Hr Hd]]; [left; exact Hf|right].
  unfold target_exists, present. rewrite Hg. simpl. rewrite Hr, Hd. reflexivity.
Qed.

Ltac one_dir s dir force :=
  match goal with
  | |- context [eprint ?msg] =>
      match goal with
      | |- match _ ?w with _ => _ end =>
          let H := fresh "H" in
          pose proof (reset_exercise_dir_spec dir msg force w) as H;
          match type of H with
          | match ?m with _ => _ end =>
              destruct m as [[u|e] w'];
              [ destruct H as (Hg & Hd & Ho & Hout & Herr);
                split; [exact (passes_one s dir _ w eq_refl Hg)|];
                split; [intros p [<-|[]]; exact Hd|];
                split; [intros p Hp; apply Ho; intros ->; apply Hp; left; reflexivity|];
                split; assumption
              | destruct H as (He & Hf & Hd & Hfs & Hout & Herr);
                split; [exact He|];
                split; [exact (blocks_one s dir _ w eq_refl Hf Hd)|];
                split; [exact Hfs|]; split; [exact Hout|];
                eexists; split; [exact Herr | vm_compute; reflexivity] ]
          end
      end
  end.

Ltac two_dirs s r d force :=
  match goal with
  | |- match _ ?w with _ => _ end =>
      let H := fresh "H" in
      epose proof (reset_dirs_spec r d _ force w) as H;
      match type of H with
      | match ?a with _ => _ end =>
          match goal with
          | |- match ?b with _ => _ end => unify a b
          end;
          destruct a as [[u|e] w'];
          [ destruct H as (Hg & Hr & Hd & Ho & Hout & Herr);
            split; [exact (passes_two s r d _ w eq_refl Hg)|];
            split; [intros p [<-|[<-|[]]]; assumption|];
            split; [intros p Hp; apply Ho; intros ->; apply Hp;
                    [left; reflexivity | right; left; reflexivity]|];
            split; assumption
          | destruct H as (He & Hf & Hd & Hfs & Hout & Herr);
            split; [exact He|];
            split; [exact (blocks_two s r d _ w eq_refl Hf Hd)|];
            split; [exact Hfs|]; split; [exact Hout|];
            destruct Herr as [Herr|Herr];
            (eexists; split; [exact Herr | vm_compute; reflexivity]) ]
      end
  end.

(** X10.  The reset of every scenario, on any disk.  Either it refuses:
    without [--force], when a guarded directory exists; it then raises
    [SystemExit(1)] after one message on stderr that names [--force], and
    the disk is as it was.  Or it returns: every guarded directory is then
    in its initial state whatever it held, no other entry has changed and
    nothing was printed. *)
Theorem reset_all_or_nothing s force w :
  match reset s force w with
  | (Ok _, w') => reset_done s force w w'
  | (Raise e, w') => reset_refused s force w e w'
  end.
Proof.
  destruct s.

  - cbv delta [reset Ex01.reset_exercise_dir] beta iota.
    one_dir S01 Ex01.EXERCISE_DIR force.
  - cbv delta [reset Ex02.reset_exercise_dir] beta iota.
    one_dir S02 Ex02.EXERCISE_DIR force.
  - cbv delta [reset Ex03.reset_exercise_dir] beta iota.
    one_dir S03 Ex03.EXERCISE_DIR force.
  - cbv delta [reset Ex04.reset_exercise_dir] beta iota.
    one_dir S04 Ex04.EXERCISE_DIR force.
  - cbv delta [reset Ex05.reset_exercise_dir] beta iota.
    one_dir S05 Ex05.EXERCISE_DIR force.
  - cbv delta [reset Ex06.reset_exercise_dir] beta iota.
    one_dir S06 Ex06.EXERCISE_DIR force.
  - cbv delta [reset Ex07.reset_exercise_dir] beta iota.
    one_dir S07 Ex07.EXERCISE_DIR force.
  - cbv delta [reset Ex08.reset_exercise_dir] beta iota.
    one_dir S08 Ex08.EXERCISE_DIR force.
  - cbv delta [reset Ex09.reset_exercise_dir] beta iota.
    one_dir S09 Ex09.EXERCISE_DIR force.
  - cbv delta [reset Ex10.reset_exercise_dir] beta iota.
    one_dir S10 Ex10.EXERCISE_DIR force.
  - cbv delta [reset Ex11.reset_exercise_dir] beta iota.
    one_dir S11 Ex11.EXERCISE_DIR force.
  - cbv delta [reset Ex12.reset_exercise_dir] beta iota.
    one_dir S12 Ex12.EXERCISE_DIR force.
  - cbv delta [reset Ex13.reset_exercise_dir] beta iota.
    one_dir S13 Ex13.EXERCISE_DIR force.
  - cbv delta [reset Ex14.reset_exercise_dir] beta iota.
    one_dir S14 Ex14.EXERCISE_DIR force.
  - cbv delta [reset Ex15.reset_dirs] beta iota.
    two_dirs S15 Ex15.REMOTE_REPO Ex15.EXERCISE_DIR force.
  - cbv delta [reset Ex16.reset_dirs] beta iota.
    two_dirs S16 Ex16.REMOTE_REPO Ex16.EXERCISE_DIR force.
  - cbv delta [reset Ex17.reset_dirs] beta iota.
    two_dirs S17 Ex17.REMOTE_REPO Ex17.EXERCISE_DIR force.
  - cbv delta [reset Ex18.reset_exercise_dir] beta iota.
    one_dir S18 Ex18.EXERCISE_DIR force.
  - cbv delta [reset Ex19.reset_exercise_dir] beta iota.
    one_dir S19 Ex19.EXERCISE_DIR force.
  - cbv delta [reset Ex20.reset_exercise_dir] beta iota.
    one_dir S20 Ex20.EXERCISE_DIR force.
Qed.


Lemma reset_dirs_trace (r d : string) (msg : string -> string) w dr dd :
  r <> d -> fs w r = Some dr -> fs w d = Some dd ->
  trace (for_each [r; d]
           (fun dir_path =>
              found <- path_exists dir_path ;;
              when found
                (when (negb true) (eprint (msg dir_path) ;; sys_exit 1%Z) ;;
                 rmtree dir_path)) w).2
  = ([EvRmtree d; EvExists d true; EvRmtree r; EvExists r true] ++ trace w)%list.
Proof.
  intros Hne Hr Hd.
  unfold for_each, bind, path_exists, when, rmtree, ret. reduce.
  rewrite Hr. reduce. rewrite Hr. reduce.
  assert (Hd' : fs_remove r (fs w) d = Some dd).
  { unfold fs_remove. destruct (String.eqb_spec d r); [congruence | exact Hd]. }
  rewrite Hd'. reduce. rewrite Hd'. reflexivity.
Qed.

Definition both_present : world :=
  session (fs_put Ex15.REMOTE_REPO (Some empty_dir)
             (fs_put Ex15.EXERCISE_DIR (Some empty_dir) nothing))
          "/srv/cours" "master".

(** X11.  [reset_dirs] (ex15, ex16, ex17) treats its two directories one after
    the other, the remote first: under [--force], when both exist, the
    remote has already been removed when the existence of the clone is
    checked.  There is no check of all directories before the first
    removal. *)
Theorem reset_dirs_one_by_one s w :
  In s [S15; S16; S17] ->
  Forall (fun p => fs w p <> None) (guarded s) ->
  exists r d,
    guarded s = [r; d]
    /\ events (reset s true (boot w)).2
       = [EvExists r true; EvRmtree r; EvExists d true; EvRmtree d].
Proof.
  intros Hs Hall.
  assert (Hgo : forall r d (msg : string -> string),
             r <> d -> guarded s = [r; d] ->
             events (for_each [r; d]
                       (fun dir_path =>
                          found <- path_exists dir_path ;;
                          when found
                            (when (negb true) (eprint (msg dir_path) ;; sys_exit 1%Z) ;;
                             rmtree dir_path)) (boot w)).2
             = [EvExists r true; EvRmtree r; EvExists d true; EvRmtree d]).
  { intros r d msg Hne Hg. rewrite Hg in Hall.
    inversion Hall as [|? ? Hr Hall']; subst. inversion Hall' as [|? ? Hd _]; subst.
    destruct (fs w r) as [dr|] eqn:Er; [|congruence].
    destruct (fs w d) as [dd|] eqn:Ed; [|congruence].
    unfold events. rewrite (reset_dirs_trace r d msg (boot w) dr dd Hne Er Ed).
    reflexivity. }
  destruct Hs as [<-|[<-|[<-|[]]]].
  - exists Ex15.REMOTE_REPO, Ex15.EXERCISE_DIR. split; [reflexivity|].
    apply Hgo; [discriminate | reflexivity].
  - exists Ex16.REMOTE_REPO, Ex16.EXERCISE_DIR. split; [reflexivity|].
    apply Hgo; [discriminate | reflexivity].
  - exists Ex17.REMOTE_REPO, Ex17.EXERCISE_DIR. split; [reflexivity|].
    apply Hgo; [discriminate | reflexivity].
Qed.

Lemma reset_dirs_one_by_one_witness :
  In S15 [S15; S16; S17]
  /\ Forall (fun p => fs both_present p <> None) (guarded S15)
  /\ exists r d,
       guarded S15 = [r; d]
       /\ events (reset S15 true (boot both_present)).2
          = [EvExists r true; EvRmtree r; EvExists d true; EvRmtree d].
Proof.
  assert (H1 : In S15 [S15; S16; S17]) by (left; reflexivity).
  assert (H2 : Forall (fun p => fs both_present p <> None) (guarded S15))
    by (repeat constructor; discriminate).
  split; [exact H1|]. split; [exact H2|]. exact (reset_dirs_one_by_one S15 both_present H1 H2).
Defined.

End Guard.

(** ** Scratch directories *)

Module Scrub.
Import Git Py Session Catalog Facts GitFacts Logic.
Local Open Scope py_scope.

(** [try: body finally: shutil.rmtree(p)]: whatever the body does,
    [p] is gone afterwards. *)
Lemma finally_rmtree_gone {A : Type} (body : M A) (p : string) (w : world) :
  fs (try_finally body (rmtree p) w).2 p = None.
Proof.
  unfold try_finally, rmtree. destruct (body w) as [r w1].
  destruct (fs w1 p) as [d|] eqn:Hd.
  - simpl. apply fs_remove_same.
  - destruct r; exact Hd.
Qed.

Section Tracked.
Variable p : string.      (* the scratch directory that is followed *)
Variable f0 : fsys.       (* the disk when the procedure starts *)

Definition gone (w : world) : Prop := fs w p = None.

(** Not created yet: gone, or as it was at the start. *)
Definition as_before (w : world) : Prop := fs w p = None \/ fs w p = f0 p.

(** A git invocation that neither runs in [p], nor clones into [p], nor
    pushes, leaves [p] as it is. *)
Lemma effect_elsewhere cwd args f f' :
  effect cwd args f f' ->
  cwd <> Some p -> last args <> Some p -> hd_error args <> Some "push" ->
  f' p = f p.
Proof.
  intros [-> | q d d' Hc _ _ -> | src dst d' Ha _ _ ->
         | q d d' url rd rr b c Hpush _ _ _ _ _ _ _ ->] Hcwd Hlast Hnp.
  - reflexivity.
  - unfold fs_set. destruct (String.eqb_spec p q) as [->|_]; [contradiction | reflexivity].
  - unfold fs_set. destruct (String.eqb_spec p dst) as [->|_]; [|reflexivity].
    exfalso. apply Hlast. destruct Ha as [-> | ->]; reflexivity.
  - contradiction.
Qed.

(** What is gone is only brought back by a clone into it. *)
Lemma effect_gone cwd args f f' :
  effect cwd args f f' -> last args <> Some p -> f p = None -> f' p = None.
Proof.
  intros [-> | q d d' _ Hq _ -> | src dst d' Ha _ _ ->
         | q d d' url rd rr b c _ _ Hq _ _ Hu _ _ ->] Hlast Hp.
  - exact Hp.
  - unfold fs_set. destruct (String.eqb_spec p q) as [->|_]; [congruence | exact Hp].
  - unfold fs_set. destruct (String.eqb_spec p dst) as [->|_]; [|exact Hp].
    exfalso. apply Hlast. destruct Ha as [-> | ->]; reflexivity.
  - unfold fs_set. destruct (String.eqb_spec p q) as [->|_]; [congruence|].
    destruct (String.eqb_spec p url) as [->|_]; [congruence | exact Hp].
Qed.

(** *** Before the scratch directory is created *)

Lemma b_print s : triple as_before (print s) (fun _ => as_before) (fun _ => as_before).
Proof. intros w H. exact H. Qed.

Lemma b_print_f parts :
  triple as_before (print_f parts) (fun _ => as_before) (fun _ => as_before).
Proof. intros w H. exact H. Qed.

Lemma as_before_step w w' : fs w' p = fs w p -> as_before w -> as_before w'.
Proof. unfold as_before. intros ->. auto. Qed.

Lemma b_mkdir q :
  q <> p -> triple as_before (mkdir q) (fun _ => as_before) (fun _ => as_before).
Proof.
  intros Hq w H. unfold mkdir. destruct (fs w q); [exact H|].
  eapply as_before_step; [|exact H]. cbn [fs record set_fs]. unfold fs_set.
  destruct (String.eqb_spec p q); [congruence | reflexivity].
Qed.

Lemma b_write_text q file content :
  q <> p ->
  triple as_before (write_text q file content) (fun _ => as_before) (fun _ => as_before).
Proof.
  intros Hq w H. unfold write_text. destruct (fs w q); [|exact H].
  eapply as_before_step; [|exact H]. cbn [fs record set_fs]. unfold fs_set.
  destruct (String.eqb_spec p q); [congruence | reflexivity].
Qed.

Lemma b_rmtree q :
  q <> p -> triple as_before (rmtree q) (fun _ => as_before) (fun _ => as_before).
Proof.
  intros Hq w H. unfold rmtree. destruct (fs w q); [|exact H].
  eapply as_before_step; [|exact H]. cbn [fs record set_fs]. unfold fs_remove.
  destruct (String.eqb_spec p q); [congruence | reflexivity].
Qed.

Lemma b_git cwd args check :
  cwd <> Some p -> last args <> Some p -> hd_error args <> Some "push" ->
  triple as_before (discard (subprocess_run ("git" :: args) cwd check))
         (fun _ => as_before) (fun _ => as_before).
Proof.
  intros Hc Hl Hn. apply triple_discard. intros w H. unfold subprocess_run.
  assert (Hrun : match (let '(c, w') := git cwd args check w in
                        if check && negb (returncode c =? 0)%Z
                        then (Raise (CalledProcessError (returncode c) ("git" :: args)
                                                        (stdout c) (stderr c)), w')
                        else (Ok c, w')) with
                 | (Ok _, w') => as_before w'
                 | (Raise _, w') => as_before w'
                 end).
  { pose proof (git_spec cwd args check w) as Hg.
    destruct (git cwd args check w) as [c w']. destruct Hg as (_ & _ & _ & Hf).
    assert (H' : as_before w')
      by (eapply as_before_step; [eapply effect_elsewhere; eauto | exact H]).
    destruct (check && negb (returncode c =? 0)%Z); exact H'. }
  cbn [String.eqb Ascii.eqb Bool.eqb].
  destruct cwd as [c|]; [destruct (fs w c); [exact Hrun | exact H] | exact Hrun].
Qed.

(** The [try]/[finally] of another scratch directory. *)
Lemma b_finally_other (body : M unit) q :
  triple as_before body (fun _ => as_before) (fun _ => as_before) -> q <> p ->
  triple as_before (try_finally body (rmtree q)) (fun _ => as_before) (fun _ => as_before).
Proof.
  intros Hb Hq. eapply triple_try_finally; [exact Hb | |]; intros; apply b_rmtree; exact Hq.
Qed.

(** *** Once the scratch directory has been removed *)

Section After.
Variable E : world -> Prop.
Hypothesis gone_E : forall w, gone w -> E w.

Lemma g_print s : triple gone (print s) (fun _ => gone) (fun _ => E).
Proof. intros w H. exact H. Qed.

Lemma g_print_f parts : triple gone (print_f parts) (fun _ => gone) (fun _ => E).
Proof. intros w H. exact H. Qed.

Lemma g_ret {T : Type} (n : T) : triple gone (ret n) (fun _ => gone) (fun _ => E).
Proof. intros w H. exact H. Qed.

Lemma g_write_text q file content :
  triple gone (write_text q file content) (fun _ => gone) (fun _ => E).
Proof.
  intros w H. unfold write_text. destruct (fs w q) as [d|] eqn:Hq; [|apply gone_E; exact H].
  unfold gone in *. cbn [fs record set_fs]. unfold fs_set.
  destruct (String.eqb_spec p q) as [->|_]; [congruence | exact H].
Qed.

Lemma g_rmtree q : triple gone (rmtree q) (fun _ => gone) (fun _ => E).
Proof.
  intros w H. unfold rmtree. destruct (fs w q) as [d|] eqn:Hq; [|apply gone_E; exact H].
  unfold gone in *. cbn [fs record set_fs]. unfold fs_remove.
  destruct (String.eqb p q); [reflexivity | exact H].
Qed.

Lemma g_git cwd args check :
  last args <> Some p ->
  triple gone (discard (subprocess_run ("git" :: args) cwd check))
         (fun _ => gone) (fun _ => E).
Proof.
  intros Hl. apply triple_discard. intros w H. unfold subprocess_run.
  assert (Hrun : match (let '(c, w') := git cwd args check w in
                        if check && negb (returncode c =? 0)%Z
                        then (Raise (CalledProcessError (returncode c) ("git" :: args)
                                                        (stdout c) (stderr c)), w')
                        else (Ok c, w')) with
                 | (Ok _, w') => gone w'
                 | (Raise _, w') => E w'
                 end).
  { pose proof (git_spec cwd args check w) as Hg.
    destruct (git cwd args check w) as [c w']. destruct Hg as (_ & _ & _ & Hf).
    assert (H' : gone w') by (eapply effect_gone; eauto).
    destruct (check && negb (returncode c =? 0)%Z); [apply gone_E|]; exact H'. }
  cbn [String.eqb Ascii.eqb Bool.eqb].
  destruct cwd as [c|]; [destruct (fs w c); [exact Hrun | apply gone_E; exact H] | exact Hrun].
Qed.

(** The [try]/[finally] that creates and removes [p] itself. *)
Lemma g_finally_own (body : M unit) (P : world -> Prop) :
  triple P (try_finally body (rmtree p)) (fun _ => gone) (fun _ => E).
Proof.
  intros w _. pose proof (finally_rmtree_gone body p w) as H.
  destruct (try_finally body (rmtree p) w) as [[u|e] w']; [exact H | apply gone_E; exact H].
Qed.

Lemma g_finally (body : M unit) q :
  triple gone body (fun _ => gone) (fun _ => gone) ->
  triple gone (try_finally body (rmtree q)) (fun _ => gone) (fun _ => E).
Proof.
  intros Hb. eapply triple_try_finally with (E1 := fun _ => gone); [exact Hb | |].
  - intros u. apply g_rmtree.
  - intros e w H. unfold rmtree. destruct (fs w q) as [d|] eqn:Hq; [|apply gone_E; exact H].
    apply gone_E. unfold gone in *. cbn [fs record set_fs]. unfold fs_remove.
    destruct (String.eqb p q); [reflexivity | exact H].
Qed.
End After.
End Tracked.


Lemma mkdir_returns (P : world -> Prop) (q : string) E :
  triple P (mkdir q) (fun _ _ => True) E.
Proof. intros w _. unfold mkdir. destruct (fs w q); exact I. Qed.

Ltac sside :=
  lazymatch goal with
  | |- _ <> _ => let H := fresh in intros H; compute in H; discriminate H
  | |- forall w, gone _ w -> _ =>
      first [exact (fun w H => H) | exact (fun w H => or_introl H)]
  end.

Ltac swalk :=
  cbv beta zeta;
  lazymatch goal with
  | |- triple _ (bind _ _) _ _ =>
      eapply triple_bind; [swalk | intros ?; swalk]
  | |- triple (gone _) (try_finally _ (rmtree _)) _ _ =>
      eapply g_finally; [sside | swalk]
  | |- triple (as_before _ _) (try_finally _ (rmtree _)) _ _ =>
      first [ apply g_finally_own; sside
            | eapply b_finally_other; [swalk | sside] ]
  | |- triple (as_before _ _) _ _ _ =>
      first [ apply b_print | apply b_print_f | apply b_mkdir; sside
            | apply b_write_text; sside | apply b_git; sside ]
  | |- triple (gone _) _ _ _ =>
      first [ apply g_print; sside | apply g_print_f; sside | apply g_ret; sside
            | apply g_write_text; sside | apply g_git; sside ]
  end.

Lemma ex17_first_scratch :
  triple (fun _ => True) Ex17.setup_exercise
         (fun _ => gone "_temp_ex17") (fun _ => gone "_temp_ex17").
Proof.
  cbv delta [Ex17.setup_exercise Ex17.run_git] beta zeta.
  eapply triple_bind; [apply mkdir_returns|]. intros u.
  eapply triple_bind; [apply g_finally_own; sside|]. intros u'.
  swalk.
Qed.

Lemma ex17_second_scratch f0 :
  triple (fun w => fs w = f0) Ex17.setup_exercise
         (fun _ => gone "_temp_remote_ex17") (fun _ => as_before "_temp_remote_ex17" f0).
Proof.
  eapply triple_weaken with
    (P := as_before "_temp_remote_ex17" f0) (Q := fun _ => gone "_temp_remote_ex17")
    (E := fun _ => as_before "_temp_remote_ex17" f0);
    [ | intros w <-; right; reflexivity | auto | auto ].
  cbv delta [Ex17.setup_exercise Ex17.run_git] beta zeta.
  swalk.
Qed.

(** X12.  The scratch directory of a set-up procedure is gone when the
    procedure is left, by return or by exception, whatever the disk held
    and whatever git did: [_temp_init] after [setup_remote_repo] of ex15,
    [_temp_ex16] after that of ex16, [_temp_ex17] after [setup_exercise] of
    ex17.  The second scratch directory of ex17, [_temp_remote_ex17], is
    gone when [setup_exercise] returns; when it raises, the directory is
    gone or, if the failure came before its [try] block, as it was. *)
Theorem scratch_always_removed w :
  fs (Ex15.setup_remote_repo w).2 "_temp_init" = None
  /\ fs (Ex16.setup_remote_repo w).2 "_temp_ex16" = None
  /\ fs (Ex17.setup_exercise w).2 "_temp_ex17" = None
  /\ match Ex17.setup_exercise w with
     | (Ok _, w') => fs w' "_temp_remote_ex17" = None
     | (Raise _, w') =>
         fs w' "_temp_remote_ex17" = None
         \/ fs w' "_temp_remote_ex17" = fs w "_temp_remote_ex17"
     end.
Proof.
  split; [|split; [|split]].
  - unfold Ex15.setup_remote_repo, bind, mkdir.
    destruct (fs w "_temp_init"); apply finally_rmtree_gone.
  - unfold Ex16.setup_remote_repo, bind, mkdir.
    destruct (fs w "_temp_ex16"); apply finally_rmtree_gone.
  - pose proof (ex17_first_scratch w I) as H.
    destruct (Ex17.setup_exercise w) as [[u|e] w']; exact H.
  - pose proof (ex17_second_scratch (fs w) w eq_refl) as H.
    destruct (Ex17.setup_exercise w) as [[u|e] w']; exact H.
Qed.

End Scrub.

(** ** One git step *)

Module Steps.
Import Git Py Session Catalog Facts GitFacts Logic.
Local Open Scope py_scope.

(** What a call of [run_git] with the arguments [args], in [cwd] and
    with [check], made in [w] may come to. *)
Definition called {A : Type} (cwd : string) (args : list string) (check : bool)
           (w : world) (r : result A * world) : Prop :=
  out r.2 = out w
  /\ err r.2 = err w
  /\ match r.1 with
     | Ok _ =>
         fs w cwd <> None
         /\ exists rc,
              trace r.2 = EvGit (Some cwd) args check rc :: trace w
              /\ (check = true -> rc = 0%Z)
     | Raise e =>
         (fs w cwd = None /\ e = FileNotFoundError (PosixPath cwd) /\ r.2 = w)
         \/ (fs w cwd <> None /\ check = true
             /\ exists rc o er,
                  rc <> 0%Z
                  /\ e = CalledProcessError rc ("git" :: args) o er
                  /\ trace r.2 = EvGit (Some cwd) args true rc :: trace w)
     end.

Lemma subprocess_run_called cwd args check w :
  called cwd args check w (subprocess_run ("git" :: args) (Some cwd) check w)
  /\ forall c w', subprocess_run ("git" :: args) (Some cwd) check w = (Ok c, w') ->
                  trace w' = EvGit (Some cwd) args check (returncode c) :: trace w.
Proof.
  unfold called, subprocess_run.
  destruct (fs w cwd) as [d|] eqn:Hd.
  - cbn [String.eqb Ascii.eqb Bool.eqb].
    pose proof (git_spec (Some cwd) args check w) as Hg.
    destruct (git (Some cwd) args check w) as [c w1]. destruct Hg as (He & Ho & Ht & _).
    destruct check; cbn [andb].
    + destruct (Z.eqb_spec (returncode c) 0) as [Hz|Hz]; cbn [negb fst snd]; simpl.
      * split; [|intros c' w' [= <- <-]; exact Ht].
        split; [exact Ho|]. split; [exact He|]. split; [discriminate|].
        exists (returncode c). split; [exact Ht | intros _; exact Hz].
      * split; [|intros c' w' H; discriminate H].
        split; [exact Ho|]. split; [exact He|]. right. split; [discriminate|].
        split; [reflexivity|]. exists (returncode c), (stdout c), (stderr c). auto.
    + simpl. split; [|intros c' w' [= <- <-]; exact Ht].
      split; [exact Ho|]. split; [exact He|]. split; [discriminate|].
      exists (returncode c). split; [exact Ht | discriminate].
  - simpl. split; [|intros c' w' H; discriminate H].
    split; [reflexivity|]. split; [reflexivity|]. left. auto.
Qed.

Lemma discard_called {A : Type} cwd args check w (m : M A) :
  called cwd args check w (m w) -> called cwd args check w (discard m w).
Proof.
  unfold called, discard, bind, ret. destruct (m w) as [[a|e] w']; simpl; auto.
Qed.

(** X13.  [run_git], in its four forms (ex17: [cwd] and [check] given; ex08
    and ex09: [check] given; ex15 and ex16: [cwd] given; the others:
    neither).  It never writes to stdout or stderr: what git prints is
    captured and dropped.  When the directory is missing it raises
    [FileNotFoundError] and git is not run.  Otherwise git runs once; the
    call raises [CalledProcessError], with the command and the status,
    exactly when [check] is set and the status is not 0, and returns in
    every other case, with the status in the result when there is one. *)
Theorem run_git_outcome (args : list string) (cwd : string) (check : bool) (w : world) :
  called cwd args check w (Ex17.run_git args cwd check w)
  /\ (forall c w', Ex17.run_git args cwd check w = (Ok c, w') ->
                   trace w' = EvGit (Some cwd) args check (returncode c) :: trace w)
  /\ called Ex08.EXERCISE_DIR args check w (Ex08.run_git args check w)
  /\ (forall c w', Ex08.run_git args check w = (Ok c, w') ->
                   trace w' = EvGit (Some Ex08.EXERCISE_DIR) args check (returncode c)
                              :: trace w)
  /\ called cwd args true w (Ex15.run_git args cwd w)
  /\ called Ex06.EXERCISE_DIR args true w (Ex06.run_git args w).
Proof.
  split; [apply subprocess_run_called|]. split; [apply subprocess_run_called|].
  split; [apply subprocess_run_called|]. split; [apply subprocess_run_called|].
  split; apply discard_called; apply subprocess_run_called.
Qed.

End Steps.

(** ** What the learner finds *)

Module Prepared.
Import Git Py Session Catalog Facts.

Definition text (s : string) : fentry := {| data := s; exec := false |}.

(** Commits of [main] the clone in [p] has and the remote in [r] lacks,
    and the other way round (what [git status] reports as ahead and
    behind, once fetched). *)
Definition ahead_behind (w : world) (p r : string) : option (nat * nat) :=
  match branch_at w p "main", branch_at w r "main" with
  | Some l, Some o => Some (ahead o l, ahead l o)
  | _, _ => None
  end.

(** The remote-tracking branch [origin/main] of the clone in [p]. *)
Definition origin_main (w : world) (p : string) : option commit :=
  match repo_at w p with
  | Some r => remote_refs r !! "main"
  | None => None
  end.

Definition both_diverged (w : world) (p r : string) : option bool :=
  match branch_at w p "main", branch_at w r "main" with
  | Some l, Some o => Some (diverged l o)
  | _, _ => None
  end.

(** X14.  ex15.  [setup_local_clone] commits the instructions in the clone and
    does not push them: once provisioned, the clone is one commit ahead of
    the remote.  After [--update] the remote has a commit of its own, made
    on top of the initial one: the two histories have diverged, one commit
    each, and neither tip is in the history of the other.  The clone
    itself has not heard of the new commit: its [origin/main] is still
    the initial commit. *)
Theorem ex15_clone_and_remote (w : world) (force : bool) :
  quiet w -> no_scratch S15 w -> guard_passes S15 w force ->
  let e0 := run_script (Ex15.main force false) w in
  let e1 := run_script (Ex15.main false true) (after e0) in
  ahead_behind (after e0) Ex15.EXERCISE_DIR Ex15.REMOTE_REPO = Some (1, 0)
  /\ status e1 = 0%Z
  /\ ahead_behind (after e1) Ex15.EXERCISE_DIR Ex15.REMOTE_REPO = Some (1, 1)
  /\ both_diverged (after e1) Ex15.EXERCISE_DIR Ex15.REMOTE_REPO = Some true
  /\ origin_main (after e1) Ex15.EXERCISE_DIR = branch_at (after e0) Ex15.REMOTE_REPO "main".
Proof.
  intros Hq Hs Hg. enter w. drop_absent. through_guard Hg.
  all: cbv zeta.
  all: do 4 (split; [vm_compute; reflexivity|]).
  all: vm_compute; reflexivity.
Qed.

Lemma ex15_clone_and_remote_witness :
  let w := session nothing "/srv/cours" "master" in
  quiet w /\ no_scratch S15 w /\ guard_passes S15 w false
  /\ ahead_behind (after (run_script (Ex15.main false false) w))
                  Ex15.EXERCISE_DIR Ex15.REMOTE_REPO = Some (1, 0).
Proof.
  assert (Hq : quiet (session nothing "/srv/cours" "master")) by (split; reflexivity).
  assert (Hs : no_scratch S15 (session nothing "/srv/cours" "master"))
    by (repeat constructor).
  assert (Hg : guard_passes S15 (session nothing "/srv/cours" "master") false)
    by (right; reflexivity).
  repeat (split; [assumption|]).
  exact (proj1 (ex15_clone_and_remote _ false Hq Hs Hg)).
Defined.

(** X15.  ex16.  Provisioning ends with a [git push] from the clone: the
    remote is bare and has the single branch [main], the clone is on
    [main] with [origin] set to the remote, and the two are level, two
    commits each: nothing is left to push or to pull. *)
Theorem ex16_clone_level_with_remote (w : world) (force : bool) :
  quiet w -> no_scratch S16 w -> guard_passes S16 w force ->
  let e := run_script (Ex16.main force) w in
  status e = 0%Z
  /\ branches_at (after e) Ex16.REMOTE_REPO = ["main"]
  /\ (bare <$> repo_at (after e) Ex16.REMOTE_REPO) = Some true
  /\ (origin <$> repo_at (after e) Ex16.EXERCISE_DIR) = Some (Some Ex16.REMOTE_REPO)
  /\ ahead_behind (after e) Ex16.EXERCISE_DIR Ex16.REMOTE_REPO = Some (0, 0)
  /\ ((fun c => length (log c)) <$> branch_at (after e) Ex16.REMOTE_REPO "main") = Some 2
  /\ origin_main (after e) Ex16.EXERCISE_DIR = branch_at (after e) Ex16.REMOTE_REPO "main".
Proof.
  intros Hq Hs Hg. enter w. drop_absent. through_guard Hg.
  all: cbv zeta.
  all: do 6 (split; [vm_compute; reflexivity|]).
  all: vm_compute; reflexivity.
Qed.

Lemma ex16_clone_level_with_remote_witness :
  let w := session nothing "/srv/cours" "master" in
  quiet w /\ no_scratch S16 w /\ guard_passes S16 w false
  /\ status (run_script (Ex16.main false) w) = 0%Z.
Proof.
  assert (Hq : quiet (session nothing "/srv/cours" "master")) by (split; reflexivity).
  assert (Hs : no_scratch S16 (session nothing "/srv/cours" "master"))
    by (repeat constructor).
  assert (Hg : guard_passes S16 (session nothing "/srv/cours" "master") false)
    by (right; reflexivity).
  repeat (split; [assumption|]).
  exact (proj1 (ex16_clone_level_with_remote _ false Hq Hs Hg)).
Defined.


(** The directory a script without git leaves: the files it wrote, and
    no repository. *)
Definition plain_dir (fl : list (string * string)) : dir :=
  {| files := list_to_map (map (fun '(name, content) => (name, text content)) fl);
     dotgit := None |}.

(** What the scripts without git write. *)
Definition written (s : scenario) : list (string * string) :=
  match s with
  | S01 => [("README.md", Ex01.build_readme_content)]
  | S02 => [("README.md", Ex02.build_readme_content);
            ("index.html", Ex02.build_index_html);
            ("style.css", Ex02.build_style_css);
            ("notes.txt", Ex02.build_notes_txt);
            ("secret.txt", Ex02.build_secret_txt)]
  | _ => []
  end.

(** X16.  ex01 and ex02 run no git command.  Once the guard lets them
    through they cannot fail, whatever the state of git: they exit with 0
    and leave a directory that is not a repository and holds exactly the
    files they wrote: [README.md] for ex01, the five files of
    [write_files] for ex02; whatever the directory held before is gone. *)
Theorem plain_directories (s : scenario) (w : world) (force : bool) :
  In s [S01; S02] -> guard_passes s w force ->
  let e := run_script (provision s force) w in
  status e = 0%Z
  /\ git_steps (after e) = []
  /\ Forall (fun p => fs (after e) p = Some (plain_dir (written s))) (guarded s).
Proof.
  intros [<-|[<-|[]]] Hg; open_world w; through_guard Hg.
  all: cbv zeta.
  all: split; [vm_compute; reflexivity|].
  all: split; [vm_compute; reflexivity|].
  all: constructor; [vm_compute; reflexivity | constructor].
Qed.

Definition git_is_broken : world :=
  with_faults [Some {| fault_code := 127; fault_stderr := "git: command not found" |}]
              (session nothing "/srv/cours" "master").

Lemma plain_directories_witness :
  In S02 [S01; S02]
  /\ guard_passes S02 git_is_broken false
  /\ status (run_script (provision S02 false) git_is_broken) = 0%Z.
Proof.
  assert (Hi : In S02 [S01; S02]) by (right; left; reflexivity).
  assert (Hg : guard_passes S02 git_is_broken false) by (right; reflexivity).
  split; [exact Hi|]. split; [exact Hg|].
  exact (proj1 (plain_directories S02 git_is_broken false Hi Hg)).
Defined.

(** The commits of a branch, newest first, along first parents. *)
Fixpoint history (c : commit) : list commit :=
  match c with
  | Commit _ ps _ _ =>
      c :: match ps with
           | p :: _ => history p
           | [] => []
           end
  end.

Definition mode_of (file : string) (c : commit) : option bool :=
  exec <$> commit_tree c !! file.

(** X17.  ex20.  The test script is made executable before the first commit:
    the six commits of [main], one per version of [calc.js], all carry
    [test.sh] with its executable bit and with the same content, so that
    the script can be run as it is at every step of a bisection; [calc.js]
    is never executable.  In the work tree [test.sh] is executable too. *)
Theorem ex20_test_script_runs_everywhere (w : world) (force : bool) :
  quiet w -> guard_passes S20 w force ->
  let e := run_script (Ex20.main force) w in
  let commits :=
    match branch_at (after e) Ex20.EXERCISE_DIR "main" with
    | Some tip => history tip
    | None => []
    end in
  status e = 0%Z
  /\ map (fun c => (commit_message c, mode_of "test.sh" c, mode_of "calc.js" c)) commits
     = [("v6: ajout de modulo", Some true, Some false);
        ("v5: ajout de power", Some true, Some false);
        ("v4: refactoring du code", Some true, Some false);
        ("v3: ajout de divide", Some true, Some false);
        ("v2: ajout de subtract", Some true, Some false);
        ("v1: add et multiply de base", Some true, Some false)]
  /\ map (fun c => data <$> commit_tree c !! "test.sh") commits
     = repeat (Some Ex20.build_test_script) 6
  /\ (fs (after e) Ex20.EXERCISE_DIR ≫= fun d => files d !! "test.sh")
     = Some {| data := Ex20.build_test_script; exec := true |}.
Proof.
  intros Hq Hg. enter w. through_guard Hg.
  all: cbv zeta.
  all: split; [vm_compute; reflexivity|].
  all: split; [vm_compute; reflexivity|].
  all: split; vm_compute; reflexivity.
Qed.

Lemma ex20_test_script_runs_everywhere_witness :
  let w := session nothing "/srv/cours" "master" in
  quiet w /\ guard_passes S20 w false
  /\ status (run_script (Ex20.main false) w) = 0%Z.
Proof.
  assert (Hq : quiet (session nothing "/srv/cours" "master")) by (split; reflexivity).
  assert (Hg : guard_passes S20 (session nothing "/srv/cours" "master") false)
    by (right; reflexivity).
  repeat (split; [assumption|]).
  exact (proj1 (ex20_test_script_runs_everywhere _ false Hq Hg)).
Defined.

End Prepared.

(** ** The histories the scripts build *)

Module Histories.
Import Git Py Session Catalog Facts.

(** What [git branch], [git log], [git tag] and [git status] show. *)
Record layout : Type := {
  current : string;                            (* the branch HEAD is on *)
  branch_logs : list (string * list string);   (* each branch, messages newest first *)
  tag_logs : list (string * list string);      (* each tag, log of its target *)
  modified : list string;                      (* files that differ from HEAD *)
  nothing_staged : bool                        (* the index is the tree of HEAD *)
}.

Definition differs (work head : tree) : list string :=
  map fst (List.filter (fun '(name, f) => negb (bool_decide (head !! name = Some f)))
                       (map_to_list work)).

Definition layout_of (d : dir) : option layout :=
  match dotgit d with
  | Some r =>
      Some {| current := HEAD r;
              branch_logs := map (fun '(b, c) => (b, log c)) (map_to_list (heads r));
              tag_logs := map (fun '(t, x) => (t, log (tag_target x))) (map_to_list (tags r));
              modified := differs (files d) (head_tree r);
              nothing_staged := bool_decide (staged (index r) = head_tree r) |}
  | None => None
  end.

Definition layout_at (w : world) (p : string) : option layout :=
  fs w p ≫= layout_of.


Definition tidy_on (b : string) (logs : list (string * list string)) : layout :=
  {| current := b; branch_logs := logs; tag_logs := []; modified := [];
     nothing_staged := true |}.

(** What the script of a scenario says it builds. *)
Definition scripted (s : scenario) : option layout :=
  match s with
  | S05 => Some (tidy_on "main" [("main", ["Initial commit : page de base"])])
  | S07 =>
      Some (tidy_on "main"
              [("main", ["Amélioration du footer avec copyright";
                         "Initial commit : structure de base"]);
               ("feature-cta", ["Ajout du bouton Call-to-Action";
                                "Initial commit : structure de base"])])
  | S10 =>
      Some {| current := "feature-form";
              branch_logs := [("main", ["Initial commit : formulaire de base"]);
                              ("feature-form", ["Initial commit : formulaire de base"])];
              tag_logs := [];
              modified := ["style.css"; "form.html"];
              nothing_staged := true |}
  | S11 =>
      Some (tidy_on "main"
              [("main", ["Ajout de bug.js"; "Ajout de style.css"; "Ajout de index.html"])])
  | S12 =>
      Some (tidy_on "main"
              [("main", ["Notes v3 : ajout des TODO"; "Notes v2 : ajout des idées";
                         "Notes v1 : introduction"; "Ajout du README"])])
  | S13 =>
      Some (tidy_on "feature-content"
              [("main", ["Ajout du footer"; "Ajout de la navigation"; "Initial commit"]);
               ("feature-content", ["Ajout article 2 : Les branches";
                                    "Ajout article 1 : Introduction à Git";
                                    "Initial commit"])])
  | S14 =>
      Some (tidy_on "feature-navbar"
              [("main", ["Initial commit"]);
               ("feature-navbar", ["done"; "wip"; "fix typo"; "wip2"; "wip";
                                   "Initial commit"])])
  | S18 =>
      Some {| current := "main";
              branch_logs :=
                [("main", ["Release stable v1.0";
                           "Version beta avec interface UI (v0.9)";
                           "Ajout du chargement de configuration (v0.5)";
                           "Initial commit : version 0.1"])];
              tag_logs :=
                [("v0.9.0", ["Version beta avec interface UI (v0.9)";
                             "Ajout du chargement de configuration (v0.5)";
                             "Initial commit : version 0.1"])];
              modified := [];
              nothing_staged := true |}
  | S19 =>
      Some (tidy_on "release"
              [("main", ["Initial commit : utilitaires de base"]);
               ("feature-a", ["Ajout de formatCurrency";
                              "Bugfix: calculateTotal prend en compte les quantités";
                              "WIP: ajout de formatDateTime";
                              "Initial commit : utilitaires de base"]);
               ("release", ["Initial commit : utilitaires de base"])])
  | _ => None
  end.

(** X18.  The history each of these scripts leaves is the one its
    [setup_git_repo] spells out, whatever the directory held before: the
    branch the learner is on, every branch with its commit messages
    (newest first), the tags, the files left modified and the state of the
    index.  So ex10 ends on [feature-form] with two modified, unstaged
    files and no commit of its own; ex13 and ex14 end on their feature
    branch; ex19 ends on [release], which like [main] has only the initial
    commit, the bugfix being the middle one of the three commits of
    [feature-a]; ex18 has its annotated tag [v0.9.0] on the commit before
    the tip of [main]. *)
Theorem histories_as_scripted (s : scenario) (w : world) (force : bool) :
  In s [S05; S07; S10; S11; S12; S13; S14; S18; S19] ->
  quiet w -> guard_passes s w force ->
  let e := run_script (provision s force) w in
  status e = 0%Z
  /\ Forall (fun p => layout_at (after e) p = scripted s) (guarded s).
Proof.
  intros Hs Hq Hg. enter w.
  repeat (destruct Hs as [<-|Hs]; [through_guard Hg|]); [..|destruct Hs].
  all: cbv zeta.
  all: split; [vm_compute; reflexivity|].
  all: constructor; [vm_compute; reflexivity | constructor].
Qed.

Lemma histories_as_scripted_witness :
  let w := session nothing "/srv/cours" "master" in
  In S19 [S05; S07; S10; S11; S12; S13; S14; S18; S19]
  /\ quiet w /\ guard_passes S19 w false
  /\ status (run_script (provision S19 false) w) = 0%Z.
Proof.
  assert (Hi : In S19 [S05; S07; S10; S11; S12; S13; S14; S18; S19])
    by (do 8 right; left; reflexivity).
  assert (Hq : quiet (session nothing "/srv/cours" "master")) by (split; reflexivity).
  assert (Hg : guard_passes S19 (session nothing "/srv/cours" "master") false)
    by (right; reflexivity).
  repeat (split; [assumption|]).
  exact (proj1 (histories_as_scripted S19 _ false Hi Hq Hg)).
Defined.

(** How two branches of the repository in [p] stand to each other:
    whether they have diverged, the commits each has that the other lacks,
    the log of their merge base and the conflict blocks a merge would leave
    in [file]. *)
Definition between (w : world) (p a b file : string)
  : option (bool * nat * nat * option (list string) * option nat) :=
  match branch_at w p a, branch_at w p b with
  | Some x, Some y =>
      Some (diverged x y, ahead x y, ahead y x, log <$> merge_base x y,
            merge_preview x y file)
  | _, _ => None
  end.

(** X19.  ex07.  The two branches have diverged, one commit each on top of
    the initial commit, so that [feature-cta] cannot be merged into [main]
    by fast-forward; and the two commits change different parts of
    [index.html]: the merge the exercise asks for leaves no conflict. *)
Theorem ex07_true_merge_without_conflict (w : world) (force : bool) :
  quiet w -> guard_passes S07 w force ->
  let e := run_script (Ex07.main force) w in
  between (after e) Ex07.EXERCISE_DIR "main" "feature-cta" "index.html"
  = Some (true, 1, 1, Some ["Initial commit : structure de base"], Some 0).
Proof.
  intros Hq Hg. enter w. through_guard Hg.
  all: vm_compute; reflexivity.
Qed.

Lemma ex07_true_merge_without_conflict_witness :
  let w := session nothing "/srv/cours" "master" in
  quiet w /\ guard_passes S07 w false
  /\ between (after (run_script (Ex07.main false) w)) Ex07.EXERCISE_DIR
             "main" "feature-cta" "index.html"
     = Some (true, 1, 1, Some ["Initial commit : structure de base"], Some 0).
Proof.
  assert (Hq : quiet (session nothing "/srv/cours" "master")) by (split; reflexivity).
  assert (Hg : guard_passes S07 (session nothing "/srv/cours" "master") false)
    by (right; reflexivity).
  repeat (split; [assumption|]).
  exact (ex07_true_merge_without_conflict _ false Hq Hg).
Defined.

End Histories.
